(** * The emulated RTT of the ESP8266 port

    A shallow embedding of the real-time timer emulation of the ESP8266
    port: the hardware independent counter/alarm/overflow engine
    (the RTT part of [cpu/esp8266/periph]), the FRC2 backend
    ([rtt_hw_frc.c]) and the system-time/xtimer backend; and, of the same
    sources, the pin tables, the pin usage, the toggling of an output and
    the sleep hooks of the GPIO driver, and the idle loop that keeps the
    64-bit system time.

    Conventions of the embedding.
    - A [uint32_t] is a [Z] in [0, 2^32); every C operation that can leave
      that range is followed by [u32], a [uint64_t] computation by [u64].
    - The file-scope statics of the C code become fields of explicit state
      records which every function takes and returns.
    - A function pointer of type [rtt_cb_t] supplied by the application is
      an identifier ([rtt_cb_t := nat]); what the function behind it does to
      the RTT is given by [cb_body], the list of RTT calls it performs.
      [NULL] function pointers are [None].  The only function the core hands
      to its backend is the static [_rtt_isr], so the callback stored by a
      backend is an [option isr_t].
    - Hardware readings (FRC2 count, system time, RTC counter) are fields of
      the backend state.  The embedding lets one RTT function run in no
      time: the readings do not change while it runs.  This is an
      idealisation; in the source only the saving and the restoring of the
      counter in the backends run inside critical sections.  Time passes
      through the explicit [tick] functions of the backends. *)

From Stdlib Require Import ZArith Lia List Bool.
From Stdlib Require Import String.
Import ListNotations.
Local Open Scope Z_scope.

(** ** Machine integers *)

Definition u32 (x : Z) : Z := x mod 2 ^ 32.
Definition u64 (x : Z) : Z := x mod 2 ^ 64.

(** [RTT_HW_COUNTER_MAX] of [rtt_arch.h]. *)
Definition RTT_HW_COUNTER_MAX : Z := 2 ^ 32 - 1.

(** The null data pointer used for callback arguments. *)
Definition NULL : Z := 0.

(** Modelled from the spec: [RTT_FREQUENCY] and [RTT_TICKS_TO_US] come from
    the board configuration and from [periph/rtt.h], which are not part of
    the sources at hand.  The emulated counter runs at 1 MHz, and the
    conversion is the usual 64-bit scaling of the tick count. *)
Definition RTT_FREQUENCY : Z := 1000000.
Definition RTT_TICKS_TO_US (ticks : Z) : Z :=
  u64 (u64 ticks * 1000000) / RTT_FREQUENCY.

(** ** Callbacks *)

(** Application callbacks are named by a number. *)
Definition rtt_cb_t : Type := nat.

(** The one interrupt handler that the core registers with its backend. *)
Inductive isr_t : Type := RTT_ISR.

(** The calls of the public interface that change the state; a callback
    body is a list of them. *)
Inductive api_call : Type :=
| Call_set_alarm (alarm : Z) (cb : option rtt_cb_t) (arg : Z)
| Call_clear_alarm
| Call_set_overflow_cb (cb : option rtt_cb_t) (arg : Z)
| Call_clear_overflow_cb
| Call_set_counter (counter : Z).

(** Which call site of [_rtt_isr] ran a callback, with its argument. *)
Inductive invocation : Type :=
| AlarmCb (cb : rtt_cb_t) (arg : Z)
| OverflowCb (cb : rtt_cb_t) (arg : Z).

Definition is_alarm_invocation (i : invocation) : bool :=
  match i with AlarmCb _ _ => true | OverflowCb _ _ => false end.

Definition invocation_eqb (i j : invocation) : bool :=
  match i, j with
  | AlarmCb c a, AlarmCb c' a' => Nat.eqb c c' && (a =? a')
  | OverflowCb c a, OverflowCb c' a' => Nat.eqb c c' && (a =? a')
  | _, _ => false
  end.

(** ** The hardware abstraction layer, [rtt_hw_driver_t] of [rtt_arch.h] *)

Record rtt_hw_driver_t (H : Type) : Type := {
  init : H -> H;
  get_counter : H -> Z;
  set_alarm : Z -> option isr_t -> Z -> H -> H;
  clear_alarm : H -> H;
  save_counter : H -> H;
  restore_counter : bool -> H -> H;
  poweron : H -> H;
  poweroff : H -> H
}.

Arguments init {H} _ _.
Arguments get_counter {H} _ _.
Arguments set_alarm {H} _ _ _ _ _.
Arguments clear_alarm {H} _ _.
Arguments save_counter {H} _ _.
Arguments restore_counter {H} _ _ _.
Arguments poweron {H} _ _.
Arguments poweroff {H} _ _.

(** ** The virtual RTT core *)

Module Rtt.

(** [rtt_counter_t]: the values as given at the interface. *)
Record rtt_counter_t : Type := {
  alarm : Z;
  alarm_cb : option rtt_cb_t;
  overflow_cb : option rtt_cb_t;
  alarm_arg : Z;
  overflow_arg : Z;
  alarm_active : Z;
  alarm_set : bool;
  wakeup : bool
}.

(** The whole state the core works on: its statics [rtt_counter] and
    [_rtt_offset], the state of the selected backend, the wake-up time
    handed to [esp_sleep_enable_timer_wakeup], and the record of the
    callbacks run so far. *)
Record rtt_t (H : Type) : Type := {
  rtt_counter : rtt_counter_t;
  _rtt_offset : Z;
  hw : H;
  timer_wakeup : option Z;
  invoked : list invocation
}.

Arguments rtt_counter {H} _.
Arguments _rtt_offset {H} _.
Arguments hw {H} _.
Arguments timer_wakeup {H} _.
Arguments invoked {H} _.

Section Core.

Context {H : Type}.
Variable drv : rtt_hw_driver_t H.
Variable cb_body : rtt_cb_t -> Z -> list api_call.
Variable ESP_SLEEP_WAKEUP_TIMER : Z.

Let state : Type := rtt_t H.

(** *** Field updates *)

Definition with_rtt_counter (f : rtt_counter_t -> rtt_counter_t) (s : state) : state :=
  {| rtt_counter := f (rtt_counter s); _rtt_offset := _rtt_offset s;
     hw := hw s; timer_wakeup := timer_wakeup s; invoked := invoked s |}.

Definition with_hw (f : H -> H) (s : state) : state :=
  {| rtt_counter := rtt_counter s; _rtt_offset := _rtt_offset s;
     hw := f (hw s); timer_wakeup := timer_wakeup s; invoked := invoked s |}.

Definition with_offset (o : Z) (s : state) : state :=
  {| rtt_counter := rtt_counter s; _rtt_offset := o;
     hw := hw s; timer_wakeup := timer_wakeup s; invoked := invoked s |}.

Definition with_timer_wakeup (t : Z) (s : state) : state :=
  {| rtt_counter := rtt_counter s; _rtt_offset := _rtt_offset s;
     hw := hw s; timer_wakeup := Some t; invoked := invoked s |}.

Definition record_invocation (i : invocation) (s : state) : state :=
  {| rtt_counter := rtt_counter s; _rtt_offset := _rtt_offset s;
     hw := hw s; timer_wakeup := timer_wakeup s; invoked := invoked s ++ [i] |}.

Definition put_alarm (v : Z) (cb : option rtt_cb_t) (arg : Z) (c : rtt_counter_t) :=
  {| alarm := v; alarm_cb := cb; overflow_cb := overflow_cb c;
     alarm_arg := arg; overflow_arg := overflow_arg c;
     alarm_active := alarm_active c; alarm_set := alarm_set c; wakeup := wakeup c |}.

Definition put_overflow (cb : option rtt_cb_t) (arg : Z) (c : rtt_counter_t) :=
  {| alarm := alarm c; alarm_cb := alarm_cb c; overflow_cb := cb;
     alarm_arg := alarm_arg c; overflow_arg := arg;
     alarm_active := alarm_active c; alarm_set := alarm_set c; wakeup := wakeup c |}.

Definition put_active (v : Z) (c : rtt_counter_t) :=
  {| alarm := alarm c; alarm_cb := alarm_cb c; overflow_cb := overflow_cb c;
     alarm_arg := alarm_arg c; overflow_arg := overflow_arg c;
     alarm_active := v; alarm_set := alarm_set c; wakeup := wakeup c |}.

Definition put_alarm_set (b : bool) (c : rtt_counter_t) :=
  {| alarm := alarm c; alarm_cb := alarm_cb c; overflow_cb := overflow_cb c;
     alarm_arg := alarm_arg c; overflow_arg := overflow_arg c;
     alarm_active := alarm_active c; alarm_set := b; wakeup := wakeup c |}.

Definition put_wakeup (b : bool) (c : rtt_counter_t) :=
  {| alarm := alarm c; alarm_cb := alarm_cb c; overflow_cb := overflow_cb c;
     alarm_arg := alarm_arg c; overflow_arg := overflow_arg c;
     alarm_active := alarm_active c; alarm_set := alarm_set c; wakeup := b |}.

Definition is_set {A : Type} (p : option A) : bool :=
  match p with Some _ => true | None => false end.

(** *** The functions of the core, in the order of the source *)

Definition rtt_poweron (s : state) : state := with_hw (poweron drv) s.

Definition rtt_poweroff (s : state) : state := with_hw (poweroff drv) s.

Definition rtt_get_counter (s : state) : Z :=
  u32 (get_counter drv (hw s) + _rtt_offset s).

Definition rtt_get_alarm (s : state) : Z := alarm (rtt_counter s).

Definition rtt_save_counter (s : state) : state := with_hw (save_counter drv) s.

Definition rtt_restore_counter (in_init : bool) (s : state) : state :=
  with_hw (restore_counter drv in_init) s.

Definition _rtt_update_hw_alarm (s : state) : state :=
  let c := rtt_counter s in
  if is_set (alarm_cb c) &&
     ((rtt_get_counter s <? alarm c) || negb (is_set (overflow_cb c)))
  then
    let s := with_rtt_counter (put_active (alarm c)) s in
    let s := with_rtt_counter (put_alarm_set true) s in
    with_hw (set_alarm drv (u32 (alarm c - _rtt_offset s)) (Some RTT_ISR) NULL) s
  else if is_set (overflow_cb c) then
    let s := with_rtt_counter (put_active 0) s in
    let s := with_rtt_counter (put_alarm_set true) s in
    with_hw (set_alarm drv (u32 (0 - _rtt_offset s)) (Some RTT_ISR) NULL) s
  else
    let s := with_rtt_counter (put_alarm_set false) s in
    with_hw (clear_alarm drv) s.

Definition rtt_set_overflow_cb (cb : option rtt_cb_t) (arg : Z) (s : state) : state :=
  _rtt_update_hw_alarm (with_rtt_counter (put_overflow cb arg) s).

Definition rtt_clear_overflow_cb (s : state) : state :=
  _rtt_update_hw_alarm (with_rtt_counter (put_overflow None NULL) s).

Definition rtt_set_counter (counter : Z) (s : state) : state :=
  let _rtt_current := get_counter drv (hw s) in
  _rtt_update_hw_alarm (with_offset (u32 (counter - _rtt_current)) s).

Definition rtt_set_alarm (alarm : Z) (cb : option rtt_cb_t) (arg : Z) (s : state) : state :=
  _rtt_update_hw_alarm (with_rtt_counter (put_alarm alarm cb arg) s).

Definition rtt_clear_alarm (s : state) : state :=
  _rtt_update_hw_alarm (with_rtt_counter (put_alarm 0 None NULL) s).

Definition rtt_init (s : state) : state :=
  let s := with_hw (init drv) s in
  let s := rtt_restore_counter true s in
  let s := rtt_clear_alarm s in
  let s := rtt_clear_overflow_cb s in
  rtt_poweron s.

Definition rtt_pm_sleep_enter (mode : Z) (s : state) : Z * state :=
  let s := rtt_save_counter s in
  if negb (alarm_set (rtt_counter s)) then (0, s)
  else
    let counter := rtt_get_counter s in
    let t_diff := RTT_TICKS_TO_US (u32 (alarm_active (rtt_counter s) - counter)) in
    let s :=
      if t_diff =? 0 then with_rtt_counter (put_wakeup false) s
      else with_timer_wakeup t_diff (with_rtt_counter (put_wakeup true) s) in
    (u32 t_diff, s).

(** *** Running application code *)

Definition api_step (c : api_call) (s : state) : state :=
  match c with
  | Call_set_alarm v cb arg => rtt_set_alarm v cb arg s
  | Call_clear_alarm => rtt_clear_alarm s
  | Call_set_overflow_cb cb arg => rtt_set_overflow_cb cb arg s
  | Call_clear_overflow_cb => rtt_clear_overflow_cb s
  | Call_set_counter v => rtt_set_counter v s
  end.

Definition run_calls (cs : list api_call) (s : state) : state :=
  fold_left (fun s c => api_step c s) cs s.

(** [alarm_cb(alarm_arg)] and [rtt_counter.overflow_cb(rtt_counter.overflow_arg)]:
    the call is recorded, then the body of the callback runs. *)
Definition call_alarm_cb (cb : rtt_cb_t) (arg : Z) (s : state) : state :=
  run_calls (cb_body cb arg) (record_invocation (AlarmCb cb arg) s).

Definition call_overflow_cb (cb : rtt_cb_t) (arg : Z) (s : state) : state :=
  run_calls (cb_body cb arg) (record_invocation (OverflowCb cb arg) s).

(** *** Interrupt dispatch *)

(** The alarm part of [_rtt_isr]; [fired] is the captured [alarm_active]. *)
Definition isr_alarm_path (fired : Z) (s : state) : state :=
  let c := rtt_counter s in
  if (fired =? alarm c) && is_set (alarm_cb c) then
    let alarm_cb := alarm_cb c in
    let alarm_arg := alarm_arg c in
    let s := rtt_clear_alarm s in
    match alarm_cb with
    | Some cb => call_alarm_cb cb alarm_arg s
    | None => s
    end
  else s.

(** The overflow part of [_rtt_isr]. *)
Definition isr_overflow_path (fired : Z) (s : state) : state :=
  if fired =? 0 then
    let s := _rtt_update_hw_alarm s in
    match overflow_cb (rtt_counter s) with
    | Some cb => call_overflow_cb cb (overflow_arg (rtt_counter s)) s
    | None => s
    end
  else s.

Definition _rtt_isr (s : state) : state :=
  let fired := alarm_active (rtt_counter s) in
  let s := if wakeup (rtt_counter s)
           then with_rtt_counter (put_wakeup false) s else s in
  isr_overflow_path fired (isr_alarm_path fired s).

Definition rtt_pm_sleep_exit (cause : Z) (s : state) : state :=
  let s := rtt_restore_counter false s in
  if cause =? ESP_SLEEP_WAKEUP_TIMER then _rtt_isr s else s.

(** Every state-changing entry point of the public interface. *)
Inductive rtt_op : Type :=
| Op_init
| Op_call (c : api_call).

Definition run_op (o : rtt_op) (s : state) : state :=
  match o with
  | Op_init => rtt_init s
  | Op_call c => api_step c s
  end.

End Core.

End Rtt.

(** ** The system-time backend ([_rtt_hw_sys_driver]) *)

Module Sys.

Definition SYS_US_TO_COUNT (us : Z) : Z :=
  u32 (u64 (u64 us * RTT_FREQUENCY) / 1000000).
Definition SYS_COUNT_TO_US (cnt : Z) : Z :=
  u32 (u64 (u64 cnt * 1000000) / RTT_FREQUENCY).

(** Modelled from the spec: the xtimer service, which is not part of the
    sources at hand.  [xtimer_set] schedules a one-shot software timer for
    the given distance in microseconds, [xtimer_remove] cancels it and may
    be repeated.  [xtimer_t] is the timer the backend uses for the alarm;
    [queued] is the distance still to go while the timer is scheduled. *)
Record xtimer_t : Type := {
  callback : option isr_t;
  arg : Z;
  queued : option Z
}.

(** The statics of the backend together with the readings it takes:
    [system_time] is what [system_get_time()] returns, [RTC_COUNTER] the
    register [RTC.COUNTER], [rtc_cali] the result of
    [pm_rtc_clock_cali_proc()]. *)
Record sys_t : Type := {
  system_time : Z;
  RTC_COUNTER : Z;
  rtc_cali : Z;
  _rtc_counter_saved : Z;
  _sys_counter_saved : Z;
  _sys_counter_offset : Z;
  _sys_timer : xtimer_t
}.

Definition with_timer (t : xtimer_t) (h : sys_t) : sys_t :=
  {| system_time := system_time h; RTC_COUNTER := RTC_COUNTER h;
     rtc_cali := rtc_cali h; _rtc_counter_saved := _rtc_counter_saved h;
     _sys_counter_saved := _sys_counter_saved h;
     _sys_counter_offset := _sys_counter_offset h; _sys_timer := t |}.

Definition with_saved (rtc sys : Z) (h : sys_t) : sys_t :=
  {| system_time := system_time h; RTC_COUNTER := RTC_COUNTER h;
     rtc_cali := rtc_cali h; _rtc_counter_saved := rtc;
     _sys_counter_saved := sys;
     _sys_counter_offset := _sys_counter_offset h; _sys_timer := _sys_timer h |}.

Definition with_sys_offset (o : Z) (h : sys_t) : sys_t :=
  {| system_time := system_time h; RTC_COUNTER := RTC_COUNTER h;
     rtc_cali := rtc_cali h; _rtc_counter_saved := _rtc_counter_saved h;
     _sys_counter_saved := _sys_counter_saved h;
     _sys_counter_offset := o; _sys_timer := _sys_timer h |}.

Definition with_system_time (t : Z) (h : sys_t) : sys_t :=
  {| system_time := t; RTC_COUNTER := RTC_COUNTER h;
     rtc_cali := rtc_cali h; _rtc_counter_saved := _rtc_counter_saved h;
     _sys_counter_saved := _sys_counter_saved h;
     _sys_counter_offset := _sys_counter_offset h; _sys_timer := _sys_timer h |}.

Definition with_rtc (r : Z) (h : sys_t) : sys_t :=
  {| system_time := system_time h; RTC_COUNTER := r;
     rtc_cali := rtc_cali h; _rtc_counter_saved := _rtc_counter_saved h;
     _sys_counter_saved := _sys_counter_saved h;
     _sys_counter_offset := _sys_counter_offset h; _sys_timer := _sys_timer h |}.

(** Modelled from the spec: the timer is scheduled for the distance
    [offset]. *)
Definition xtimer_set (offset : Z) (t : xtimer_t) : xtimer_t :=
  {| callback := callback t; arg := arg t; queued := Some offset |}.

(** Modelled from the spec: the timer is cancelled; cancelling a timer
    that is not scheduled changes nothing. *)
Definition xtimer_remove (t : xtimer_t) : xtimer_t :=
  {| callback := callback t; arg := arg t; queued := None |}.

Section Backend.

(** [rtc_clk_to_us] is a function of the vendor SDK; its result is a
    [uint32_t]. *)
Variable rtc_clk_to_us : Z -> Z -> Z.

Definition _rtc_get_counter (h : sys_t) : Z := RTC_COUNTER h.

Definition _sys_init (h : sys_t) : sys_t := h.

Definition _sys_poweron (h : sys_t) : sys_t := h.

Definition _sys_poweroff (h : sys_t) : sys_t :=
  with_timer (xtimer_remove (_sys_timer h)) h.

Definition _sys_get_counter (h : sys_t) : Z :=
  let _sys_time := system_time h in
  SYS_US_TO_COUNT (u32 (_sys_time + _sys_counter_offset h)).

(** The [assert (alarm <= RTT_MAX_VALUE)] of the source holds for every
    32-bit [alarm] of a 32-bit counter and is left out. *)
Definition _sys_set_alarm (alarm : Z) (cb : option isr_t) (arg : Z) (h : sys_t) : sys_t :=
  let _sys_count := _sys_get_counter h in
  let _rtt_diff := u32 (alarm - _sys_count) in
  let t := {| callback := cb; arg := arg; queued := queued (_sys_timer h) |} in
  with_timer (xtimer_set (SYS_COUNT_TO_US _rtt_diff) t) h.

Definition _sys_clear_alarm (h : sys_t) : sys_t :=
  let t := {| callback := None; arg := NULL; queued := queued (_sys_timer h) |} in
  with_timer (xtimer_remove t) h.

Definition _sys_save_counter (h : sys_t) : sys_t :=
  with_saved (_rtc_get_counter h)
             (u32 (system_time h + _sys_counter_offset h)) h.

Definition _sys_restore_counter (in_init : bool) (h : sys_t) : sys_t :=
  let _rtc_diff := u32 (_rtc_get_counter h - _rtc_counter_saved h) in
  let h := with_sys_offset
             (u32 (_sys_counter_offset h
                   + u32 (rtc_clk_to_us _rtc_diff (rtc_cali h)))) h in
  with_sys_offset
    (u32 (_sys_counter_offset h + (if in_init then _sys_counter_saved h else 0))) h.

Definition _rtt_hw_sys_driver : rtt_hw_driver_t sys_t :=
  {| init := _sys_init;
     get_counter := _sys_get_counter;
     set_alarm := _sys_set_alarm;
     clear_alarm := _sys_clear_alarm;
     save_counter := _sys_save_counter;
     restore_counter := _sys_restore_counter;
     poweron := _sys_poweron;
     poweroff := _sys_poweroff |}.

End Backend.

(** *** The timer service at work *)

Section Service.

(** What calling the registered function pointer does to the system. *)
Variable handler : isr_t -> Z -> Rtt.rtt_t sys_t -> Rtt.rtt_t sys_t.

(** Modelled from the spec: the queued timer expires; it leaves the queue
    and its completion handler, if any, runs with its argument. *)
Definition xtimer_shoot (s : Rtt.rtt_t sys_t) : Rtt.rtt_t sys_t :=
  let t := _sys_timer (Rtt.hw s) in
  let s := Rtt.with_hw (with_timer (xtimer_remove t)) s in
  match callback t with
  | Some f => handler f (arg t) s
  | None => s
  end.

(** Modelled from the spec: one microsecond passes; the system time
    advances, and a queued timer whose distance is used up expires. *)
Definition tick (s : Rtt.rtt_t sys_t) : Rtt.rtt_t sys_t :=
  let s := Rtt.with_hw
             (fun h => with_system_time (u32 (system_time h + 1)) h) s in
  let t := _sys_timer (Rtt.hw s) in
  match queued t with
  | Some d =>
      if d <=? 1 then xtimer_shoot s
      else Rtt.with_hw (with_timer (xtimer_set (d - 1) t)) s
  | None => s
  end.

End Service.

End Sys.

(** ** The FRC2 backend ([_rtt_hw_frc_driver]) *)

Module Frc.

Definition FRC_CLK_DIV_256 : Z := 2.
Definition FRC_FREQUENCY : Z := Z.shiftr 80000000 8.
Definition FRC_COUNTER_TO_US (cnt : Z) : Z :=
  u32 (u64 (u64 cnt * 1000000) / FRC_FREQUENCY).
Definition FRC_US_TO_COUNTER (us : Z) : Z :=
  u32 (u64 (u64 us * FRC_FREQUENCY) / 1000000).
Definition FRC_OVERFLOW : Z := FRC_US_TO_COUNTER (Z.shiftl 1 32).

(** The registers of the FRC2 timer ([frc2_struct_t]); the bit fields of
    [ctrl] that the driver touches are separate fields. *)
Record frc2_struct_t : Type := {
  load : Z;
  count : Z;
  ctrl_intr_hold : bool;
  ctrl_clk_div : Z;
  ctrl_reload : bool;
  ctrl_enable : bool;
  alarm : Z
}.

Record _frc_alarm_t : Type := {
  alarm_set : Z;
  alarm_cb : option isr_t;
  alarm_arg : Z;
  active : Z
}.

(** The statics of the backend, the timer registers, the readings
    [RTC.COUNTER] and [pm_rtc_clock_cali_proc()], and whether the FRC2
    interrupt is enabled. *)
Record frc_t : Type := {
  frc2 : frc2_struct_t;
  _frc_alarm : _frc_alarm_t;
  _rtc_counter_saved : Z;
  _frc_counter_saved : Z;
  RTC_COUNTER : Z;
  rtc_cali : Z;
  int_enable : bool
}.

Definition with_frc2 (f : frc2_struct_t -> frc2_struct_t) (h : frc_t) : frc_t :=
  {| frc2 := f (frc2 h); _frc_alarm := _frc_alarm h;
     _rtc_counter_saved := _rtc_counter_saved h;
     _frc_counter_saved := _frc_counter_saved h;
     RTC_COUNTER := RTC_COUNTER h; rtc_cali := rtc_cali h;
     int_enable := int_enable h |}.

Definition with_frc_alarm (f : _frc_alarm_t -> _frc_alarm_t) (h : frc_t) : frc_t :=
  {| frc2 := frc2 h; _frc_alarm := f (_frc_alarm h);
     _rtc_counter_saved := _rtc_counter_saved h;
     _frc_counter_saved := _frc_counter_saved h;
     RTC_COUNTER := RTC_COUNTER h; rtc_cali := rtc_cali h;
     int_enable := int_enable h |}.

Definition with_saved (rtc frc : Z) (h : frc_t) : frc_t :=
  {| frc2 := frc2 h; _frc_alarm := _frc_alarm h;
     _rtc_counter_saved := rtc; _frc_counter_saved := frc;
     RTC_COUNTER := RTC_COUNTER h; rtc_cali := rtc_cali h;
     int_enable := int_enable h |}.

Definition with_int_enable (b : bool) (h : frc_t) : frc_t :=
  {| frc2 := frc2 h; _frc_alarm := _frc_alarm h;
     _rtc_counter_saved := _rtc_counter_saved h;
     _frc_counter_saved := _frc_counter_saved h;
     RTC_COUNTER := RTC_COUNTER h; rtc_cali := rtc_cali h;
     int_enable := b |}.

Definition with_rtc (r : Z) (h : frc_t) : frc_t :=
  {| frc2 := frc2 h; _frc_alarm := _frc_alarm h;
     _rtc_counter_saved := _rtc_counter_saved h;
     _frc_counter_saved := _frc_counter_saved h;
     RTC_COUNTER := r; rtc_cali := rtc_cali h;
     int_enable := int_enable h |}.

(** Register writes.  The timer itself is hardware: a write to
    [frc2.load] loads the counter, so that the count continues from the
    written value. *)
Definition write_load (v : Z) (r : frc2_struct_t) : frc2_struct_t :=
  {| load := v; count := v; ctrl_intr_hold := ctrl_intr_hold r;
     ctrl_clk_div := ctrl_clk_div r; ctrl_reload := ctrl_reload r;
     ctrl_enable := ctrl_enable r; alarm := alarm r |}.

Definition write_count (v : Z) (r : frc2_struct_t) : frc2_struct_t :=
  {| load := load r; count := v; ctrl_intr_hold := ctrl_intr_hold r;
     ctrl_clk_div := ctrl_clk_div r; ctrl_reload := ctrl_reload r;
     ctrl_enable := ctrl_enable r; alarm := alarm r |}.

Definition write_alarm (v : Z) (r : frc2_struct_t) : frc2_struct_t :=
  {| load := load r; count := count r; ctrl_intr_hold := ctrl_intr_hold r;
     ctrl_clk_div := ctrl_clk_div r; ctrl_reload := ctrl_reload r;
     ctrl_enable := ctrl_enable r; alarm := v |}.

Definition write_enable (b : bool) (r : frc2_struct_t) : frc2_struct_t :=
  {| load := load r; count := count r; ctrl_intr_hold := ctrl_intr_hold r;
     ctrl_clk_div := ctrl_clk_div r; ctrl_reload := ctrl_reload r;
     ctrl_enable := b; alarm := alarm r |}.

Definition write_ctrl (hold : bool) (div : Z) (rel en : bool) (r : frc2_struct_t) :=
  {| load := load r; count := count r; ctrl_intr_hold := hold;
     ctrl_clk_div := div; ctrl_reload := rel;
     ctrl_enable := en; alarm := alarm r |}.

Definition put_active (v : Z) (a : _frc_alarm_t) : _frc_alarm_t :=
  {| alarm_set := alarm_set a; alarm_cb := alarm_cb a;
     alarm_arg := alarm_arg a; active := v |}.

Definition put_alarm (v : Z) (cb : option isr_t) (arg : Z) (a : _frc_alarm_t) :=
  {| alarm_set := v; alarm_cb := cb; alarm_arg := arg; active := active a |}.

Definition put_cb (cb : option isr_t) (arg : Z) (a : _frc_alarm_t) :=
  {| alarm_set := alarm_set a; alarm_cb := cb; alarm_arg := arg;
     active := active a |}.

Section Backend.

Variable rtc_clk_to_us : Z -> Z -> Z.

Definition _frc_init (h : frc_t) : frc_t :=
  let h := with_frc2 (write_ctrl false FRC_CLK_DIV_256 false true) h in
  let h := with_frc2 (write_alarm FRC_OVERFLOW) h in
  with_frc_alarm (put_active 0) h.

Definition _frc_poweron (h : frc_t) : frc_t :=
  with_int_enable true (with_frc2 (write_enable true) h).

Definition _frc_poweroff (h : frc_t) : frc_t :=
  with_int_enable false (with_frc2 (write_enable false) h).

Definition _frc_get_counter (h : frc_t) : Z :=
  let counter := count (frc2 h) in
  FRC_COUNTER_TO_US counter.

Definition _update_alarm (counter : Z) (h : frc_t) : frc_t :=
  let a := _frc_alarm h in
  if Rtt.is_set (alarm_cb a) && (counter <? alarm_set a) then
    let h := with_frc_alarm (put_active (alarm_set a)) h in
    with_frc2 (write_alarm (active (_frc_alarm h))) h
  else
    let h := with_frc_alarm (put_active 0) h in
    with_frc2 (write_alarm FRC_OVERFLOW) h.

Definition _frc_set_alarm (alarm_us : Z) (cb : option isr_t) (arg : Z) (h : frc_t) : frc_t :=
  let _frc_counter := count (frc2 h) in
  let h := with_frc_alarm
             (put_alarm (FRC_US_TO_COUNTER alarm_us mod FRC_OVERFLOW) cb arg) h in
  _update_alarm _frc_counter h.

Definition _frc_clear_alarm (h : frc_t) : frc_t :=
  with_frc_alarm (put_alarm 0 None NULL) h.

Definition _frc_save_counter (h : frc_t) : frc_t :=
  with_saved (RTC_COUNTER h) (count (frc2 h)) h.

Definition _frc_restore_counter (in_init : bool) (h : frc_t) : frc_t :=
  let _rtc_counter := RTC_COUNTER h in
  let _rtc_diff := u32 (_rtc_counter - _rtc_counter_saved h) in
  let _diff_us := u32 (rtc_clk_to_us _rtc_diff (rtc_cali h)) in
  let _frc_diff := FRC_US_TO_COUNTER _diff_us in
  with_frc2 (write_load (u32 (_frc_counter_saved h + _frc_diff) mod FRC_OVERFLOW)) h.

Definition _rtt_hw_frc_driver : rtt_hw_driver_t frc_t :=
  {| init := _frc_init;
     get_counter := _frc_get_counter;
     set_alarm := _frc_set_alarm;
     clear_alarm := _frc_clear_alarm;
     save_counter := _frc_save_counter;
     restore_counter := _frc_restore_counter;
     poweron := _frc_poweron;
     poweroff := _frc_poweroff |}.

End Backend.

(** *** The timer hardware at work *)

Section Interrupt.

(** What calling the registered function pointer does to the system. *)
Variable handler : isr_t -> Z -> Rtt.rtt_t frc_t -> Rtt.rtt_t frc_t.

Definition _frc_isr (s : Rtt.rtt_t frc_t) : Rtt.rtt_t frc_t :=
  let counter := count (frc2 (Rtt.hw s)) mod FRC_OVERFLOW in
  let s :=
    if active (_frc_alarm (Rtt.hw s)) =? 0
    then Rtt.with_hw (with_frc2 (write_load counter)) s
    else s in
  let a := _frc_alarm (Rtt.hw s) in
  let s :=
    if (active a =? alarm_set a) && Rtt.is_set (alarm_cb a) then
      let alarm_cb := alarm_cb a in
      let alarm_arg := alarm_arg a in
      let s := Rtt.with_hw (with_frc_alarm (put_cb None NULL)) s in
      match alarm_cb with
      | Some f => handler f alarm_arg s
      | None => s
      end
    else s in
  Rtt.with_hw (_update_alarm counter) s.

(** The timer itself is hardware: when one period of the divided clock
    passes, an enabled timer counts up, and it raises its interrupt when the
    count reaches the alarm register ("triggers interrupt when reaches alarm
    value"). *)
Definition tick (s : Rtt.rtt_t frc_t) : Rtt.rtt_t frc_t :=
  let r := frc2 (Rtt.hw s) in
  if ctrl_enable r then
    let s := Rtt.with_hw (with_frc2 (write_count (u32 (count r + 1)))) s in
    let h := Rtt.hw s in
    if (count (frc2 h) =? alarm (frc2 h)) && int_enable h
    then _frc_isr s
    else s
  else s.

End Interrupt.

End Frc.

(** ** The two builds of the port *)

Module Esp8266.

Section Build.

Variable rtc_clk_to_us : Z -> Z -> Z.
Variable cb_body : rtt_cb_t -> Z -> list api_call.

(** [MODULE_ESP_WIFI_ANY] is used: the core rides on the system time. *)
Definition sys_drv : rtt_hw_driver_t Sys.sys_t :=
  Sys._rtt_hw_sys_driver rtc_clk_to_us.

Definition sys_handler (f : isr_t) (arg : Z) (s : Rtt.rtt_t Sys.sys_t) :=
  match f with RTT_ISR => Rtt._rtt_isr sys_drv cb_body s end.

Definition sys_tick : Rtt.rtt_t Sys.sys_t -> Rtt.rtt_t Sys.sys_t :=
  Sys.tick sys_handler.

(** Otherwise the core rides on the FRC2 timer. *)
Definition frc_drv : rtt_hw_driver_t Frc.frc_t :=
  Frc._rtt_hw_frc_driver rtc_clk_to_us.

Definition frc_handler (f : isr_t) (arg : Z) (s : Rtt.rtt_t Frc.frc_t) :=
  match f with RTT_ISR => Rtt._rtt_isr frc_drv cb_body s end.

Definition _frc_isr : Rtt.rtt_t Frc.frc_t -> Rtt.rtt_t Frc.frc_t :=
  Frc._frc_isr frc_handler.

Definition frc_tick : Rtt.rtt_t Frc.frc_t -> Rtt.rtt_t Frc.frc_t :=
  Frc.tick frc_handler.

End Build.

(** [n] steps of a system. *)
Fixpoint run {S : Type} (step : S -> S) (n : nat) (s : S) : S :=
  match n with
  | O => s
  | Datatypes.S n => run step n (step s)
  end.

End Esp8266.

(** ** The GPIO driver ([periph/gpio.c]) *)

Module Gpio.

(** A [gpio_t] is an unsigned integer: a pin is a natural number.  A C
    array is a list that is read with [nth] and written with [set_nth];
    the driver guards every access by the size of the array. *)
Fixpoint set_nth {A : Type} (n : nat) (x : A) (l : list A) : list A :=
  match l, n with
  | [], _ => []
  | _ :: l, O => x :: l
  | y :: l, S n => y :: set_nth n x l
  end.

(** [BIT(n)]. *)
Definition BIT (n : nat) : Z := Z.shiftl 1 (Z.of_nat n).

(** The IOMUX to GPIO mapping. *)
Definition _gpio_to_iomux : list nat :=
  [12; 5; 13; 4; 14; 15; 6; 7; 8; 9; 10; 11; 0; 1; 2; 3]%nat.
Definition _iomux_to_gpio : list nat :=
  [12; 13; 14; 15; 3; 1; 6; 7; 8; 9; 10; 11; 0; 2; 4; 5]%nat.

(** The constants of [gpio_pin_usage_t]. *)
Inductive gpio_pin_usage_t : Type :=
| _GPIO | _I2C | _PWM | _SPI | _SPIF | _UART | _NOT_EXIST.

(** [GPIO_PIN_NUMOF] is the size of [_gpio_pin_usage], which lists the
    pins gpio0 to gpio16; gpio16, the last of them, is [GPIO16]. *)
Definition GPIO_PIN_NUMOF : nat := 17.
Definition GPIO16 : nat := 16.

(** The initial value of [_gpio_pin_usage], in a flash mode other than
    qio and qout. *)
Definition _gpio_pin_usage : list gpio_pin_usage_t :=
  [_GPIO; _UART; _GPIO; _UART; _GPIO; _GPIO; _SPIF; _SPIF; _SPIF;
   _GPIO; _GPIO; _SPIF; _GPIO; _GPIO; _GPIO; _GPIO; _GPIO].

Definition _gpio_pin_usage_str : list String.string :=
  ["GPIO"; "I2C"; "PWM"; "SPI"; "SPI Flash"; "UART"; "N/A"]%string.

Section Usage.

(** The value of a constant of [gpio_pin_usage_t] as an integer.  The
    enumeration is declared in a header of the port; the driver uses its
    constants as indices. *)
Variable usage_value : gpio_pin_usage_t -> nat.

(** [CHECK_PARAM_RET (cond, err)] returns [err] when [cond] fails. *)
Definition gpio_set_pin_usage (pin : nat) (usage : gpio_pin_usage_t)
    (tbl : list gpio_pin_usage_t) : Z * list gpio_pin_usage_t :=
  if negb (pin <? GPIO_PIN_NUMOF)%nat then (-1, tbl)
  else (0, set_nth pin usage tbl).

Definition gpio_get_pin_usage (pin : nat) (tbl : list gpio_pin_usage_t)
    : gpio_pin_usage_t :=
  if (pin <? GPIO_PIN_NUMOF)%nat then nth pin tbl _NOT_EXIST else _NOT_EXIST.

Definition gpio_get_pin_usage_str (pin : nat) (tbl : list gpio_pin_usage_t)
    : String.string :=
  let index := if (pin <? GPIO_PIN_NUMOF)%nat then pin
               else usage_value _NOT_EXIST in
  nth (usage_value (nth index tbl _NOT_EXIST)) _gpio_pin_usage_str
      String.EmptyString.

End Usage.

(** *** Output *)

(** The registers that [gpio_toggle] reads and writes. *)
Record gpio_out_t : Type := {
  GPIO_OUT : Z;
  RTC_GPIO_OUT : Z;
  RTC_GPIO_IN : Z
}.

(** [CHECK_PARAM (cond)] returns when [cond] fails. *)
Definition gpio_toggle (pin : nat) (r : gpio_out_t) : gpio_out_t :=
  if negb (pin <? GPIO_PIN_NUMOF)%nat then r
  else if (pin =? GPIO16)%nat then
    {| GPIO_OUT := GPIO_OUT r;
       RTC_GPIO_OUT :=
         Z.lor (Z.land (RTC_GPIO_OUT r) (u32 (Z.lnot (BIT 0))))
               (if negb (Z.land (RTC_GPIO_IN r) (BIT 0) =? 0) then 0 else 1);
       RTC_GPIO_IN := RTC_GPIO_IN r |}
  else
    {| GPIO_OUT := Z.lxor (GPIO_OUT r) (BIT pin);
       RTC_GPIO_OUT := RTC_GPIO_OUT r;
       RTC_GPIO_IN := RTC_GPIO_IN r |}.

(** *** Interrupt types over a light sleep *)

(** Of [GPIO.CONF] the field [int_type] of each pin, a bit field of three
    bits, the table of the enabled interrupts, the table of the saved
    interrupt types, and whether [esp_sleep_enable_gpio_wakeup] was
    called. *)
Record gpio_irq_t : Type := {
  int_type : list Z;
  gpio_int_enabled_table : list bool;
  gpio_int_saved_type : list Z;
  gpio_wakeup : bool
}.

Definition with_int_type (l : list Z) (g : gpio_irq_t) : gpio_irq_t :=
  {| int_type := l; gpio_int_enabled_table := gpio_int_enabled_table g;
     gpio_int_saved_type := gpio_int_saved_type g;
     gpio_wakeup := gpio_wakeup g |}.

Definition with_saved_type (l : list Z) (g : gpio_irq_t) : gpio_irq_t :=
  {| int_type := int_type g;
     gpio_int_enabled_table := gpio_int_enabled_table g;
     gpio_int_saved_type := l; gpio_wakeup := gpio_wakeup g |}.

Definition with_wakeup (b : bool) (g : gpio_irq_t) : gpio_irq_t :=
  {| int_type := int_type g;
     gpio_int_enabled_table := gpio_int_enabled_table g;
     gpio_int_saved_type := gpio_int_saved_type g; gpio_wakeup := b |}.

(** An assignment to the bit field keeps three bits. *)
Definition put_int_type (i : nat) (v : Z) (g : gpio_irq_t) : gpio_irq_t :=
  with_int_type (set_nth i (Z.land v 7) (int_type g)) g.

(** A loop over the pins. *)
Definition for_pins {S : Type} (body : nat -> S -> S) (s : S) : S :=
  fold_left (fun s i => body i s) (seq 0 GPIO_PIN_NUMOF) s.

Section Sleep.

(** Constants of [gpio_flank_t] and of the power modes, which are declared
    in headers of the port. *)
Variables GPIO_FALLING GPIO_RISING GPIO_BOTH GPIO_LOW GPIO_HIGH : Z.
Variable ESP_PM_LIGHT_SLEEP : Z.

(** The body of the loop of [gpio_pm_sleep_enter]. *)
Definition sleep_enter_pin (i : nat) (g : gpio_irq_t) : gpio_irq_t :=
  if (i =? GPIO16)%nat then g
  else
    let t := nth i (int_type g) 0 in
    if nth i (gpio_int_enabled_table g) false && negb (t =? 0) then
      let g := with_saved_type (set_nth i t (gpio_int_saved_type g)) g in
      if t =? GPIO_FALLING then put_int_type i GPIO_LOW g
      else if t =? GPIO_RISING then put_int_type i GPIO_HIGH g
      else if t =? GPIO_BOTH then g
      else g
    else g.

Definition gpio_pm_sleep_enter (mode : Z) (g : gpio_irq_t) : gpio_irq_t :=
  if mode =? ESP_PM_LIGHT_SLEEP
  then for_pins sleep_enter_pin (with_wakeup true g)
  else g.

(** The body of the loop of [gpio_pm_sleep_exit]. *)
Definition sleep_exit_pin (i : nat) (g : gpio_irq_t) : gpio_irq_t :=
  if (i =? GPIO16)%nat then g
  else if nth i (gpio_int_enabled_table g) false
       then put_int_type i (nth i (gpio_int_saved_type g) 0) g
       else g.

Definition gpio_pm_sleep_exit (cause : Z) (g : gpio_irq_t) : gpio_irq_t :=
  for_pins sleep_exit_pin g.

End Sleep.

(** *** Configuring a pin *)

(** The constants of [gpio_mode_t] that [gpio_init] names; a value out of
    the enumeration is [GPIO_MODE_OTHER], the [default] of the source.  The
    module keeps the mode [GPIO_OUT] apart from the register of that
    name. *)
Module Mode.

Inductive gpio_mode_t : Type :=
| GPIO_IN | GPIO_IN_PD | GPIO_IN_PU | GPIO_OUT | GPIO_OD | GPIO_OD_PU
| GPIO_MODE_OTHER.

End Mode.

(** The registers of [gpio_init]: the output registers of above,
    [RTC.GPIO_CFG[3]], [RTC.GPIO_CONF], [RTC.GPIO_ENABLE], the array
    [GPIO.CONF], the value last written to each of the write-only
    registers [GPIO.ENABLE_OUT_SET] and [GPIO.ENABLE_OUT_CLEAR], and the
    array [IOMUX.PIN]. *)
Record gpio_regs_t : Type := {
  out_regs : gpio_out_t;
  RTC_GPIO_CFG3 : Z;
  RTC_GPIO_CONF : Z;
  RTC_GPIO_ENABLE : Z;
  GPIO_CONF : list Z;
  GPIO_ENABLE_OUT_SET : Z;
  GPIO_ENABLE_OUT_CLEAR : Z;
  IOMUX_PIN : list Z
}.

Definition with_cfg3 (v : Z) (r : gpio_regs_t) : gpio_regs_t :=
  {| out_regs := out_regs r; RTC_GPIO_CFG3 := v;
     RTC_GPIO_CONF := RTC_GPIO_CONF r; RTC_GPIO_ENABLE := RTC_GPIO_ENABLE r;
     GPIO_CONF := GPIO_CONF r; GPIO_ENABLE_OUT_SET := GPIO_ENABLE_OUT_SET r;
     GPIO_ENABLE_OUT_CLEAR := GPIO_ENABLE_OUT_CLEAR r;
     IOMUX_PIN := IOMUX_PIN r |}.

Definition with_rtc_conf (v : Z) (r : gpio_regs_t) : gpio_regs_t :=
  {| out_regs := out_regs r; RTC_GPIO_CFG3 := RTC_GPIO_CFG3 r;
     RTC_GPIO_CONF := v; RTC_GPIO_ENABLE := RTC_GPIO_ENABLE r;
     GPIO_CONF := GPIO_CONF r; GPIO_ENABLE_OUT_SET := GPIO_ENABLE_OUT_SET r;
     GPIO_ENABLE_OUT_CLEAR := GPIO_ENABLE_OUT_CLEAR r;
     IOMUX_PIN := IOMUX_PIN r |}.

Definition with_rtc_enable (v : Z) (r : gpio_regs_t) : gpio_regs_t :=
  {| out_regs := out_regs r; RTC_GPIO_CFG3 := RTC_GPIO_CFG3 r;
     RTC_GPIO_CONF := RTC_GPIO_CONF r; RTC_GPIO_ENABLE := v;
     GPIO_CONF := GPIO_CONF r; GPIO_ENABLE_OUT_SET := GPIO_ENABLE_OUT_SET r;
     GPIO_ENABLE_OUT_CLEAR := GPIO_ENABLE_OUT_CLEAR r;
     IOMUX_PIN := IOMUX_PIN r |}.

Definition with_conf (l : list Z) (r : gpio_regs_t) : gpio_regs_t :=
  {| out_regs := out_regs r; RTC_GPIO_CFG3 := RTC_GPIO_CFG3 r;
     RTC_GPIO_CONF := RTC_GPIO_CONF r; RTC_GPIO_ENABLE := RTC_GPIO_ENABLE r;
     GPIO_CONF := l; GPIO_ENABLE_OUT_SET := GPIO_ENABLE_OUT_SET r;
     GPIO_ENABLE_OUT_CLEAR := GPIO_ENABLE_OUT_CLEAR r;
     IOMUX_PIN := IOMUX_PIN r |}.

Definition with_enable_out_set (v : Z) (r : gpio_regs_t) : gpio_regs_t :=
  {| out_regs := out_regs r; RTC_GPIO_CFG3 := RTC_GPIO_CFG3 r;
     RTC_GPIO_CONF := RTC_GPIO_CONF r; RTC_GPIO_ENABLE := RTC_GPIO_ENABLE r;
     GPIO_CONF := GPIO_CONF r; GPIO_ENABLE_OUT_SET := v;
     GPIO_ENABLE_OUT_CLEAR := GPIO_ENABLE_OUT_CLEAR r;
     IOMUX_PIN := IOMUX_PIN r |}.

Definition with_enable_out_clear (v : Z) (r : gpio_regs_t) : gpio_regs_t :=
  {| out_regs := out_regs r; RTC_GPIO_CFG3 := RTC_GPIO_CFG3 r;
     RTC_GPIO_CONF := RTC_GPIO_CONF r; RTC_GPIO_ENABLE := RTC_GPIO_ENABLE r;
     GPIO_CONF := GPIO_CONF r; GPIO_ENABLE_OUT_SET := GPIO_ENABLE_OUT_SET r;
     GPIO_ENABLE_OUT_CLEAR := v;
     IOMUX_PIN := IOMUX_PIN r |}.

Definition with_iomux (l : list Z) (r : gpio_regs_t) : gpio_regs_t :=
  {| out_regs := out_regs r; RTC_GPIO_CFG3 := RTC_GPIO_CFG3 r;
     RTC_GPIO_CONF := RTC_GPIO_CONF r; RTC_GPIO_ENABLE := RTC_GPIO_ENABLE r;
     GPIO_CONF := GPIO_CONF r; GPIO_ENABLE_OUT_SET := GPIO_ENABLE_OUT_SET r;
     GPIO_ENABLE_OUT_CLEAR := GPIO_ENABLE_OUT_CLEAR r;
     IOMUX_PIN := l |}.

Section Init.

(** Bit masks and the function selection of the IOMUX, which are declared
    in headers of the port. *)
Variables RTC_GPIO_CONF_OUT_ENABLE RTC_GPIO_CFG3_PIN_PULLUP : Z.
Variable GPIO_CONF_OPEN_DRAIN : Z.
Variables IOMUX_PIN_OUTPUT_ENABLE IOMUX_PIN_OUTPUT_ENABLE_SLEEP : Z.
Variables IOMUX_PIN_PULLUP IOMUX_PIN_PULLUP_SLEEP : Z.
Variable IOMUX_FUNC : Z -> Z.

(** [GPIO.CONF[pin] |= mask] and [GPIO.CONF[pin] &= ~mask]. *)
Definition conf_set (pin : nat) (mask : Z) (r : gpio_regs_t) : gpio_regs_t :=
  with_conf (set_nth pin (Z.lor (nth pin (GPIO_CONF r) 0) mask) (GPIO_CONF r)) r.

Definition conf_clear (pin : nat) (mask : Z) (r : gpio_regs_t) : gpio_regs_t :=
  with_conf
    (set_nth pin (Z.land (nth pin (GPIO_CONF r) 0) (u32 (Z.lnot mask)))
       (GPIO_CONF r)) r.

(** The part of [gpio_init] for GPIO16. *)
Definition gpio_init_16 (mode : Mode.gpio_mode_t) (r : gpio_regs_t)
    : Z * gpio_regs_t :=
  let r := with_cfg3 (Z.lor (Z.land (RTC_GPIO_CFG3 r) 0xffffffbc) (BIT 0)) r in
  let r := with_rtc_conf
             (Z.land (RTC_GPIO_CONF r) (u32 (Z.lnot RTC_GPIO_CONF_OUT_ENABLE)))
             r in
  match mode with
  | Mode.GPIO_OUT =>
      (0, with_rtc_enable
            (Z.lor (RTC_GPIO_OUT (out_regs r)) RTC_GPIO_CONF_OUT_ENABLE) r)
  | Mode.GPIO_OD => (-1, r)
  | Mode.GPIO_OD_PU => (-1, r)
  | Mode.GPIO_IN =>
      let r := with_rtc_enable
                 (Z.land (RTC_GPIO_OUT (out_regs r))
                    (u32 (Z.lnot RTC_GPIO_CONF_OUT_ENABLE))) r in
      (0, with_cfg3
            (Z.land (RTC_GPIO_CFG3 r) (u32 (Z.lnot RTC_GPIO_CFG3_PIN_PULLUP)))
            r)
  | Mode.GPIO_IN_PU => (-1, r)
  | Mode.GPIO_IN_PD => (-1, r)
  | Mode.GPIO_MODE_OTHER => (-1, r)
  end.

(** The second [switch] of [gpio_init]: [None] where it returns -1,
    otherwise the configuration for the IOMUX and the registers. *)
Definition gpio_init_mode (pin : nat) (mode : Mode.gpio_mode_t) (iomux_conf : Z)
    (r : gpio_regs_t) : option (Z * gpio_regs_t) :=
  let output iomux_conf r :=
    let iomux_conf := Z.lor iomux_conf IOMUX_PIN_OUTPUT_ENABLE in
    let iomux_conf := Z.lor iomux_conf IOMUX_PIN_OUTPUT_ENABLE_SLEEP in
    (iomux_conf, r) in
  let pullup iomux_conf :=
    Z.lor (Z.lor iomux_conf IOMUX_PIN_PULLUP) IOMUX_PIN_PULLUP_SLEEP in
  match mode with
  | Mode.GPIO_OUT =>
      let '(iomux_conf, r) := output iomux_conf r in
      let r := conf_clear pin GPIO_CONF_OPEN_DRAIN r in
      Some (iomux_conf, with_enable_out_set (BIT pin) r)
  | Mode.GPIO_OD_PU =>
      let '(iomux_conf, r) := output (pullup iomux_conf) r in
      let r := conf_set pin GPIO_CONF_OPEN_DRAIN r in
      Some (iomux_conf, with_enable_out_set (BIT pin) r)
  | Mode.GPIO_OD =>
      let '(iomux_conf, r) := output iomux_conf r in
      let r := conf_set pin GPIO_CONF_OPEN_DRAIN r in
      Some (iomux_conf, with_enable_out_set (BIT pin) r)
  | Mode.GPIO_IN_PU =>
      let r := conf_set pin GPIO_CONF_OPEN_DRAIN r in
      Some (pullup iomux_conf, with_enable_out_clear (BIT pin) r)
  | Mode.GPIO_IN =>
      let r := conf_set pin GPIO_CONF_OPEN_DRAIN r in
      Some (iomux_conf, with_enable_out_clear (BIT pin) r)
  | Mode.GPIO_IN_PD => None
  | Mode.GPIO_MODE_OTHER => Some (iomux_conf, r)
  end.

Definition gpio_init (pin : nat) (mode : Mode.gpio_mode_t)
    (usage : list gpio_pin_usage_t) (r : gpio_regs_t) : Z * gpio_regs_t :=
  if negb (pin <? GPIO_PIN_NUMOF)%nat then (-1, r)
  else
    match nth pin usage _NOT_EXIST with
    | _I2C | _PWM | _SPI | _SPIF | _UART => (-1, r)
    | _GPIO | _NOT_EXIST =>
        if (pin =? GPIO16)%nat then gpio_init_16 mode r
        else
          let iomux := nth pin _gpio_to_iomux 0%nat in
          let iomux_conf :=
            if (11 <? iomux)%nat then IOMUX_FUNC 0 else IOMUX_FUNC 3 in
          match gpio_init_mode pin mode iomux_conf r with
          | None => (-1, r)
          | Some (iomux_conf, r) =>
              (0, with_iomux (set_nth iomux iomux_conf (IOMUX_PIN r)) r)
          end
    end.

End Init.

End Gpio.

(** ** The idle loop and the 64-bit system time ([pm_set_lowest_normal],
    [system_get_time_64]) *)

Module Pm.

(** An [int32_t]; the increment of one wraps. *)
Definition s32 (x : Z) : Z := (x + 2 ^ 31) mod 2 ^ 32 - 2 ^ 31.

(** The statics of the idle loop, and [system_time_cycles] of
    [syscalls.c]. *)
Record pm_t : Type := {
  last_system_time : Z;
  new_system_time : Z;
  system_time_cycles : Z
}.

(** The state at start-up. *)
Definition pm_reset : pm_t :=
  {| last_system_time := 0; new_system_time := 0; system_time_cycles := 0 |}.

(** [pm_set_lowest_normal] when [system_get_time] returns [now]; feeding
    the watchdog and waiting for an interrupt leave the statics alone. *)
Definition pm_set_lowest_normal (now : Z) (p : pm_t) : pm_t :=
  let new_system_time := now in
  let cycles :=
    if new_system_time <? last_system_time p
    then s32 (system_time_cycles p + 1)
    else system_time_cycles p in
  {| last_system_time := new_system_time;
     new_system_time := new_system_time;
     system_time_cycles := cycles |}.

(** [system_get_time_64] when [system_get_time] returns [now]. *)
Definition system_get_time_64 (now : Z) (p : pm_t) : Z :=
  u64 (u64 (Z.shiftl (u64 (system_time_cycles p)) 32) + now).

(** The idle loop entered at the times [ts], in microseconds since
    start-up; [system_get_time] returns the low 32 bits of the time. *)
Definition idle_at (ts : list Z) (p : pm_t) : pm_t :=
  fold_left (fun p t => pm_set_lowest_normal (u32 t) p) ts p.

End Pm.

(** * Statements *)

(** ** What the next-event selection establishes *)

Section Selection.

Context {H : Type}.
Variable drv : rtt_hw_driver_t H.

(** How a backend shows that it is armed for a counter value, and that it
    is not armed. *)
Variable armed_for : Z -> H -> Prop.
Variable disarmed : H -> Prop.

(** The alarm is the next event: it has a callback, and it is ahead of the
    counter or there is no overflow callback. *)
Definition alarm_is_next (s : Rtt.rtt_t H) : Prop :=
  let c := Rtt.rtt_counter s in
  Rtt.alarm_cb c <> None /\
  (Rtt.rtt_get_counter drv s < Rtt.alarm c \/ Rtt.overflow_cb c = None).

(** The three outcomes of the selection. *)
Definition alarm_selected (s : Rtt.rtt_t H) : Prop :=
  let c := Rtt.rtt_counter s in
  alarm_is_next s /\
  Rtt.alarm_set c = true /\ Rtt.alarm_active c = Rtt.alarm c /\
  armed_for (u32 (Rtt.alarm c - Rtt._rtt_offset s)) (Rtt.hw s).

Definition overflow_selected (s : Rtt.rtt_t H) : Prop :=
  let c := Rtt.rtt_counter s in
  ~ alarm_is_next s /\ Rtt.overflow_cb c <> None /\
  Rtt.alarm_set c = true /\ Rtt.alarm_active c = 0 /\
  armed_for (u32 (0 - Rtt._rtt_offset s)) (Rtt.hw s).

Definition nothing_selected (s : Rtt.rtt_t H) : Prop :=
  let c := Rtt.rtt_counter s in
  ~ alarm_is_next s /\ Rtt.overflow_cb c = None /\
  Rtt.alarm_set c = false /\ disarmed (Rtt.hw s).

Definition selected (s : Rtt.rtt_t H) : Prop :=
  alarm_selected s \/ overflow_selected s \/ nothing_selected s.

(** What the core relies on from a backend. *)
Record driver_laws : Prop := {
  get_counter_set_alarm : forall a cb arg h,
    get_counter drv (set_alarm drv a cb arg h) = get_counter drv h;
  get_counter_clear_alarm : forall h,
    get_counter drv (clear_alarm drv h) = get_counter drv h;
  armed_set_alarm : forall a h,
    armed_for a (set_alarm drv a (Some RTT_ISR) NULL h);
  disarmed_clear_alarm : forall h, disarmed (clear_alarm drv h);
  disarmed_poweron : forall h, disarmed h -> disarmed (poweron drv h);
  armed_not_disarmed : forall a h, armed_for a h -> ~ disarmed h
}.

End Selection.

(** The system-time backend is armed for [a] when its timer is queued for
    the distance from the counter to [a] with the core's handler; it is
    disarmed when the timer is neither queued nor has a handler. *)
Definition sys_armed_for (a : Z) (h : Sys.sys_t) : Prop :=
  let t := Sys._sys_timer h in
  Sys.callback t = Some RTT_ISR /\ Sys.arg t = NULL /\
  Sys.queued t = Some (Sys.SYS_COUNT_TO_US (u32 (a - Sys._sys_get_counter h))).

Definition sys_disarmed (h : Sys.sys_t) : Prop :=
  let t := Sys._sys_timer h in
  Sys.callback t = None /\ Sys.queued t = None.

(** The FRC2 backend is armed for [a] when [a], in timer ticks, is the
    alarm set at its interface with the core's handler, and the compare
    register holds that alarm if it is ahead of the count and the overflow
    value otherwise; it is disarmed when no handler is set. *)
Definition frc_armed_for (a : Z) (h : Frc.frc_t) : Prop :=
  let al := Frc._frc_alarm h in
  let target := Frc.FRC_US_TO_COUNTER a mod Frc.FRC_OVERFLOW in
  let ahead := Frc.count (Frc.frc2 h) <? target in
  Frc.alarm_cb al = Some RTT_ISR /\ Frc.alarm_arg al = NULL /\
  Frc.alarm_set al = target /\
  Frc.active al = (if ahead then target else 0) /\
  Frc.alarm (Frc.frc2 h) = (if ahead then target else Frc.FRC_OVERFLOW).

Definition frc_disarmed (h : Frc.frc_t) : Prop :=
  let al := Frc._frc_alarm h in
  Frc.alarm_cb al = None /\ Frc.alarm_set al = 0.

(** ** Invariant of the alarm bookkeeping *)

(** An event is armed exactly when a callback is registered, and an armed
    value other than 0 is the alarm given at the interface. *)
Definition armed_iff_registered (c : Rtt.rtt_counter_t) : Prop :=
  (Rtt.alarm_set c = true <->
   Rtt.alarm_cb c <> None \/ Rtt.overflow_cb c <> None) /\
  (Rtt.alarm_set c = true -> Rtt.alarm_active c <> 0 ->
   Rtt.alarm_active c = Rtt.alarm c).

(** ** Setting the counter *)

Section Rebase.

Context {H : Type}.
Variable drv : rtt_hw_driver_t H.
Variable armed_for : Z -> H -> Prop.
Variable disarmed : H -> Prop.

(** [rtt_get_counter] is the backend counter plus the offset; after
    [rtt_set_counter v] the backend counter is what it was, the counter
    reads [v], and the selection has been made again. *)
Definition counter_rebased (v : Z) (s : Rtt.rtt_t H) : Prop :=
  let s' := Rtt.rtt_set_counter drv v s in
  Rtt.rtt_get_counter drv s
  = (get_counter drv (Rtt.hw s) + Rtt._rtt_offset s) mod 2 ^ 32 /\
  get_counter drv (Rtt.hw s') = get_counter drv (Rtt.hw s) /\
  Rtt.rtt_get_counter drv s' = v /\
  Rtt.rtt_counter s'
  = Rtt.rtt_counter
      (Rtt._rtt_update_hw_alarm drv
         (Rtt.with_offset (u32 (v - get_counter drv (Rtt.hw s))) s)) /\
  selected drv armed_for disarmed s'.

End Rebase.

(** ** Entering a sleep mode *)

Section SleepEnter.

Context {H : Type}.
Variable drv : rtt_hw_driver_t H.

(** The distance from the counter, read after the counters were saved, to
    the armed value. *)
Definition sleep_distance (s : Rtt.rtt_t H) : Z :=
  let s1 := Rtt.rtt_save_counter drv s in
  u32 (Rtt.alarm_active (Rtt.rtt_counter s1) - Rtt.rtt_get_counter drv s1).

(** The contract of [rtt_pm_sleep_enter] as the specification words it:
    with an armed event, the distance is returned and [wakeup] is set. *)
Definition sleep_enter_as_specified (mode : Z) (s : Rtt.rtt_t H) : Prop :=
  let s1 := Rtt.rtt_save_counter drv s in
  let r := Rtt.rtt_pm_sleep_enter drv mode s in
  if Rtt.alarm_set (Rtt.rtt_counter s)
  then fst r = RTT_TICKS_TO_US (sleep_distance s) /\
       Rtt.wakeup (Rtt.rtt_counter (snd r)) = true
  else fst r = 0 /\ snd r = s1.

(** What the function does: [wakeup] is set when the distance is not 0 and
    reset when it is 0; nothing else of the alarm state changes. *)
Definition sleep_enter_contract (mode : Z) (s : Rtt.rtt_t H) : Prop :=
  let s1 := Rtt.rtt_save_counter drv s in
  let r := Rtt.rtt_pm_sleep_enter drv mode s in
  let d := sleep_distance s in
  if Rtt.alarm_set (Rtt.rtt_counter s)
  then fst r = RTT_TICKS_TO_US d /\ fst r = d /\
       Rtt.rtt_counter (snd r)
       = Rtt.put_wakeup (negb (d =? 0)) (Rtt.rtt_counter s) /\
       Rtt.timer_wakeup (snd r)
       = (if d =? 0 then Rtt.timer_wakeup s else Some d) /\
       Rtt.hw (snd r) = Rtt.hw s1 /\
       Rtt._rtt_offset (snd r) = Rtt._rtt_offset s /\
       Rtt.invoked (snd r) = Rtt.invoked s
  else fst r = 0 /\ snd r = s1.

(** The reading of the specification's note on an alarm that is not ahead
    of the counter: a wrapped difference that is not 0. *)
Definition sleep_enter_underflows (mode : Z) (s : Rtt.rtt_t H) : Prop :=
  let s1 := Rtt.rtt_save_counter drv s in
  let c := Rtt.rtt_counter s in
  Rtt.alarm_set c = true -> Rtt.alarm_active c <> 0 ->
  0 <= Rtt.alarm_active c <= Rtt.rtt_get_counter drv s1 ->
  fst (Rtt.rtt_pm_sleep_enter drv mode s)
  = RTT_TICKS_TO_US
      ((Rtt.alarm_active c - Rtt.rtt_get_counter drv s1) mod 2 ^ 32) /\
  fst (Rtt.rtt_pm_sleep_enter drv mode s) <> 0.

End SleepEnter.

(** ** Sample systems *)

Module Sample.

(** A calibration in the fixed-point format of the SDK: the period of an
    RTC cycle in microseconds with 12 fractional bits. *)
Definition rtc_clk_to_us (rtc_cycles period : Z) : Z :=
  Z.shiftr (u64 (rtc_cycles * period)) 12.

(** Callbacks that do not call back into the RTT. *)
Definition quiet : rtt_cb_t -> Z -> list api_call := fun _ _ => [].

Definition counter_reset : Rtt.rtt_counter_t :=
  {| Rtt.alarm := 0; Rtt.alarm_cb := None; Rtt.overflow_cb := None;
     Rtt.alarm_arg := NULL; Rtt.overflow_arg := NULL;
     Rtt.alarm_active := 0; Rtt.alarm_set := false; Rtt.wakeup := false |}.

(** The system-time build out of reset. *)
Definition sys_reset : Rtt.rtt_t Sys.sys_t :=
  {| Rtt.rtt_counter := counter_reset; Rtt._rtt_offset := 0;
     Rtt.hw :=
       {| Sys.system_time := 0; Sys.RTC_COUNTER := 0; Sys.rtc_cali := 23000;
          Sys._rtc_counter_saved := 0; Sys._sys_counter_saved := 0;
          Sys._sys_counter_offset := 0;
          Sys._sys_timer :=
            {| Sys.callback := None; Sys.arg := NULL; Sys.queued := None |} |};
     Rtt.timer_wakeup := None; Rtt.invoked := [] |}.

(** The FRC2 build out of reset. *)
Definition frc_reset : Rtt.rtt_t Frc.frc_t :=
  {| Rtt.rtt_counter := counter_reset; Rtt._rtt_offset := 0;
     Rtt.hw :=
       {| Frc.frc2 :=
            {| Frc.load := 0; Frc.count := 0; Frc.ctrl_intr_hold := false;
               Frc.ctrl_clk_div := 0; Frc.ctrl_reload := false;
               Frc.ctrl_enable := false; Frc.alarm := 0 |};
          Frc._frc_alarm :=
            {| Frc.alarm_set := 0; Frc.alarm_cb := None;
               Frc.alarm_arg := NULL; Frc.active := 0 |};
          Frc._rtc_counter_saved := 0; Frc._frc_counter_saved := 0;
          Frc.RTC_COUNTER := 0; Frc.rtc_cali := 23000;
          Frc.int_enable := false |};
     Rtt.timer_wakeup := None; Rtt.invoked := [] |}.

Definition sys_drv := Esp8266.sys_drv rtc_clk_to_us.
Definition frc_drv := Esp8266.frc_drv rtc_clk_to_us.

(** An alarm set for the very value the counter shows. *)
Definition sys_alarm_now : Rtt.rtt_t Sys.sys_t :=
  Rtt.rtt_set_alarm sys_drv 5000 (Some 1%nat) 42
    (Rtt.rtt_set_counter sys_drv 5000 (Rtt.rtt_init sys_drv sys_reset)).

(** An alarm set for a value the counter has passed. *)
Definition sys_alarm_passed : Rtt.rtt_t Sys.sys_t :=
  Rtt.rtt_set_alarm sys_drv 4000 (Some 1%nat) 42
    (Rtt.rtt_set_counter sys_drv 5000 (Rtt.rtt_init sys_drv sys_reset)).

(** The callback 1 sets a new alarm for callback 2 when it runs; all
    other callbacks are quiet. *)
Definition rearming (cb : rtt_cb_t) (arg : Z) : list api_call :=
  match cb with
  | 1%nat => [Call_set_alarm 9000 (Some 2%nat) 43]
  | _ => []
  end.

(** The FRC2 build with the counter at 1000000 and an alarm of callback 1
    for 1005000, and the same state when the timer reaches the alarm. *)
Definition frc_alarm_set : Rtt.rtt_t Frc.frc_t :=
  Rtt.rtt_set_alarm frc_drv 1005000 (Some 1%nat) 42
    (Rtt.rtt_set_counter frc_drv 1000000 (Rtt.rtt_init frc_drv frc_reset)).

Definition frc_alarm_due : Rtt.rtt_t Frc.frc_t :=
  Rtt.with_hw (Frc.with_frc2 (Frc.write_count 1562)) frc_alarm_set.

(** Both builds after [rtt_init] with the counter set to 1000000. *)
Definition sys_at_1000000 : Rtt.rtt_t Sys.sys_t :=
  Rtt.rtt_set_counter sys_drv 1000000 (Rtt.rtt_init sys_drv sys_reset).

Definition frc_at_1000000 : Rtt.rtt_t Frc.frc_t :=
  Rtt.rtt_set_counter frc_drv 1000000 (Rtt.rtt_init frc_drv frc_reset).

Definition sys_tick := Esp8266.sys_tick rtc_clk_to_us quiet.
Definition frc_tick := Esp8266.frc_tick rtc_clk_to_us quiet.

(** The scenario of the alarm five milliseconds ahead on the system-time
    build; on the FRC2 build it is [frc_alarm_set]. *)
Definition sys_alarm_set : Rtt.rtt_t Sys.sys_t :=
  Rtt.rtt_set_alarm sys_drv 1005000 (Some 1%nat) 42 sys_at_1000000.

(** The system-time build with an overflow callback and an alarm for the
    counter value 0, the value at which the counter wraps. *)
Definition sys_alarm_at_wrap : Rtt.rtt_t Sys.sys_t :=
  Rtt.rtt_set_alarm sys_drv 0 (Some 1%nat) 42
    (Rtt.rtt_set_overflow_cb sys_drv (Some 2%nat) 7 sys_at_1000000).

(** An FRC2 backend that went to sleep with a count of 1000 and wakes up
    before the RTC has advanced. *)
Definition frc_asleep : Frc.frc_t :=
  Frc.with_saved 0 1000 (Rtt.hw frc_reset).

(** The FRC2 build with the timer five ticks past its overflow value, the
    interrupt not yet served. *)
Definition frc_past_overflow : Rtt.rtt_t Frc.frc_t :=
  Rtt.with_hw (Frc.with_frc2 (Frc.write_count (Frc.FRC_OVERFLOW + 5)))
    (Rtt.rtt_init frc_drv frc_reset).

(** The system-time build as it starts again after the counters of
    [sys_alarm_set] were saved: the statics in RTC memory are kept, the
    others are zero, the system time starts anew and the RTC has advanced
    by 180 cycles. *)
Definition sys_restarted : Rtt.rtt_t Sys.sys_t :=
  let saved := Rtt.rtt_save_counter sys_drv sys_alarm_set in
  {| Rtt.rtt_counter := counter_reset;
     Rtt._rtt_offset := Rtt._rtt_offset saved;
     Rtt.hw :=
       {| Sys.system_time := 200;
          Sys.RTC_COUNTER := Sys.RTC_COUNTER (Rtt.hw saved) + 180;
          Sys.rtc_cali := 23000;
          Sys._rtc_counter_saved := Sys._rtc_counter_saved (Rtt.hw saved);
          Sys._sys_counter_saved := Sys._sys_counter_saved (Rtt.hw saved);
          Sys._sys_counter_offset := 0;
          Sys._sys_timer :=
            {| Sys.callback := None; Sys.arg := NULL; Sys.queued := None |} |};
     Rtt.timer_wakeup := None; Rtt.invoked := [] |}.

(** The same for the FRC2 build and [frc_alarm_set]. *)
Definition frc_restarted : Rtt.rtt_t Frc.frc_t :=
  let saved := Rtt.rtt_save_counter frc_drv frc_alarm_set in
  {| Rtt.rtt_counter := counter_reset;
     Rtt._rtt_offset := Rtt._rtt_offset saved;
     Rtt.hw :=
       {| Frc.frc2 := Frc.frc2 (Rtt.hw frc_reset);
          Frc._frc_alarm := Frc._frc_alarm (Rtt.hw frc_reset);
          Frc._rtc_counter_saved := Frc._rtc_counter_saved (Rtt.hw saved);
          Frc._frc_counter_saved := Frc._frc_counter_saved (Rtt.hw saved);
          Frc.RTC_COUNTER := Frc.RTC_COUNTER (Rtt.hw saved) + 180;
          Frc.rtc_cali := 23000;
          Frc.int_enable := false |};
     Rtt.timer_wakeup := None; Rtt.invoked := [] |}.

(** A light sleep of the system-time build: the system time stands still
    and the RTC advances by 180 cycles. *)
Definition sys_light_sleep (h : Sys.sys_t) : Sys.sys_t :=
  Sys.with_rtc (Sys.RTC_COUNTER h + 180) h.

(** A light sleep of the FRC2 build: the RTC advances by 180 cycles, and
    the timer is found with a count of 0. *)
Definition frc_light_sleep (h : Frc.frc_t) : Frc.frc_t :=
  Frc.with_rtc (Frc.RTC_COUNTER h + 180)
    (Frc.with_frc2 (Frc.write_count 0) h).

(** A light sleep of the FRC2 build that lasts until the alarm of
    [frc_alarm_set] is due: the RTC advances by 891 cycles, a little more
    than the 5000 microseconds to the alarm. *)
Definition frc_overslept (h : Frc.frc_t) : Frc.frc_t :=
  Frc.with_rtc (Frc.RTC_COUNTER h + 891) h.

End Sample.

(** ** Restoring the counter *)

Section Restore.

Context {H : Type}.
Variable drv : rtt_hw_driver_t H.

(** The running offset of a backend, its saved counter, and the time that
    passed on the RTC since the counters were saved, in the unit of the
    offset. *)
Variable offset_of : H -> Z.
Variable saved_of : H -> Z.
Variable elapsed_of : H -> Z.

(** The reading of the specification: a restore on wake-up adds the
    elapsed time to the offset, a restore in [rtt_init] adds the saved
    counter as well. *)
Definition restore_distinguishes_init (h : H) : Prop :=
  offset_of (restore_counter drv false h)
  = u32 (offset_of h + elapsed_of h) /\
  offset_of (restore_counter drv true h)
  = u32 (offset_of h + elapsed_of h + saved_of h).

End Restore.

Section Elapsed.

Variable rtc_clk_to_us : Z -> Z -> Z.

(** The calibrated microseconds since the save, as both backends compute
    them. *)
Definition sys_elapsed_us (h : Sys.sys_t) : Z :=
  u32 (rtc_clk_to_us (u32 (Sys.RTC_COUNTER h - Sys._rtc_counter_saved h))
         (Sys.rtc_cali h)).

Definition frc_elapsed_us (h : Frc.frc_t) : Z :=
  u32 (rtc_clk_to_us (u32 (Frc.RTC_COUNTER h - Frc._rtc_counter_saved h))
         (Frc.rtc_cali h)).

Definition frc_elapsed_ticks (h : Frc.frc_t) : Z :=
  Frc.FRC_US_TO_COUNTER (frc_elapsed_us h).

Definition frc_load (h : Frc.frc_t) : Z := Frc.load (Frc.frc2 h).

End Elapsed.

(** ** A sleep of no duration *)

Section RoundTrip.

Context {H : Type}.
Variable drv : rtt_hw_driver_t H.

Definition after_round_trip (s : Rtt.rtt_t H) : Rtt.rtt_t H :=
  Rtt.rtt_restore_counter drv false (Rtt.rtt_save_counter drv s).

Definition round_trip_keeps_counter (s : Rtt.rtt_t H) : Prop :=
  let before := Rtt.rtt_get_counter drv s in
  let after := Rtt.rtt_get_counter drv (after_round_trip s) in
  after = before /\ Z.abs (after - before) <= 1.

End RoundTrip.

(** ** Interrupt dispatch *)

(** A call that writes the alarm slot. *)
Definition touches_alarm (c : api_call) : bool :=
  match c with
  | Call_set_alarm _ _ _ | Call_clear_alarm => true
  | _ => false
  end.

Section Dispatch.

Context {H : Type}.
Variable drv : rtt_hw_driver_t H.
Variable cb_body : rtt_cb_t -> Z -> list api_call.

(** The alarm slot as given at the interface. *)
Definition registration (s : Rtt.rtt_t H) : Z * option rtt_cb_t * Z :=
  let c := Rtt.rtt_counter s in
  (Rtt.alarm c, Rtt.alarm_cb c, Rtt.alarm_arg c).

(** The callbacks run from the alarm call site so far. *)
Definition alarm_invocations (s : Rtt.rtt_t H) : list invocation :=
  filter is_alarm_invocation (Rtt.invoked s).

(** The state in which [_rtt_isr] calls the alarm callback: [wakeup] is
    reset and [rtt_clear_alarm] has run. *)
Definition detached (s : Rtt.rtt_t H) : Rtt.rtt_t H :=
  Rtt.rtt_clear_alarm drv
    (if Rtt.wakeup (Rtt.rtt_counter s)
     then Rtt.with_rtt_counter (Rtt.put_wakeup false) s else s).

(** The overflow callback registered in [s], if there is one, makes no
    call that writes the alarm slot. *)
Definition overflow_leaves_alarm (s : Rtt.rtt_t H) : Prop :=
  let c := Rtt.rtt_counter s in
  match Rtt.overflow_cb c with
  | Some ocb => existsb touches_alarm (cb_body ocb (Rtt.overflow_arg c)) = false
  | None => True
  end.

(** A dispatch of the alarm with callback [cb] whose body ends in
    [rtt_set_alarm v' cb' arg']: the callback runs from the detached
    state, in which the slot is empty and nothing has been invoked yet;
    when it returns, the slot holds the new registration; the selection
    that the overflow path may still run does not touch it; for a
    fired value other than 0 the dispatch is over at that point; for the
    fired value 0 the overflow path runs the selection and the overflow
    callback from there; and in either case the slot holds the new
    registration when [_rtt_isr] returns, unless the overflow callback
    itself writes the slot. *)
Definition detach_before_invoke (s : Rtt.rtt_t H) (cb : rtt_cb_t)
    (v' : Z) (cb' : option rtt_cb_t) (arg' : Z) : Prop :=
  let arg := Rtt.alarm_arg (Rtt.rtt_counter s) in
  let fired := Rtt.alarm_active (Rtt.rtt_counter s) in
  let d := detached s in
  let t := Rtt.call_alarm_cb drv cb_body cb arg d in
  registration d = (0, None, NULL) /\
  Rtt.invoked d = Rtt.invoked s /\
  Rtt.invoked t = Rtt.invoked s ++ [AlarmCb cb arg] /\
  registration t = (v', cb', arg') /\
  Rtt._rtt_isr drv cb_body s = Rtt.isr_overflow_path drv cb_body fired t /\
  registration (Rtt._rtt_update_hw_alarm drv t) = (v', cb', arg') /\
  (fired <> 0 -> Rtt._rtt_isr drv cb_body s = t) /\
  (fired = 0 ->
   Rtt._rtt_isr drv cb_body s
   = let u := Rtt._rtt_update_hw_alarm drv t in
     match Rtt.overflow_cb (Rtt.rtt_counter t) with
     | Some ocb =>
         Rtt.call_overflow_cb drv cb_body ocb
           (Rtt.overflow_arg (Rtt.rtt_counter t)) u
     | None => u
     end) /\
  (overflow_leaves_alarm t ->
   registration (Rtt._rtt_isr drv cb_body s) = (v', cb', arg')).

(** What can happen to the system between two calls of the interface: the
    interrupt is dispatched, or the hardware changes (time passes, a
    register is written). *)
Inductive event : Type :=
| Ev_interrupt
| Ev_hw (f : H -> H).

Definition step_event (s : Rtt.rtt_t H) (e : event) : Rtt.rtt_t H :=
  match e with
  | Ev_interrupt => Rtt._rtt_isr drv cb_body s
  | Ev_hw f => Rtt.with_hw f s
  end.

Definition run_events (es : list event) (s : Rtt.rtt_t H) : Rtt.rtt_t H :=
  fold_left step_event es s.

End Dispatch.

Arguments Ev_interrupt {H}.
Arguments Ev_hw {H} f.

(** A call that puts a callback into the alarm slot. *)
Definition rearms (c : api_call) : bool :=
  match c with
  | Call_set_alarm _ (Some _) _ => true
  | _ => false
  end.

(** The registration that the FRC2 backend keeps for its handler. *)
Definition frc_registration (h : Frc.frc_t) : Z * option isr_t * Z :=
  let a := Frc._frc_alarm h in
  (Frc.alarm_set a, Frc.alarm_cb a, Frc.alarm_arg a).

(** The state in which [_frc_isr] calls its handler: the count is loaded
    again if the overflow was armed, and the handler is taken out of the
    alarm configuration. *)
Definition frc_detached (s : Rtt.rtt_t Frc.frc_t) : Rtt.rtt_t Frc.frc_t :=
  let counter := Frc.count (Frc.frc2 (Rtt.hw s)) mod Frc.FRC_OVERFLOW in
  let s := if Frc.active (Frc._frc_alarm (Rtt.hw s)) =? 0
           then Rtt.with_hw (Frc.with_frc2 (Frc.write_load counter)) s
           else s in
  Rtt.with_hw (Frc.with_frc_alarm (Frc.put_cb None NULL)) s.

(** ** Clearing an alarm *)

(** A check that holds now and after each of the next [n] steps. *)
Fixpoint all_along {S : Type} (check : S -> bool) (step : S -> S)
    (n : nat) (s : S) : bool :=
  check s &&
  match n with
  | O => true
  | Datatypes.S n => all_along check step n (step s)
  end.

Section Clearing.

Context {H : Type}.
Variable drv : rtt_hw_driver_t H.
Variable cb_body : rtt_cb_t -> Z -> list api_call.

(** An alarm is set, the hardware goes through the changes [before]
    without the interrupt being dispatched, the alarm is cleared, and then
    the events [after] happen, dispatches of the interrupt among them: no
    callback has run from the alarm call site, and the slot is empty. *)
Definition cleared_before_dispatch (s0 : Rtt.rtt_t H) (v : Z) (cb : rtt_cb_t)
    (arg : Z) (before : list (H -> H)) (after : list (event (H := H))) : Prop :=
  let s1 := Rtt.rtt_set_alarm drv v (Some cb) arg s0 in
  let s2 := run_events drv cb_body (map Ev_hw before) s1 in
  let s3 := Rtt.rtt_clear_alarm drv s2 in
  let s4 := run_events drv cb_body after s3 in
  alarm_invocations s4 = alarm_invocations s0 /\
  Rtt.alarm_cb (Rtt.rtt_counter s4) = None.

(** The same in terms of the counter, for a system that moves by [tick]:
    the alarm is set ahead of the counter, [m] ticks pass during which the
    counter stays below the alarm, the alarm is cleared, [n] more ticks
    pass. *)
Variable tick : Rtt.rtt_t H -> Rtt.rtt_t H.

Definition never_fires_as_specified (s0 : Rtt.rtt_t H) (v : Z) (cb : rtt_cb_t)
    (arg : Z) (m n : nat) : Prop :=
  let s1 := Rtt.rtt_set_alarm drv v (Some cb) arg s0 in
  Rtt.rtt_get_counter drv s0 < v ->
  (forall k, (k <= m)%nat ->
             Rtt.rtt_get_counter drv (Esp8266.run tick k s1) < v) ->
  alarm_invocations
    (Esp8266.run tick n (Rtt.rtt_clear_alarm drv (Esp8266.run tick m s1)))
  = alarm_invocations s0.

End Clearing.

(** ** The scenario of an alarm five milliseconds ahead *)

Section Scenario.

Context {H : Type}.
Variable drv : rtt_hw_driver_t H.
Variable tick : Rtt.rtt_t H -> Rtt.rtt_t H.

(** The counter is at 1000000 and callback 1 with argument 42 has been set
    for 1005000. *)
Definition scenario_start (start : Rtt.rtt_t H) : Prop :=
  Rtt.rtt_get_counter drv start = 1000000 /\
  registration start = (1005000, Some 1%nat, 42) /\
  Rtt.invoked start = [].

(** The reading of the specification: after the five milliseconds the
    callback has been called once with its argument and [rtt_get_alarm]
    returns the alarm. *)
Definition scenario_as_specified (start : Rtt.rtt_t H) (elapsed : nat) : Prop :=
  let s := Esp8266.run tick elapsed start in
  Rtt.invoked s = [AlarmCb 1%nat 42] /\ Rtt.rtt_get_alarm s = 1005000.

(** What happens: up to the tick [due] nothing has been called and
    [rtt_get_alarm] returns the alarm; from the tick [due] on, at which the
    counter reads [at_counter], the callback has been called exactly once
    with its argument, and [rtt_get_alarm] returns 0, the dispatch having
    cleared the alarm. *)
Definition waiting (s : Rtt.rtt_t H) : bool :=
  match Rtt.invoked s with [] => true | _ => false end
  && (Rtt.rtt_get_alarm s =? 1005000).

Definition scenario_contract (start : Rtt.rtt_t H) (due : nat)
    (at_counter : Z) : Prop :=
  scenario_start start /\
  (forall k, (k < due)%nat ->
     let s := Esp8266.run tick k start in
     Rtt.invoked s = [] /\ Rtt.rtt_get_alarm s = 1005000) /\
  Rtt.rtt_get_counter drv (Esp8266.run tick due start) = at_counter /\
  (forall k, (due <= k)%nat ->
     let s := Esp8266.run tick k start in
     Rtt.invoked s = [AlarmCb 1%nat 42] /\ Rtt.rtt_get_alarm s = 0 /\
     Rtt.alarm_set (Rtt.rtt_counter s) = false).

(** No callback is registered. *)
Definition idle (s : Rtt.rtt_t H) : Prop :=
  Rtt.alarm_cb (Rtt.rtt_counter s) = None /\
  Rtt.overflow_cb (Rtt.rtt_counter s) = None.

(** What an idle system keeps through every event. *)
Definition settled (l : list invocation) (s : Rtt.rtt_t H) : Prop :=
  idle s /\ Rtt.invoked s = l /\ Rtt.alarm (Rtt.rtt_counter s) = 0 /\
  Rtt.alarm_set (Rtt.rtt_counter s) = false.

End Scenario.

(** ** Proof steps *)

Ltac rtt_unfold :=
  unfold Rtt.rtt_set_alarm, Rtt.rtt_clear_alarm, Rtt.rtt_set_overflow_cb,
    Rtt.rtt_clear_overflow_cb, Rtt.rtt_set_counter, Rtt.rtt_poweron,
    Rtt.rtt_restore_counter, Rtt.rtt_save_counter in *.

Ltac rtt_fields :=
  unfold Rtt.rtt_get_counter, Rtt.with_rtt_counter, Rtt.with_hw,
    Rtt.with_offset, Rtt.with_timer_wakeup, Rtt.record_invocation,
    Rtt.put_alarm, Rtt.put_overflow, Rtt.put_active, Rtt.put_alarm_set,
    Rtt.put_wakeup in *;
  cbn [Rtt.rtt_counter Rtt._rtt_offset Rtt.hw Rtt.timer_wakeup Rtt.invoked
       Rtt.alarm Rtt.alarm_cb Rtt.overflow_cb Rtt.alarm_arg Rtt.overflow_arg
       Rtt.alarm_active Rtt.alarm_set Rtt.wakeup] in *.

(** ** More on the interrupt dispatch *)

(** Calls that change the overflow slot, and calls that set the counter. *)
Definition touches_overflow (c : api_call) : bool :=
  match c with
  | Call_set_overflow_cb _ _ | Call_clear_overflow_cb => true
  | _ => false
  end.

Definition sets_counter (c : api_call) : bool :=
  match c with
  | Call_set_counter _ => true
  | _ => false
  end.

Section DispatchMore.

Context {H : Type}.
Variable drv : rtt_hw_driver_t H.
Variable cb_body : rtt_cb_t -> Z -> list api_call.

(** The state with [wakeup] reset, as [_rtt_isr] starts with. *)
Definition wakeup_reset (s : Rtt.rtt_t H) : Rtt.rtt_t H :=
  if Rtt.wakeup (Rtt.rtt_counter s)
  then Rtt.with_rtt_counter (Rtt.put_wakeup false) s else s.

(** The fired value does not select the alarm call site. *)
Definition alarm_not_due (s : Rtt.rtt_t H) : Prop :=
  let c := Rtt.rtt_counter s in
  Rtt.alarm_active c <> Rtt.alarm c \/ Rtt.alarm_cb c = None.

(** The overflow slot as given at the interface. *)
Definition overflow_registration (s : Rtt.rtt_t H) : option rtt_cb_t * Z :=
  (Rtt.overflow_cb (Rtt.rtt_counter s), Rtt.overflow_arg (Rtt.rtt_counter s)).

End DispatchMore.

(** ** The FRC2 timer and its compare register *)

(** The count is below the compare register, which is the armed alarm or,
    with nothing armed ahead, the overflow value; the alarm set at the
    interface is below the overflow value; a running timer has its
    interrupt enabled. *)
Definition frc_in_step (h : Frc.frc_t) : Prop :=
  let r := Frc.frc2 h in
  let a := Frc._frc_alarm h in
  0 <= Frc.count r < Frc.alarm r /\
  Frc.alarm r <= Frc.FRC_OVERFLOW /\
  ((Frc.active a = 0 /\ Frc.alarm r = Frc.FRC_OVERFLOW) \/
   (0 < Frc.active a < Frc.FRC_OVERFLOW /\ Frc.alarm r = Frc.active a)) /\
  Frc.alarm_set a < Frc.FRC_OVERFLOW /\
  (Frc.ctrl_enable r = true -> Frc.int_enable h = true).

(** What the application and the hardware can do to a running system:
    calls of the interface, entering a sleep mode, and ticks of the timer.
    Restoring the counters and leaving a sleep mode are not among these
    events. *)
Inductive sys_event : Type :=
| Do_call (c : api_call)
| Do_poweron
| Do_poweroff
| Do_save_counter
| Do_sleep_enter (mode : Z)
| Do_tick.

Section Executions.

Context {H : Type}.
Variable drv : rtt_hw_driver_t H.
Variable tick : Rtt.rtt_t H -> Rtt.rtt_t H.

Definition do_event (s : Rtt.rtt_t H) (e : sys_event) : Rtt.rtt_t H :=
  match e with
  | Do_call c => Rtt.api_step drv c s
  | Do_poweron => Rtt.rtt_poweron drv s
  | Do_poweroff => Rtt.rtt_poweroff drv s
  | Do_save_counter => Rtt.rtt_save_counter drv s
  | Do_sleep_enter mode => snd (Rtt.rtt_pm_sleep_enter drv mode s)
  | Do_tick => tick s
  end.

Definition execute (es : list sys_event) (s : Rtt.rtt_t H) : Rtt.rtt_t H :=
  fold_left do_event es s.

End Executions.


(** The part of [frc_in_step] that is about the registers and the alarm
    configuration, and the two enable bits. *)
Definition frc_core (h : Frc.frc_t) : Prop :=
  let r := Frc.frc2 h in
  let a := Frc._frc_alarm h in
  0 <= Frc.count r < Frc.alarm r /\
  Frc.alarm r <= Frc.FRC_OVERFLOW /\
  ((Frc.active a = 0 /\ Frc.alarm r = Frc.FRC_OVERFLOW) \/
   (0 < Frc.active a < Frc.FRC_OVERFLOW /\ Frc.alarm r = Frc.active a)) /\
  Frc.alarm_set a < Frc.FRC_OVERFLOW.

(** What [frc_core] says about the registers. *)
Definition registers_in_step (h : Frc.frc_t) : Prop :=
  0 <= Frc.count (Frc.frc2 h) < Frc.alarm (Frc.frc2 h) /\
  Frc.alarm (Frc.frc2 h) <= Frc.FRC_OVERFLOW /\
  ((Frc.active (Frc._frc_alarm h) = 0 /\
    Frc.alarm (Frc.frc2 h) = Frc.FRC_OVERFLOW) \/
   (0 < Frc.active (Frc._frc_alarm h) < Frc.FRC_OVERFLOW /\
    Frc.alarm (Frc.frc2 h) = Frc.active (Frc._frc_alarm h))).

Definition frc_power (h : Frc.frc_t) : bool * bool :=
  (Frc.ctrl_enable (Frc.frc2 h), Frc.int_enable h).

(** While the handler of [_frc_isr] runs, the count stands at [k], the
    alarm set at the interface is below the overflow value, and the enable
    bits are [p]. *)
Definition handler_frame (k : Z) (p : bool * bool) (h : Frc.frc_t) : Prop :=
  Frc.count (Frc.frc2 h) = k /\
  Frc.alarm_set (Frc._frc_alarm h) < Frc.FRC_OVERFLOW /\
  frc_power h = p.

(** ** Sleep and restart *)

(** The backend statics in RTC memory ([RTC_BSS_ATTR]) hold in [h'] what
    they held in [h]. *)
Definition sys_retained (h h' : Sys.sys_t) : Prop :=
  Sys._rtc_counter_saved h' = Sys._rtc_counter_saved h /\
  Sys._sys_counter_saved h' = Sys._sys_counter_saved h.

Definition frc_retained (h h' : Frc.frc_t) : Prop :=
  Frc._rtc_counter_saved h' = Frc._rtc_counter_saved h /\
  Frc._frc_counter_saved h' = Frc._frc_counter_saved h.

(** ** The GPIO interrupt types over a light sleep *)

(** The three arrays have the size [GPIO_PIN_NUMOF]. *)
Definition gpio_sized (g : Gpio.gpio_irq_t) : Prop :=
  List.length (Gpio.int_type g) = Gpio.GPIO_PIN_NUMOF /\
  List.length (Gpio.gpio_int_enabled_table g) = Gpio.GPIO_PIN_NUMOF /\
  List.length (Gpio.gpio_int_saved_type g) = Gpio.GPIO_PIN_NUMOF.

(** What the driver holds of pin [j]: its interrupt type, whether its
    interrupt is enabled, and its saved interrupt type. *)
Definition pin_view (j : nat) (g : Gpio.gpio_irq_t) : Z * bool * Z :=
  (nth j (Gpio.int_type g) 0, nth j (Gpio.gpio_int_enabled_table g) false,
   nth j (Gpio.gpio_int_saved_type g) 0).

(** The interrupt type of a pin during the sleep: a level for an edge. *)
Definition asleep_type (GPIO_FALLING GPIO_RISING GPIO_LOW GPIO_HIGH t : Z) : Z :=
  if t =? GPIO_FALLING then Z.land GPIO_LOW 7
  else if t =? GPIO_RISING then Z.land GPIO_HIGH 7
  else t.

(** What the bodies of the two loops do to the pin of their index. *)
Definition enter_local (GPIO_FALLING GPIO_RISING GPIO_LOW GPIO_HIGH : Z)
    (i : nat) (v : Z * bool * Z) : Z * bool * Z :=
  let '(t, e, s) := v in
  if (i =? Gpio.GPIO16)%nat then v
  else if e && negb (t =? 0)
       then (asleep_type GPIO_FALLING GPIO_RISING GPIO_LOW GPIO_HIGH t, e, t)
       else v.

Definition exit_local (i : nat) (v : Z * bool * Z) : Z * bool * Z :=
  let '(t, e, s) := v in
  if (i =? Gpio.GPIO16)%nat then v
  else if e then (Z.land s 7, e, s) else v.

(** A scenario: falling edge (2) on pin 4, rising edge (1) on pin 5, both
    enabled, a disabled falling edge on pin 12, nothing saved; the levels
    are low (4) and high (5). *)
Definition gpio_sample : Gpio.gpio_irq_t :=
  {| Gpio.int_type := [0; 0; 0; 0; 2; 1; 0; 0; 0; 0; 0; 0; 2; 0; 0; 0; 0];
     Gpio.gpio_int_enabled_table :=
       [false; false; false; false; true; true; false; false; false; false;
        false; false; false; false; false; false; false];
     Gpio.gpio_int_saved_type :=
       [0; 0; 0; 0; 0; 0; 0; 0; 0; 0; 0; 0; 0; 0; 0; 0; 0];
     Gpio.gpio_wakeup := false |}.

(** ** The 64-bit system time *)

(** The statics of the idle loop stand for the time [T], in microseconds
    since start-up: the cycles are its upper part, the last system time
    its lower 32 bits. *)
Definition pm_tracks (p : Pm.pm_t) (T : Z) : Prop :=
  0 <= Pm.system_time_cycles p /\
  0 <= Pm.last_system_time p < 2 ^ 32 /\
  Pm.system_time_cycles p * 2 ^ 32 + Pm.last_system_time p = T.

(** The last of the times [ts], or [T] if there is none. *)
Fixpoint last_time (T : Z) (ts : list Z) : Z :=
  match ts with
  | [] => T
  | t :: ts => last_time t ts
  end.

(** Times that do not go back, each less than 2^32 microseconds after the
    one before; [T] is the time before the first. *)
Fixpoint paced (T : Z) (ts : list Z) : Prop :=
  match ts with
  | [] => True
  | t :: ts => T <= t < T + 2 ^ 32 /\ paced t ts
  end.

(** ** Configuring a pin *)

(** A pin with this usage is free for [gpio_init]. *)
Definition usable (u : Gpio.gpio_pin_usage_t) : bool :=
  match u with
  | Gpio._GPIO | Gpio._NOT_EXIST => true
  | _ => false
  end.

(** The modes that [gpio_init] accepts for a pin. *)
Definition mode_accepted (pin : nat) (mode : Gpio.Mode.gpio_mode_t) : bool :=
  if (pin =? Gpio.GPIO16)%nat then
    match mode with
    | Gpio.Mode.GPIO_OUT | Gpio.Mode.GPIO_IN => true
    | _ => false
    end
  else
    match mode with
    | Gpio.Mode.GPIO_IN_PD => false
    | _ => true
    end.

(** Registers as they are out of reset, for the scenarios. *)
Definition gpio_regs_reset : Gpio.gpio_regs_t :=
  {| Gpio.out_regs :=
       {| Gpio.GPIO_OUT := 0; Gpio.RTC_GPIO_OUT := 0; Gpio.RTC_GPIO_IN := 0 |};
     Gpio.RTC_GPIO_CFG3 := 0; Gpio.RTC_GPIO_CONF := 0;
     Gpio.RTC_GPIO_ENABLE := 0;
     Gpio.GPIO_CONF := [0; 0; 0; 0; 0; 0; 0; 0; 0; 0; 0; 0; 0; 0; 0; 0];
     Gpio.GPIO_ENABLE_OUT_SET := 0; Gpio.GPIO_ENABLE_OUT_CLEAR := 0;
     Gpio.IOMUX_PIN := [0; 0; 0; 0; 0; 0; 0; 0; 0; 0; 0; 0; 0; 0; 0; 0] |}.

(** ** Nothing registered *)

(** Neither an alarm callback nor an overflow callback is registered. *)
Definition unregistered {H : Type} (s : Rtt.rtt_t H) : Prop :=
  Rtt.alarm_cb (Rtt.rtt_counter s) = None /\
  Rtt.overflow_cb (Rtt.rtt_counter s) = None.

(** * Properties *)

(** ** Arithmetic of the machine integers *)

Lemma u32_range (x : Z) : 0 <= u32 x < 2 ^ 32.
Proof. unfold u32. apply Z.mod_pos_bound. lia. Qed.

Lemma u32_small (x : Z) : 0 <= x < 2 ^ 32 -> u32 x = x.
Proof. intros Hx. unfold u32. now apply Z.mod_small. Qed.

Lemma u64_small (x : Z) : 0 <= x < 2 ^ 64 -> u64 x = x.
Proof. intros Hx. unfold u64. now apply Z.mod_small. Qed.

Lemma u32_idem (x : Z) : u32 (u32 x) = u32 x.
Proof. unfold u32. apply Z.mod_mod. lia. Qed.

Lemma u32_add_l (x y : Z) : u32 (u32 x + y) = u32 (x + y).
Proof. unfold u32. now rewrite Zplus_mod_idemp_l. Qed.

Lemma u32_add_r (x y : Z) : u32 (x + u32 y) = u32 (x + y).
Proof. unfold u32. now rewrite Zplus_mod_idemp_r. Qed.

Lemma u32_sub_l (x y : Z) : u32 (u32 x - y) = u32 (x - y).
Proof. unfold u32. now rewrite Zminus_mod_idemp_l. Qed.

Lemma u32_sub_r (x y : Z) : u32 (x - u32 y) = u32 (x - y).
Proof. unfold u32. now rewrite Zminus_mod_idemp_r. Qed.

(** At 1 MHz a tick is a microsecond. *)
Lemma RTT_TICKS_TO_US_id (t : Z) : 0 <= t < 2 ^ 32 -> RTT_TICKS_TO_US t = t.
Proof.
  intros Ht. unfold RTT_TICKS_TO_US, RTT_FREQUENCY.
  rewrite (u64_small t) by lia.
  rewrite u64_small by lia.
  apply Z.div_mul. lia.
Qed.

Lemma SYS_US_TO_COUNT_id (t : Z) : 0 <= t < 2 ^ 32 -> Sys.SYS_US_TO_COUNT t = t.
Proof.
  intros Ht. unfold Sys.SYS_US_TO_COUNT, RTT_FREQUENCY.
  rewrite (u64_small t) by lia.
  rewrite u64_small by lia.
  rewrite Z.div_mul by lia. now apply u32_small.
Qed.

Lemma SYS_COUNT_TO_US_id (t : Z) : 0 <= t < 2 ^ 32 -> Sys.SYS_COUNT_TO_US t = t.
Proof.
  intros Ht. unfold Sys.SYS_COUNT_TO_US, RTT_FREQUENCY.
  rewrite (u64_small t) by lia.
  rewrite u64_small by lia.
  rewrite Z.div_mul by lia. now apply u32_small.
Qed.

Lemma FRC_OVERFLOW_value : Frc.FRC_OVERFLOW = 1342177280.
Proof. reflexivity. Qed.

(** The FRC2 count in units of 3.2 microseconds. *)
Lemma FRC_COUNTER_TO_US_eq (c : Z) :
  0 <= c < 2 ^ 32 -> Frc.FRC_COUNTER_TO_US c = u32 (c * 16 / 5).
Proof.
  intros Hc. unfold Frc.FRC_COUNTER_TO_US.
  rewrite (u64_small c) by lia.
  rewrite u64_small by lia.
  f_equal. change Frc.FRC_FREQUENCY with 312500.
  replace (c * 1000000) with (c * 16 * 62500) by lia.
  replace 312500 with (5 * 62500) by lia.
  apply Z.div_mul_cancel_r; lia.
Qed.

(** The period of the FRC2 count is a whole period of the microsecond
    counter, so reducing the count modulo [FRC_OVERFLOW] does not change
    the microseconds read from it. *)
Lemma FRC_COUNTER_TO_US_mod (c : Z) :
  0 <= c < 2 ^ 32 ->
  Frc.FRC_COUNTER_TO_US (c mod Frc.FRC_OVERFLOW) = Frc.FRC_COUNTER_TO_US c.
Proof.
  intros Hc. rewrite FRC_OVERFLOW_value.
  assert (Hr : 0 <= c mod 1342177280 < 1342177280)
    by (apply Z.mod_pos_bound; lia).
  rewrite !FRC_COUNTER_TO_US_eq by lia.
  rewrite (Z.div_mod c 1342177280) at 2 by lia.
  set (q := c / 1342177280). set (r := c mod 1342177280) in *.
  replace ((1342177280 * q + r) * 16) with (r * 16 + (q * 2 ^ 32) * 5) by lia.
  rewrite Z.div_add by lia.
  unfold u32. rewrite Z.add_comm, Z.mul_comm.
  now rewrite Z.add_comm, Z_mod_plus_full.
Qed.

(** ** Checks on concrete inputs *)

Example frc_alarm_in_ticks :
  Frc.FRC_US_TO_COUNTER 5000 = 1562 /\ Frc.FRC_COUNTER_TO_US 1562 = 4998.
Proof. split; reflexivity. Qed.

Example init_arms_nothing :
  Rtt.alarm_set (Rtt.rtt_counter (Rtt.rtt_init Sample.sys_drv Sample.sys_reset))
  = false /\
  Rtt.alarm_set (Rtt.rtt_counter (Rtt.rtt_init Sample.frc_drv Sample.frc_reset))
  = false.
Proof. split; reflexivity. Qed.

Example alarm_ahead_is_armed :
  let s := Rtt.rtt_set_alarm Sample.sys_drv 1005000 (Some 1%nat) 42
             (Rtt.rtt_set_overflow_cb Sample.sys_drv (Some 2%nat) 0
                Sample.sys_at_1000000) in
  Rtt.alarm_active (Rtt.rtt_counter s) = 1005000 /\
  Sys.queued (Sys._sys_timer (Rtt.hw s)) = Some 5000.
Proof. vm_compute. split; reflexivity. Qed.

Example passed_alarm_yields_to_overflow :
  let s := Rtt.rtt_set_alarm Sample.sys_drv 4000 (Some 1%nat) 42
             (Rtt.rtt_set_overflow_cb Sample.sys_drv (Some 2%nat) 0
                Sample.sys_at_1000000) in
  Rtt.alarm_active (Rtt.rtt_counter s) = 0 /\
  Rtt.alarm_set (Rtt.rtt_counter s) = true /\
  Sys.queued (Sys._sys_timer (Rtt.hw s)) = Some (2 ^ 32 - 1000000).
Proof. vm_compute. repeat split; reflexivity. Qed.

Example passed_alarm_alone_is_armed :
  Rtt.alarm_active (Rtt.rtt_counter Sample.sys_alarm_passed) = 4000 /\
  Rtt.rtt_get_counter Sample.sys_drv Sample.sys_alarm_passed = 5000.
Proof. vm_compute. split; reflexivity. Qed.

Example frc_alarm_fires_at_tick_1562 :
  Rtt.invoked (Esp8266.run Sample.frc_tick 1561 Sample.frc_alarm_set) = [] /\
  Rtt.invoked (Esp8266.run Sample.frc_tick 1562 Sample.frc_alarm_set)
  = [AlarmCb 1%nat 42].
Proof. vm_compute. split; reflexivity. Qed.

(** ** The next-event selection *)

Lemma is_set_true {A : Type} (p : option A) : Rtt.is_set p = true <-> p <> None.
Proof. destruct p; cbn; split; congruence. Qed.

Lemma is_set_false {A : Type} (p : option A) : Rtt.is_set p = false <-> p = None.
Proof. destruct p; cbn; split; congruence. Qed.

Section UpdateFacts.

Context {H : Type}.
Variable drv : rtt_hw_driver_t H.

(** The selection leaves what was given at the interface alone. *)
Lemma update_keeps_interface (s : Rtt.rtt_t H) :
  let s' := Rtt._rtt_update_hw_alarm drv s in
  let c := Rtt.rtt_counter s in
  let c' := Rtt.rtt_counter s' in
  Rtt.alarm c' = Rtt.alarm c /\ Rtt.alarm_cb c' = Rtt.alarm_cb c /\
  Rtt.alarm_arg c' = Rtt.alarm_arg c /\
  Rtt.overflow_cb c' = Rtt.overflow_cb c /\
  Rtt.overflow_arg c' = Rtt.overflow_arg c /\
  Rtt.wakeup c' = Rtt.wakeup c /\
  Rtt._rtt_offset s' = Rtt._rtt_offset s /\
  Rtt.invoked s' = Rtt.invoked s /\
  Rtt.timer_wakeup s' = Rtt.timer_wakeup s.
Proof.
  unfold Rtt._rtt_update_hw_alarm.
  destruct (Rtt.is_set (Rtt.alarm_cb (Rtt.rtt_counter s)) && _);
    [| destruct (Rtt.is_set (Rtt.overflow_cb (Rtt.rtt_counter s)))];
    rtt_fields; repeat split; reflexivity.
Qed.

Variable armed_for : Z -> H -> Prop.
Variable disarmed : H -> Prop.
Hypothesis laws : driver_laws drv armed_for disarmed.

Lemma update_keeps_counter (s : Rtt.rtt_t H) :
  Rtt.rtt_get_counter drv (Rtt._rtt_update_hw_alarm drv s)
  = Rtt.rtt_get_counter drv s.
Proof.
  unfold Rtt._rtt_update_hw_alarm.
  destruct (Rtt.is_set (Rtt.alarm_cb (Rtt.rtt_counter s)) && _);
    [| destruct (Rtt.is_set (Rtt.overflow_cb (Rtt.rtt_counter s)))];
    rtt_fields;
    now rewrite ?(get_counter_set_alarm _ _ _ laws),
                ?(get_counter_clear_alarm _ _ _ laws).
Qed.

Lemma alarm_is_next_guard (s : Rtt.rtt_t H) :
  let c := Rtt.rtt_counter s in
  alarm_is_next drv s <->
  Rtt.is_set (Rtt.alarm_cb c)
  && ((Rtt.rtt_get_counter drv s <? Rtt.alarm c)
      || negb (Rtt.is_set (Rtt.overflow_cb c))) = true.
Proof.
  cbn zeta. unfold alarm_is_next.
  rewrite andb_true_iff, orb_true_iff, negb_true_iff, Z.ltb_lt,
    is_set_true, is_set_false.
  reflexivity.
Qed.

Lemma alarm_is_next_update (s : Rtt.rtt_t H) :
  alarm_is_next drv (Rtt._rtt_update_hw_alarm drv s) <-> alarm_is_next drv s.
Proof.
  unfold alarm_is_next. rewrite update_keeps_counter.
  destruct (update_keeps_interface s) as (-> & -> & _ & -> & _).
  reflexivity.
Qed.

(** Whatever the state, the selection ends in one of its three outcomes. *)
Lemma update_selected (s : Rtt.rtt_t H) :
  selected drv armed_for disarmed (Rtt._rtt_update_hw_alarm drv s).
Proof.
  unfold selected, alarm_selected, overflow_selected, nothing_selected.
  rewrite alarm_is_next_update. cbn zeta.
  pose proof (alarm_is_next_guard s) as Hg. cbn zeta in Hg.
  unfold Rtt._rtt_update_hw_alarm.
  destruct (Rtt.is_set (Rtt.alarm_cb (Rtt.rtt_counter s)) && _) eqn:Eg.
  - assert (Hy : alarm_is_next drv s) by now apply Hg.
    left. rtt_fields. split; [exact Hy|]. repeat split.
    apply (armed_set_alarm _ _ _ laws).
  - assert (Hn : ~ alarm_is_next drv s) by (rewrite Hg; congruence).
    destruct (Rtt.is_set (Rtt.overflow_cb (Rtt.rtt_counter s))) eqn:Eo.
    + right; left. rtt_fields. split; [exact Hn|].
      split; [now apply is_set_true|]. repeat split.
      apply (armed_set_alarm _ _ _ laws).
    + right; right. rtt_fields. split; [exact Hn|].
      split; [now apply is_set_false|]. repeat split.
      apply (disarmed_clear_alarm _ _ _ laws).
Qed.

(** No two of the outcomes hold together. *)
Lemma outcomes_exclusive (s : Rtt.rtt_t H) :
  ~ (alarm_selected drv armed_for s /\ overflow_selected drv armed_for s) /\
  ~ (alarm_selected drv armed_for s /\ nothing_selected drv disarmed s) /\
  ~ (overflow_selected drv armed_for s /\ nothing_selected drv disarmed s).
Proof.
  unfold alarm_selected, overflow_selected, nothing_selected.
  repeat split; intros [A B]; tauto.
Qed.

(** So does every state-changing entry point. *)
Lemma run_op_selected (o : Rtt.rtt_op) (s : Rtt.rtt_t H) :
  selected drv armed_for disarmed (Rtt.run_op drv o s).
Proof.
  destruct o as [|[]]; cbn [Rtt.run_op Rtt.api_step]; rtt_unfold;
    try apply update_selected.
  unfold Rtt.rtt_init. rtt_unfold.
  set (s1 := Rtt.with_rtt_counter (Rtt.put_alarm 0 None NULL) _).
  set (m := Rtt.with_rtt_counter _ (Rtt._rtt_update_hw_alarm drv s1)).
  assert (Ha : Rtt.alarm_cb (Rtt.rtt_counter m) = None).
  { unfold m. cbn [Rtt.with_rtt_counter Rtt.rtt_counter Rtt.put_overflow Rtt.alarm_cb].
    now destruct (update_keeps_interface s1) as (_ & -> & _). }
  assert (Ho : Rtt.overflow_cb (Rtt.rtt_counter m) = None) by reflexivity.
  right; right. unfold nothing_selected, alarm_is_next.
  unfold Rtt._rtt_update_hw_alarm. rewrite Ha, Ho. cbn [Rtt.is_set andb].
  rtt_fields. repeat split; try tauto.
  apply (disarmed_poweron _ _ _ laws), (disarmed_clear_alarm _ _ _ laws).
Qed.

End UpdateFacts.

(** *** The two backends obey the laws *)

Lemma sys_laws (rtc_clk_to_us : Z -> Z -> Z) :
  driver_laws (Esp8266.sys_drv rtc_clk_to_us) sys_armed_for sys_disarmed.
Proof.
  split; unfold sys_armed_for, sys_disarmed; cbn; intros.
  - reflexivity.
  - reflexivity.
  - repeat split.
  - split; reflexivity.
  - assumption.
  - intros [Hc _]. destruct H as [Hs _]. congruence.
Qed.

Lemma frc_update_alarm_count (c : Z) (h : Frc.frc_t) :
  Frc.count (Frc.frc2 (Frc._update_alarm c h)) = Frc.count (Frc.frc2 h).
Proof.
  unfold Frc._update_alarm.
  now destruct (Rtt.is_set _ && _).
Qed.

Lemma frc_laws (rtc_clk_to_us : Z -> Z -> Z) :
  driver_laws (Esp8266.frc_drv rtc_clk_to_us) frc_armed_for frc_disarmed.
Proof.
  split; unfold frc_armed_for, frc_disarmed;
    cbn [Esp8266.frc_drv Frc._rtt_hw_frc_driver get_counter set_alarm
         clear_alarm poweron]; intros.
  - unfold Frc._frc_get_counter, Frc._frc_set_alarm.
    now rewrite frc_update_alarm_count.
  - reflexivity.
  - unfold Frc._frc_set_alarm, Frc._update_alarm.
    set (t := Frc.FRC_US_TO_COUNTER a mod Frc.FRC_OVERFLOW).
    cbn -[Z.ltb Frc.FRC_OVERFLOW].
    destruct (Frc.count (Frc.frc2 h) <? t) eqn:E;
      cbn -[Z.ltb Frc.FRC_OVERFLOW]; rewrite E; repeat split.
  - split; reflexivity.
  - assumption.
  - intros [Hc _]. destruct H as [Hs _]. congruence.
Qed.

(** C1.  After [rtt_init] and after every call of [rtt_set_alarm],
    [rtt_clear_alarm], [rtt_set_overflow_cb], [rtt_clear_overflow_cb] and
    [rtt_set_counter], on either backend, the state shows exactly one of
    the three outcomes of the next-event selection: the alarm has a
    callback and is ahead of the counter or there is no overflow callback,
    and then the backend is armed for the alarm value and [alarm_active] is
    that value; or else there is an overflow callback, and then the backend
    is armed for value 0 and [alarm_active] is 0; or else nothing is armed
    and [alarm_set] is false.  The guards of the three outcomes exclude one
    another and a backend armed for some value is not disarmed, so at most
    one hardware event is armed. *)
Theorem next_event_selection (rtc_clk_to_us : Z -> Z -> Z) :
  (forall (o : Rtt.rtt_op) (s : Rtt.rtt_t Sys.sys_t),
      selected (Esp8266.sys_drv rtc_clk_to_us) sys_armed_for sys_disarmed
        (Rtt.run_op (Esp8266.sys_drv rtc_clk_to_us) o s)) /\
  (forall (o : Rtt.rtt_op) (s : Rtt.rtt_t Frc.frc_t),
      selected (Esp8266.frc_drv rtc_clk_to_us) frc_armed_for frc_disarmed
        (Rtt.run_op (Esp8266.frc_drv rtc_clk_to_us) o s)) /\
  (forall (s : Rtt.rtt_t Sys.sys_t),
      let drv := Esp8266.sys_drv rtc_clk_to_us in
      ~ (alarm_selected drv sys_armed_for s /\
         overflow_selected drv sys_armed_for s) /\
      ~ (alarm_selected drv sys_armed_for s /\
         nothing_selected drv sys_disarmed s) /\
      ~ (overflow_selected drv sys_armed_for s /\
         nothing_selected drv sys_disarmed s)) /\
  (forall (s : Rtt.rtt_t Frc.frc_t),
      let drv := Esp8266.frc_drv rtc_clk_to_us in
      ~ (alarm_selected drv frc_armed_for s /\
         overflow_selected drv frc_armed_for s) /\
      ~ (alarm_selected drv frc_armed_for s /\
         nothing_selected drv frc_disarmed s) /\
      ~ (overflow_selected drv frc_armed_for s /\
         nothing_selected drv frc_disarmed s)) /\
  (forall a h, ~ (sys_armed_for a h /\ sys_disarmed h)) /\
  (forall a h, ~ (frc_armed_for a h /\ frc_disarmed h)).
Proof.
  split; [| split; [| split; [| split; [| split]]]].
  - intros o s. apply run_op_selected, sys_laws.
  - intros o s. apply run_op_selected, frc_laws.
  - intros s. apply outcomes_exclusive.
  - intros s. apply outcomes_exclusive.
  - intros a h [Ha Hd].
    exact (armed_not_disarmed _ _ _ (sys_laws rtc_clk_to_us) a h Ha Hd).
  - intros a h [Ha Hd].
    exact (armed_not_disarmed _ _ _ (frc_laws rtc_clk_to_us) a h Ha Hd).
Qed.

(** ** The invariant of the alarm bookkeeping *)

Section InvariantFacts.

Context {H : Type}.
Variable drv : rtt_hw_driver_t H.

Lemma update_armed_iff_registered (s : Rtt.rtt_t H) :
  armed_iff_registered (Rtt.rtt_counter (Rtt._rtt_update_hw_alarm drv s)).
Proof.
  unfold armed_iff_registered, Rtt._rtt_update_hw_alarm.
  destruct (Rtt.alarm_cb (Rtt.rtt_counter s)) as [cb|] eqn:Ea;
    destruct (Rtt.overflow_cb (Rtt.rtt_counter s)) as [ocb|] eqn:Eo;
    cbn [Rtt.is_set andb negb orb];
    try destruct (Rtt.rtt_get_counter drv s <? _);
    cbn [orb]; rtt_fields; rewrite ?Ea, ?Eo;
    intuition congruence.
Qed.

End InvariantFacts.

(** C10.  After [rtt_init] and after every state-changing call of the
    interface, [alarm_set] is true if and only if an alarm callback or an
    overflow callback is registered, and when [alarm_set] is true and
    [alarm_active] is not 0, [alarm_active] is the alarm value given at the
    interface.  After [rtt_clear_alarm] the stored alarm value is 0, which
    is what [rtt_get_alarm] returns. *)
Theorem armed_iff_registered_kept (H : Type) (drv : rtt_hw_driver_t H)
    (o : Rtt.rtt_op) (s : Rtt.rtt_t H) :
  armed_iff_registered (Rtt.rtt_counter (Rtt.run_op drv o s)) /\
  Rtt.rtt_get_alarm (Rtt.rtt_clear_alarm drv s) = 0.
Proof.
  split.
  - destruct o as [|[]]; cbn [Rtt.run_op Rtt.api_step];
      unfold Rtt.rtt_init; rtt_unfold;
      cbn [Rtt.with_hw Rtt.rtt_counter];
      apply update_armed_iff_registered.
  - unfold Rtt.rtt_get_alarm, Rtt.rtt_clear_alarm.
    now destruct (update_keeps_interface drv
      (Rtt.with_rtt_counter (Rtt.put_alarm 0 None NULL) s)) as (-> & _).
Qed.

(** ** Reading and setting the counter *)

Section RebaseFacts.

Context {H : Type}.
Variable drv : rtt_hw_driver_t H.
Variable armed_for : Z -> H -> Prop.
Variable disarmed : H -> Prop.
Hypothesis laws : driver_laws drv armed_for disarmed.

Lemma update_keeps_hw_counter (s : Rtt.rtt_t H) :
  get_counter drv (Rtt.hw (Rtt._rtt_update_hw_alarm drv s))
  = get_counter drv (Rtt.hw s).
Proof.
  unfold Rtt._rtt_update_hw_alarm.
  destruct (Rtt.is_set (Rtt.alarm_cb (Rtt.rtt_counter s)) && _);
    [| destruct (Rtt.is_set (Rtt.overflow_cb (Rtt.rtt_counter s)))];
    rtt_fields;
    now rewrite ?(get_counter_set_alarm _ _ _ laws),
                ?(get_counter_clear_alarm _ _ _ laws).
Qed.

Lemma set_counter_rebased (v : Z) (s : Rtt.rtt_t H) :
  0 <= v < 2 ^ 32 -> counter_rebased drv armed_for disarmed v s.
Proof.
  intros Hv. unfold counter_rebased. cbn zeta.
  split; [reflexivity|].
  unfold Rtt.rtt_set_counter.
  set (m := Rtt.with_offset _ s).
  split; [now rewrite update_keeps_hw_counter|].
  split.
  - rewrite (update_keeps_counter drv armed_for disarmed laws).
    unfold m, Rtt.rtt_get_counter.
    cbn [Rtt.with_offset Rtt.hw Rtt._rtt_offset].
    rewrite u32_add_r.
    replace (get_counter drv (Rtt.hw s) + (v - get_counter drv (Rtt.hw s)))
      with v by lia.
    now apply u32_small.
  - split; [reflexivity|].
    now apply update_selected.
Qed.

End RebaseFacts.

(** C7.  On either backend [rtt_get_counter] is a function of the state
    that returns the backend counter plus the offset modulo 2^32, and for
    every 32-bit value [v], [rtt_set_counter v] leaves the backend counter
    alone and sets the offset so that [rtt_get_counter] then returns [v];
    it ends with the next-event selection. *)
Theorem set_counter_then_get_counter (rtc_clk_to_us : Z -> Z -> Z) (v : Z) :
  0 <= v < 2 ^ 32 ->
  (forall s : Rtt.rtt_t Sys.sys_t,
      counter_rebased (Esp8266.sys_drv rtc_clk_to_us)
        sys_armed_for sys_disarmed v s) /\
  (forall s : Rtt.rtt_t Frc.frc_t,
      counter_rebased (Esp8266.frc_drv rtc_clk_to_us)
        frc_armed_for frc_disarmed v s).
Proof.
  intros Hv. split; intros s.
  - apply set_counter_rebased; [apply sys_laws | exact Hv].
  - apply set_counter_rebased; [apply frc_laws | exact Hv].
Qed.

Lemma set_counter_then_get_counter_witness :
  (forall s : Rtt.rtt_t Sys.sys_t,
      counter_rebased (Esp8266.sys_drv Sample.rtc_clk_to_us)
        sys_armed_for sys_disarmed 1000000 s) /\
  (forall s : Rtt.rtt_t Frc.frc_t,
      counter_rebased (Esp8266.frc_drv Sample.rtc_clk_to_us)
        frc_armed_for frc_disarmed 1000000 s).
Proof.
  apply (set_counter_then_get_counter Sample.rtc_clk_to_us 1000000). lia.
Defined.

(** ** Entering a sleep mode *)

Section SleepFacts.

Context {H : Type}.
Variable drv : rtt_hw_driver_t H.

Lemma sleep_distance_range (s : Rtt.rtt_t H) :
  0 <= sleep_distance drv s < 2 ^ 32.
Proof. apply u32_range. Qed.

(** With an armed event the distance is what is returned. *)
Lemma sleep_enter_returns (mode : Z) (s : Rtt.rtt_t H) :
  Rtt.alarm_set (Rtt.rtt_counter s) = true ->
  fst (Rtt.rtt_pm_sleep_enter drv mode s) = sleep_distance drv s.
Proof.
  intros Hs. unfold Rtt.rtt_pm_sleep_enter.
  change (Rtt.alarm_set (Rtt.rtt_counter (Rtt.rtt_save_counter drv s)))
    with (Rtt.alarm_set (Rtt.rtt_counter s)).
  rewrite Hs. cbn [negb fst].
  fold (sleep_distance drv s).
  rewrite (RTT_TICKS_TO_US_id _ (sleep_distance_range s)).
  apply u32_small, sleep_distance_range.
Qed.

End SleepFacts.

(** C3, as the specification words it, fails: an alarm armed for the very
    value of the counter has distance 0, and [wakeup] is then reset. *)
Lemma sleep_enter_as_specified_fails :
  ~ sleep_enter_as_specified Sample.sys_drv 0 Sample.sys_alarm_now.
Proof.
  unfold sleep_enter_as_specified. vm_compute. intros [_ Hw]. discriminate.
Qed.

(** C3, amended.  [rtt_pm_sleep_enter] first saves the counters.  When no
    event is armed it returns 0 and leaves the saved state as it is.  When
    an event is armed it returns the distance in microseconds from the
    counter to the armed value; if that distance is not 0 it sets [wakeup]
    and hands the distance to the sleep timer, if it is 0 it resets
    [wakeup]; nothing else of the alarm state changes. *)
Theorem sleep_enter_contract_holds (H : Type) (drv : rtt_hw_driver_t H)
    (mode : Z) (s : Rtt.rtt_t H) :
  sleep_enter_contract drv mode s.
Proof.
  unfold sleep_enter_contract. cbn zeta.
  pose proof (sleep_distance_range drv s) as Hd.
  unfold Rtt.rtt_pm_sleep_enter.
  change (Rtt.alarm_set (Rtt.rtt_counter (Rtt.rtt_save_counter drv s)))
    with (Rtt.alarm_set (Rtt.rtt_counter s)).
  destruct (Rtt.alarm_set (Rtt.rtt_counter s)) eqn:Es; cbn [negb];
    [| split; reflexivity].
  fold (sleep_distance drv s).
  rewrite (RTT_TICKS_TO_US_id _ Hd).
  destruct (sleep_distance drv s =? 0) eqn:Ed; cbn [fst snd negb];
    (split; [now apply u32_small|]); (split; [now apply u32_small|]);
    repeat split.
Qed.

(** C4, as the specification words it, fails at the boundary: when the
    armed alarm equals the counter the difference is 0, and 0 is returned. *)
Lemma sleep_enter_underflows_fails :
  ~ sleep_enter_underflows Sample.sys_drv 0 Sample.sys_alarm_now.
Proof.
  unfold sleep_enter_underflows. intros Hc.
  destruct Hc as [_ Hnz].
  - reflexivity.
  - vm_compute. discriminate.
  - vm_compute. split; discriminate.
  - apply Hnz. reflexivity.
Qed.

(** C4, amended.  With a user alarm armed ([alarm_set] true, [alarm_active]
    not 0) that is not ahead of the counter, [rtt_pm_sleep_enter] makes no
    check for the alarm having passed: it returns the difference
    [alarm_active - counter] taken modulo 2^32, in microseconds.  When the
    alarm is strictly behind the counter this is
    [alarm_active - counter + 2^32], which is not 0; when the two are equal
    it is 0. *)
Theorem sleep_enter_passed_alarm (H : Type) (drv : rtt_hw_driver_t H)
    (mode : Z) (s : Rtt.rtt_t H) :
  let now := Rtt.rtt_get_counter drv (Rtt.rtt_save_counter drv s) in
  let c := Rtt.rtt_counter s in
  let r := fst (Rtt.rtt_pm_sleep_enter drv mode s) in
  Rtt.alarm_set c = true ->
  0 < Rtt.alarm_active c <= now ->
  r = RTT_TICKS_TO_US ((Rtt.alarm_active c - now) mod 2 ^ 32) /\
  (Rtt.alarm_active c < now ->
   r = Rtt.alarm_active c - now + 2 ^ 32 /\ 0 < r) /\
  (Rtt.alarm_active c = now -> r = 0).
Proof.
  intros now c r Hs Ha.
  assert (Hd : r = sleep_distance drv s)
    by now apply sleep_enter_returns.
  assert (Hnow : 0 <= now < 2 ^ 32) by apply u32_range.
  assert (Hdist : sleep_distance drv s
                  = (Rtt.alarm_active c - now) mod 2 ^ 32) by reflexivity.
  split.
  { rewrite Hd, <- Hdist. symmetry.
    apply RTT_TICKS_TO_US_id, sleep_distance_range. }
  split.
  - intros Hlt. rewrite Hd, Hdist.
    assert (E : (Rtt.alarm_active c - now) mod 2 ^ 32
                = Rtt.alarm_active c - now + 2 ^ 32).
    { symmetry. apply (Z.mod_unique _ _ (-1)); lia. }
    rewrite E. lia.
  - intros Heq. rewrite Hd, Hdist, Heq, Z.sub_diag. reflexivity.
Qed.

Lemma sleep_enter_passed_alarm_witness :
  fst (Rtt.rtt_pm_sleep_enter Sample.sys_drv 0 Sample.sys_alarm_passed)
  = 4294966296.
Proof.
  destruct (sleep_enter_passed_alarm _ Sample.sys_drv 0 Sample.sys_alarm_passed)
    as (_ & Hlt & _).
  - reflexivity.
  - vm_compute. split; [reflexivity | discriminate].
  - destruct Hlt as [Hr _].
    + vm_compute. reflexivity.
    + rewrite Hr. vm_compute. reflexivity.
Defined.

(** ** Restoring the counter *)

Section RestoreFacts.

Variable rtc_clk_to_us : Z -> Z -> Z.

Lemma sys_restore_offset (in_init : bool) (h : Sys.sys_t) :
  Sys._sys_counter_offset (Sys._sys_restore_counter rtc_clk_to_us in_init h)
  = u32 (Sys._sys_counter_offset h + sys_elapsed_us rtc_clk_to_us h
         + (if in_init then Sys._sys_counter_saved h else 0)).
Proof.
  unfold Sys._sys_restore_counter, sys_elapsed_us, Sys._rtc_get_counter.
  cbn [Sys.with_sys_offset Sys._sys_counter_offset Sys._sys_counter_saved
       Sys.RTC_COUNTER Sys._rtc_counter_saved Sys.rtc_cali].
  now rewrite u32_add_l.
Qed.

Lemma sys_restore_distinguishes (h : Sys.sys_t) :
  restore_distinguishes_init (Esp8266.sys_drv rtc_clk_to_us)
    Sys._sys_counter_offset Sys._sys_counter_saved
    (sys_elapsed_us rtc_clk_to_us) h.
Proof.
  unfold restore_distinguishes_init.
  cbn [Esp8266.sys_drv Sys._rtt_hw_sys_driver restore_counter].
  rewrite !sys_restore_offset. now rewrite Z.add_0_r.
Qed.

(** [_frc_restore_counter] does not look at its argument. *)
Lemma frc_restore_ignores_in_init (h : Frc.frc_t) :
  Frc._frc_restore_counter rtc_clk_to_us true h
  = Frc._frc_restore_counter rtc_clk_to_us false h.
Proof. reflexivity. Qed.

Lemma frc_restore_load (in_init : bool) (h : Frc.frc_t) :
  let h' := Frc._frc_restore_counter rtc_clk_to_us in_init h in
  frc_load h'
  = u32 (Frc._frc_counter_saved h + frc_elapsed_ticks rtc_clk_to_us h)
    mod Frc.FRC_OVERFLOW /\
  Frc.count (Frc.frc2 h') = frc_load h'.
Proof. split; reflexivity. Qed.

End RestoreFacts.

(** C2, as the specification words it, fails on the FRC2 backend: waking
    up with a saved count of 1000 and no time elapsed, the restore with
    [in_init = false] loads 1000, the saved count, not only the elapsed
    time. *)
Lemma frc_restore_distinction_fails :
  ~ restore_distinguishes_init Sample.frc_drv
      frc_load Frc._frc_counter_saved
      (frc_elapsed_ticks Sample.rtc_clk_to_us) Sample.frc_asleep.
Proof.
  unfold restore_distinguishes_init. vm_compute. intros [Hf _]. discriminate.
Qed.

(** C2, amended.  On the system-time backend [restore_counter] adds the
    calibrated microseconds elapsed since the save to the offset, and with
    [in_init = true] it adds the saved counter as well, with
    [in_init = false] nothing more.  The FRC2 backend makes no such
    distinction: whatever [in_init] is, it loads the timer with the saved
    count plus the elapsed time in timer ticks, modulo [FRC_OVERFLOW]. *)
Theorem restore_counter_in_init (rtc_clk_to_us : Z -> Z -> Z) :
  (forall h : Sys.sys_t,
      restore_distinguishes_init (Esp8266.sys_drv rtc_clk_to_us)
        Sys._sys_counter_offset Sys._sys_counter_saved
        (sys_elapsed_us rtc_clk_to_us) h) /\
  (forall (h : Frc.frc_t) (in_init : bool),
      let h' := restore_counter (Esp8266.frc_drv rtc_clk_to_us) in_init h in
      restore_counter (Esp8266.frc_drv rtc_clk_to_us) true h
      = restore_counter (Esp8266.frc_drv rtc_clk_to_us) false h /\
      frc_load h'
      = u32 (Frc._frc_counter_saved h + frc_elapsed_ticks rtc_clk_to_us h)
        mod Frc.FRC_OVERFLOW /\
      Frc.count (Frc.frc2 h') = frc_load h').
Proof.
  split.
  - apply sys_restore_distinguishes.
  - intros h in_init. cbn zeta.
    split; [apply frc_restore_ignores_in_init|].
    apply (frc_restore_load rtc_clk_to_us in_init h).
Qed.

(** ** A sleep of no duration *)

Section RoundTripFacts.

Variable rtc_clk_to_us : Z -> Z -> Z.
Hypothesis no_cycles_no_time : forall period, rtc_clk_to_us 0 period = 0.

Lemma sys_round_trip (s : Rtt.rtt_t Sys.sys_t) :
  round_trip_keeps_counter (Esp8266.sys_drv rtc_clk_to_us) s.
Proof.
  unfold round_trip_keeps_counter. cbn zeta.
  assert (E : Rtt.rtt_get_counter (Esp8266.sys_drv rtc_clk_to_us)
                (after_round_trip (Esp8266.sys_drv rtc_clk_to_us) s)
              = Rtt.rtt_get_counter (Esp8266.sys_drv rtc_clk_to_us) s).
  { unfold after_round_trip, Rtt.rtt_get_counter.
    rtt_unfold. rtt_fields.
    cbn [Esp8266.sys_drv Sys._rtt_hw_sys_driver get_counter save_counter
         restore_counter].
    unfold Sys._sys_get_counter. do 2 f_equal.
    rewrite sys_restore_offset. unfold sys_elapsed_us.
    cbn [Sys._sys_save_counter Sys.with_saved Sys._rtc_get_counter
         Sys.RTC_COUNTER Sys._rtc_counter_saved Sys.rtc_cali
         Sys._sys_counter_offset Sys.system_time
         Sys._sys_restore_counter Sys.with_sys_offset].
    rewrite Z.sub_diag. change (u32 0) with 0.
    rewrite no_cycles_no_time. change (u32 0) with 0.
    rewrite !Z.add_0_r. now rewrite u32_add_r. }
  rewrite E, Z.sub_diag. split; [reflexivity | cbn; lia].
Qed.

Lemma frc_round_trip (s : Rtt.rtt_t Frc.frc_t) :
  0 <= Frc.count (Frc.frc2 (Rtt.hw s)) < 2 ^ 32 ->
  round_trip_keeps_counter (Esp8266.frc_drv rtc_clk_to_us) s.
Proof.
  intros Hc. unfold round_trip_keeps_counter. cbn zeta.
  assert (E : Rtt.rtt_get_counter (Esp8266.frc_drv rtc_clk_to_us)
                (after_round_trip (Esp8266.frc_drv rtc_clk_to_us) s)
              = Rtt.rtt_get_counter (Esp8266.frc_drv rtc_clk_to_us) s).
  { unfold after_round_trip, Rtt.rtt_get_counter.
    rtt_unfold. rtt_fields.
    cbn [Esp8266.frc_drv Frc._rtt_hw_frc_driver get_counter save_counter
         restore_counter].
    unfold Frc._frc_get_counter. do 2 f_equal.
    unfold Frc._frc_restore_counter, Frc._frc_save_counter.
    cbn [Frc.with_saved Frc.with_frc2 Frc.write_load Frc.frc2 Frc.count
         Frc.RTC_COUNTER Frc._rtc_counter_saved Frc._frc_counter_saved
         Frc.rtc_cali].
    rewrite Z.sub_diag. change (u32 0) with 0.
    rewrite no_cycles_no_time. change (u32 0) with 0.
    change (Frc.FRC_US_TO_COUNTER 0) with 0.
    rewrite Z.add_0_r, (u32_small _ Hc).
    now apply FRC_COUNTER_TO_US_mod. }
  rewrite E, Z.sub_diag. split; [reflexivity | cbn; lia].
Qed.

End RoundTripFacts.

(** C8.  When the calibration turns zero RTC cycles into zero microseconds,
    [rtt_save_counter] followed at once by [rtt_restore_counter false],
    with the RTC counter where it was, leaves the value of
    [rtt_get_counter] as it was before the save, hence within one tick of
    it, on the system-time backend and, for every 32-bit timer count, on
    the FRC2 backend. *)
Theorem sleep_round_trip (rtc_clk_to_us : Z -> Z -> Z) :
  (forall period, rtc_clk_to_us 0 period = 0) ->
  (forall s : Rtt.rtt_t Sys.sys_t,
      round_trip_keeps_counter (Esp8266.sys_drv rtc_clk_to_us) s) /\
  (forall s : Rtt.rtt_t Frc.frc_t,
      0 <= Frc.count (Frc.frc2 (Rtt.hw s)) < 2 ^ 32 ->
      round_trip_keeps_counter (Esp8266.frc_drv rtc_clk_to_us) s).
Proof.
  intros Hz. split.
  - apply sys_round_trip, Hz.
  - apply frc_round_trip, Hz.
Qed.

Lemma sleep_round_trip_witness :
  round_trip_keeps_counter Sample.sys_drv Sample.sys_alarm_passed /\
  round_trip_keeps_counter Sample.frc_drv Sample.frc_past_overflow.
Proof.
  destruct (sleep_round_trip Sample.rtc_clk_to_us) as [Hs Hf].
  - intros period. reflexivity.
  - split.
    + apply Hs.
    + apply Hf. vm_compute. split; [discriminate | reflexivity].
Defined.

(** ** Interrupt dispatch *)

Section DispatchFacts.

Context {H : Type}.
Variable drv : rtt_hw_driver_t H.
Variable cb_body : rtt_cb_t -> Z -> list api_call.

Lemma registration_update (s : Rtt.rtt_t H) :
  registration (Rtt._rtt_update_hw_alarm drv s) = registration s.
Proof.
  unfold registration.
  now destruct (update_keeps_interface drv s) as (-> & -> & -> & _).
Qed.

Lemma invoked_update (s : Rtt.rtt_t H) :
  Rtt.invoked (Rtt._rtt_update_hw_alarm drv s) = Rtt.invoked s.
Proof. apply (update_keeps_interface drv s). Qed.

Lemma api_step_invoked (c : api_call) (s : Rtt.rtt_t H) :
  Rtt.invoked (Rtt.api_step drv c s) = Rtt.invoked s.
Proof.
  destruct c; cbn [Rtt.api_step]; rtt_unfold; now rewrite invoked_update.
Qed.

Lemma run_calls_invoked (cs : list api_call) (s : Rtt.rtt_t H) :
  Rtt.invoked (Rtt.run_calls drv cs s) = Rtt.invoked s.
Proof.
  revert s. induction cs as [|c cs IH]; intros s; cbn; [reflexivity|].
  change (fold_left _ cs ?x) with (Rtt.run_calls drv cs x).
  now rewrite IH, api_step_invoked.
Qed.

Lemma run_calls_app (cs ds : list api_call) (s : Rtt.rtt_t H) :
  Rtt.run_calls drv (cs ++ ds) s
  = Rtt.run_calls drv ds (Rtt.run_calls drv cs s).
Proof. unfold Rtt.run_calls. apply fold_left_app. Qed.

Lemma registration_set_alarm (v : Z) (cb : option rtt_cb_t) (arg : Z)
    (s : Rtt.rtt_t H) :
  registration (Rtt.rtt_set_alarm drv v cb arg s) = (v, cb, arg).
Proof. unfold Rtt.rtt_set_alarm. now rewrite registration_update. Qed.

Lemma registration_clear_alarm (s : Rtt.rtt_t H) :
  registration (Rtt.rtt_clear_alarm drv s) = (0, None, NULL).
Proof. unfold Rtt.rtt_clear_alarm. now rewrite registration_update. Qed.

Lemma invoked_clear_alarm (s : Rtt.rtt_t H) :
  Rtt.invoked (Rtt.rtt_clear_alarm drv s) = Rtt.invoked s.
Proof. unfold Rtt.rtt_clear_alarm. now rewrite invoked_update. Qed.

Lemma registration_api_step (c : api_call) (s : Rtt.rtt_t H) :
  touches_alarm c = false ->
  registration (Rtt.api_step drv c s) = registration s.
Proof.
  destruct c; cbn [touches_alarm]; intros Hc; try discriminate;
    cbn [Rtt.api_step];
    unfold Rtt.rtt_set_overflow_cb, Rtt.rtt_clear_overflow_cb,
      Rtt.rtt_set_counter;
    cbn zeta; now rewrite registration_update.
Qed.

Lemma registration_run_calls (cs : list api_call) (s : Rtt.rtt_t H) :
  existsb touches_alarm cs = false ->
  registration (Rtt.run_calls drv cs s) = registration s.
Proof.
  revert s. induction cs as [|c cs IH]; intros s Hcs; [reflexivity|].
  cbn [existsb] in Hcs. apply orb_false_iff in Hcs as [Hc Hcs].
  cbn [Rtt.run_calls fold_left].
  change (fold_left _ cs ?x) with (Rtt.run_calls drv cs x).
  now rewrite (IH _ Hcs), (registration_api_step c s Hc).
Qed.

(** The overflow path keeps the alarm slot when the overflow callback does
    not write it. *)
Lemma registration_overflow_path (fired : Z) (t : Rtt.rtt_t H) :
  overflow_leaves_alarm cb_body t ->
  registration (Rtt.isr_overflow_path drv cb_body fired t) = registration t.
Proof.
  unfold overflow_leaves_alarm, Rtt.isr_overflow_path. cbn zeta.
  intros Hov. destruct (fired =? 0); [|reflexivity].
  destruct (update_keeps_interface drv t) as (_ & _ & _ & Eo & Ea & _).
  rewrite Eo, Ea.
  destruct (Rtt.overflow_cb (Rtt.rtt_counter t)) as [ocb|].
  - unfold Rtt.call_overflow_cb. rewrite (registration_run_calls _ _ Hov).
    change (registration (Rtt.record_invocation ?i ?x)) with (registration x).
    apply registration_update.
  - apply registration_update.
Qed.

Lemma dispatch_detaches_first (s : Rtt.rtt_t H) (cb : rtt_cb_t)
    (pre : list api_call) (v' : Z) (cb' : option rtt_cb_t) (arg' : Z) :
  Rtt.alarm_active (Rtt.rtt_counter s) = Rtt.alarm (Rtt.rtt_counter s) ->
  Rtt.alarm_cb (Rtt.rtt_counter s) = Some cb ->
  cb_body cb (Rtt.alarm_arg (Rtt.rtt_counter s))
  = pre ++ [Call_set_alarm v' cb' arg'] ->
  detach_before_invoke drv cb_body s cb v' cb' arg'.
Proof.
  intros Hfired Hcb Hbody. unfold detach_before_invoke. cbn zeta.
  set (arg := Rtt.alarm_arg (Rtt.rtt_counter s)) in *.
  set (t := Rtt.call_alarm_cb drv cb_body cb arg (detached drv s)).
  assert (Hd : Rtt.invoked (detached drv s) = Rtt.invoked s).
  { unfold detached. rewrite invoked_clear_alarm.
    now destruct (Rtt.wakeup (Rtt.rtt_counter s)). }
  assert (Ht : registration t = (v', cb', arg')).
  { unfold t, Rtt.call_alarm_cb. rewrite Hbody, run_calls_app.
    cbn [Rtt.run_calls fold_left Rtt.api_step].
    apply registration_set_alarm. }
  assert (Hisr : Rtt._rtt_isr drv cb_body s
                 = Rtt.isr_overflow_path drv cb_body
                     (Rtt.alarm_active (Rtt.rtt_counter s)) t).
  { unfold Rtt._rtt_isr. f_equal. unfold Rtt.isr_alarm_path, t, detached.
    destruct (Rtt.wakeup (Rtt.rtt_counter s)); rtt_fields;
      rewrite Hfired, Hcb, Z.eqb_refl; reflexivity. }
  repeat split.
  - apply registration_clear_alarm.
  - exact Hd.
  - unfold t, Rtt.call_alarm_cb. rewrite run_calls_invoked.
    rtt_fields. now rewrite Hd.
  - exact Ht.
  - exact Hisr.
  - now rewrite registration_update.
  - intros Hnz. rewrite Hisr. unfold Rtt.isr_overflow_path.
    apply Z.eqb_neq in Hnz. now rewrite Hnz.
  - intros Hz. rewrite Hisr, Hz. unfold Rtt.isr_overflow_path.
    cbn zeta. rewrite Z.eqb_refl.
    destruct (update_keeps_interface drv t) as (_ & _ & _ & Eo & Ea & _).
    now rewrite Eo, Ea.
  - intros Hov. rewrite Hisr, (registration_overflow_path _ t Hov).
    exact Ht.
Qed.

End DispatchFacts.

Section FrcDispatchFacts.

Variable rtc_clk_to_us : Z -> Z -> Z.
Variable cb_body : rtt_cb_t -> Z -> list api_call.

Let drv := Esp8266.frc_drv rtc_clk_to_us.
Let isr := Esp8266._frc_isr rtc_clk_to_us cb_body.

Lemma frc_registration_update_alarm (c : Z) (h : Frc.frc_t) :
  frc_registration (Frc._update_alarm c h) = frc_registration h.
Proof.
  unfold Frc._update_alarm.
  now destruct (Rtt.is_set _ && _).
Qed.

(** [_frc_isr] with a matching alarm: it is the handler run from the
    detached state, followed by [_update_alarm]. *)
Lemma frc_isr_unfold (s : Rtt.rtt_t Frc.frc_t) :
  let a := Frc._frc_alarm (Rtt.hw s) in
  Frc.active a = Frc.alarm_set a ->
  Frc.alarm_cb a = Some RTT_ISR ->
  isr s
  = Rtt.with_hw
      (Frc._update_alarm
         (Frc.count (Frc.frc2 (Rtt.hw s)) mod Frc.FRC_OVERFLOW))
      (Rtt._rtt_isr drv cb_body (frc_detached s)).
Proof.
  cbn zeta. intros Ha Hcb.
  unfold isr, Esp8266._frc_isr, Frc._frc_isr, frc_detached.
  destruct (Frc.active (Frc._frc_alarm (Rtt.hw s)) =? 0);
    cbn [Rtt.with_hw Rtt.hw Frc.with_frc2 Frc._frc_alarm];
    rewrite Ha, Hcb, Z.eqb_refl; reflexivity.
Qed.

Lemma frc_isr_detaches_first (s : Rtt.rtt_t Frc.frc_t) (cb : rtt_cb_t)
    (pre : list api_call) (v' : Z) (cb' : option rtt_cb_t) (arg' : Z) :
  let a := Frc._frc_alarm (Rtt.hw s) in
  let c := Rtt.rtt_counter s in
  Frc.active a = Frc.alarm_set a ->
  Frc.alarm_cb a = Some RTT_ISR ->
  Rtt.alarm_active c = Rtt.alarm c ->
  Rtt.alarm_active c <> 0 ->
  Rtt.alarm_cb c = Some cb ->
  cb_body cb (Rtt.alarm_arg c) = pre ++ [Call_set_alarm v' cb' arg'] ->
  frc_registration (Rtt.hw (frc_detached s)) = (Frc.alarm_set a, None, NULL) /\
  registration (isr s) = (v', cb', arg') /\
  Rtt.invoked (isr s) = Rtt.invoked s ++ [AlarmCb cb (Rtt.alarm_arg c)] /\
  frc_registration (Rtt.hw (isr s))
  = frc_registration (Rtt.hw (Rtt._rtt_isr drv cb_body (frc_detached s))) /\
  (cb' <> None ->
   Frc.alarm_cb (Frc._frc_alarm (Rtt.hw (isr s))) = Some RTT_ISR).
Proof.
  cbn zeta. intros Ha Hcb Hfired Hnz Hacb Hbody.
  rewrite (frc_isr_unfold s Ha Hcb).
  set (d := frc_detached s).
  assert (Hcore : Rtt.rtt_counter d = Rtt.rtt_counter s).
  { unfold d, frc_detached.
    now destruct (Frc.active (Frc._frc_alarm (Rtt.hw s)) =? 0). }
  assert (Hinv : Rtt.invoked d = Rtt.invoked s).
  { unfold d, frc_detached.
    now destruct (Frc.active (Frc._frc_alarm (Rtt.hw s)) =? 0). }
  assert (Hdis : detach_before_invoke drv cb_body d cb v' cb' arg').
  { apply (dispatch_detaches_first drv cb_body d cb pre);
      rewrite Hcore; assumption. }
  destruct Hdis as (_ & _ & Hi & Hreg & _ & _ & Hend & _).
  rewrite Hcore in Hi, Hend, Hreg. specialize (Hend Hnz).
  rewrite Hinv in Hi.
  split.
  { unfold d, frc_detached.
    now destruct (Frc.active (Frc._frc_alarm (Rtt.hw s)) =? 0). }
  split.
  { change (registration (Rtt.with_hw ?f ?x)) with (registration x).
    rewrite Hend; exact Hreg. }
  split.
  { change (Rtt.invoked (Rtt.with_hw ?f ?x)) with (Rtt.invoked x).
    rewrite Hend; exact Hi. }
  cbn [Rtt.with_hw Rtt.hw]. rewrite frc_registration_update_alarm.
  split; [reflexivity|].
  intros Hcb'.
  assert (E : Frc.alarm_cb (Frc._frc_alarm
                (Rtt.hw (Rtt._rtt_isr drv cb_body d))) = Some RTT_ISR).
  { rewrite Hend. unfold Rtt.call_alarm_cb.
    rewrite Hbody, run_calls_app.
    cbn [Rtt.run_calls fold_left Rtt.api_step].
    set (x := Rtt.run_calls drv pre _).
    pose proof (update_selected drv frc_armed_for frc_disarmed
                  (frc_laws rtc_clk_to_us)
                  (Rtt.with_rtt_counter (Rtt.put_alarm v' cb' arg') x)) as Hsel.
    fold (Rtt.rtt_set_alarm drv v' cb' arg' x) in Hsel.
    pose proof (registration_set_alarm drv v' cb' arg' x) as Hr.
    unfold registration in Hr. injection Hr as _ Hr _.
    destruct Hsel as [(_ & _ & _ & Harm) | [(_ & _ & _ & _ & Harm)
                                          | (Hnext & Hov & _)]].
    - apply Harm.
    - apply Harm.
    - exfalso. apply Hnext. split; [congruence | now right]. }
  pose proof (frc_registration_update_alarm
    (Frc.count (Frc.frc2 (Rtt.hw s)) mod Frc.FRC_OVERFLOW)
    (Rtt.hw (Rtt._rtt_isr drv cb_body d))) as Hk.
  unfold frc_registration in Hk. injection Hk as _ Hk _.
  now rewrite Hk.
Qed.

(** The same for any fired value, when the overflow callback leaves the
    alarm slot alone. *)
Lemma frc_isr_keeps_rearmed (s : Rtt.rtt_t Frc.frc_t) (cb : rtt_cb_t)
    (pre : list api_call) (v' : Z) (cb' : option rtt_cb_t) (arg' : Z) :
  let a := Frc._frc_alarm (Rtt.hw s) in
  let c := Rtt.rtt_counter s in
  Frc.active a = Frc.alarm_set a ->
  Frc.alarm_cb a = Some RTT_ISR ->
  Rtt.alarm_active c = Rtt.alarm c ->
  Rtt.alarm_cb c = Some cb ->
  cb_body cb (Rtt.alarm_arg c) = pre ++ [Call_set_alarm v' cb' arg'] ->
  overflow_leaves_alarm cb_body
    (Rtt.call_alarm_cb drv cb_body cb (Rtt.alarm_arg c)
       (detached drv (frc_detached s))) ->
  registration (isr s) = (v', cb', arg').
Proof.
  cbn zeta. intros Ha Hcb Hfired Hacb Hbody Hov.
  rewrite (frc_isr_unfold s Ha Hcb).
  assert (Hcore : Rtt.rtt_counter (frc_detached s) = Rtt.rtt_counter s).
  { unfold frc_detached.
    now destruct (Frc.active (Frc._frc_alarm (Rtt.hw s)) =? 0). }
  assert (Hdis : detach_before_invoke drv cb_body (frc_detached s)
                   cb v' cb' arg').
  { apply (dispatch_detaches_first drv cb_body (frc_detached s) cb pre);
      rewrite Hcore; assumption. }
  destruct Hdis as (_ & _ & _ & _ & _ & _ & _ & _ & Hend).
  rewrite Hcore in Hend.
  change (registration (Rtt.with_hw ?f ?x)) with (registration x).
  exact (Hend Hov).
Qed.

End FrcDispatchFacts.

(** [_frc_isr] with a matching alarm and any function behind the
    registered pointer: the function is called on the detached state, and
    [_update_alarm] runs on what it returns. *)
Lemma frc_isr_calls_detached
    (handler : isr_t -> Z -> Rtt.rtt_t Frc.frc_t -> Rtt.rtt_t Frc.frc_t)
    (f : isr_t) (s : Rtt.rtt_t Frc.frc_t) :
  let a := Frc._frc_alarm (Rtt.hw s) in
  Frc.active a = Frc.alarm_set a ->
  Frc.alarm_cb a = Some f ->
  frc_registration (Rtt.hw (frc_detached s)) = (Frc.alarm_set a, None, NULL) /\
  Frc._frc_isr handler s
  = Rtt.with_hw
      (Frc._update_alarm
         (Frc.count (Frc.frc2 (Rtt.hw s)) mod Frc.FRC_OVERFLOW))
      (handler f (Frc.alarm_arg a) (frc_detached s)).
Proof.
  cbn zeta. intros Ha Hcb. split.
  - unfold frc_detached.
    now destruct (Frc.active (Frc._frc_alarm (Rtt.hw s)) =? 0).
  - unfold Frc._frc_isr, frc_detached.
    destruct (Frc.active (Frc._frc_alarm (Rtt.hw s)) =? 0);
      cbn [Rtt.with_hw Rtt.hw Frc.with_frc2 Frc._frc_alarm];
      rewrite Ha, Hcb, Z.eqb_refl; reflexivity.
Qed.

(** A function that leaves the alarm configuration of the backend as it
    finds it is not registered any more when [_frc_isr] returns. *)
Lemma frc_isr_leaves_detached
    (handler : isr_t -> Z -> Rtt.rtt_t Frc.frc_t -> Rtt.rtt_t Frc.frc_t)
    (f : isr_t) (s : Rtt.rtt_t Frc.frc_t) :
  let a := Frc._frc_alarm (Rtt.hw s) in
  Frc.active a = Frc.alarm_set a ->
  Frc.alarm_cb a = Some f ->
  (forall g arg x,
      frc_registration (Rtt.hw (handler g arg x))
      = frc_registration (Rtt.hw x)) ->
  frc_registration (Rtt.hw (Frc._frc_isr handler s))
  = (Frc.alarm_set a, None, NULL).
Proof.
  cbn zeta. intros Ha Hcb Hkeep.
  destruct (frc_isr_calls_detached handler f s Ha Hcb) as [Hd ->].
  cbn [Rtt.with_hw Rtt.hw].
  now rewrite frc_registration_update_alarm, Hkeep.
Qed.

(** C5.  When the interrupt is dispatched with the fired value equal to the
    alarm given at the interface and an alarm callback registered,
    [_rtt_isr] takes the callback and its argument out of the state (alarm
    value 0, no callback, no argument) before it calls the callback.  A
    callback that ends by calling [rtt_set_alarm] therefore finds its
    registration in the state when it returns; the only thing the dispatch
    does afterwards to the alarm state is the selection of the overflow
    path, which keeps the registration, and for a fired value other than 0
    the dispatch is over when the callback returns.  For the fired value 0
    the overflow path then runs the selection and the overflow callback,
    and the slot still holds the new registration when [_rtt_isr] returns,
    unless the overflow callback itself writes the slot.  On the FRC2
    backend [_frc_isr] likewise takes the handler out of its alarm
    configuration before calling it: whatever function is behind the
    registered pointer, it is called on the state with the pointer and its
    argument removed, only [_update_alarm] runs afterwards, and a function
    that leaves the alarm configuration alone is not registered any more
    when [_frc_isr] returns.  With [_rtt_isr] behind the pointer, the
    closing [_update_alarm] keeps what the dispatch has registered, for the
    fired value 0 as well when the overflow callback leaves the slot
    alone. *)
Theorem alarm_detached_before_callback (rtc_clk_to_us : Z -> Z -> Z)
    (cb_body : rtt_cb_t -> Z -> list api_call) (cb : rtt_cb_t)
    (pre : list api_call) (v' : Z) (cb' : option rtt_cb_t) (arg' : Z) :
  (forall (H : Type) (drv : rtt_hw_driver_t H) (s : Rtt.rtt_t H),
      Rtt.alarm_active (Rtt.rtt_counter s) = Rtt.alarm (Rtt.rtt_counter s) ->
      Rtt.alarm_cb (Rtt.rtt_counter s) = Some cb ->
      cb_body cb (Rtt.alarm_arg (Rtt.rtt_counter s))
      = pre ++ [Call_set_alarm v' cb' arg'] ->
      detach_before_invoke drv cb_body s cb v' cb' arg') /\
  (forall s : Rtt.rtt_t Frc.frc_t,
      let a := Frc._frc_alarm (Rtt.hw s) in
      let c := Rtt.rtt_counter s in
      let s' := Esp8266._frc_isr rtc_clk_to_us cb_body s in
      Frc.active a = Frc.alarm_set a ->
      Frc.alarm_cb a = Some RTT_ISR ->
      Rtt.alarm_active c = Rtt.alarm c ->
      Rtt.alarm_active c <> 0 ->
      Rtt.alarm_cb c = Some cb ->
      cb_body cb (Rtt.alarm_arg c) = pre ++ [Call_set_alarm v' cb' arg'] ->
      frc_registration (Rtt.hw (frc_detached s))
      = (Frc.alarm_set a, None, NULL) /\
      registration s' = (v', cb', arg') /\
      Rtt.invoked s' = Rtt.invoked s ++ [AlarmCb cb (Rtt.alarm_arg c)] /\
      frc_registration (Rtt.hw s')
      = frc_registration
          (Rtt.hw (Rtt._rtt_isr (Esp8266.frc_drv rtc_clk_to_us) cb_body
                     (frc_detached s))) /\
      (cb' <> None ->
       Frc.alarm_cb (Frc._frc_alarm (Rtt.hw s')) = Some RTT_ISR)) /\
  (forall s : Rtt.rtt_t Frc.frc_t,
      let a := Frc._frc_alarm (Rtt.hw s) in
      let c := Rtt.rtt_counter s in
      let drv := Esp8266.frc_drv rtc_clk_to_us in
      Frc.active a = Frc.alarm_set a ->
      Frc.alarm_cb a = Some RTT_ISR ->
      Rtt.alarm_active c = Rtt.alarm c ->
      Rtt.alarm_cb c = Some cb ->
      cb_body cb (Rtt.alarm_arg c) = pre ++ [Call_set_alarm v' cb' arg'] ->
      overflow_leaves_alarm cb_body
        (Rtt.call_alarm_cb drv cb_body cb (Rtt.alarm_arg c)
           (detached drv (frc_detached s))) ->
      registration (Esp8266._frc_isr rtc_clk_to_us cb_body s)
      = (v', cb', arg')) /\
  (forall (handler : isr_t -> Z -> Rtt.rtt_t Frc.frc_t -> Rtt.rtt_t Frc.frc_t)
          (f : isr_t) (s : Rtt.rtt_t Frc.frc_t),
      let a := Frc._frc_alarm (Rtt.hw s) in
      Frc.active a = Frc.alarm_set a ->
      Frc.alarm_cb a = Some f ->
      (frc_registration (Rtt.hw (frc_detached s))
       = (Frc.alarm_set a, None, NULL) /\
       Frc._frc_isr handler s
       = Rtt.with_hw
           (Frc._update_alarm
              (Frc.count (Frc.frc2 (Rtt.hw s)) mod Frc.FRC_OVERFLOW))
           (handler f (Frc.alarm_arg a) (frc_detached s))) /\
      ((forall g arg x,
           frc_registration (Rtt.hw (handler g arg x))
           = frc_registration (Rtt.hw x)) ->
       frc_registration (Rtt.hw (Frc._frc_isr handler s))
       = (Frc.alarm_set a, None, NULL))).
Proof.
  split; [|split; [|split]].
  - intros H drv s. apply dispatch_detaches_first.
  - intros s. apply frc_isr_detaches_first.
  - intros s. apply frc_isr_keeps_rearmed.
  - intros handler f s a Ha Hcb. split.
    + exact (frc_isr_calls_detached handler f s Ha Hcb).
    + exact (frc_isr_leaves_detached handler f s Ha Hcb).
Qed.

Lemma alarm_detached_before_callback_witness :
  detach_before_invoke Sample.sys_drv Sample.rearming
    Sample.sys_alarm_passed 1%nat 9000 (Some 2%nat) 43 /\
  registration
    (Rtt._rtt_isr Sample.sys_drv Sample.rearming Sample.sys_alarm_at_wrap)
  = (9000, Some 2%nat, 43) /\
  registration
    (Esp8266._frc_isr Sample.rtc_clk_to_us Sample.rearming Sample.frc_alarm_due)
  = (9000, Some 2%nat, 43) /\
  frc_registration
    (Rtt.hw (Frc._frc_isr (fun _ _ x => x) Sample.frc_alarm_due))
  = (1562, None, NULL).
Proof.
  destruct (alarm_detached_before_callback Sample.rtc_clk_to_us
              Sample.rearming 1%nat [] 9000 (Some 2%nat) 43)
    as (Hc & Hf & _ & Hh).
  split; [|split; [|split]].
  - apply Hc; reflexivity.
  - destruct (Hc _ Sample.sys_drv Sample.sys_alarm_at_wrap
                eq_refl eq_refl eq_refl)
      as (_ & _ & _ & _ & _ & _ & _ & _ & Hend).
    apply Hend. reflexivity.
  - apply Hf; try reflexivity. vm_compute. discriminate.
  - apply (Hh (fun _ _ x => x) RTT_ISR Sample.frc_alarm_due);
      reflexivity.
Defined.

(** ** Clearing an alarm *)

Lemma run_succ {S : Type} (step : S -> S) (n : nat) (s : S) :
  Esp8266.run step (Datatypes.S n) s = step (Esp8266.run step n s).
Proof.
  revert s. induction n as [|n IH]; intros s; [reflexivity|].
  change (Esp8266.run step (Datatypes.S (Datatypes.S n)) s)
    with (Esp8266.run step (Datatypes.S n) (step s)).
  now rewrite IH.
Qed.

Lemma all_along_run {S : Type} (check : S -> bool) (step : S -> S)
    (n : nat) (s : S) :
  all_along check step n s = true ->
  forall k, (k <= n)%nat -> check (Esp8266.run step k s) = true.
Proof.
  revert s. induction n as [|n IH]; intros s Hall k Hk;
    cbn [all_along] in Hall; apply andb_true_iff in Hall as [Hs Hn].
  - now replace k with O by lia.
  - destruct k as [|k]; [exact Hs|].
    cbn [Esp8266.run]. apply IH; [exact Hn | lia].
Qed.

Section ClearingFacts.

Context {H : Type}.
Variable drv : rtt_hw_driver_t H.
Variable cb_body : rtt_cb_t -> Z -> list api_call.

(** No callback puts a callback into the alarm slot. *)
Hypothesis no_rearm : forall cb arg, existsb rearms (cb_body cb arg) = false.

Lemma alarm_cb_update (s : Rtt.rtt_t H) :
  Rtt.alarm_cb (Rtt.rtt_counter (Rtt._rtt_update_hw_alarm drv s))
  = Rtt.alarm_cb (Rtt.rtt_counter s).
Proof. apply (update_keeps_interface drv s). Qed.

Lemma api_step_keeps_empty (c : api_call) (s : Rtt.rtt_t H) :
  rearms c = false ->
  Rtt.alarm_cb (Rtt.rtt_counter s) = None ->
  Rtt.alarm_cb (Rtt.rtt_counter (Rtt.api_step drv c s)) = None.
Proof.
  intros Hc Hs.
  destruct c as [v [cb|] arg| |cb arg| |v]; try discriminate;
    cbn [Rtt.api_step]; rtt_unfold; rewrite alarm_cb_update;
    rtt_fields; auto.
Qed.

Lemma run_calls_keeps_empty (cs : list api_call) (s : Rtt.rtt_t H) :
  existsb rearms cs = false ->
  Rtt.alarm_cb (Rtt.rtt_counter s) = None ->
  Rtt.alarm_cb (Rtt.rtt_counter (Rtt.run_calls drv cs s)) = None.
Proof.
  revert s. induction cs as [|c cs IH]; intros s Hcs Hs; [exact Hs|].
  cbn [existsb] in Hcs. apply orb_false_iff in Hcs as [Hc Hcs].
  cbn [Rtt.run_calls fold_left].
  apply (IH (Rtt.api_step drv c s) Hcs).
  now apply api_step_keeps_empty.
Qed.

Lemma alarm_invocations_overflow (cb : rtt_cb_t) (arg : Z) (s : Rtt.rtt_t H) :
  alarm_invocations (Rtt.record_invocation (OverflowCb cb arg) s)
  = alarm_invocations s.
Proof.
  unfold alarm_invocations. rtt_fields.
  rewrite filter_app. cbn. apply app_nil_r.
Qed.

(** With an empty alarm slot a dispatch calls nothing from the alarm call
    site and leaves the slot empty. *)
Lemma isr_keeps_empty (s : Rtt.rtt_t H) :
  Rtt.alarm_cb (Rtt.rtt_counter s) = None ->
  Rtt.alarm_cb (Rtt.rtt_counter (Rtt._rtt_isr drv cb_body s)) = None /\
  alarm_invocations (Rtt._rtt_isr drv cb_body s) = alarm_invocations s.
Proof.
  intros Hs. unfold Rtt._rtt_isr.
  set (fired := Rtt.alarm_active (Rtt.rtt_counter s)).
  set (s0 := if Rtt.wakeup (Rtt.rtt_counter s) then _ else s).
  assert (H0 : Rtt.alarm_cb (Rtt.rtt_counter s0) = None)
    by (unfold s0; now destruct (Rtt.wakeup (Rtt.rtt_counter s))).
  assert (I0 : alarm_invocations s0 = alarm_invocations s)
    by (unfold s0; now destruct (Rtt.wakeup (Rtt.rtt_counter s))).
  assert (Ea : Rtt.isr_alarm_path drv cb_body fired s0 = s0).
  { unfold Rtt.isr_alarm_path. rewrite H0. cbn [Rtt.is_set].
    now rewrite andb_false_r. }
  rewrite Ea. unfold Rtt.isr_overflow_path.
  destruct (fired =? 0); [| now split].
  set (u := Rtt._rtt_update_hw_alarm drv s0).
  assert (Hu : Rtt.alarm_cb (Rtt.rtt_counter u) = None)
    by (unfold u; now rewrite alarm_cb_update).
  assert (Iu : alarm_invocations u = alarm_invocations s)
    by (unfold u, alarm_invocations; now rewrite invoked_update).
  destruct (Rtt.overflow_cb (Rtt.rtt_counter u)) as [ocb|]; [| now split].
  unfold Rtt.call_overflow_cb. split.
  - apply run_calls_keeps_empty; [apply no_rearm | exact Hu].
  - unfold alarm_invocations at 1. rewrite run_calls_invoked.
    fold (alarm_invocations
            (Rtt.record_invocation
               (OverflowCb ocb (Rtt.overflow_arg (Rtt.rtt_counter u))) u)).
    now rewrite alarm_invocations_overflow.
Qed.

Lemma run_events_keeps_empty (es : list event) (s : Rtt.rtt_t H) :
  Rtt.alarm_cb (Rtt.rtt_counter s) = None ->
  Rtt.alarm_cb (Rtt.rtt_counter (run_events drv cb_body es s)) = None /\
  alarm_invocations (run_events drv cb_body es s) = alarm_invocations s.
Proof.
  revert s. induction es as [|e es IH]; intros s Hs; [now split|].
  cbn [run_events fold_left].
  change (fold_left (step_event drv cb_body) es ?x)
    with (run_events drv cb_body es x).
  destruct e as [|f]; cbn [step_event].
  - destruct (isr_keeps_empty s Hs) as [He Hi].
    destruct (IH _ He) as [He' Hi']. split; [exact He' | congruence].
  - apply (IH (Rtt.with_hw f s)). exact Hs.
Qed.

Lemma run_events_hw_only (fs : list (H -> H)) (s : Rtt.rtt_t H) :
  let s' := run_events drv cb_body (map Ev_hw fs) s in
  Rtt.rtt_counter s' = Rtt.rtt_counter s /\ Rtt.invoked s' = Rtt.invoked s.
Proof.
  revert s. induction fs as [|f fs IH]; intros s; [now split|].
  cbn [map run_events fold_left step_event].
  apply (IH (Rtt.with_hw f s)).
Qed.

Lemma cleared_alarm_never_fires (s0 : Rtt.rtt_t H) (v : Z) (cb : rtt_cb_t)
    (arg : Z) (before : list (H -> H)) (after : list event) :
  cleared_before_dispatch drv cb_body s0 v cb arg before after.
Proof.
  unfold cleared_before_dispatch. cbn zeta.
  set (s1 := Rtt.rtt_set_alarm drv v (Some cb) arg s0).
  set (s2 := run_events drv cb_body (map Ev_hw before) s1).
  set (s3 := Rtt.rtt_clear_alarm drv s2).
  assert (H3 : Rtt.alarm_cb (Rtt.rtt_counter s3) = None).
  { pose proof (registration_clear_alarm drv s2) as Hr.
    unfold registration in Hr. now injection Hr. }
  destruct (run_events_keeps_empty after s3 H3) as [He Hi].
  split; [| exact He].
  rewrite Hi. unfold alarm_invocations, s3.
  rewrite invoked_clear_alarm.
  destruct (run_events_hw_only before s1) as [_ Hb]. fold s2 in Hb.
  rewrite Hb.
  unfold s1, Rtt.rtt_set_alarm. now rewrite invoked_update.
Qed.

End ClearingFacts.

(** *** The timers at work are sequences of events *)

Section TickFacts.

Variable rtc_clk_to_us : Z -> Z -> Z.
Variable cb_body : rtt_cb_t -> Z -> list api_call.

Let sdrv := Esp8266.sys_drv rtc_clk_to_us.
Let fdrv := Esp8266.frc_drv rtc_clk_to_us.
Let sys_tick := Esp8266.sys_tick rtc_clk_to_us cb_body.
Let frc_tick := Esp8266.frc_tick rtc_clk_to_us cb_body.
Let frc_isr := Esp8266._frc_isr rtc_clk_to_us cb_body.

Lemma run_events_app {H : Type} (drv : rtt_hw_driver_t H)
    (es fs : list event) (s : Rtt.rtt_t H) :
  run_events drv cb_body (es ++ fs) s
  = run_events drv cb_body fs (run_events drv cb_body es s).
Proof. unfold run_events. apply fold_left_app. Qed.

Lemma sys_tick_events (s : Rtt.rtt_t Sys.sys_t) :
  exists es, sys_tick s = run_events sdrv cb_body es s.
Proof.
  unfold sys_tick, Esp8266.sys_tick, Sys.tick.
  set (f1 := fun h => Sys.with_system_time _ h).
  destruct (Sys.queued (Sys._sys_timer (Rtt.hw (Rtt.with_hw f1 s))))
    as [d|] eqn:Eq.
  - destruct (d <=? 1).
    + unfold Sys.xtimer_shoot.
      set (f2 := Sys.with_timer _).
      destruct (Sys.callback (Sys._sys_timer (Rtt.hw (Rtt.with_hw f1 s))))
        as [[]|].
      * now exists [Ev_hw f1; Ev_hw f2; Ev_interrupt].
      * now exists [Ev_hw f1; Ev_hw f2].
    + set (f3 := Sys.with_timer _).
      now exists [Ev_hw f1; Ev_hw f3].
  - now exists [Ev_hw f1].
Qed.

Lemma frc_isr_events (s : Rtt.rtt_t Frc.frc_t) :
  exists es, frc_isr s = run_events fdrv cb_body es s.
Proof.
  unfold frc_isr, Esp8266._frc_isr, Frc._frc_isr.
  set (c := Frc.count (Frc.frc2 (Rtt.hw s)) mod Frc.FRC_OVERFLOW).
  set (f0 := Frc.with_frc2 (Frc.write_load c)).
  set (f2 := Frc._update_alarm c).
  set (f1 := Frc.with_frc_alarm (Frc.put_cb None NULL)).
  set (s0 := if Frc.active _ =? 0 then _ else s).
  assert (E0 : exists es0, s0 = run_events fdrv cb_body es0 s).
  { unfold s0. destruct (Frc.active _ =? 0).
    - now exists [Ev_hw f0].
    - now exists []. }
  destruct E0 as [es0 E0].
  destruct (_ && _).
  - destruct (Frc.alarm_cb (Frc._frc_alarm (Rtt.hw s0))) as [[]|].
    + exists (es0 ++ [Ev_hw f1; Ev_interrupt; Ev_hw f2]).
      rewrite run_events_app, <- E0. reflexivity.
    + exists (es0 ++ [Ev_hw f1; Ev_hw f2]).
      rewrite run_events_app, <- E0. reflexivity.
  - exists (es0 ++ [Ev_hw f2]).
    rewrite run_events_app, <- E0. reflexivity.
Qed.

Lemma frc_tick_events (s : Rtt.rtt_t Frc.frc_t) :
  exists es, frc_tick s = run_events fdrv cb_body es s.
Proof.
  unfold frc_tick, Esp8266.frc_tick, Frc.tick.
  destruct (Frc.ctrl_enable (Frc.frc2 (Rtt.hw s))); [| now exists []].
  set (f := Frc.with_frc2 _).
  destruct (_ && _).
  - destruct (frc_isr_events (Rtt.with_hw f s)) as [es Hes].
    exists (Ev_hw f :: es). exact Hes.
  - now exists [Ev_hw f].
Qed.

Lemma run_tick_events {H : Type} (drv : rtt_hw_driver_t H)
    (tick : Rtt.rtt_t H -> Rtt.rtt_t H) :
  (forall s, exists es, tick s = run_events drv cb_body es s) ->
  forall n s, exists es, Esp8266.run tick n s = run_events drv cb_body es s.
Proof.
  intros Ht n. induction n as [|n IH]; intros s.
  - now exists [].
  - destruct (Ht s) as [es Hes]. destruct (IH (tick s)) as [fs Hfs].
    exists (es ++ fs). cbn [Esp8266.run].
    now rewrite Hfs, Hes, run_events_app.
Qed.

(** *** The system-time backend waits for the whole distance *)

Lemma sys_counter_reading (s : Rtt.rtt_t Sys.sys_t) :
  Rtt.rtt_get_counter sdrv s
  = u32 (Sys.system_time (Rtt.hw s) + Sys._sys_counter_offset (Rtt.hw s)
         + Rtt._rtt_offset s).
Proof.
  unfold Rtt.rtt_get_counter.
  cbn [sdrv Esp8266.sys_drv Sys._rtt_hw_sys_driver get_counter].
  unfold Sys._sys_get_counter.
  rewrite SYS_US_TO_COUNT_id by apply u32_range.
  now rewrite u32_add_l.
Qed.

Lemma sys_set_alarm_queued (s0 : Rtt.rtt_t Sys.sys_t) (v : Z)
    (cb : rtt_cb_t) (arg : Z) :
  0 <= v < 2 ^ 32 ->
  Rtt.rtt_get_counter sdrv s0 < v ->
  let s1 := Rtt.rtt_set_alarm sdrv v (Some cb) arg s0 in
  Sys.queued (Sys._sys_timer (Rtt.hw s1))
  = Some (v - Rtt.rtt_get_counter sdrv s0) /\
  Rtt.rtt_get_counter sdrv s1 = Rtt.rtt_get_counter sdrv s0 /\
  Rtt.invoked s1 = Rtt.invoked s0.
Proof.
  intros Hv Hc. cbn zeta.
  split; [| split].
  - unfold Rtt.rtt_set_alarm, Rtt._rtt_update_hw_alarm.
    set (m := Rtt.with_rtt_counter _ s0).
    change (Rtt.rtt_get_counter sdrv m) with (Rtt.rtt_get_counter sdrv s0).
    change (Rtt.alarm (Rtt.rtt_counter m)) with v.
    change (Rtt.alarm_cb (Rtt.rtt_counter m)) with (Some cb).
    rewrite (proj2 (Z.ltb_lt _ _) Hc). cbn [Rtt.is_set andb orb].
    rewrite sys_counter_reading in *.
    set (t := Sys.system_time (Rtt.hw s0)) in *.
    set (o := Sys._sys_counter_offset (Rtt.hw s0)) in *.
    set (r := Rtt._rtt_offset s0) in *.
    cbn [Rtt.with_rtt_counter Rtt.with_hw Rtt.hw Rtt._rtt_offset
         sdrv Esp8266.sys_drv Sys._rtt_hw_sys_driver set_alarm].
    unfold Sys._sys_set_alarm.
    cbn [Sys.with_timer Sys._sys_timer Sys.xtimer_set Sys.queued].
    f_equal. rewrite SYS_COUNT_TO_US_id by apply u32_range.
    unfold Sys._sys_get_counter.
    rewrite SYS_US_TO_COUNT_id by apply u32_range.
    change (Rtt._rtt_offset m) with r. change (Rtt.hw m) with (Rtt.hw s0).
    fold t o.
    rewrite u32_sub_l, u32_sub_r.
    replace (v - r - (t + o)) with (v - (t + o + r)) by lia.
    rewrite <- u32_sub_r.
    apply u32_small. pose proof (u32_range (t + o + r)). lia.
  - unfold Rtt.rtt_set_alarm.
    now rewrite (update_keeps_counter sdrv sys_armed_for sys_disarmed
                   (sys_laws rtc_clk_to_us)).
  - unfold Rtt.rtt_set_alarm. now rewrite invoked_update.
Qed.

Lemma sys_tick_waiting (s : Rtt.rtt_t Sys.sys_t) (d : Z) :
  Sys.queued (Sys._sys_timer (Rtt.hw s)) = Some d ->
  1 < d ->
  let s' := sys_tick s in
  Sys.queued (Sys._sys_timer (Rtt.hw s')) = Some (d - 1) /\
  Rtt.rtt_get_counter sdrv s' = u32 (Rtt.rtt_get_counter sdrv s + 1) /\
  Rtt.invoked s' = Rtt.invoked s /\
  Rtt.rtt_counter s' = Rtt.rtt_counter s.
Proof.
  intros Hq Hd. cbn zeta.
  unfold sys_tick, Esp8266.sys_tick, Sys.tick.
  cbn [Rtt.with_hw Rtt.hw Sys.with_system_time Sys._sys_timer].
  rewrite Hq.
  assert (E : (d <=? 1) = false) by (apply Z.leb_gt; lia).
  rewrite E. repeat split.
  rewrite !sys_counter_reading.
  cbn [Rtt.with_hw Rtt.hw Rtt._rtt_offset Sys.with_timer
       Sys.with_system_time Sys.system_time Sys._sys_counter_offset].
  rewrite <- Z.add_assoc, !u32_add_l. f_equal. lia.
Qed.

Lemma sys_run_waiting (m : nat) (s : Rtt.rtt_t Sys.sys_t) (d : Z) :
  Sys.queued (Sys._sys_timer (Rtt.hw s)) = Some d ->
  Z.of_nat m < d ->
  let s' := Esp8266.run sys_tick m s in
  Sys.queued (Sys._sys_timer (Rtt.hw s')) = Some (d - Z.of_nat m) /\
  Rtt.rtt_get_counter sdrv s'
  = u32 (Rtt.rtt_get_counter sdrv s + Z.of_nat m) /\
  Rtt.invoked s' = Rtt.invoked s /\
  Rtt.rtt_counter s' = Rtt.rtt_counter s.
Proof.
  revert s d. induction m as [|m IH]; intros s d Hq Hd; cbn zeta.
  - cbn [Esp8266.run]. rewrite Z.sub_0_r, Z.add_0_r.
    repeat split; [exact Hq|].
    unfold Rtt.rtt_get_counter. now rewrite u32_idem.
  - cbn [Esp8266.run].
    destruct (sys_tick_waiting s d Hq) as (Hq1 & Hc1 & Hi1 & Hr1); [lia|].
    destruct (IH (sys_tick s) (d - 1) Hq1) as (Hq2 & Hc2 & Hi2 & Hr2); [lia|].
    rewrite Hq2, Hc2, Hi2, Hr2, Hc1, Hi1, Hr1.
    repeat split.
    + f_equal. lia.
    + rewrite u32_add_l. f_equal. lia.
Qed.

(** *** The FRC2 backend waits for the alarm tick *)

Lemma frc_set_alarm_target (s0 : Rtt.rtt_t Frc.frc_t) (v : Z)
    (cb : rtt_cb_t) (arg : Z) :
  let target :=
    Frc.FRC_US_TO_COUNTER (u32 (v - Rtt._rtt_offset s0)) mod Frc.FRC_OVERFLOW in
  let s1 := Rtt.rtt_set_alarm fdrv v (Some cb) arg s0 in
  Rtt.rtt_get_counter fdrv s0 < v ->
  Frc.count (Frc.frc2 (Rtt.hw s0)) < target ->
  Frc.alarm (Frc.frc2 (Rtt.hw s1)) = target /\
  Frc.count (Frc.frc2 (Rtt.hw s1)) = Frc.count (Frc.frc2 (Rtt.hw s0)) /\
  Rtt.invoked s1 = Rtt.invoked s0.
Proof.
  cbn zeta. intros Hc Ht.
  unfold Rtt.rtt_set_alarm, Rtt._rtt_update_hw_alarm.
  set (m := Rtt.with_rtt_counter _ s0).
  change (Rtt.rtt_get_counter fdrv m) with (Rtt.rtt_get_counter fdrv s0).
  change (Rtt.alarm (Rtt.rtt_counter m)) with v.
  change (Rtt.alarm_cb (Rtt.rtt_counter m)) with (Some cb).
  rewrite (proj2 (Z.ltb_lt _ _) Hc). cbn [Rtt.is_set andb orb].
  cbn [Rtt.with_rtt_counter Rtt.with_hw Rtt.hw Rtt._rtt_offset Rtt.invoked
       fdrv Esp8266.frc_drv Frc._rtt_hw_frc_driver set_alarm].
  change (Rtt._rtt_offset m) with (Rtt._rtt_offset s0).
  change (Rtt.hw m) with (Rtt.hw s0).
  split; [| split; [| reflexivity]].
  - destruct (armed_set_alarm _ _ _ (frc_laws rtc_clk_to_us)
                (u32 (v - Rtt._rtt_offset s0)) (Rtt.hw s0))
      as (_ & _ & _ & _ & Hal).
    cbn [Esp8266.frc_drv Frc._rtt_hw_frc_driver set_alarm] in Hal.
    rewrite Hal. unfold Frc._frc_set_alarm.
    rewrite frc_update_alarm_count.
    cbn [Frc.with_frc_alarm Frc.frc2].
    now rewrite (proj2 (Z.ltb_lt _ _) Ht).
  - unfold Frc._frc_set_alarm. now rewrite frc_update_alarm_count.
Qed.

Lemma frc_run_waiting (m : nat) (s : Rtt.rtt_t Frc.frc_t) :
  let r := Frc.frc2 (Rtt.hw s) in
  0 <= Frc.count r ->
  Frc.count r + Z.of_nat m < Frc.alarm r ->
  Frc.alarm r < 2 ^ 32 ->
  Rtt.invoked (Esp8266.run frc_tick m s) = Rtt.invoked s.
Proof.
  revert s. induction m as [|m IH]; intros s; cbn zeta; intros H0 Hm Ha;
    [reflexivity|].
  cbn [Esp8266.run].
  assert (Ht : frc_tick s = s \/
               frc_tick s
               = Rtt.with_hw
                   (Frc.with_frc2
                      (Frc.write_count (Frc.count (Frc.frc2 (Rtt.hw s)) + 1))) s).
  { unfold frc_tick, Esp8266.frc_tick, Frc.tick.
    destruct (Frc.ctrl_enable (Frc.frc2 (Rtt.hw s))); [| now left].
    right. rewrite u32_small by lia.
    cbn [Rtt.with_hw Rtt.hw Frc.with_frc2 Frc.frc2 Frc.write_count
         Frc.count Frc.alarm].
    assert (E : (Frc.count (Frc.frc2 (Rtt.hw s)) + 1
                 =? Frc.alarm (Frc.frc2 (Rtt.hw s))) = false)
      by (apply Z.eqb_neq; lia).
    now rewrite E. }
  destruct Ht as [-> | ->].
  - apply IH; cbn zeta; lia.
  - rewrite IH; [reflexivity | | |];
      cbn [Rtt.with_hw Rtt.hw Frc.with_frc2 Frc.frc2 Frc.write_count
           Frc.count Frc.alarm]; lia.
Qed.

End TickFacts.

Section AfterClearFacts.

Context {H : Type}.
Variable drv : rtt_hw_driver_t H.
Variable cb_body : rtt_cb_t -> Z -> list api_call.
Hypothesis no_rearm : forall cb arg, existsb rearms (cb_body cb arg) = false.

Lemma events_after_clear (es : list event) (s : Rtt.rtt_t H) :
  alarm_invocations (run_events drv cb_body es (Rtt.rtt_clear_alarm drv s))
  = alarm_invocations s.
Proof.
  assert (Hc : Rtt.alarm_cb (Rtt.rtt_counter (Rtt.rtt_clear_alarm drv s)) = None).
  { pose proof (registration_clear_alarm drv s) as Hr.
    unfold registration in Hr. now injection Hr. }
  destruct (run_events_keeps_empty drv cb_body no_rearm es _ Hc) as [_ ->].
  unfold alarm_invocations. now rewrite invoked_clear_alarm.
Qed.

Lemma ticks_after_clear (tick : Rtt.rtt_t H -> Rtt.rtt_t H) :
  (forall s, exists es, tick s = run_events drv cb_body es s) ->
  forall (n : nat) (s : Rtt.rtt_t H),
    alarm_invocations (Esp8266.run tick n (Rtt.rtt_clear_alarm drv s))
    = alarm_invocations s.
Proof.
  intros Ht n s.
  destruct (run_tick_events cb_body drv tick Ht n (Rtt.rtt_clear_alarm drv s))
    as [es ->].
  apply events_after_clear.
Qed.

End AfterClearFacts.

(** C6, as the specification words it, fails on the FRC2 backend.  The
    alarm is kept in timer ticks of 3.2 microseconds, rounded down: an
    alarm for 1005000 set at 1000000 is due at tick 1562, when the counter
    reads 1004998.  The counter has not reached the alarm then, and the
    callback has been called, so a [rtt_clear_alarm] at that moment comes
    too late. *)
Lemma frc_alarm_fires_before_counter_reaches_it :
  ~ never_fires_as_specified Sample.frc_drv Sample.frc_tick
      Sample.frc_at_1000000 1005000 1%nat 42 1562 0.
Proof.
  unfold never_fires_as_specified. intros Hc.
  assert (Hfired :
            alarm_invocations
              (Esp8266.run Sample.frc_tick 0
                 (Rtt.rtt_clear_alarm Sample.frc_drv
                    (Esp8266.run Sample.frc_tick 1562
                       (Rtt.rtt_set_alarm Sample.frc_drv 1005000 (Some 1%nat) 42
                          Sample.frc_at_1000000))))
            = [AlarmCb 1%nat 42]) by (vm_compute; reflexivity).
  cbn zeta in Hc.
  assert (Hnow : Rtt.rtt_get_counter Sample.frc_drv Sample.frc_at_1000000
                 < 1005000) by (vm_compute; reflexivity).
  specialize (Hc Hnow).
  assert (Hgone : [AlarmCb 1%nat 42] = alarm_invocations Sample.frc_at_1000000).
  { rewrite <- Hfired. apply Hc.
    intros k Hk. apply Z.ltb_lt.
    apply (all_along_run
             (fun s => Rtt.rtt_get_counter Sample.frc_drv s <? 1005000)
             Sample.frc_tick 1562); [vm_compute; reflexivity | exact Hk]. }
  vm_compute in Hgone. discriminate.
Qed.

(** C6, amended.  Provided no callback sets an alarm itself: when
    [rtt_clear_alarm] is called after [rtt_set_alarm v cb] and before the
    alarm interrupt has been dispatched, the callback is never called from
    the alarm call site, whatever happens afterwards, a dispatch of an
    interrupt that was already on its way included: the dispatch finds no
    callback in the slot.  This also holds for [_frc_isr] and for any
    number of ticks of either backend after the clearing.  On the
    system-time backend the interrupt is not dispatched before the counter
    reaches the alarm, so there a clearing at a counter value below the
    alarm is in time.  On the FRC2 backend the interrupt is not dispatched
    before the timer reaches the alarm in timer ticks, rounded down, so
    there a clearing before that tick is in time. *)
Theorem cleared_alarm_is_not_called (rtc_clk_to_us : Z -> Z -> Z)
    (cb_body : rtt_cb_t -> Z -> list api_call) :
  (forall cb arg, existsb rearms (cb_body cb arg) = false) ->
  (forall (H : Type) (drv : rtt_hw_driver_t H) (s0 : Rtt.rtt_t H) (v : Z)
          (cb : rtt_cb_t) (arg : Z) (before : list (H -> H))
          (after : list event),
      cleared_before_dispatch drv cb_body s0 v cb arg before after) /\
  (forall s : Rtt.rtt_t Frc.frc_t,
      alarm_invocations
        (Esp8266._frc_isr rtc_clk_to_us cb_body
           (Rtt.rtt_clear_alarm (Esp8266.frc_drv rtc_clk_to_us) s))
      = alarm_invocations s) /\
  (forall (n : nat) (s : Rtt.rtt_t Frc.frc_t),
      alarm_invocations
        (Esp8266.run (Esp8266.frc_tick rtc_clk_to_us cb_body) n
           (Rtt.rtt_clear_alarm (Esp8266.frc_drv rtc_clk_to_us) s))
      = alarm_invocations s) /\
  (forall (n : nat) (s : Rtt.rtt_t Sys.sys_t),
      alarm_invocations
        (Esp8266.run (Esp8266.sys_tick rtc_clk_to_us cb_body) n
           (Rtt.rtt_clear_alarm (Esp8266.sys_drv rtc_clk_to_us) s))
      = alarm_invocations s) /\
  (forall (s0 : Rtt.rtt_t Sys.sys_t) (v : Z) (cb : rtt_cb_t) (arg : Z)
          (m n : nat),
      let drv := Esp8266.sys_drv rtc_clk_to_us in
      let tick := Esp8266.sys_tick rtc_clk_to_us cb_body in
      let c := Rtt.rtt_get_counter drv s0 in
      let s2 := Esp8266.run tick m (Rtt.rtt_set_alarm drv v (Some cb) arg s0) in
      0 <= v < 2 ^ 32 ->
      c < v ->
      Z.of_nat m < v - c ->
      Rtt.rtt_get_counter drv s2 = c + Z.of_nat m /\
      Rtt.invoked s2 = Rtt.invoked s0 /\
      alarm_invocations (Esp8266.run tick n (Rtt.rtt_clear_alarm drv s2))
      = alarm_invocations s0) /\
  (forall (s0 : Rtt.rtt_t Frc.frc_t) (v : Z) (cb : rtt_cb_t) (arg : Z)
          (m n : nat),
      let drv := Esp8266.frc_drv rtc_clk_to_us in
      let tick := Esp8266.frc_tick rtc_clk_to_us cb_body in
      let count := Frc.count (Frc.frc2 (Rtt.hw s0)) in
      let target :=
        Frc.FRC_US_TO_COUNTER (u32 (v - Rtt._rtt_offset s0))
        mod Frc.FRC_OVERFLOW in
      let s2 := Esp8266.run tick m (Rtt.rtt_set_alarm drv v (Some cb) arg s0) in
      Rtt.rtt_get_counter drv s0 < v ->
      0 <= count ->
      count + Z.of_nat m < target ->
      Rtt.invoked s2 = Rtt.invoked s0 /\
      alarm_invocations (Esp8266.run tick n (Rtt.rtt_clear_alarm drv s2))
      = alarm_invocations s0).
Proof.
  intros Hq. split; [| split; [| split; [| split; [| split]]]].
  - intros H drv s0 v cb arg before after.
    now apply cleared_alarm_never_fires.
  - intros s.
    destruct (frc_isr_events rtc_clk_to_us cb_body
                (Rtt.rtt_clear_alarm (Esp8266.frc_drv rtc_clk_to_us) s))
      as [es ->].
    now apply events_after_clear.
  - intros n s.
    apply (ticks_after_clear _ cb_body Hq _
             (frc_tick_events rtc_clk_to_us cb_body)).
  - intros n s.
    apply (ticks_after_clear _ cb_body Hq _
             (sys_tick_events rtc_clk_to_us cb_body)).
  - intros s0 v cb arg m n drv tick c s2 Hv Hc Hm.
    destruct (sys_set_alarm_queued rtc_clk_to_us s0 v cb arg Hv Hc)
      as (Hq1 & Hc1 & Hi1).
    destruct (sys_run_waiting rtc_clk_to_us cb_body m _ _ Hq1 Hm)
      as (_ & Hc2 & Hi2 & _).
    fold drv tick s2 in Hc2, Hi2.
    split; [| split].
    + rewrite Hc2. fold drv in Hc1. rewrite Hc1. fold c.
      apply u32_small.
      assert (Hr : 0 <= c < 2 ^ 32) by apply u32_range.
      lia.
    + rewrite Hi2. exact Hi1.
    + rewrite (ticks_after_clear drv cb_body Hq tick
                 (sys_tick_events rtc_clk_to_us cb_body)).
      unfold alarm_invocations. rewrite Hi2. f_equal. exact Hi1.
  - intros s0 v cb arg m n drv tick count target s2 Hc H0 Hm.
    destruct (frc_set_alarm_target rtc_clk_to_us s0 v cb arg Hc)
      as (Hal & Hco & Hi1); [fold target count; lia|].
    fold drv target count in Hal, Hco, Hi1.
    assert (Ht : 0 <= target < Frc.FRC_OVERFLOW)
      by (apply Z.mod_pos_bound; reflexivity).
    assert (Hi2 : Rtt.invoked s2 = Rtt.invoked s0).
    { unfold s2, tick.
      rewrite (frc_run_waiting rtc_clk_to_us cb_body m); [exact Hi1 | | |];
        fold drv; rewrite ?Hal, ?Hco; try lia.
      rewrite FRC_OVERFLOW_value in Ht. lia. }
    split; [exact Hi2|].
    rewrite (ticks_after_clear drv cb_body Hq tick
               (frc_tick_events rtc_clk_to_us cb_body)).
    unfold alarm_invocations. now rewrite Hi2.
Qed.

Lemma cleared_alarm_is_not_called_witness :
  alarm_invocations
    (Esp8266.run Sample.sys_tick 10
       (Rtt.rtt_clear_alarm Sample.sys_drv
          (Esp8266.run Sample.sys_tick 4999
             (Rtt.rtt_set_alarm Sample.sys_drv 1005000 (Some 1%nat) 42
                Sample.sys_at_1000000))))
  = [] /\
  alarm_invocations
    (Esp8266.run Sample.frc_tick 10
       (Rtt.rtt_clear_alarm Sample.frc_drv
          (Esp8266.run Sample.frc_tick 1561
             (Rtt.rtt_set_alarm Sample.frc_drv 1005000 (Some 1%nat) 42
                Sample.frc_at_1000000))))
  = [].
Proof.
  destruct (cleared_alarm_is_not_called Sample.rtc_clk_to_us Sample.quiet)
    as (_ & _ & _ & _ & Hs & Hf).
  - intros cb arg. reflexivity.
  - split.
    + destruct (Hs Sample.sys_at_1000000 1005000 1%nat 42 4999%nat 10%nat)
        as (_ & _ & Hn).
      * lia.
      * vm_compute. reflexivity.
      * vm_compute. reflexivity.
      * exact Hn.
    + destruct (Hf Sample.frc_at_1000000 1005000 1%nat 42 1561%nat 10%nat)
        as (_ & Hn).
      * vm_compute. reflexivity.
      * vm_compute. discriminate.
      * vm_compute. reflexivity.
      * exact Hn.
Defined.

(** ** The scenario of an alarm five milliseconds ahead *)

Lemma run_add {S : Type} (step : S -> S) (n m : nat) (s : S) :
  Esp8266.run step (n + m) s = Esp8266.run step m (Esp8266.run step n s).
Proof.
  revert s. induction n as [|n IH]; intros s; [reflexivity|].
  cbn [Nat.add Esp8266.run]. apply IH.
Qed.

Section IdleFacts.

Context {H : Type}.
Variable drv : rtt_hw_driver_t H.
Variable cb_body : rtt_cb_t -> Z -> list api_call.

Lemma update_idle (l : list invocation) (s : Rtt.rtt_t H) :
  idle s -> Rtt.invoked s = l -> Rtt.alarm (Rtt.rtt_counter s) = 0 ->
  settled l (Rtt._rtt_update_hw_alarm drv s).
Proof.
  intros [Ha Ho] Hl Hz. unfold settled, idle, Rtt._rtt_update_hw_alarm.
  rewrite Ha, Ho. cbn [Rtt.is_set andb]. rtt_fields. now repeat split.
Qed.

Lemma isr_settled (l : list invocation) (s : Rtt.rtt_t H) :
  settled l s -> settled l (Rtt._rtt_isr drv cb_body s).
Proof.
  intros Hs. unfold Rtt._rtt_isr.
  set (fired := Rtt.alarm_active (Rtt.rtt_counter s)).
  set (s0 := if Rtt.wakeup (Rtt.rtt_counter s) then _ else s).
  assert (H0 : settled l s0)
    by (unfold s0; now destruct (Rtt.wakeup (Rtt.rtt_counter s))).
  destruct H0 as ([Ha Ho] & Hl & Hz & Hf).
  assert (Ea : Rtt.isr_alarm_path drv cb_body fired s0 = s0).
  { unfold Rtt.isr_alarm_path. rewrite Ha. cbn [Rtt.is_set].
    now rewrite andb_false_r. }
  rewrite Ea. unfold Rtt.isr_overflow_path.
  destruct (fired =? 0); [| now repeat split].
  pose proof (update_idle l s0 (conj Ha Ho) Hl Hz) as Hu.
  destruct Hu as ([Ha' Ho'] & Hrest). rewrite Ho'.
  now repeat split.
Qed.

Lemma run_events_settled (l : list invocation) (es : list event)
    (s : Rtt.rtt_t H) :
  settled l s -> settled l (run_events drv cb_body es s).
Proof.
  revert s. induction es as [|e es IH]; intros s Hs; [exact Hs|].
  cbn [run_events fold_left].
  change (fold_left (step_event drv cb_body) es ?x)
    with (run_events drv cb_body es x).
  apply IH. destruct e as [|f]; cbn [step_event].
  - now apply isr_settled.
  - exact Hs.
Qed.

Lemma ticks_settled (tick : Rtt.rtt_t H -> Rtt.rtt_t H)
    (l : list invocation) :
  (forall s, exists es, tick s = run_events drv cb_body es s) ->
  forall (n : nat) (s : Rtt.rtt_t H),
    settled l s -> settled l (Esp8266.run tick n s).
Proof.
  intros Ht n s Hs.
  destruct (run_tick_events cb_body drv tick Ht n s) as [es ->].
  now apply run_events_settled.
Qed.

(** A scenario that checks out up to the tick [due] and is settled there
    stays as it is. *)
Lemma scenario_by_checking (tick : Rtt.rtt_t H -> Rtt.rtt_t H)
    (start : Rtt.rtt_t H) (due : nat) (at_counter : Z) :
  (forall s, exists es, tick s = run_events drv cb_body es s) ->
  scenario_start drv start ->
  all_along waiting tick (Nat.pred due) start = true ->
  (0 < due)%nat ->
  Rtt.rtt_get_counter drv (Esp8266.run tick due start) = at_counter ->
  settled [AlarmCb 1%nat 42] (Esp8266.run tick due start) ->
  scenario_contract drv tick start due at_counter.
Proof.
  intros Ht Hstart Hall Hpos Hat Hdue.
  split; [exact Hstart|]. split; [| split; [exact Hat|]].
  - intros k Hk. cbn zeta.
    assert (Hw : waiting (Esp8266.run tick k start) = true)
      by (apply (all_along_run _ _ _ _ Hall); lia).
    unfold waiting in Hw. apply andb_true_iff in Hw as [Hi Hg].
    split; [| now apply Z.eqb_eq].
    now destruct (Rtt.invoked (Esp8266.run tick k start)).
  - intros k Hk. cbn zeta.
    replace k with (due + (k - due))%nat by lia.
    rewrite run_add.
    destruct (ticks_settled tick _ Ht (k - due) _ Hdue)
      as (_ & Hl & Hz & Hf).
    now repeat split.
Qed.

End IdleFacts.

(** C9, as the specification words it, fails: once the alarm has fired,
    [rtt_get_alarm] returns 0, because the dispatch calls
    [rtt_clear_alarm] before it calls the callback. *)
Lemma get_alarm_after_firing_fails :
  ~ scenario_as_specified Sample.sys_tick Sample.sys_alarm_set 5000.
Proof.
  unfold scenario_as_specified. vm_compute. intros [_ Hg]. discriminate.
Qed.

(** C9, amended.  With the counter at 1000000 and callback 1 with argument
    42 set for 1005000, and a callback that makes no calls of its own:
    until the alarm fires nothing is called and [rtt_get_alarm] returns
    1005000; the alarm fires after 5000 microseconds on the system-time
    backend, with the counter at 1005000, and after 1562 timer ticks on the
    FRC2 backend, with the counter at 1004998; from then on the callback
    has been called exactly once, with argument 42, and [rtt_get_alarm]
    returns 0, the dispatch having cleared the alarm before the call. *)
Theorem alarm_in_five_milliseconds :
  scenario_contract Sample.sys_drv Sample.sys_tick Sample.sys_alarm_set
    5000 1005000 /\
  scenario_contract Sample.frc_drv Sample.frc_tick Sample.frc_alarm_set
    1562 1004998.
Proof.
  split.
  - apply (scenario_by_checking Sample.sys_drv Sample.quiet).
    + apply sys_tick_events.
    + vm_compute. repeat split.
    + vm_compute. reflexivity.
    + lia.
    + vm_compute. reflexivity.
    + vm_compute. repeat split.
  - apply (scenario_by_checking Sample.frc_drv Sample.quiet).
    + apply frc_tick_events.
    + vm_compute. repeat split.
    + vm_compute. reflexivity.
    + lia.
    + vm_compute. reflexivity.
    + vm_compute. repeat split.
Qed.

(** * Further properties of the code *)

(** ** The dispatch and the wake-up flag *)

Section WakeupFacts.

Context {H : Type}.
Variable drv : rtt_hw_driver_t H.
Variable cb_body : rtt_cb_t -> Z -> list api_call.

Lemma wakeup_update (s : Rtt.rtt_t H) :
  Rtt.wakeup (Rtt.rtt_counter (Rtt._rtt_update_hw_alarm drv s))
  = Rtt.wakeup (Rtt.rtt_counter s).
Proof. apply (update_keeps_interface drv s). Qed.

Lemma api_step_wakeup (c : api_call) (s : Rtt.rtt_t H) :
  Rtt.wakeup (Rtt.rtt_counter (Rtt.api_step drv c s))
  = Rtt.wakeup (Rtt.rtt_counter s).
Proof.
  destruct c; cbn [Rtt.api_step]; rtt_unfold; now rewrite wakeup_update.
Qed.

Lemma run_calls_wakeup (cs : list api_call) (s : Rtt.rtt_t H) :
  Rtt.wakeup (Rtt.rtt_counter (Rtt.run_calls drv cs s))
  = Rtt.wakeup (Rtt.rtt_counter s).
Proof.
  revert s. induction cs as [|c cs IH]; intros s; [reflexivity|].
  cbn [Rtt.run_calls fold_left].
  change (fold_left _ cs ?x) with (Rtt.run_calls drv cs x).
  now rewrite IH, api_step_wakeup.
Qed.

Lemma wakeup_reset_false (s : Rtt.rtt_t H) :
  Rtt.wakeup (Rtt.rtt_counter (wakeup_reset s)) = false.
Proof.
  unfold wakeup_reset.
  now destruct (Rtt.wakeup (Rtt.rtt_counter s)) eqn:E.
Qed.

Lemma isr_alarm_path_wakeup (fired : Z) (s : Rtt.rtt_t H) :
  Rtt.wakeup (Rtt.rtt_counter (Rtt.isr_alarm_path drv cb_body fired s))
  = Rtt.wakeup (Rtt.rtt_counter s).
Proof.
  unfold Rtt.isr_alarm_path.
  destruct (_ && _); [| reflexivity].
  destruct (Rtt.alarm_cb (Rtt.rtt_counter s)) as [cb|].
  - unfold Rtt.call_alarm_cb. rewrite run_calls_wakeup.
    cbn [Rtt.record_invocation Rtt.rtt_counter].
    unfold Rtt.rtt_clear_alarm. now rewrite wakeup_update.
  - unfold Rtt.rtt_clear_alarm. now rewrite wakeup_update.
Qed.

Lemma isr_overflow_path_wakeup (fired : Z) (s : Rtt.rtt_t H) :
  Rtt.wakeup (Rtt.rtt_counter (Rtt.isr_overflow_path drv cb_body fired s))
  = Rtt.wakeup (Rtt.rtt_counter s).
Proof.
  unfold Rtt.isr_overflow_path.
  destruct (fired =? 0); [| reflexivity].
  destruct (Rtt.overflow_cb _) as [cb|].
  - unfold Rtt.call_overflow_cb. rewrite run_calls_wakeup.
    cbn [Rtt.record_invocation Rtt.rtt_counter]. apply wakeup_update.
  - apply wakeup_update.
Qed.

End WakeupFacts.

(** X1.  Whatever the state and whatever the callbacks do, [wakeup] is
    false when [_rtt_isr] returns: the flag set on entering a sleep mode
    does not outlive the first dispatch. *)
Theorem isr_resets_wakeup (H : Type) (drv : rtt_hw_driver_t H)
    (cb_body : rtt_cb_t -> Z -> list api_call) (s : Rtt.rtt_t H) :
  Rtt.wakeup (Rtt.rtt_counter (Rtt._rtt_isr drv cb_body s)) = false.
Proof.
  unfold Rtt._rtt_isr.
  rewrite isr_overflow_path_wakeup, isr_alarm_path_wakeup.
  apply (wakeup_reset_false s).
Qed.

(** ** Interrupts that find nothing to do *)

Section SpuriousFacts.

Context {H : Type}.
Variable drv : rtt_hw_driver_t H.
Variable cb_body : rtt_cb_t -> Z -> list api_call.

Lemma alarm_not_due_guard (s : Rtt.rtt_t H) :
  alarm_not_due s ->
  (Rtt.alarm_active (Rtt.rtt_counter s) =? Rtt.alarm (Rtt.rtt_counter s))
  && Rtt.is_set (Rtt.alarm_cb (Rtt.rtt_counter s)) = false.
Proof.
  intros [Hne | Hcb].
  - apply Z.eqb_neq in Hne. now rewrite Hne.
  - rewrite Hcb. cbn [Rtt.is_set]. apply andb_false_r.
Qed.

Lemma wakeup_reset_fields (s : Rtt.rtt_t H) :
  let s0 := wakeup_reset s in
  Rtt.alarm (Rtt.rtt_counter s0) = Rtt.alarm (Rtt.rtt_counter s) /\
  Rtt.alarm_cb (Rtt.rtt_counter s0) = Rtt.alarm_cb (Rtt.rtt_counter s) /\
  Rtt.alarm_arg (Rtt.rtt_counter s0) = Rtt.alarm_arg (Rtt.rtt_counter s) /\
  Rtt.overflow_cb (Rtt.rtt_counter s0) = Rtt.overflow_cb (Rtt.rtt_counter s) /\
  Rtt.overflow_arg (Rtt.rtt_counter s0) = Rtt.overflow_arg (Rtt.rtt_counter s) /\
  Rtt.alarm_active (Rtt.rtt_counter s0) = Rtt.alarm_active (Rtt.rtt_counter s) /\
  Rtt.invoked s0 = Rtt.invoked s /\ Rtt.hw s0 = Rtt.hw s.
Proof.
  unfold wakeup_reset.
  destruct (Rtt.wakeup (Rtt.rtt_counter s)); repeat split.
Qed.

(** Without a due alarm the alarm part of the dispatch does nothing. *)
Lemma isr_alarm_path_not_due (s : Rtt.rtt_t H) :
  alarm_not_due s ->
  Rtt.isr_alarm_path drv cb_body (Rtt.alarm_active (Rtt.rtt_counter s))
    (wakeup_reset s)
  = wakeup_reset s.
Proof.
  intros Hnd. unfold Rtt.isr_alarm_path.
  destruct (wakeup_reset_fields s) as (-> & -> & _).
  now rewrite (alarm_not_due_guard s Hnd).
Qed.

Lemma isr_not_due (s : Rtt.rtt_t H) :
  alarm_not_due s ->
  Rtt._rtt_isr drv cb_body s
  = Rtt.isr_overflow_path drv cb_body (Rtt.alarm_active (Rtt.rtt_counter s))
      (wakeup_reset s).
Proof.
  intros Hnd. unfold Rtt._rtt_isr.
  fold (wakeup_reset s). now rewrite (isr_alarm_path_not_due s Hnd).
Qed.

End SpuriousFacts.

(** X2.  An interrupt whose fired value is neither the registered alarm
    (or finds no alarm callback) nor the overflow value 0 calls nothing:
    [_rtt_isr] only resets [wakeup], and on the FRC2 backend [_frc_isr]
    with an armed value that is not the alarm set at its interface (or
    without handler) only recomputes the compare register. *)
Theorem stale_interrupt_is_ignored (rtc_clk_to_us : Z -> Z -> Z)
    (cb_body : rtt_cb_t -> Z -> list api_call) :
  (forall (H : Type) (drv : rtt_hw_driver_t H) (s : Rtt.rtt_t H),
      Rtt.alarm_active (Rtt.rtt_counter s) <> 0 ->
      alarm_not_due s ->
      Rtt._rtt_isr drv cb_body s = wakeup_reset s) /\
  (forall s : Rtt.rtt_t Frc.frc_t,
      let a := Frc._frc_alarm (Rtt.hw s) in
      Frc.active a <> 0 ->
      Frc.active a <> Frc.alarm_set a \/ Frc.alarm_cb a = None ->
      Esp8266._frc_isr rtc_clk_to_us cb_body s
      = Rtt.with_hw
          (Frc._update_alarm
             (Frc.count (Frc.frc2 (Rtt.hw s)) mod Frc.FRC_OVERFLOW)) s).
Proof.
  split.
  - intros H drv s Hnz Hnd. rewrite (isr_not_due drv cb_body s Hnd).
    unfold Rtt.isr_overflow_path.
    apply Z.eqb_neq in Hnz. now rewrite Hnz.
  - intros s a Hnz Hnd.
    unfold Esp8266._frc_isr, Frc._frc_isr. fold a.
    apply Z.eqb_neq in Hnz. rewrite Hnz. fold a.
    assert (E : (Frc.active a =? Frc.alarm_set a)
                && Rtt.is_set (Frc.alarm_cb a) = false).
    { destruct Hnd as [Hne | Hcb].
      - apply Z.eqb_neq in Hne. now rewrite Hne.
      - rewrite Hcb. apply andb_false_r. }
    now rewrite E.
Qed.

Lemma stale_interrupt_is_ignored_witness :
  Rtt._rtt_isr Sample.sys_drv Sample.quiet
    (Rtt.rtt_clear_alarm Sample.sys_drv Sample.sys_alarm_set)
  = wakeup_reset (Rtt.rtt_clear_alarm Sample.sys_drv Sample.sys_alarm_set) /\
  Rtt.invoked
    (Esp8266._frc_isr Sample.rtc_clk_to_us Sample.quiet
       (Rtt.rtt_clear_alarm Sample.frc_drv Sample.frc_alarm_due))
  = [].
Proof.
  destruct (stale_interrupt_is_ignored Sample.rtc_clk_to_us Sample.quiet)
    as [Hc Hf].
  split.
  - apply Hc.
    + vm_compute. discriminate.
    + right. reflexivity.
  - rewrite Hf.
    + reflexivity.
    + vm_compute. discriminate.
    + right. reflexivity.
Defined.

(** ** The overflow *)

Section OverflowFacts.

Context {H : Type}.
Variable drv : rtt_hw_driver_t H.
Variable cb_body : rtt_cb_t -> Z -> list api_call.

Lemma overflow_registration_update (s : Rtt.rtt_t H) :
  overflow_registration (Rtt._rtt_update_hw_alarm drv s)
  = overflow_registration s.
Proof.
  unfold overflow_registration.
  now destruct (update_keeps_interface drv s) as (_ & _ & _ & -> & -> & _).
Qed.

Lemma api_step_overflow_registration (c : api_call) (s : Rtt.rtt_t H) :
  touches_overflow c = false ->
  overflow_registration (Rtt.api_step drv c s) = overflow_registration s.
Proof.
  intros Hc. destruct c; try discriminate; cbn [Rtt.api_step]; rtt_unfold;
    now rewrite overflow_registration_update.
Qed.

Lemma run_calls_overflow_registration (cs : list api_call) (s : Rtt.rtt_t H) :
  existsb touches_overflow cs = false ->
  overflow_registration (Rtt.run_calls drv cs s) = overflow_registration s.
Proof.
  revert s. induction cs as [|c cs IH]; intros s Hcs; [reflexivity|].
  cbn [existsb] in Hcs. apply orb_false_iff in Hcs as [Hc Hcs].
  cbn [Rtt.run_calls fold_left].
  change (fold_left _ cs ?x) with (Rtt.run_calls drv cs x).
  now rewrite (IH _ Hcs), api_step_overflow_registration.
Qed.

(** With an overflow callback the selection arms an event. *)
Lemma update_arms_with_overflow (s : Rtt.rtt_t H) :
  Rtt.overflow_cb (Rtt.rtt_counter s) <> None ->
  Rtt.alarm_set (Rtt.rtt_counter (Rtt._rtt_update_hw_alarm drv s)) = true.
Proof.
  intros Ho.
  destruct (update_armed_iff_registered drv s) as [[_ Hs] _].
  apply Hs. right.
  now destruct (update_keeps_interface drv s) as (_ & _ & _ & -> & _).
Qed.

(** The overflow part of the dispatch for fired value 0 and a registered
    overflow callback. *)
Lemma overflow_path_dispatch (t : Rtt.rtt_t H) (ocb : rtt_cb_t) :
  let oarg := Rtt.overflow_arg (Rtt.rtt_counter t) in
  let u := Rtt._rtt_update_hw_alarm drv t in
  let t' := Rtt.isr_overflow_path drv cb_body 0 t in
  Rtt.overflow_cb (Rtt.rtt_counter t) = Some ocb ->
  t' = Rtt.call_overflow_cb drv cb_body ocb oarg u /\
  Rtt.alarm_set (Rtt.rtt_counter u) = true /\
  Rtt.invoked t' = Rtt.invoked t ++ [OverflowCb ocb oarg] /\
  (existsb touches_overflow (cb_body ocb oarg) = false ->
   overflow_registration t' = (Some ocb, oarg)).
Proof.
  cbn zeta. intros Ho.
  unfold Rtt.isr_overflow_path. cbn [Z.eqb].
  set (u := Rtt._rtt_update_hw_alarm drv t).
  assert (Hu : overflow_registration u
               = (Some ocb, Rtt.overflow_arg (Rtt.rtt_counter t))).
  { unfold u. rewrite overflow_registration_update.
    unfold overflow_registration. now rewrite Ho. }
  unfold overflow_registration in Hu. injection Hu as Hu1 Hu2.
  rewrite Hu1, Hu2.
  split; [reflexivity|]. split.
  { apply update_arms_with_overflow. rewrite Ho. discriminate. }
  split.
  - unfold Rtt.call_overflow_cb. rewrite run_calls_invoked.
    cbn [Rtt.record_invocation Rtt.invoked].
    unfold u. now rewrite invoked_update.
  - intros Hb. unfold Rtt.call_overflow_cb.
    rewrite (run_calls_overflow_registration _ _ Hb).
    unfold overflow_registration.
    cbn [Rtt.record_invocation Rtt.rtt_counter]. now rewrite Hu1, Hu2.
Qed.

End OverflowFacts.

(** X3.  A dispatch with fired value 0, no due alarm and an overflow
    callback selects the next event first, so that an event is armed again
    when the callback starts, then calls the overflow callback once with
    its argument; unless the callback changes the overflow slot itself, it
    stays registered: the overflow callback is not one-shot. *)
Theorem overflow_is_dispatched_and_kept (H : Type) (drv : rtt_hw_driver_t H)
    (cb_body : rtt_cb_t -> Z -> list api_call) (s : Rtt.rtt_t H)
    (ocb : rtt_cb_t) :
  let oarg := Rtt.overflow_arg (Rtt.rtt_counter s) in
  let u := Rtt._rtt_update_hw_alarm drv (wakeup_reset s) in
  let s' := Rtt._rtt_isr drv cb_body s in
  Rtt.alarm_active (Rtt.rtt_counter s) = 0 ->
  alarm_not_due s ->
  Rtt.overflow_cb (Rtt.rtt_counter s) = Some ocb ->
  s' = Rtt.call_overflow_cb drv cb_body ocb oarg u /\
  Rtt.alarm_set (Rtt.rtt_counter u) = true /\
  Rtt.invoked s' = Rtt.invoked s ++ [OverflowCb ocb oarg] /\
  (existsb touches_overflow (cb_body ocb oarg) = false ->
   overflow_registration s' = (Some ocb, oarg)).
Proof.
  cbn zeta. intros Hz Hnd Ho.
  rewrite (isr_not_due drv cb_body s Hnd), Hz.
  destruct (wakeup_reset_fields s) as (_ & _ & _ & Ho0 & Ha0 & _ & Hi0 & _).
  destruct (overflow_path_dispatch drv cb_body (wakeup_reset s) ocb)
    as (He & Hs & Hi & Hk); [now rewrite Ho0|].
  rewrite Ha0 in He, Hi, Hk. rewrite Hi0 in Hi.
  now repeat split.
Qed.

Lemma overflow_is_dispatched_and_kept_witness :
  Rtt.invoked
    (Rtt._rtt_isr Sample.sys_drv Sample.quiet
       (Rtt.rtt_set_overflow_cb Sample.sys_drv (Some 2%nat) 7
          Sample.sys_at_1000000))
  = [OverflowCb 2%nat 7].
Proof.
  destruct (overflow_is_dispatched_and_kept _ Sample.sys_drv Sample.quiet
              (Rtt.rtt_set_overflow_cb Sample.sys_drv (Some 2%nat) 7
                 Sample.sys_at_1000000) 2%nat)
    as (_ & _ & Hi & _).
  - reflexivity.
  - right. reflexivity.
  - reflexivity.
  - exact Hi.
Defined.

(** X4.  When the alarm is due at the wrap (fired value 0, alarm value 0)
    and both callbacks are registered, one dispatch calls both, the alarm
    callback first and the overflow callback second, each with its own
    argument, provided the alarm callback leaves the overflow slot
    alone. *)
Theorem alarm_at_wrap_calls_both (H : Type) (drv : rtt_hw_driver_t H)
    (cb_body : rtt_cb_t -> Z -> list api_call) (s : Rtt.rtt_t H)
    (acb ocb : rtt_cb_t) :
  let c := Rtt.rtt_counter s in
  Rtt.alarm_active c = 0 ->
  Rtt.alarm c = 0 ->
  Rtt.alarm_cb c = Some acb ->
  Rtt.overflow_cb c = Some ocb ->
  existsb touches_overflow (cb_body acb (Rtt.alarm_arg c)) = false ->
  Rtt.invoked (Rtt._rtt_isr drv cb_body s)
  = Rtt.invoked s
    ++ [AlarmCb acb (Rtt.alarm_arg c); OverflowCb ocb (Rtt.overflow_arg c)].
Proof.
  cbn zeta. intros Hf Ha Hacb Hocb Hbody.
  unfold Rtt._rtt_isr. fold (wakeup_reset s). rewrite Hf.
  destruct (wakeup_reset_fields s)
    as (Ha0 & Hc0 & Hg0 & Ho0 & Hoa0 & _ & Hi0 & _).
  set (t := Rtt.isr_alarm_path drv cb_body 0 (wakeup_reset s)).
  assert (Et : t = Rtt.call_alarm_cb drv cb_body acb
                     (Rtt.alarm_arg (Rtt.rtt_counter s))
                     (Rtt.rtt_clear_alarm drv (wakeup_reset s))).
  { unfold t, Rtt.isr_alarm_path. rewrite Ha0, Hc0, Hg0, Ha, Hacb.
    reflexivity. }
  assert (Hti : Rtt.invoked t
                = Rtt.invoked s
                  ++ [AlarmCb acb (Rtt.alarm_arg (Rtt.rtt_counter s))]).
  { rewrite Et. unfold Rtt.call_alarm_cb. rewrite run_calls_invoked.
    cbn [Rtt.record_invocation Rtt.invoked].
    now rewrite invoked_clear_alarm, Hi0. }
  assert (Hto : overflow_registration t
                = (Some ocb, Rtt.overflow_arg (Rtt.rtt_counter s))).
  { rewrite Et. unfold Rtt.call_alarm_cb.
    rewrite (run_calls_overflow_registration _ _ _ Hbody).
    unfold Rtt.rtt_clear_alarm.
    change (overflow_registration (Rtt.record_invocation ?i ?x))
      with (overflow_registration x).
    rewrite overflow_registration_update.
    unfold overflow_registration.
    cbn [Rtt.with_rtt_counter Rtt.rtt_counter Rtt.put_alarm
         Rtt.overflow_cb Rtt.overflow_arg].
    now rewrite Ho0, Hoa0, Hocb. }
  unfold overflow_registration in Hto. injection Hto as Hto1 Hto2.
  destruct (overflow_path_dispatch drv cb_body t ocb Hto1)
    as (_ & _ & Hi & _).
  rewrite Hi, Hti, Hto2, <- app_assoc. reflexivity.
Qed.

Lemma alarm_at_wrap_calls_both_witness :
  Rtt.invoked (Rtt._rtt_isr Sample.sys_drv Sample.quiet Sample.sys_alarm_at_wrap)
  = [AlarmCb 1%nat 42; OverflowCb 2%nat 7].
Proof.
  apply (alarm_at_wrap_calls_both _ Sample.sys_drv Sample.quiet
           Sample.sys_alarm_at_wrap 1%nat 2%nat); reflexivity.
Defined.

(** ** Leaving a sleep mode *)

Section SleepExitFacts.

Context {H : Type}.
Variable drv : rtt_hw_driver_t H.
Variable cb_body : rtt_cb_t -> Z -> list api_call.

Lemma isr_paths_keep_wakeup (fired : Z) (t : Rtt.rtt_t H) :
  Rtt.wakeup
    (Rtt.rtt_counter
       (Rtt.isr_overflow_path drv cb_body fired
          (Rtt.isr_alarm_path drv cb_body fired t)))
  = Rtt.wakeup (Rtt.rtt_counter t).
Proof. now rewrite isr_overflow_path_wakeup, isr_alarm_path_wakeup. Qed.

(** Entering a sleep mode with an armed event changes [wakeup] at most. *)
Lemma sleep_enter_keeps (mode : Z) (s : Rtt.rtt_t H) :
  let e := snd (Rtt.rtt_pm_sleep_enter drv mode s) in
  Rtt.invoked e = Rtt.invoked s /\
  exists b, Rtt.rtt_counter e = Rtt.put_wakeup b (Rtt.rtt_counter s) \/
            Rtt.rtt_counter e = Rtt.rtt_counter s.
Proof.
  cbn zeta. unfold Rtt.rtt_pm_sleep_enter.
  destruct (negb _); [split; [reflexivity | exists true; now right]|].
  destruct (_ =? 0); cbn [snd].
  - split; [reflexivity | exists false; now left].
  - split; [reflexivity | exists true; now left].
Qed.

End SleepExitFacts.

(** X5.  [rtt_pm_sleep_enter] followed, after whatever happened to the
    hardware during the sleep, by [rtt_pm_sleep_exit]: when the wake-up
    cause is the timer and a user alarm was armed, the alarm callback is
    called exactly once with its argument although no interrupt was
    delivered, and [wakeup] is reset; with any other cause nothing is
    called and the alarm state stays as [rtt_pm_sleep_enter] left it. *)
Theorem sleep_exit_delivers_alarm (H : Type) (drv : rtt_hw_driver_t H)
    (cb_body : rtt_cb_t -> Z -> list api_call) (ESP_SLEEP_WAKEUP_TIMER : Z)
    (mode : Z) (asleep : H -> H) (s : Rtt.rtt_t H) (cb : rtt_cb_t) :
  let c := Rtt.rtt_counter s in
  let s1 := Rtt.with_hw asleep (snd (Rtt.rtt_pm_sleep_enter drv mode s)) in
  let exit := Rtt.rtt_pm_sleep_exit drv cb_body ESP_SLEEP_WAKEUP_TIMER in
  Rtt.alarm_set c = true ->
  Rtt.alarm_active c = Rtt.alarm c ->
  Rtt.alarm c <> 0 ->
  Rtt.alarm_cb c = Some cb ->
  (Rtt.invoked (exit ESP_SLEEP_WAKEUP_TIMER s1)
   = Rtt.invoked s ++ [AlarmCb cb (Rtt.alarm_arg c)] /\
   Rtt.wakeup (Rtt.rtt_counter (exit ESP_SLEEP_WAKEUP_TIMER s1)) = false) /\
  (forall cause, cause <> ESP_SLEEP_WAKEUP_TIMER ->
     Rtt.invoked (exit cause s1) = Rtt.invoked s /\
     Rtt.rtt_counter (exit cause s1)
     = Rtt.rtt_counter (snd (Rtt.rtt_pm_sleep_enter drv mode s))).
Proof.
  cbn zeta. intros Hs Ha Hnz Hcb.
  destruct (sleep_enter_keeps drv mode s) as (Hinv & b & Hrc).
  set (e := snd (Rtt.rtt_pm_sleep_enter drv mode s)) in *.
  assert (Hfields :
            Rtt.alarm (Rtt.rtt_counter e) = Rtt.alarm (Rtt.rtt_counter s) /\
            Rtt.alarm_cb (Rtt.rtt_counter e) = Rtt.alarm_cb (Rtt.rtt_counter s) /\
            Rtt.alarm_arg (Rtt.rtt_counter e) = Rtt.alarm_arg (Rtt.rtt_counter s) /\
            Rtt.alarm_active (Rtt.rtt_counter e)
            = Rtt.alarm_active (Rtt.rtt_counter s))
    by (destruct Hrc as [-> | ->]; repeat split).
  destruct Hfields as (Hea & Hec & Heg & Hef).
  unfold Rtt.rtt_pm_sleep_exit, Rtt.rtt_restore_counter.
  split.
  - rewrite Z.eqb_refl.
    set (r := Rtt.with_hw (restore_counter drv false) (Rtt.with_hw asleep e)).
    assert (Hr : Rtt.rtt_counter r = Rtt.rtt_counter e) by reflexivity.
    assert (Hri : Rtt.invoked r = Rtt.invoked s) by exact Hinv.
    split.
    2:{ unfold Rtt._rtt_isr. rewrite isr_paths_keep_wakeup.
        now destruct (Rtt.wakeup (Rtt.rtt_counter r)) eqn:E. }
    unfold Rtt._rtt_isr. fold (wakeup_reset r).
    destruct (wakeup_reset_fields r)
      as (Ha0 & Hc0 & Hg0 & _ & _ & Hf0 & Hi0 & _).
    rewrite Hr in *. rewrite Hea, Hec, Heg, Hef in *.
    unfold Rtt.isr_overflow_path.
    rewrite Ha. apply Z.eqb_neq in Hnz. rewrite Hnz.
    unfold Rtt.isr_alarm_path. rewrite Ha0, Hc0, Hg0, Hcb, Z.eqb_refl.
    cbn [andb Rtt.is_set].
    unfold Rtt.call_alarm_cb. rewrite run_calls_invoked.
    cbn [Rtt.record_invocation Rtt.invoked].
    now rewrite invoked_clear_alarm, Hi0, Hri.
  - intros cause Hc. apply Z.eqb_neq in Hc. rewrite Hc.
    split; [exact Hinv | reflexivity].
Qed.

Lemma sleep_exit_delivers_alarm_witness :
  Rtt.invoked
    (Rtt.rtt_pm_sleep_exit Sample.sys_drv Sample.quiet 4 4
       (Rtt.with_hw (Sys.with_rtc 700)
          (snd (Rtt.rtt_pm_sleep_enter Sample.sys_drv 2 Sample.sys_alarm_set))))
  = [AlarmCb 1%nat 42].
Proof.
  destruct (sleep_exit_delivers_alarm _ Sample.sys_drv Sample.quiet 4 2
              (Sys.with_rtc 700) Sample.sys_alarm_set 1%nat)
    as [[Hi _] _].
  - reflexivity.
  - reflexivity.
  - vm_compute. discriminate.
  - reflexivity.
  - exact Hi.
Defined.

(** ** Repeating a call *)

Section IdempotenceFacts.

Context {H : Type}.
Variable drv : rtt_hw_driver_t H.
Variable armed_for : Z -> H -> Prop.
Variable disarmed : H -> Prop.
Hypothesis laws : driver_laws drv armed_for disarmed.
Hypothesis set_alarm_again : forall a cb arg h,
  set_alarm drv a cb arg (set_alarm drv a cb arg h) = set_alarm drv a cb arg h.
Hypothesis clear_alarm_again : forall h,
  clear_alarm drv (clear_alarm drv h) = clear_alarm drv h.

(** The selection made twice is the selection made once. *)
Lemma update_again (s : Rtt.rtt_t H) :
  Rtt._rtt_update_hw_alarm drv (Rtt._rtt_update_hw_alarm drv s)
  = Rtt._rtt_update_hw_alarm drv s.
Proof.
  destruct s as [c off h tw inv].
  unfold Rtt._rtt_update_hw_alarm at 2. rtt_fields.
  destruct (Rtt.is_set (Rtt.alarm_cb c) && _) eqn:Eg;
    [| destruct (Rtt.is_set (Rtt.overflow_cb c)) eqn:Eo];
    unfold Rtt._rtt_update_hw_alarm; rtt_fields;
    rewrite ?(get_counter_set_alarm _ _ _ laws),
            ?(get_counter_clear_alarm _ _ _ laws).
  - now rewrite Eg, set_alarm_again.
  - now rewrite Eo, Eg, set_alarm_again.
  - now rewrite Eo, Eg, clear_alarm_again.
Qed.

Lemma put_alarm_same (v : Z) (cb : option rtt_cb_t) (arg : Z)
    (u : Rtt.rtt_t H) :
  Rtt.alarm (Rtt.rtt_counter u) = v ->
  Rtt.alarm_cb (Rtt.rtt_counter u) = cb ->
  Rtt.alarm_arg (Rtt.rtt_counter u) = arg ->
  Rtt.with_rtt_counter (Rtt.put_alarm v cb arg) u = u.
Proof.
  destruct u as [c off h tw inv]. destruct c.
  cbn. intros; subst; reflexivity.
Qed.

Lemma put_overflow_same (cb : option rtt_cb_t) (arg : Z) (u : Rtt.rtt_t H) :
  Rtt.overflow_cb (Rtt.rtt_counter u) = cb ->
  Rtt.overflow_arg (Rtt.rtt_counter u) = arg ->
  Rtt.with_rtt_counter (Rtt.put_overflow cb arg) u = u.
Proof.
  destruct u as [c off h tw inv]. destruct c.
  cbn. intros; subst; reflexivity.
Qed.

Lemma set_alarm_twice (v : Z) (cb : option rtt_cb_t) (arg : Z)
    (s : Rtt.rtt_t H) :
  Rtt.rtt_set_alarm drv v cb arg (Rtt.rtt_set_alarm drv v cb arg s)
  = Rtt.rtt_set_alarm drv v cb arg s.
Proof.
  unfold Rtt.rtt_set_alarm.
  destruct (update_keeps_interface drv
              (Rtt.with_rtt_counter (Rtt.put_alarm v cb arg) s))
    as (Ha & Hc & Hg & _).
  rewrite put_alarm_same by assumption.
  apply update_again.
Qed.

Lemma clear_alarm_twice (s : Rtt.rtt_t H) :
  Rtt.rtt_clear_alarm drv (Rtt.rtt_clear_alarm drv s)
  = Rtt.rtt_clear_alarm drv s.
Proof. apply (set_alarm_twice 0 None NULL s). Qed.

Lemma clear_overflow_twice (s : Rtt.rtt_t H) :
  Rtt.rtt_clear_overflow_cb drv (Rtt.rtt_clear_overflow_cb drv s)
  = Rtt.rtt_clear_overflow_cb drv s.
Proof.
  unfold Rtt.rtt_clear_overflow_cb.
  destruct (update_keeps_interface drv
              (Rtt.with_rtt_counter (Rtt.put_overflow None NULL) s))
    as (_ & _ & _ & Ho & Hg & _).
  rewrite put_overflow_same by assumption.
  apply update_again.
Qed.

End IdempotenceFacts.

Lemma sys_set_alarm_again (rtc_clk_to_us : Z -> Z -> Z) a cb arg h :
  let drv := Esp8266.sys_drv rtc_clk_to_us in
  set_alarm drv a cb arg (set_alarm drv a cb arg h) = set_alarm drv a cb arg h.
Proof. reflexivity. Qed.

Lemma frc_set_alarm_again (rtc_clk_to_us : Z -> Z -> Z) a cb arg h :
  let drv := Esp8266.frc_drv rtc_clk_to_us in
  set_alarm drv a cb arg (set_alarm drv a cb arg h) = set_alarm drv a cb arg h.
Proof.
  cbn [Esp8266.frc_drv Frc._rtt_hw_frc_driver set_alarm].
  unfold Frc._frc_set_alarm at 2.
  unfold Frc._frc_set_alarm, Frc._update_alarm.
  set (t := Frc.FRC_US_TO_COUNTER a mod Frc.FRC_OVERFLOW).
  cbn -[Z.ltb Frc.FRC_OVERFLOW t].
  destruct (Rtt.is_set cb && (Frc.count (Frc.frc2 h) <? t)) eqn:E;
    cbn -[Z.ltb Frc.FRC_OVERFLOW t]; rewrite E; reflexivity.
Qed.

(** X6.  On either backend, calling [rtt_clear_alarm] or
    [rtt_clear_overflow_cb] a second time, or [rtt_set_alarm] a second
    time with the same arguments, leaves the whole state, backend included,
    as the first call left it. *)
Theorem repeated_calls_change_nothing (rtc_clk_to_us : Z -> Z -> Z) :
  (forall s : Rtt.rtt_t Sys.sys_t,
      let drv := Esp8266.sys_drv rtc_clk_to_us in
      Rtt.rtt_clear_alarm drv (Rtt.rtt_clear_alarm drv s)
      = Rtt.rtt_clear_alarm drv s /\
      Rtt.rtt_clear_overflow_cb drv (Rtt.rtt_clear_overflow_cb drv s)
      = Rtt.rtt_clear_overflow_cb drv s /\
      forall v cb arg,
        Rtt.rtt_set_alarm drv v cb arg (Rtt.rtt_set_alarm drv v cb arg s)
        = Rtt.rtt_set_alarm drv v cb arg s) /\
  (forall s : Rtt.rtt_t Frc.frc_t,
      let drv := Esp8266.frc_drv rtc_clk_to_us in
      Rtt.rtt_clear_alarm drv (Rtt.rtt_clear_alarm drv s)
      = Rtt.rtt_clear_alarm drv s /\
      Rtt.rtt_clear_overflow_cb drv (Rtt.rtt_clear_overflow_cb drv s)
      = Rtt.rtt_clear_overflow_cb drv s /\
      forall v cb arg,
        Rtt.rtt_set_alarm drv v cb arg (Rtt.rtt_set_alarm drv v cb arg s)
        = Rtt.rtt_set_alarm drv v cb arg s).
Proof.
  split; intros s drv.
  - pose proof (sys_laws rtc_clk_to_us) as L.
    pose proof (sys_set_alarm_again rtc_clk_to_us) as Hs. cbn zeta in Hs.
    assert (Hc : forall h, clear_alarm drv (clear_alarm drv h)
                           = clear_alarm drv h) by reflexivity.
    split; [| split].
    + exact (clear_alarm_twice drv _ _ L Hs Hc s).
    + exact (clear_overflow_twice drv _ _ L Hs Hc s).
    + intros v cb arg. exact (set_alarm_twice drv _ _ L Hs Hc v cb arg s).
  - pose proof (frc_laws rtc_clk_to_us) as L.
    pose proof (frc_set_alarm_again rtc_clk_to_us) as Hs. cbn zeta in Hs.
    assert (Hc : forall h, clear_alarm drv (clear_alarm drv h)
                           = clear_alarm drv h) by reflexivity.
    split; [| split].
    + exact (clear_alarm_twice drv _ _ L Hs Hc s).
    + exact (clear_overflow_twice drv _ _ L Hs Hc s).
    + intros v cb arg. exact (set_alarm_twice drv _ _ L Hs Hc v cb arg s).
Qed.

(** ** What the dispatch does to the backend *)

Section BackendThroughCore.

Context {H : Type}.
Variable drv : rtt_hw_driver_t H.
Variable cb_body : rtt_cb_t -> Z -> list api_call.

(** A property of the backend that its [set_alarm] and [clear_alarm]
    keep. *)
Variable Q : H -> Prop.
Hypothesis Q_set_alarm : forall a cb arg h, Q h -> Q (set_alarm drv a cb arg h).
Hypothesis Q_clear_alarm : forall h, Q h -> Q (clear_alarm drv h).

Lemma update_keeps_backend (s : Rtt.rtt_t H) :
  Q (Rtt.hw s) -> Q (Rtt.hw (Rtt._rtt_update_hw_alarm drv s)).
Proof.
  intros Hq. unfold Rtt._rtt_update_hw_alarm.
  destruct (Rtt.is_set (Rtt.alarm_cb (Rtt.rtt_counter s)) && _);
    [| destruct (Rtt.is_set (Rtt.overflow_cb (Rtt.rtt_counter s)))];
    rtt_fields; auto.
Qed.

Lemma api_step_keeps_backend (c : api_call) (s : Rtt.rtt_t H) :
  Q (Rtt.hw s) -> Q (Rtt.hw (Rtt.api_step drv c s)).
Proof.
  intros Hq. destruct c; cbn [Rtt.api_step]; rtt_unfold;
    now apply update_keeps_backend.
Qed.

Lemma run_calls_keeps_backend (cs : list api_call) (s : Rtt.rtt_t H) :
  Q (Rtt.hw s) -> Q (Rtt.hw (Rtt.run_calls drv cs s)).
Proof.
  revert s. induction cs as [|c cs IH]; intros s Hq; [exact Hq|].
  cbn [Rtt.run_calls fold_left].
  apply (IH (Rtt.api_step drv c s)). now apply api_step_keeps_backend.
Qed.

Lemma isr_keeps_backend (s : Rtt.rtt_t H) :
  Q (Rtt.hw s) -> Q (Rtt.hw (Rtt._rtt_isr drv cb_body s)).
Proof.
  intros Hq. unfold Rtt._rtt_isr.
  set (s0 := if Rtt.wakeup (Rtt.rtt_counter s) then _ else s).
  assert (H0 : Q (Rtt.hw s0))
    by (unfold s0; now destruct (Rtt.wakeup (Rtt.rtt_counter s))).
  set (fired := Rtt.alarm_active (Rtt.rtt_counter s)).
  assert (H1 : Q (Rtt.hw (Rtt.isr_alarm_path drv cb_body fired s0))).
  { unfold Rtt.isr_alarm_path. destruct (_ && _); [| exact H0].
    assert (Hc : Q (Rtt.hw (Rtt.rtt_clear_alarm drv s0)))
      by (unfold Rtt.rtt_clear_alarm; now apply update_keeps_backend).
    destruct (Rtt.alarm_cb (Rtt.rtt_counter s0)); [| exact Hc].
    unfold Rtt.call_alarm_cb. now apply run_calls_keeps_backend. }
  unfold Rtt.isr_overflow_path. destruct (fired =? 0); [| exact H1].
  set (t := Rtt.isr_alarm_path drv cb_body fired s0) in *.
  assert (Hu : Q (Rtt.hw (Rtt._rtt_update_hw_alarm drv t)))
    by now apply update_keeps_backend.
  destruct (Rtt.overflow_cb _); [| exact Hu].
  unfold Rtt.call_overflow_cb. now apply run_calls_keeps_backend.
Qed.

End BackendThroughCore.

(** ** The FRC2 timer stays in step *)

Lemma FRC_OVERFLOW_pos : 0 < Frc.FRC_OVERFLOW < 2 ^ 32.
Proof. rewrite FRC_OVERFLOW_value. lia. Qed.

Lemma frc_in_step_parts (h : Frc.frc_t) :
  frc_in_step h <->
  frc_core h /\
  (Frc.ctrl_enable (Frc.frc2 h) = true -> Frc.int_enable h = true).
Proof. unfold frc_in_step, frc_core. tauto. Qed.

Lemma frc_core_count (h : Frc.frc_t) :
  frc_core h -> 0 <= Frc.count (Frc.frc2 h) < Frc.FRC_OVERFLOW.
Proof. unfold frc_core. intros (Hc & Ha & _). lia. Qed.

Lemma power_transfer (h h' : Frc.frc_t) :
  frc_power h' = frc_power h ->
  (Frc.ctrl_enable (Frc.frc2 h) = true -> Frc.int_enable h = true) ->
  Frc.ctrl_enable (Frc.frc2 h') = true -> Frc.int_enable h' = true.
Proof.
  unfold frc_power. intros E He. injection E as E1 E2.
  rewrite E1, E2. exact He.
Qed.

Section FrcStepFacts.

Variable rtc_clk_to_us : Z -> Z -> Z.
Variable cb_body : rtt_cb_t -> Z -> list api_call.

Let drv := Esp8266.frc_drv rtc_clk_to_us.

Lemma update_alarm_power (k : Z) (h : Frc.frc_t) :
  frc_power (Frc._update_alarm k h) = frc_power h.
Proof. unfold Frc._update_alarm. now destruct (_ && _). Qed.

(** With the count at [k] below the overflow value, [_update_alarm k]
    brings the timer in step. *)
Lemma update_alarm_core (k : Z) (h : Frc.frc_t) :
  Frc.count (Frc.frc2 h) = k ->
  0 <= k < Frc.FRC_OVERFLOW ->
  Frc.alarm_set (Frc._frc_alarm h) < Frc.FRC_OVERFLOW ->
  frc_core (Frc._update_alarm k h).
Proof.
  intros Hk Hr Hs. unfold frc_core, Frc._update_alarm.
  destruct (Rtt.is_set _ && (k <? _)) eqn:E;
    cbn [Frc.with_frc2 Frc.with_frc_alarm Frc.frc2 Frc._frc_alarm
         Frc.write_alarm Frc.put_active Frc.count Frc.alarm Frc.active
         Frc.alarm_set];
    rewrite Hk.
  - apply andb_true_iff in E as [_ E]. apply Z.ltb_lt in E. lia.
  - lia.
Qed.

Lemma frc_set_alarm_core (a : Z) (cb : option isr_t) (arg : Z)
    (h : Frc.frc_t) :
  0 <= Frc.count (Frc.frc2 h) < Frc.FRC_OVERFLOW ->
  frc_core (set_alarm drv a cb arg h).
Proof.
  intros Hc.
  cbn [drv Esp8266.frc_drv Frc._rtt_hw_frc_driver set_alarm].
  unfold Frc._frc_set_alarm.
  apply update_alarm_core; try assumption; try reflexivity.
  cbn [Frc.with_frc_alarm Frc._frc_alarm Frc.put_alarm Frc.alarm_set].
  apply Z.mod_pos_bound. apply FRC_OVERFLOW_pos.
Qed.

Lemma frc_set_alarm_power (a : Z) (cb : option isr_t) (arg : Z)
    (h : Frc.frc_t) :
  frc_power (set_alarm drv a cb arg h) = frc_power h.
Proof.
  cbn [drv Esp8266.frc_drv Frc._rtt_hw_frc_driver set_alarm].
  unfold Frc._frc_set_alarm. now rewrite update_alarm_power.
Qed.

(** The registers alone: what [frc_core] says without the bound on the
    alarm set at the interface. *)
Lemma frc_clear_alarm_core (h : Frc.frc_t) :
  0 <= Frc.count (Frc.frc2 h) < Frc.alarm (Frc.frc2 h) ->
  Frc.alarm (Frc.frc2 h) <= Frc.FRC_OVERFLOW ->
  ((Frc.active (Frc._frc_alarm h) = 0 /\
    Frc.alarm (Frc.frc2 h) = Frc.FRC_OVERFLOW) \/
   (0 < Frc.active (Frc._frc_alarm h) < Frc.FRC_OVERFLOW /\
    Frc.alarm (Frc.frc2 h) = Frc.active (Frc._frc_alarm h))) ->
  frc_core (clear_alarm drv h).
Proof.
  intros Hc Ha Hk. unfold frc_core.
  cbn [drv Esp8266.frc_drv Frc._rtt_hw_frc_driver clear_alarm].
  unfold Frc._frc_clear_alarm.
  cbn [Frc.with_frc_alarm Frc.frc2 Frc._frc_alarm Frc.put_alarm
       Frc.active Frc.alarm_set].
  pose proof FRC_OVERFLOW_pos as Hov. intuition lia.
Qed.

Lemma in_step_set_alarm (a : Z) (cb : option isr_t) (arg : Z) (h : Frc.frc_t) :
  frc_in_step h -> frc_in_step (set_alarm drv a cb arg h).
Proof.
  rewrite !frc_in_step_parts. intros [Hc He]. split.
  - now apply frc_set_alarm_core, frc_core_count.
  - exact (power_transfer _ _ (frc_set_alarm_power a cb arg h) He).
Qed.

Lemma in_step_clear_alarm (h : Frc.frc_t) :
  frc_in_step h -> frc_in_step (clear_alarm drv h).
Proof.
  rewrite !frc_in_step_parts. intros [Hc He]. split; [| exact He].
  destruct Hc as (H1 & H2 & H3 & _). now apply frc_clear_alarm_core.
Qed.

Lemma frame_set_alarm (k : Z) (p : bool * bool) (a : Z) (cb : option isr_t)
    (arg : Z) (h : Frc.frc_t) :
  handler_frame k p h -> handler_frame k p (set_alarm drv a cb arg h).
Proof.
  unfold handler_frame. intros (Hk & _ & Hp).
  rewrite frc_set_alarm_power.
  cbn [drv Esp8266.frc_drv Frc._rtt_hw_frc_driver set_alarm].
  unfold Frc._frc_set_alarm. rewrite frc_update_alarm_count.
  split; [exact Hk|]. split; [| exact Hp].
  unfold Frc._update_alarm.
  destruct (Rtt.is_set _ && _);
    cbn [Frc.with_frc2 Frc.with_frc_alarm Frc._frc_alarm
         Frc.put_active Frc.put_alarm Frc.alarm_set];
    apply Z.mod_pos_bound; apply FRC_OVERFLOW_pos.
Qed.

Lemma frame_clear_alarm (k : Z) (p : bool * bool) (h : Frc.frc_t) :
  handler_frame k p h -> handler_frame k p (clear_alarm drv h).
Proof.
  unfold handler_frame. intros (Hk & _ & Hp).
  split; [exact Hk|]. split; [apply FRC_OVERFLOW_pos | exact Hp].
Qed.

(** The interrupt raised when the count has reached the compare register
    brings the timer in step again. *)
Lemma frc_isr_in_step (s : Rtt.rtt_t Frc.frc_t) :
  let h := Rtt.hw s in
  let r := Frc.frc2 h in
  let a := Frc._frc_alarm h in
  Frc.count r = Frc.alarm r ->
  0 <= Frc.alarm r <= Frc.FRC_OVERFLOW ->
  ((Frc.active a = 0 /\ Frc.alarm r = Frc.FRC_OVERFLOW) \/
   (0 < Frc.active a < Frc.FRC_OVERFLOW /\ Frc.alarm r = Frc.active a)) ->
  Frc.alarm_set a < Frc.FRC_OVERFLOW ->
  (Frc.ctrl_enable r = true -> Frc.int_enable h = true) ->
  frc_in_step (Rtt.hw (Esp8266._frc_isr rtc_clk_to_us cb_body s)).
Proof.
  cbn zeta. intros Hc Hr Hk Hs He.
  pose proof FRC_OVERFLOW_pos as Hov.
  unfold Esp8266._frc_isr, Frc._frc_isr.
  set (k := Frc.count (Frc.frc2 (Rtt.hw s)) mod Frc.FRC_OVERFLOW).
  set (p := frc_power (Rtt.hw s)).
  assert (Hkr : 0 <= k < Frc.FRC_OVERFLOW)
    by (apply Z.mod_pos_bound; lia).
  set (s0 := if Frc.active _ =? 0 then _ else s).
  assert (F0 : handler_frame k p (Rtt.hw s0)).
  { unfold s0. destruct Hk as [[Ha Hal] | [Ha Hal]].
    - rewrite Ha. cbn [Z.eqb Rtt.with_hw Rtt.hw].
      repeat split; assumption.
    - assert (E : (Frc.active (Frc._frc_alarm (Rtt.hw s)) =? 0) = false)
        by (apply Z.eqb_neq; lia).
      rewrite E. repeat split; try assumption.
      unfold k. rewrite Hc, Hal. symmetry. apply Z.mod_small. lia. }
  set (a := Frc._frc_alarm (Rtt.hw s0)).
  set (s1 := if (Frc.active a =? Frc.alarm_set a) && _ then _ else s0).
  assert (F1 : handler_frame k p (Rtt.hw s1)).
  { unfold s1. destruct (_ && _); [| exact F0].
    set (d := Rtt.with_hw (Frc.with_frc_alarm (Frc.put_cb None NULL)) s0).
    assert (Fd : handler_frame k p (Rtt.hw d)).
    { destruct F0 as (F01 & F02 & F03). repeat split; assumption. }
    destruct (Frc.alarm_cb a) as [[]|]; [| exact Fd].
    unfold Esp8266.frc_handler.
    apply (isr_keeps_backend (Esp8266.frc_drv rtc_clk_to_us) cb_body
             (handler_frame k p)); try assumption.
    - intros; now apply frame_set_alarm.
    - intros; now apply frame_clear_alarm. }
  destruct F1 as (F11 & F12 & F13).
  cbn [Rtt.with_hw Rtt.hw].
  apply frc_in_step_parts. split.
  - now apply update_alarm_core.
  - apply (power_transfer (Rtt.hw s)); [| exact He].
    now rewrite update_alarm_power, F13.
Qed.

Lemma frc_tick_in_step (s : Rtt.rtt_t Frc.frc_t) :
  frc_in_step (Rtt.hw s) ->
  frc_in_step (Rtt.hw (Esp8266.frc_tick rtc_clk_to_us cb_body s)).
Proof.
  intros Hi. pose proof FRC_OVERFLOW_pos as Hov.
  unfold Esp8266.frc_tick, Frc.tick.
  destruct (Frc.ctrl_enable (Frc.frc2 (Rtt.hw s))) eqn:En; [| exact Hi].
  destruct Hi as (Hc & Ha & Hk & Hs & He).
  rewrite u32_small by lia.
  cbn [Rtt.with_hw Rtt.hw Frc.with_frc2 Frc.frc2 Frc.write_count
       Frc.count Frc.alarm Frc.int_enable].
  rewrite (He En), andb_true_r.
  destruct (_ =? _) eqn:E.
  - apply Z.eqb_eq in E.
    apply frc_isr_in_step;
      cbn [Rtt.with_hw Rtt.hw Frc.with_frc2 Frc.frc2 Frc._frc_alarm
           Frc.write_count Frc.count Frc.alarm Frc.ctrl_enable
           Frc.int_enable]; try assumption; lia.
  - apply Z.eqb_neq in E.
    unfold frc_in_step.
    cbn [Rtt.with_hw Rtt.hw Frc.with_frc2 Frc.frc2 Frc._frc_alarm
         Frc.write_count Frc.count Frc.alarm Frc.ctrl_enable
         Frc.int_enable].
    repeat split; try assumption; lia.
Qed.

End FrcStepFacts.

Section FrcExecutionFacts.

Variable rtc_clk_to_us : Z -> Z -> Z.
Variable cb_body : rtt_cb_t -> Z -> list api_call.

Let drv := Esp8266.frc_drv rtc_clk_to_us.

Lemma registers_set_alarm a cb arg h :
  registers_in_step h -> registers_in_step (set_alarm drv a cb arg h).
Proof.
  intros (Hc & Ha & _).
  destruct (frc_set_alarm_core rtc_clk_to_us a cb arg h) as (Q1 & Q2 & Q3 & _);
    [lia|].
  repeat split; assumption || apply Q1.
Qed.

Lemma registers_clear_alarm h :
  registers_in_step h -> registers_in_step (clear_alarm drv h).
Proof.
  intros (Hc & Ha & Hk).
  destruct (frc_clear_alarm_core rtc_clk_to_us h Hc Ha Hk) as (Q1 & Q2 & Q3 & _).
  repeat split; assumption || apply Q1.
Qed.

Lemma rtt_init_in_step (s : Rtt.rtt_t Frc.frc_t) :
  frc_in_step (Rtt.hw (Rtt.rtt_init drv s)).
Proof.
  pose proof FRC_OVERFLOW_pos as Hov.
  unfold Rtt.rtt_init. rtt_unfold.
  set (s1 := Rtt.with_hw (restore_counter drv true)
               (Rtt.with_hw (init drv) s)).
  assert (P1 : registers_in_step (Rtt.hw s1)).
  { assert (Hc : 0 <= Frc.count (Frc.frc2 (Rtt.hw s1)) < Frc.FRC_OVERFLOW)
      by (cbn -[Frc.FRC_OVERFLOW]; apply Z.mod_pos_bound; lia).
    assert (Hal : Frc.alarm (Frc.frc2 (Rtt.hw s1)) = Frc.FRC_OVERFLOW)
      by reflexivity.
    assert (Hac : Frc.active (Frc._frc_alarm (Rtt.hw s1)) = 0)
      by reflexivity.
    unfold registers_in_step. rewrite Hal, Hac. lia. }
  set (s2 := Rtt._rtt_update_hw_alarm drv
               (Rtt.with_rtt_counter (Rtt.put_alarm 0 None NULL) s1)).
  assert (P2 : registers_in_step (Rtt.hw s2)).
  { unfold s2. apply update_keeps_backend; try exact P1.
    - intros; now apply registers_set_alarm.
    - intros; now apply registers_clear_alarm. }
  set (m := Rtt.with_rtt_counter (Rtt.put_overflow None NULL) s2).
  assert (Hma : Rtt.alarm_cb (Rtt.rtt_counter m) = None).
  { unfold m, s2.
    cbn [Rtt.with_rtt_counter Rtt.rtt_counter Rtt.put_overflow Rtt.alarm_cb].
    now rewrite alarm_cb_update. }
  assert (Hmo : Rtt.overflow_cb (Rtt.rtt_counter m) = None) by reflexivity.
  unfold Rtt._rtt_update_hw_alarm. rewrite Hma, Hmo.
  cbn [Rtt.is_set andb Rtt.with_hw Rtt.with_rtt_counter Rtt.hw].
  destruct P2 as (Hc & Ha & Hk).
  pose proof (frc_clear_alarm_core rtc_clk_to_us (Rtt.hw s2) Hc Ha Hk) as Hcore.
  apply frc_in_step_parts. split.
  - exact Hcore.
  - reflexivity.
Qed.

Lemma api_step_in_step (c : api_call) (s : Rtt.rtt_t Frc.frc_t) :
  frc_in_step (Rtt.hw s) -> frc_in_step (Rtt.hw (Rtt.api_step drv c s)).
Proof.
  intros Hi. apply api_step_keeps_backend; try exact Hi.
  - intros; now apply in_step_set_alarm.
  - intros; now apply in_step_clear_alarm.
Qed.

Lemma do_event_in_step (e : sys_event) (s : Rtt.rtt_t Frc.frc_t) :
  frc_in_step (Rtt.hw s) ->
  frc_in_step
    (Rtt.hw (do_event drv (Esp8266.frc_tick rtc_clk_to_us cb_body) s e)).
Proof.
  intros Hi. destruct e; cbn [do_event].
  - now apply api_step_in_step.
  - apply frc_in_step_parts in Hi as [Hc _].
    apply frc_in_step_parts. split; [exact Hc | reflexivity].
  - apply frc_in_step_parts in Hi as [Hc _].
    apply frc_in_step_parts. split; [exact Hc | discriminate].
  - exact Hi.
  - unfold Rtt.rtt_pm_sleep_enter.
    destruct (negb _); [exact Hi|].
    destruct (_ =? 0); exact Hi.
  - now apply frc_tick_in_step.
Qed.

(** Restoring the counters loads the count and leaves the compare register
    alone. *)
Lemma frc_restore_registers (in_init : bool) (s : Rtt.rtt_t Frc.frc_t) :
  let s' := Rtt.rtt_restore_counter drv in_init s in
  Frc.count (Frc.frc2 (Rtt.hw s'))
  = u32 (Frc._frc_counter_saved (Rtt.hw s)
         + frc_elapsed_ticks rtc_clk_to_us (Rtt.hw s)) mod Frc.FRC_OVERFLOW /\
  Frc.alarm (Frc.frc2 (Rtt.hw s')) = Frc.alarm (Frc.frc2 (Rtt.hw s)).
Proof. split; reflexivity. Qed.

(** A dispatch for a fired value other than 0, with no overflow callback
    and callbacks that make no calls, leaves the timer registers alone. *)
Lemma frc_isr_quiet_registers (s : Rtt.rtt_t Frc.frc_t) :
  (forall cb arg, cb_body cb arg = []) ->
  Rtt.alarm_active (Rtt.rtt_counter s) <> 0 ->
  Rtt.overflow_cb (Rtt.rtt_counter s) = None ->
  Frc.frc2 (Rtt.hw (Rtt._rtt_isr drv cb_body s)) = Frc.frc2 (Rtt.hw s).
Proof.
  intros Hq Hnz Hov. unfold Rtt._rtt_isr, Rtt.isr_overflow_path.
  apply Z.eqb_neq in Hnz. rewrite Hnz.
  set (s0 := if Rtt.wakeup (Rtt.rtt_counter s) then _ else s).
  assert (E0 : Rtt.hw s0 = Rtt.hw s /\
               Rtt.overflow_cb (Rtt.rtt_counter s0) = None).
  { unfold s0. destruct (Rtt.wakeup (Rtt.rtt_counter s)); split;
      assumption || reflexivity. }
  destruct E0 as [Eh Eo]. rewrite <- Eh.
  unfold Rtt.isr_alarm_path.
  destruct (_ && _); [| reflexivity].
  assert (Ec : Frc.frc2 (Rtt.hw (Rtt.rtt_clear_alarm drv s0))
               = Frc.frc2 (Rtt.hw s0)).
  { unfold Rtt.rtt_clear_alarm, Rtt._rtt_update_hw_alarm.
    cbn [Rtt.with_rtt_counter Rtt.rtt_counter Rtt.put_alarm Rtt.alarm_cb
         Rtt.overflow_cb Rtt.is_set andb].
    rewrite Eo. reflexivity. }
  destruct (Rtt.alarm_cb (Rtt.rtt_counter s0)) as [cb|]; [| exact Ec].
  unfold Rtt.call_alarm_cb. rewrite Hq. exact Ec.
Qed.

End FrcExecutionFacts.

(** X7.  Where the FRC2 timer stays in step with its compare register,
    and where it does not.  After [rtt_init], from whatever state it
    starts, and through every sequence of these events: calls of
    [rtt_set_alarm], [rtt_clear_alarm], [rtt_set_overflow_cb],
    [rtt_clear_overflow_cb] and [rtt_set_counter], [rtt_poweron],
    [rtt_poweroff], [rtt_save_counter], [rtt_pm_sleep_enter] and timer
    ticks, with callbacks that do what they like, the FRC2 count stays
    below the compare register and the compare register does not exceed
    [FRC_OVERFLOW]; the compare register holds the armed alarm or, when no
    alarm is armed ahead, [FRC_OVERFLOW]; and a running timer has its
    interrupt enabled.  So through these events the timer does not run
    past its overflow value, and the microseconds read from it do not
    exceed 32 bits.  [rtt_restore_counter] and [rtt_pm_sleep_exit] are not
    among these events, and they do not keep the timer in step:
    [rtt_restore_counter] loads the count with the saved count plus the
    ticks of the sleep, modulo [FRC_OVERFLOW], and leaves the compare
    register as it is, so that the timer is out of step whenever the
    loaded count is not below the compare register; and so it is after
    [rtt_pm_sleep_exit], for a cause other than the timer, and for the
    timer as cause when a fired value other than 0 is dispatched with no
    overflow callback registered and callbacks that make no calls. *)
Theorem frc_timer_stays_in_step (rtc_clk_to_us : Z -> Z -> Z)
    (cb_body : rtt_cb_t -> Z -> list api_call) (ESP_SLEEP_WAKEUP_TIMER : Z) :
  let drv := Esp8266.frc_drv rtc_clk_to_us in
  let tick := Esp8266.frc_tick rtc_clk_to_us cb_body in
  (forall (es : list sys_event) (s0 : Rtt.rtt_t Frc.frc_t),
      let s := execute drv tick es (Rtt.rtt_init drv s0) in
      frc_in_step (Rtt.hw s) /\
      0 <= Frc.count (Frc.frc2 (Rtt.hw s)) < Frc.FRC_OVERFLOW /\
      u64 (u64 (Frc.count (Frc.frc2 (Rtt.hw s))) * 1000000)
      / Frc.FRC_FREQUENCY < 2 ^ 32) /\
  (forall (s : Rtt.rtt_t Frc.frc_t) (in_init : bool),
      let s' := Rtt.rtt_restore_counter drv in_init s in
      let loaded :=
        u32 (Frc._frc_counter_saved (Rtt.hw s)
             + frc_elapsed_ticks rtc_clk_to_us (Rtt.hw s))
        mod Frc.FRC_OVERFLOW in
      Frc.count (Frc.frc2 (Rtt.hw s')) = loaded /\
      Frc.alarm (Frc.frc2 (Rtt.hw s')) = Frc.alarm (Frc.frc2 (Rtt.hw s)) /\
      (Frc.alarm (Frc.frc2 (Rtt.hw s)) <= loaded ->
       ~ frc_in_step (Rtt.hw s'))) /\
  (forall (s : Rtt.rtt_t Frc.frc_t) (cause : Z),
      let s' := Rtt.rtt_pm_sleep_exit drv cb_body ESP_SLEEP_WAKEUP_TIMER
                  cause s in
      let loaded :=
        u32 (Frc._frc_counter_saved (Rtt.hw s)
             + frc_elapsed_ticks rtc_clk_to_us (Rtt.hw s))
        mod Frc.FRC_OVERFLOW in
      cause <> ESP_SLEEP_WAKEUP_TIMER \/
      ((forall cb arg, cb_body cb arg = []) /\
       Rtt.alarm_active (Rtt.rtt_counter s) <> 0 /\
       Rtt.overflow_cb (Rtt.rtt_counter s) = None) ->
      Frc.count (Frc.frc2 (Rtt.hw s')) = loaded /\
      Frc.alarm (Frc.frc2 (Rtt.hw s')) = Frc.alarm (Frc.frc2 (Rtt.hw s)) /\
      (Frc.alarm (Frc.frc2 (Rtt.hw s)) <= loaded ->
       ~ frc_in_step (Rtt.hw s'))).
Proof.
  cbn zeta. split; [| split].
  2: { intros s in_init.
       destruct (frc_restore_registers rtc_clk_to_us in_init s) as [Ec Ea].
       split; [exact Ec|]. split; [exact Ea|].
       intros Hle Hin. apply frc_in_step_parts in Hin as [Hcore _].
       destruct Hcore as (Hlt & _). rewrite Ec, Ea in Hlt. lia. }
  2: { intros s cause Hcase.
       destruct (frc_restore_registers rtc_clk_to_us false s) as [Ec Ea].
       assert (E : Frc.frc2
                     (Rtt.hw (Rtt.rtt_pm_sleep_exit
                                (Esp8266.frc_drv rtc_clk_to_us) cb_body
                                ESP_SLEEP_WAKEUP_TIMER cause s))
                   = Frc.frc2
                       (Rtt.hw (Rtt.rtt_restore_counter
                                  (Esp8266.frc_drv rtc_clk_to_us) false s))).
       { unfold Rtt.rtt_pm_sleep_exit.
         destruct (Z.eqb_spec cause ESP_SLEEP_WAKEUP_TIMER) as [Ey|En];
           [| reflexivity].
         destruct Hcase as [Hn | (Hq & Hnz & Hov)]; [contradiction|].
         now apply frc_isr_quiet_registers. }
       rewrite E.
       split; [exact Ec|]. split; [exact Ea|].
       intros Hle Hin. apply frc_in_step_parts in Hin as [Hcore _].
       destruct Hcore as (Hlt & _). rewrite E, Ec, Ea in Hlt. lia. }
  intros es s0.
  assert (Hall : forall es s,
             frc_in_step (Rtt.hw s) ->
             frc_in_step
               (Rtt.hw (execute (Esp8266.frc_drv rtc_clk_to_us)
                          (Esp8266.frc_tick rtc_clk_to_us cb_body) es s))).
  { intros l. induction l as [|e l IH]; intros s Hs; [exact Hs|].
    cbn [execute fold_left]. apply IH. now apply do_event_in_step. }
  pose proof (Hall es _ (rtt_init_in_step rtc_clk_to_us s0)) as Hi.
  split; [exact Hi|].
  apply frc_in_step_parts in Hi as [Hc _].
  apply frc_core_count in Hc.
  split; [exact Hc|].
  rewrite FRC_OVERFLOW_value in Hc.
  rewrite (u64_small (Frc.count _)) by lia.
  rewrite u64_small by lia.
  change Frc.FRC_FREQUENCY with 312500.
  apply Z.div_lt_upper_bound; lia.
Qed.

Lemma frc_timer_stays_in_step_witness :
  frc_in_step
    (Rtt.hw
       (execute (Esp8266.frc_drv Sample.rtc_clk_to_us)
          (Esp8266.frc_tick Sample.rtc_clk_to_us Sample.quiet)
          [Do_call (Call_set_counter 1000000);
           Do_call (Call_set_alarm 1005000 (Some 1%nat) 42);
           Do_tick; Do_sleep_enter 1]
          (Rtt.rtt_init (Esp8266.frc_drv Sample.rtc_clk_to_us)
             Sample.frc_reset))) /\
  (let s := Rtt.with_hw Sample.frc_overslept
              (snd (Rtt.rtt_pm_sleep_enter Sample.frc_drv 1
                      Sample.frc_alarm_set)) in
   let s' := Rtt.rtt_pm_sleep_exit (Esp8266.frc_drv Sample.rtc_clk_to_us)
               Sample.quiet 4 4 s in
   Frc.count (Frc.frc2 (Rtt.hw s')) = 1563 /\
   Frc.alarm (Frc.frc2 (Rtt.hw s')) = 1562 /\
   ~ frc_in_step (Rtt.hw s')).
Proof.
  destruct (frc_timer_stays_in_step Sample.rtc_clk_to_us Sample.quiet 4)
    as (Hin & _ & Hexit).
  split.
  - apply Hin.
  - cbn zeta.
    destruct (Hexit
                (Rtt.with_hw Sample.frc_overslept
                   (snd (Rtt.rtt_pm_sleep_enter Sample.frc_drv 1
                           Sample.frc_alarm_set))) 4)
      as (Ec & Ea & Hout).
    + right. split; [reflexivity|].
      split; [vm_compute; discriminate | vm_compute; reflexivity].
    + split; [vm_compute; reflexivity|].
      split; [vm_compute; reflexivity|].
      apply Hout. vm_compute. discriminate.
Defined.

(** ** The counter from tick to tick *)

Section CounterThroughCore.

Context {H : Type}.
Variable drv : rtt_hw_driver_t H.
Variable armed_for : Z -> H -> Prop.
Variable disarmed : H -> Prop.
Hypothesis laws : driver_laws drv armed_for disarmed.
Variable cb_body : rtt_cb_t -> Z -> list api_call.
Hypothesis no_set_counter :
  forall cb arg, existsb sets_counter (cb_body cb arg) = false.

Lemma api_step_keeps_counter (c : api_call) (s : Rtt.rtt_t H) :
  sets_counter c = false ->
  Rtt.rtt_get_counter drv (Rtt.api_step drv c s) = Rtt.rtt_get_counter drv s.
Proof.
  intros Hc. destruct c; try discriminate; cbn [Rtt.api_step]; rtt_unfold;
    now rewrite (update_keeps_counter drv armed_for disarmed laws).
Qed.

Lemma run_calls_keeps_counter (cs : list api_call) (s : Rtt.rtt_t H) :
  existsb sets_counter cs = false ->
  Rtt.rtt_get_counter drv (Rtt.run_calls drv cs s) = Rtt.rtt_get_counter drv s.
Proof.
  revert s. induction cs as [|c cs IH]; intros s Hcs; [reflexivity|].
  cbn [existsb] in Hcs. apply orb_false_iff in Hcs as [Hc Hcs].
  cbn [Rtt.run_calls fold_left].
  change (fold_left _ cs ?x) with (Rtt.run_calls drv cs x).
  now rewrite (IH _ Hcs), api_step_keeps_counter.
Qed.

(** A dispatch whose callbacks do not set the counter leaves it as it
    is. *)
Lemma isr_keeps_counter (s : Rtt.rtt_t H) :
  Rtt.rtt_get_counter drv (Rtt._rtt_isr drv cb_body s)
  = Rtt.rtt_get_counter drv s.
Proof.
  unfold Rtt._rtt_isr.
  set (s0 := if Rtt.wakeup (Rtt.rtt_counter s) then _ else s).
  assert (H0 : Rtt.rtt_get_counter drv s0 = Rtt.rtt_get_counter drv s)
    by (unfold s0; now destruct (Rtt.wakeup (Rtt.rtt_counter s))).
  set (fired := Rtt.alarm_active (Rtt.rtt_counter s)).
  assert (H1 : Rtt.rtt_get_counter drv (Rtt.isr_alarm_path drv cb_body fired s0)
               = Rtt.rtt_get_counter drv s).
  { unfold Rtt.isr_alarm_path. destruct (_ && _); [| exact H0].
    assert (Hc : Rtt.rtt_get_counter drv (Rtt.rtt_clear_alarm drv s0)
                 = Rtt.rtt_get_counter drv s).
    { unfold Rtt.rtt_clear_alarm.
      now rewrite (update_keeps_counter drv armed_for disarmed laws). }
    destruct (Rtt.alarm_cb (Rtt.rtt_counter s0)); [| exact Hc].
    unfold Rtt.call_alarm_cb.
    now rewrite run_calls_keeps_counter by apply no_set_counter. }
  unfold Rtt.isr_overflow_path. destruct (fired =? 0); [| exact H1].
  set (t := Rtt.isr_alarm_path drv cb_body fired s0) in *.
  assert (Hu : Rtt.rtt_get_counter drv (Rtt._rtt_update_hw_alarm drv t)
               = Rtt.rtt_get_counter drv s)
    by now rewrite (update_keeps_counter drv armed_for disarmed laws).
  destruct (Rtt.overflow_cb _); [| exact Hu].
  unfold Rtt.call_overflow_cb.
  now rewrite run_calls_keeps_counter by apply no_set_counter.
Qed.

End CounterThroughCore.

Section TickAdvanceFacts.

Variable rtc_clk_to_us : Z -> Z -> Z.
Variable cb_body : rtt_cb_t -> Z -> list api_call.
Hypothesis no_set_counter :
  forall cb arg, existsb sets_counter (cb_body cb arg) = false.

Lemma sys_tick_advances (s : Rtt.rtt_t Sys.sys_t) :
  Rtt.rtt_get_counter (Esp8266.sys_drv rtc_clk_to_us)
    (Esp8266.sys_tick rtc_clk_to_us cb_body s)
  = u32 (Rtt.rtt_get_counter (Esp8266.sys_drv rtc_clk_to_us) s + 1).
Proof.
  set (drv := Esp8266.sys_drv rtc_clk_to_us).
  unfold Esp8266.sys_tick, Sys.tick.
  set (s1 := Rtt.with_hw _ s).
  assert (H1 : Rtt.rtt_get_counter drv s1
               = u32 (Rtt.rtt_get_counter drv s + 1)).
  { unfold drv. rewrite !sys_counter_reading. unfold s1.
    cbn [Rtt.with_hw Rtt.hw Rtt._rtt_offset Sys.with_system_time
         Sys.system_time Sys._sys_counter_offset].
    rewrite <- Z.add_assoc, !u32_add_l. f_equal. lia. }
  destruct (Sys.queued (Sys._sys_timer (Rtt.hw s1))) as [d|]; [| exact H1].
  destruct (d <=? 1); [| exact H1].
  unfold Sys.xtimer_shoot.
  destruct (Sys.callback (Sys._sys_timer (Rtt.hw s1))) as [[]|]; [| exact H1].
  unfold Esp8266.sys_handler.
  rewrite (isr_keeps_counter drv _ _ (sys_laws rtc_clk_to_us) cb_body
             no_set_counter).
  exact H1.
Qed.

Lemma frc_counter_reading (s : Rtt.rtt_t Frc.frc_t) :
  Rtt.rtt_get_counter (Esp8266.frc_drv rtc_clk_to_us) s
  = u32 (Frc.FRC_COUNTER_TO_US (Frc.count (Frc.frc2 (Rtt.hw s)))
         + Rtt._rtt_offset s).
Proof. reflexivity. Qed.

(** [_frc_isr] leaves the counter as it is, also when it loads the timer
    again. *)
Lemma frc_isr_keeps_counter (s : Rtt.rtt_t Frc.frc_t) :
  0 <= Frc.count (Frc.frc2 (Rtt.hw s)) < 2 ^ 32 ->
  Rtt.rtt_get_counter (Esp8266.frc_drv rtc_clk_to_us)
    (Esp8266._frc_isr rtc_clk_to_us cb_body s)
  = Rtt.rtt_get_counter (Esp8266.frc_drv rtc_clk_to_us) s.
Proof.
  intros Hc. set (drv := Esp8266.frc_drv rtc_clk_to_us).
  unfold Esp8266._frc_isr, Frc._frc_isr.
  set (k := Frc.count (Frc.frc2 (Rtt.hw s)) mod Frc.FRC_OVERFLOW).
  set (s0 := if Frc.active _ =? 0 then _ else s).
  assert (H0 : Rtt.rtt_get_counter drv s0 = Rtt.rtt_get_counter drv s).
  { unfold s0. destruct (Frc.active _ =? 0); [| reflexivity].
    unfold drv. rewrite !frc_counter_reading.
    cbn [Rtt.with_hw Rtt.hw Rtt._rtt_offset Frc.with_frc2 Frc.frc2
         Frc.write_load Frc.count].
    unfold k. now rewrite FRC_COUNTER_TO_US_mod. }
  set (a := Frc._frc_alarm (Rtt.hw s0)).
  set (s1 := if (Frc.active a =? Frc.alarm_set a) && _ then _ else s0).
  assert (H1 : Rtt.rtt_get_counter drv s1 = Rtt.rtt_get_counter drv s).
  { unfold s1. destruct (_ && _); [| exact H0].
    destruct (Frc.alarm_cb a) as [[]|]; [| exact H0].
    unfold Esp8266.frc_handler.
    rewrite (isr_keeps_counter drv _ _ (frc_laws rtc_clk_to_us) cb_body
               no_set_counter).
    exact H0. }
  rewrite <- H1. unfold drv. rewrite !frc_counter_reading.
  cbn [Rtt.with_hw Rtt.hw Rtt._rtt_offset].
  now rewrite frc_update_alarm_count.
Qed.

(** One more timer tick is three or four more microseconds. *)
Lemma FRC_COUNTER_TO_US_succ (c : Z) :
  0 <= c < 2 ^ 32 - 1 ->
  exists d, 3 <= d <= 4 /\
    Frc.FRC_COUNTER_TO_US (c + 1) = u32 (Frc.FRC_COUNTER_TO_US c + d).
Proof.
  intros Hc.
  rewrite !FRC_COUNTER_TO_US_eq by lia.
  exists ((c + 1) * 16 / 5 - c * 16 / 5). split.
  - pose proof (Z.div_mod (c * 16) 5 ltac:(lia)) as E1.
    pose proof (Z.div_mod ((c + 1) * 16) 5 ltac:(lia)) as E2.
    pose proof (Z.mod_pos_bound (c * 16) 5 ltac:(lia)).
    pose proof (Z.mod_pos_bound ((c + 1) * 16) 5 ltac:(lia)).
    lia.
  - rewrite u32_add_l. f_equal. lia.
Qed.

Lemma frc_tick_advances (s : Rtt.rtt_t Frc.frc_t) :
  0 <= Frc.count (Frc.frc2 (Rtt.hw s)) < 2 ^ 32 - 1 ->
  Frc.ctrl_enable (Frc.frc2 (Rtt.hw s)) = true ->
  exists d, 3 <= d <= 4 /\
    Rtt.rtt_get_counter (Esp8266.frc_drv rtc_clk_to_us)
      (Esp8266.frc_tick rtc_clk_to_us cb_body s)
    = u32 (Rtt.rtt_get_counter (Esp8266.frc_drv rtc_clk_to_us) s + d).
Proof.
  intros Hc En. set (drv := Esp8266.frc_drv rtc_clk_to_us).
  destruct (FRC_COUNTER_TO_US_succ _ Hc) as (d & Hd & Ed).
  exists d. split; [exact Hd|].
  unfold Esp8266.frc_tick, Frc.tick. rewrite En.
  rewrite u32_small by lia.
  set (s1 := Rtt.with_hw _ s).
  assert (H1 : Rtt.rtt_get_counter drv s1
               = u32 (Rtt.rtt_get_counter drv s + d)).
  { unfold drv. rewrite !frc_counter_reading. unfold s1.
    cbn [Rtt.with_hw Rtt.hw Rtt._rtt_offset Frc.with_frc2 Frc.frc2
         Frc.write_count Frc.count].
    rewrite Ed, !u32_add_l. f_equal. lia. }
  destruct (_ && _); [| exact H1].
  change (Frc._frc_isr _ s1) with (Esp8266._frc_isr rtc_clk_to_us cb_body s1).
  rewrite frc_isr_keeps_counter; [exact H1|].
  unfold s1.
  cbn [Rtt.with_hw Rtt.hw Frc.with_frc2 Frc.frc2 Frc.write_count Frc.count].
  lia.
Qed.

(** The tick that takes the timer register from 2^32 - 1 to 0. *)
Lemma frc_tick_register_wrap (s : Rtt.rtt_t Frc.frc_t) :
  Frc.count (Frc.frc2 (Rtt.hw s)) = 2 ^ 32 - 1 ->
  Frc.ctrl_enable (Frc.frc2 (Rtt.hw s)) = true ->
  Rtt.rtt_get_counter (Esp8266.frc_drv rtc_clk_to_us)
    (Esp8266.frc_tick rtc_clk_to_us cb_body s)
  = u32 (Rtt.rtt_get_counter (Esp8266.frc_drv rtc_clk_to_us) s - 858993456).
Proof.
  intros Hc En. set (drv := Esp8266.frc_drv rtc_clk_to_us).
  unfold Esp8266.frc_tick, Frc.tick. rewrite En, Hc.
  change (u32 (2 ^ 32 - 1 + 1)) with 0.
  set (s1 := Rtt.with_hw _ s).
  assert (H1 : Rtt.rtt_get_counter drv s1
               = u32 (Rtt.rtt_get_counter drv s - 858993456)).
  { unfold drv. rewrite !frc_counter_reading. unfold s1.
    cbn [Rtt.with_hw Rtt.hw Rtt._rtt_offset Frc.with_frc2 Frc.frc2
         Frc.write_count Frc.count].
    rewrite Hc.
    change (Frc.FRC_COUNTER_TO_US 0) with 0.
    change (Frc.FRC_COUNTER_TO_US (2 ^ 32 - 1)) with 858993456.
    rewrite u32_sub_l. f_equal. lia. }
  destruct (_ && _); [| exact H1].
  change (Frc._frc_isr _ s1) with (Esp8266._frc_isr rtc_clk_to_us cb_body s1).
  rewrite frc_isr_keeps_counter; [exact H1|].
  unfold s1.
  cbn [Rtt.with_hw Rtt.hw Frc.with_frc2 Frc.frc2 Frc.write_count Frc.count].
  lia.
Qed.

End TickAdvanceFacts.

(** X8.  As long as no callback sets the counter, the counter goes up with
    every tick, modulo 2^32, interrupts or not: by one with every
    microsecond on the system-time backend, and by three or four with
    every tick of a running FRC2 timer whose 32-bit count is below
    2^32 - 1 before the tick.  On the tick that takes the timer register
    from 2^32 - 1, a count above [FRC_OVERFLOW], to 0, the counter falls
    back by 858993456, modulo 2^32, instead.  A stopped FRC2 timer leaves
    the whole state as it is. *)
Theorem counter_goes_up_with_ticks (rtc_clk_to_us : Z -> Z -> Z)
    (cb_body : rtt_cb_t -> Z -> list api_call) :
  (forall cb arg, existsb sets_counter (cb_body cb arg) = false) ->
  (forall s : Rtt.rtt_t Sys.sys_t,
      Rtt.rtt_get_counter (Esp8266.sys_drv rtc_clk_to_us)
        (Esp8266.sys_tick rtc_clk_to_us cb_body s)
      = u32 (Rtt.rtt_get_counter (Esp8266.sys_drv rtc_clk_to_us) s + 1)) /\
  (forall s : Rtt.rtt_t Frc.frc_t,
      0 <= Frc.count (Frc.frc2 (Rtt.hw s)) < 2 ^ 32 - 1 ->
      Frc.ctrl_enable (Frc.frc2 (Rtt.hw s)) = true ->
      exists d, 3 <= d <= 4 /\
        Rtt.rtt_get_counter (Esp8266.frc_drv rtc_clk_to_us)
          (Esp8266.frc_tick rtc_clk_to_us cb_body s)
        = u32 (Rtt.rtt_get_counter (Esp8266.frc_drv rtc_clk_to_us) s + d)) /\
  (forall s : Rtt.rtt_t Frc.frc_t,
      Frc.count (Frc.frc2 (Rtt.hw s)) = 2 ^ 32 - 1 ->
      Frc.ctrl_enable (Frc.frc2 (Rtt.hw s)) = true ->
      Rtt.rtt_get_counter (Esp8266.frc_drv rtc_clk_to_us)
        (Esp8266.frc_tick rtc_clk_to_us cb_body s)
      = u32 (Rtt.rtt_get_counter (Esp8266.frc_drv rtc_clk_to_us) s
             - 858993456)) /\
  (forall s : Rtt.rtt_t Frc.frc_t,
      Frc.ctrl_enable (Frc.frc2 (Rtt.hw s)) = false ->
      Esp8266.frc_tick rtc_clk_to_us cb_body s = s).
Proof.
  intros Hq. split; [| split; [| split]].
  - intros s. now apply sys_tick_advances.
  - intros s. now apply frc_tick_advances.
  - intros s. now apply frc_tick_register_wrap.
  - intros s En. unfold Esp8266.frc_tick, Frc.tick. now rewrite En.
Qed.

Lemma counter_goes_up_with_ticks_witness :
  Rtt.rtt_get_counter Sample.sys_drv
    (Esp8266.sys_tick Sample.rtc_clk_to_us Sample.rearming Sample.sys_alarm_set)
  = u32 (Rtt.rtt_get_counter Sample.sys_drv Sample.sys_alarm_set + 1) /\
  (exists d, 3 <= d <= 4 /\
    Rtt.rtt_get_counter Sample.frc_drv
      (Esp8266.frc_tick Sample.rtc_clk_to_us Sample.rearming
         Sample.frc_alarm_set)
    = u32 (Rtt.rtt_get_counter Sample.frc_drv Sample.frc_alarm_set + d)) /\
  (let s := Rtt.with_hw (Frc.with_frc2 (Frc.write_count (2 ^ 32 - 1)))
              Sample.frc_alarm_set in
   Rtt.rtt_get_counter Sample.frc_drv
     (Esp8266.frc_tick Sample.rtc_clk_to_us Sample.rearming s)
   = u32 (Rtt.rtt_get_counter Sample.frc_drv s - 858993456)).
Proof.
  destruct (counter_goes_up_with_ticks Sample.rtc_clk_to_us Sample.rearming)
    as (Hs & Hf & Hw & _).
  - intros [|[|cb]] arg; reflexivity.
  - split; [| split].
    + apply Hs.
    + apply Hf.
      * vm_compute. split; [discriminate | reflexivity].
      * reflexivity.
    + cbn zeta. apply Hw; reflexivity.
Defined.

(** ** The counter over a sleep or a restart *)

Lemma FRC_US_TO_COUNTER_eq (us : Z) :
  0 <= us < 2 ^ 32 -> Frc.FRC_US_TO_COUNTER us = us * 5 / 16.
Proof.
  intros Hu. unfold Frc.FRC_US_TO_COUNTER.
  rewrite (u64_small us) by lia.
  change Frc.FRC_FREQUENCY with 312500.
  rewrite u64_small by lia.
  replace (us * 312500) with (us * 5 * 62500) by lia.
  replace 1000000 with (16 * 62500) by lia.
  rewrite Z.div_mul_cancel_r by lia.
  apply u32_small.
  pose proof (Z.div_mod (us * 5) 16 ltac:(lia)).
  pose proof (Z.mod_pos_bound (us * 5) 16 ltac:(lia)).
  lia.
Qed.

(** The timer loaded with a saved count plus the ticks of [us]
    microseconds reads at most three microseconds less than the saved
    reading plus [us]. *)
Lemma frc_restored_reading (saved us : Z) :
  0 <= saved < Frc.FRC_OVERFLOW -> 0 <= us < 2 ^ 32 ->
  exists e, 0 <= e <= 3 /\
    Frc.FRC_COUNTER_TO_US
      (u32 (saved + Frc.FRC_US_TO_COUNTER us) mod Frc.FRC_OVERFLOW)
    = u32 (Frc.FRC_COUNTER_TO_US saved + us - e).
Proof.
  intros Hs Hu. rewrite FRC_OVERFLOW_value in Hs.
  rewrite FRC_US_TO_COUNTER_eq by exact Hu.
  pose proof (Z.div_mod (us * 5) 16 ltac:(lia)) as E1.
  pose proof (Z.mod_pos_bound (us * 5) 16 ltac:(lia)) as B1.
  rewrite (u32_small (saved + _)) by lia.
  rewrite FRC_COUNTER_TO_US_mod by lia.
  rewrite !FRC_COUNTER_TO_US_eq by lia.
  pose proof (Z.div_mod (saved * 16) 5 ltac:(lia)) as E2.
  pose proof (Z.mod_pos_bound (saved * 16) 5 ltac:(lia)) as B2.
  pose proof (Z.div_mod ((saved + us * 5 / 16) * 16) 5 ltac:(lia)) as E3.
  pose proof (Z.mod_pos_bound ((saved + us * 5 / 16) * 16) 5 ltac:(lia)) as B3.
  exists (saved * 16 / 5 + us - (saved + us * 5 / 16) * 16 / 5).
  split; [lia|].
  replace (u32 (saved * 16 / 5) + us - _)
    with (u32 (saved * 16 / 5)
          + (us - (saved * 16 / 5 + us - (saved + us * 5 / 16) * 16 / 5)))
    by lia.
  rewrite u32_add_l. f_equal. lia.
Qed.

Section InitReading.

Context {H : Type}.
Variable drv : rtt_hw_driver_t H.
Variable armed_for : Z -> H -> Prop.
Variable disarmed : H -> Prop.
Hypothesis laws : driver_laws drv armed_for disarmed.
Hypothesis poweron_keeps_counter :
  forall h, get_counter drv (poweron drv h) = get_counter drv h.

(** After [rtt_init] the counter reads what the restore in it made of
    it. *)
Lemma rtt_init_reading (s : Rtt.rtt_t H) :
  Rtt.rtt_get_counter drv (Rtt.rtt_init drv s)
  = u32 (get_counter drv (restore_counter drv true (init drv (Rtt.hw s)))
         + Rtt._rtt_offset s).
Proof.
  unfold Rtt.rtt_init, Rtt.rtt_poweron.
  set (s2 := Rtt.rtt_clear_overflow_cb drv _).
  assert (E : Rtt.rtt_get_counter drv s2
              = u32 (get_counter drv
                       (restore_counter drv true (init drv (Rtt.hw s)))
                     + Rtt._rtt_offset s)).
  { unfold s2, Rtt.rtt_clear_overflow_cb, Rtt.rtt_clear_alarm.
    rewrite (update_keeps_counter drv armed_for disarmed laws).
    change (Rtt.rtt_get_counter drv (Rtt.with_rtt_counter ?f ?x))
      with (Rtt.rtt_get_counter drv x).
    rewrite (update_keeps_counter drv armed_for disarmed laws).
    reflexivity. }
  rewrite <- E. unfold Rtt.rtt_get_counter.
  cbn [Rtt.with_hw Rtt.hw Rtt._rtt_offset].
  now rewrite poweron_keeps_counter.
Qed.

End InitReading.

(** X9.  The counter goes on over a restart.  When [rtt_init] runs in a
    state whose statics in RTC memory are those left by
    [rtt_save_counter] in [s], then on the system-time backend, with the
    offset of the system time zero as at start-up, the counter reads what
    it read in [s] plus the new system time plus the calibrated
    microseconds of the RTC since the save, modulo 2^32; on the FRC2
    backend, for a saved count below [FRC_OVERFLOW], it reads what it read
    in [s] plus those microseconds less at most three. *)
Theorem counter_continues_after_restart (rtc_clk_to_us : Z -> Z -> Z) :
  (forall s s' : Rtt.rtt_t Sys.sys_t,
      let drv := Esp8266.sys_drv rtc_clk_to_us in
      let us := u32 (rtc_clk_to_us
                       (u32 (Sys.RTC_COUNTER (Rtt.hw s')
                             - Sys.RTC_COUNTER (Rtt.hw s)))
                       (Sys.rtc_cali (Rtt.hw s'))) in
      Rtt._rtt_offset s' = Rtt._rtt_offset s ->
      sys_retained (Rtt.hw (Rtt.rtt_save_counter drv s)) (Rtt.hw s') ->
      Sys._sys_counter_offset (Rtt.hw s') = 0 ->
      Rtt.rtt_get_counter drv (Rtt.rtt_init drv s')
      = u32 (Rtt.rtt_get_counter drv s + Sys.system_time (Rtt.hw s') + us)) /\
  (forall s s' : Rtt.rtt_t Frc.frc_t,
      let drv := Esp8266.frc_drv rtc_clk_to_us in
      let us := u32 (rtc_clk_to_us
                       (u32 (Frc.RTC_COUNTER (Rtt.hw s')
                             - Frc.RTC_COUNTER (Rtt.hw s)))
                       (Frc.rtc_cali (Rtt.hw s'))) in
      0 <= Frc.count (Frc.frc2 (Rtt.hw s)) < Frc.FRC_OVERFLOW ->
      Rtt._rtt_offset s' = Rtt._rtt_offset s ->
      frc_retained (Rtt.hw (Rtt.rtt_save_counter drv s)) (Rtt.hw s') ->
      exists e, 0 <= e <= 3 /\
        Rtt.rtt_get_counter drv (Rtt.rtt_init drv s')
        = u32 (Rtt.rtt_get_counter drv s + us - e)).
Proof.
  split.
  - intros s s' drv us Ho [Hr Hs] Hz.
    rewrite (rtt_init_reading drv _ _ (sys_laws rtc_clk_to_us))
      by reflexivity.
    unfold drv. rewrite sys_counter_reading.
    cbn [Esp8266.sys_drv Sys._rtt_hw_sys_driver init restore_counter
         get_counter].
    unfold Sys._sys_init, Sys._sys_get_counter, Sys._sys_restore_counter,
      Sys._rtc_get_counter.
    rewrite SYS_US_TO_COUNT_id by apply u32_range.
    cbn [Sys.with_sys_offset Sys._sys_counter_offset Sys.system_time
         Sys.RTC_COUNTER Sys.rtc_cali
         Sys._rtc_counter_saved Sys._sys_counter_saved].
    rewrite Hr, Hs, Hz, Ho. rewrite Z.add_0_l, u32_idem.
    change (Sys._rtc_counter_saved (Rtt.hw (Rtt.rtt_save_counter drv s)))
      with (Sys.RTC_COUNTER (Rtt.hw s)).
    change (Sys._sys_counter_saved (Rtt.hw (Rtt.rtt_save_counter drv s)))
      with (u32 (Sys.system_time (Rtt.hw s)
                 + Sys._sys_counter_offset (Rtt.hw s))).
    fold us.
    set (T' := Sys.system_time (Rtt.hw s')).
    set (a := Sys.system_time (Rtt.hw s) + Sys._sys_counter_offset (Rtt.hw s)).
    set (o := Rtt._rtt_offset s).
    rewrite (u32_add_r us a), u32_add_r, u32_add_l.
    replace (u32 (a + o) + T' + us) with (u32 (a + o) + (T' + us)) by lia.
    rewrite u32_add_l. f_equal. lia.
  - intros s s' drv us Hc Ho [Hr Hs].
    assert (Hp : forall h, get_counter drv (poweron drv h) = get_counter drv h)
      by reflexivity.
    rewrite (rtt_init_reading drv _ _ (frc_laws rtc_clk_to_us) Hp).
    unfold drv. rewrite frc_counter_reading.
    cbn [Esp8266.frc_drv Frc._rtt_hw_frc_driver init restore_counter
         get_counter].
    unfold Frc._frc_get_counter, Frc._frc_restore_counter.
    cbn [Frc.with_frc2 Frc.frc2 Frc.write_load Frc.count].
    change (Frc._frc_counter_saved (Frc._frc_init (Rtt.hw s')))
      with (Frc._frc_counter_saved (Rtt.hw s')).
    change (Frc._rtc_counter_saved (Frc._frc_init (Rtt.hw s')))
      with (Frc._rtc_counter_saved (Rtt.hw s')).
    change (Frc.RTC_COUNTER (Frc._frc_init (Rtt.hw s')))
      with (Frc.RTC_COUNTER (Rtt.hw s')).
    change (Frc.rtc_cali (Frc._frc_init (Rtt.hw s')))
      with (Frc.rtc_cali (Rtt.hw s')).
    rewrite Hr, Hs, Ho.
    change (Frc._frc_counter_saved (Rtt.hw (Rtt.rtt_save_counter drv s)))
      with (Frc.count (Frc.frc2 (Rtt.hw s))).
    change (Frc._rtc_counter_saved (Rtt.hw (Rtt.rtt_save_counter drv s)))
      with (Frc.RTC_COUNTER (Rtt.hw s)).
    fold us.
    destruct (frc_restored_reading (Frc.count (Frc.frc2 (Rtt.hw s))) us Hc
                (u32_range _)) as (e & He & Ee).
    exists e. split; [exact He|].
    rewrite Ee.
    set (a := Frc.FRC_COUNTER_TO_US _). set (o := Rtt._rtt_offset s).
    replace (u32 (a + o) + us - e) with (u32 (a + o) + (us - e)) by lia.
    rewrite !u32_add_l. f_equal. lia.
Qed.

Lemma counter_continues_after_restart_witness :
  Rtt.rtt_get_counter Sample.sys_drv
    (Rtt.rtt_init Sample.sys_drv Sample.sys_restarted)
  = 1001210 /\
  exists e, 0 <= e <= 3 /\
    Rtt.rtt_get_counter Sample.frc_drv
      (Rtt.rtt_init Sample.frc_drv Sample.frc_restarted)
    = u32 (1000000 + 1010 - e).
Proof.
  destruct (counter_continues_after_restart Sample.rtc_clk_to_us)
    as (Hs & Hf).
  split.
  - unfold Sample.sys_drv.
    rewrite (Hs Sample.sys_alarm_set Sample.sys_restarted).
    + vm_compute. reflexivity.
    + vm_compute. reflexivity.
    + vm_compute. split; reflexivity.
    + vm_compute. reflexivity.
  - apply (Hf Sample.frc_alarm_set Sample.frc_restarted).
    + vm_compute. intuition discriminate.
    + vm_compute. reflexivity.
    + vm_compute. split; reflexivity.
Defined.

(** The same for any saved count that, with the ticks added, stays below
    2^32. *)
Lemma frc_restored_reading_sum (saved us : Z) :
  0 <= saved -> saved + Frc.FRC_US_TO_COUNTER us < 2 ^ 32 ->
  0 <= us < 2 ^ 32 ->
  exists e, 0 <= e <= 3 /\
    Frc.FRC_COUNTER_TO_US
      (u32 (saved + Frc.FRC_US_TO_COUNTER us) mod Frc.FRC_OVERFLOW)
    = u32 (Frc.FRC_COUNTER_TO_US saved + us - e).
Proof.
  intros Hs Hsum Hu.
  rewrite FRC_US_TO_COUNTER_eq in * by exact Hu.
  pose proof (Z.div_mod (us * 5) 16 ltac:(lia)) as E1.
  pose proof (Z.mod_pos_bound (us * 5) 16 ltac:(lia)) as B1.
  rewrite (u32_small (saved + _)) by lia.
  rewrite FRC_COUNTER_TO_US_mod by lia.
  rewrite !FRC_COUNTER_TO_US_eq by lia.
  pose proof (Z.div_mod (saved * 16) 5 ltac:(lia)) as E2.
  pose proof (Z.mod_pos_bound (saved * 16) 5 ltac:(lia)) as B2.
  pose proof (Z.div_mod ((saved + us * 5 / 16) * 16) 5 ltac:(lia)) as E3.
  pose proof (Z.mod_pos_bound ((saved + us * 5 / 16) * 16) 5 ltac:(lia)) as B3.
  exists (saved * 16 / 5 + us - (saved + us * 5 / 16) * 16 / 5).
  split; [lia|].
  replace (u32 (saved * 16 / 5) + us - _)
    with (u32 (saved * 16 / 5)
          + (us - (saved * 16 / 5 + us - (saved + us * 5 / 16) * 16 / 5)))
    by lia.
  rewrite u32_add_l. f_equal. lia.
Qed.

Section LightSleepFacts.

Context {H : Type}.
Variable drv : rtt_hw_driver_t H.
Variable armed_for : Z -> H -> Prop.
Variable disarmed : H -> Prop.
Hypothesis laws : driver_laws drv armed_for disarmed.
Variable cb_body : rtt_cb_t -> Z -> list api_call.
Hypothesis no_set_counter :
  forall cb arg, existsb sets_counter (cb_body cb arg) = false.
Variable ESP_SLEEP_WAKEUP_TIMER : Z.

(** Of the backend and the offset, entering a sleep mode changes what
    [save_counter] changes. *)
Lemma sleep_enter_backend (mode : Z) (s : Rtt.rtt_t H) :
  let e := snd (Rtt.rtt_pm_sleep_enter drv mode s) in
  Rtt.hw e = save_counter drv (Rtt.hw s) /\
  Rtt._rtt_offset e = Rtt._rtt_offset s.
Proof.
  cbn zeta. unfold Rtt.rtt_pm_sleep_enter.
  destruct (negb _); [split; reflexivity|].
  destruct (_ =? 0); cbn [snd]; split; reflexivity.
Qed.

(** Leaving the sleep mode, the counter reads what the restore made of
    it, whatever the cause of the wake-up. *)
Lemma sleep_exit_reading (cause : Z) (s : Rtt.rtt_t H) :
  Rtt.rtt_get_counter drv
    (Rtt.rtt_pm_sleep_exit drv cb_body ESP_SLEEP_WAKEUP_TIMER cause s)
  = u32 (get_counter drv (restore_counter drv false (Rtt.hw s))
         + Rtt._rtt_offset s).
Proof.
  unfold Rtt.rtt_pm_sleep_exit.
  destruct (cause =? ESP_SLEEP_WAKEUP_TIMER); [| reflexivity].
  now rewrite (isr_keeps_counter drv armed_for disarmed laws cb_body
                 no_set_counter).
Qed.

End LightSleepFacts.

(** X10.  The counter goes on over a light sleep.  From
    [rtt_pm_sleep_enter] through a sleep that keeps the statics to
    [rtt_pm_sleep_exit], with callbacks that do not set the counter and
    whatever the cause of the wake-up: on the system-time backend the
    counter has advanced by the advance of the system time plus the
    calibrated microseconds of the RTC, modulo 2^32, so that a system
    time that runs on in the sleep is counted twice; on the FRC2 backend,
    provided the timer count on entry, not negative, plus the timer ticks
    that the microseconds of the RTC are worth stays below 2^32, as it
    does for every count below [FRC_OVERFLOW], it has advanced by the
    microseconds of the RTC less at most three, whatever the timer count
    is at the wake-up. *)
Theorem counter_continues_after_light_sleep (rtc_clk_to_us : Z -> Z -> Z)
    (cb_body : rtt_cb_t -> Z -> list api_call)
    (ESP_SLEEP_WAKEUP_TIMER mode cause : Z) :
  (forall cb arg, existsb sets_counter (cb_body cb arg) = false) ->
  (forall (s : Rtt.rtt_t Sys.sys_t) (asleep : Sys.sys_t -> Sys.sys_t),
      let drv := Esp8266.sys_drv rtc_clk_to_us in
      let s1 := snd (Rtt.rtt_pm_sleep_enter drv mode s) in
      let h' := asleep (Rtt.hw s1) in
      let us := u32 (rtc_clk_to_us
                       (u32 (Sys.RTC_COUNTER h' - Sys.RTC_COUNTER (Rtt.hw s)))
                       (Sys.rtc_cali h')) in
      sys_retained (Rtt.hw s1) h' ->
      Sys._sys_counter_offset h' = Sys._sys_counter_offset (Rtt.hw s) ->
      Rtt.rtt_get_counter drv
        (Rtt.rtt_pm_sleep_exit drv cb_body ESP_SLEEP_WAKEUP_TIMER cause
           (Rtt.with_hw asleep s1))
      = u32 (Rtt.rtt_get_counter drv s
             + (Sys.system_time h' - Sys.system_time (Rtt.hw s)) + us)) /\
  (forall (s : Rtt.rtt_t Frc.frc_t) (asleep : Frc.frc_t -> Frc.frc_t),
      let drv := Esp8266.frc_drv rtc_clk_to_us in
      let s1 := snd (Rtt.rtt_pm_sleep_enter drv mode s) in
      let h' := asleep (Rtt.hw s1) in
      let us := u32 (rtc_clk_to_us
                       (u32 (Frc.RTC_COUNTER h' - Frc.RTC_COUNTER (Rtt.hw s)))
                       (Frc.rtc_cali h')) in
      0 <= Frc.count (Frc.frc2 (Rtt.hw s)) ->
      Frc.count (Frc.frc2 (Rtt.hw s)) + Frc.FRC_US_TO_COUNTER us < 2 ^ 32 ->
      frc_retained (Rtt.hw s1) h' ->
      exists e, 0 <= e <= 3 /\
        Rtt.rtt_get_counter drv
          (Rtt.rtt_pm_sleep_exit drv cb_body ESP_SLEEP_WAKEUP_TIMER cause
             (Rtt.with_hw asleep s1))
        = u32 (Rtt.rtt_get_counter drv s + us - e)).
Proof.
  intros Hq. split.
  - intros s asleep drv s1 h' us [Hr Hs] Ho.
    rewrite (sleep_exit_reading drv _ _ (sys_laws rtc_clk_to_us) cb_body Hq).
    destruct (sleep_enter_backend drv mode s) as [Eh Eo].
    fold s1 in Eh, Eo.
    change (Rtt.hw (Rtt.with_hw asleep s1)) with h'.
    change (Rtt._rtt_offset (Rtt.with_hw asleep s1)) with (Rtt._rtt_offset s1).
    rewrite Eo. rewrite Eh in Hr, Hs.
    subst drv. rewrite sys_counter_reading.
    cbn [Esp8266.sys_drv Sys._rtt_hw_sys_driver restore_counter
         get_counter save_counter] in *.
    unfold Sys._sys_get_counter, Sys._sys_restore_counter,
      Sys._rtc_get_counter.
    rewrite SYS_US_TO_COUNT_id by apply u32_range.
    cbn [Sys.with_sys_offset Sys._sys_counter_offset Sys.system_time
         Sys.RTC_COUNTER Sys.rtc_cali
         Sys._rtc_counter_saved Sys._sys_counter_saved].
    rewrite Hr, Ho.
    change (Sys._rtc_counter_saved (Sys._sys_save_counter (Rtt.hw s)))
      with (Sys.RTC_COUNTER (Rtt.hw s)).
    fold us. rewrite Z.add_0_r, u32_idem.
    set (T' := Sys.system_time h').
    set (T := Sys.system_time (Rtt.hw s)).
    set (f := Sys._sys_counter_offset (Rtt.hw s)).
    set (o := Rtt._rtt_offset s).
    rewrite u32_add_r, u32_add_l.
    replace (u32 (T + f + o) + (T' - T) + us)
      with (u32 (T + f + o) + (T' - T + us)) by lia.
    rewrite u32_add_l. f_equal. lia.
  - intros s asleep drv s1 h' us Hc Hsum [Hr Hs].
    rewrite (sleep_exit_reading drv _ _ (frc_laws rtc_clk_to_us) cb_body Hq).
    destruct (sleep_enter_backend drv mode s) as [Eh Eo].
    fold s1 in Eh, Eo.
    change (Rtt.hw (Rtt.with_hw asleep s1)) with h'.
    change (Rtt._rtt_offset (Rtt.with_hw asleep s1)) with (Rtt._rtt_offset s1).
    rewrite Eo. rewrite Eh in Hr, Hs.
    subst drv. rewrite frc_counter_reading.
    cbn [Esp8266.frc_drv Frc._rtt_hw_frc_driver restore_counter
         get_counter save_counter] in *.
    unfold Frc._frc_get_counter, Frc._frc_restore_counter.
    cbn [Frc.with_frc2 Frc.frc2 Frc.write_load Frc.count].
    rewrite Hr, Hs.
    change (Frc._frc_counter_saved (Frc._frc_save_counter (Rtt.hw s)))
      with (Frc.count (Frc.frc2 (Rtt.hw s))).
    change (Frc._rtc_counter_saved (Frc._frc_save_counter (Rtt.hw s)))
      with (Frc.RTC_COUNTER (Rtt.hw s)).
    fold us.
    destruct (frc_restored_reading_sum (Frc.count (Frc.frc2 (Rtt.hw s))) us
                Hc Hsum (u32_range _)) as (e & He & Ee).
    exists e. split; [exact He|].
    rewrite Ee.
    set (a := Frc.FRC_COUNTER_TO_US _). set (o := Rtt._rtt_offset s).
    replace (u32 (a + o) + us - e) with (u32 (a + o) + (us - e)) by lia.
    rewrite !u32_add_l. f_equal. lia.
Qed.

Lemma counter_continues_after_light_sleep_witness :
  Rtt.rtt_get_counter Sample.sys_drv
    (Rtt.rtt_pm_sleep_exit Sample.sys_drv Sample.rearming 4 4
       (Rtt.with_hw Sample.sys_light_sleep
          (snd (Rtt.rtt_pm_sleep_enter Sample.sys_drv 1 Sample.sys_alarm_set))))
  = 1001010 /\
  exists e, 0 <= e <= 3 /\
    Rtt.rtt_get_counter Sample.frc_drv
      (Rtt.rtt_pm_sleep_exit Sample.frc_drv Sample.rearming 4 4
         (Rtt.with_hw Sample.frc_light_sleep
            (snd (Rtt.rtt_pm_sleep_enter Sample.frc_drv 1
                    Sample.frc_alarm_set))))
    = u32 (1000000 + 1010 - e).
Proof.
  destruct (counter_continues_after_light_sleep Sample.rtc_clk_to_us
              Sample.rearming 4 1 4) as (Hs & Hf).
  - intros [|[|cb]] arg; reflexivity.
  - split.
    + unfold Sample.sys_drv.
      rewrite (Hs Sample.sys_alarm_set Sample.sys_light_sleep).
      * vm_compute. reflexivity.
      * vm_compute. split; reflexivity.
      * vm_compute. reflexivity.
    + apply (Hf Sample.frc_alarm_set Sample.frc_light_sleep).
      * vm_compute. discriminate.
      * vm_compute. reflexivity.
      * vm_compute. split; reflexivity.
Defined.

(** ** Power off *)

Section PowerOffFacts.

Variable rtc_clk_to_us : Z -> Z -> Z.
Variable cb_body : rtt_cb_t -> Z -> list api_call.

(** With no timer queued, the ticks of the system time call nothing. *)
Lemma sys_ticks_unqueued (n : nat) (s : Rtt.rtt_t Sys.sys_t) :
  Sys.queued (Sys._sys_timer (Rtt.hw s)) = None ->
  let s' := Esp8266.run (Esp8266.sys_tick rtc_clk_to_us cb_body) n s in
  Rtt.invoked s' = Rtt.invoked s /\
  Rtt.rtt_counter s' = Rtt.rtt_counter s /\
  Sys.queued (Sys._sys_timer (Rtt.hw s')) = None /\
  Rtt.rtt_get_counter (Esp8266.sys_drv rtc_clk_to_us) s'
  = u32 (Rtt.rtt_get_counter (Esp8266.sys_drv rtc_clk_to_us) s + Z.of_nat n).
Proof.
  revert s. induction n as [|n IH]; intros s Hq.
  - cbn [Esp8266.run]. repeat split; try assumption.
    rewrite Z.add_0_r. unfold Rtt.rtt_get_counter. now rewrite u32_idem.
  - cbn [Esp8266.run].
    assert (E : Esp8266.sys_tick rtc_clk_to_us cb_body s
                = Rtt.with_hw
                    (fun h => Sys.with_system_time
                                (u32 (Sys.system_time h + 1)) h) s).
    { unfold Esp8266.sys_tick, Sys.tick.
      cbn [Rtt.with_hw Rtt.hw Sys.with_system_time Sys._sys_timer].
      now rewrite Hq. }
    rewrite E. set (s1 := Rtt.with_hw _ s).
    destruct (IH s1 Hq) as (Hi & Hc & Hn & Hg).
    split; [exact Hi|]. split; [exact Hc|]. split; [exact Hn|].
    rewrite Hg, !sys_counter_reading. unfold s1.
    cbn [Rtt.with_hw Rtt.hw Rtt._rtt_offset Sys.with_system_time
         Sys.system_time Sys._sys_counter_offset].
    rewrite u32_add_l, <- !Z.add_assoc, !u32_add_l. f_equal. lia.
Qed.

Lemma frc_ticks_stopped (n : nat) (s : Rtt.rtt_t Frc.frc_t) :
  Frc.ctrl_enable (Frc.frc2 (Rtt.hw s)) = false ->
  Esp8266.run (Esp8266.frc_tick rtc_clk_to_us cb_body) n s = s.
Proof.
  intros En. induction n as [|n IH]; [reflexivity|].
  cbn [Esp8266.run].
  assert (E : Esp8266.frc_tick rtc_clk_to_us cb_body s = s)
    by (unfold Esp8266.frc_tick, Frc.tick; now rewrite En).
  now rewrite E.
Qed.

End PowerOffFacts.

(** X11.  What [rtt_poweroff] does to a running counter.  On the
    system-time backend it takes the timer out of the queue and
    [rtt_poweron] does not put it back: the counter goes on with the
    system time, but however many microseconds pass after the power
    cycle, no callback is called, although the alarm and the callbacks
    stay registered as they were.  On the FRC2 backend it stops the
    timer: ticks change nothing while the power is off, and the time
    spent is not counted, the state after [rtt_poweron] being the one
    [rtt_poweron] alone gives. *)
Theorem poweroff_stops_events (rtc_clk_to_us : Z -> Z -> Z)
    (cb_body : rtt_cb_t -> Z -> list api_call) (n : nat) :
  (forall s : Rtt.rtt_t Sys.sys_t,
      let drv := Esp8266.sys_drv rtc_clk_to_us in
      let s' := Esp8266.run (Esp8266.sys_tick rtc_clk_to_us cb_body) n
                  (Rtt.rtt_poweron drv (Rtt.rtt_poweroff drv s)) in
      Rtt.invoked s' = Rtt.invoked s /\
      Rtt.rtt_counter s' = Rtt.rtt_counter s /\
      Rtt.rtt_get_counter drv s'
      = u32 (Rtt.rtt_get_counter drv s + Z.of_nat n)) /\
  (forall s : Rtt.rtt_t Frc.frc_t,
      let drv := Esp8266.frc_drv rtc_clk_to_us in
      let off := Rtt.rtt_poweroff drv s in
      Esp8266.run (Esp8266.frc_tick rtc_clk_to_us cb_body) n off = off /\
      Rtt.rtt_poweron drv
        (Esp8266.run (Esp8266.frc_tick rtc_clk_to_us cb_body) n off)
      = Rtt.rtt_poweron drv s).
Proof.
  split.
  - intros s drv s'.
    destruct (sys_ticks_unqueued rtc_clk_to_us cb_body n
                (Rtt.rtt_poweron drv (Rtt.rtt_poweroff drv s)))
      as (Hi & Hc & _ & Hg); [reflexivity|].
    fold s' in Hi, Hc, Hg.
    split; [exact Hi|]. split; [exact Hc|].
    unfold drv. rewrite Hg. reflexivity.
  - intros s drv off.
    assert (E : Esp8266.run (Esp8266.frc_tick rtc_clk_to_us cb_body) n off
                = off) by (apply frc_ticks_stopped; reflexivity).
    split; [exact E|]. rewrite E. reflexivity.
Qed.

(** ** An alarm on time *)

Section OnTimeFacts.

Context {H : Type}.
Variable drv : rtt_hw_driver_t H.
Variable cb_body : rtt_cb_t -> Z -> list api_call.

(** An alarm ahead of the counter is the event that is armed. *)
Lemma set_alarm_ahead (v : Z) (cb : rtt_cb_t) (arg : Z) (s0 : Rtt.rtt_t H) :
  Rtt.rtt_get_counter drv s0 < v ->
  let s1 := Rtt.rtt_set_alarm drv v (Some cb) arg s0 in
  let c := Rtt.rtt_counter s1 in
  Rtt.hw s1
  = set_alarm drv (u32 (v - Rtt._rtt_offset s0)) (Some RTT_ISR) NULL
      (Rtt.hw s0) /\
  Rtt._rtt_offset s1 = Rtt._rtt_offset s0 /\
  Rtt.invoked s1 = Rtt.invoked s0 /\
  Rtt.alarm c = v /\ Rtt.alarm_cb c = Some cb /\ Rtt.alarm_arg c = arg /\
  Rtt.alarm_active c = v.
Proof.
  intros Hc. cbn zeta.
  unfold Rtt.rtt_set_alarm, Rtt._rtt_update_hw_alarm.
  set (m := Rtt.with_rtt_counter _ s0).
  change (Rtt.rtt_get_counter drv m) with (Rtt.rtt_get_counter drv s0).
  change (Rtt.alarm (Rtt.rtt_counter m)) with v.
  change (Rtt.alarm_cb (Rtt.rtt_counter m)) with (Some cb).
  rewrite (proj2 (Z.ltb_lt _ _) Hc). cbn [Rtt.is_set andb orb].
  repeat split.
Qed.

(** A dispatch for a due alarm other than 0 calls the alarm callback and
    nothing else. *)
Lemma isr_due_invoked (s : Rtt.rtt_t H) (cb : rtt_cb_t) :
  let c := Rtt.rtt_counter s in
  Rtt.alarm_active c = Rtt.alarm c ->
  Rtt.alarm c <> 0 ->
  Rtt.alarm_cb c = Some cb ->
  Rtt.invoked (Rtt._rtt_isr drv cb_body s)
  = Rtt.invoked s ++ [AlarmCb cb (Rtt.alarm_arg c)].
Proof.
  cbn zeta. intros Ha Hnz Hcb. unfold Rtt._rtt_isr.
  set (s0 := if Rtt.wakeup (Rtt.rtt_counter s) then _ else s).
  assert (E0 : Rtt.alarm (Rtt.rtt_counter s0) = Rtt.alarm (Rtt.rtt_counter s)
               /\ Rtt.alarm_cb (Rtt.rtt_counter s0) = Some cb
               /\ Rtt.alarm_arg (Rtt.rtt_counter s0)
                  = Rtt.alarm_arg (Rtt.rtt_counter s)
               /\ Rtt.invoked s0 = Rtt.invoked s).
  { unfold s0. destruct (Rtt.wakeup (Rtt.rtt_counter s)); rtt_fields;
      repeat split; assumption. }
  destruct E0 as (E1 & E2 & E3 & E4).
  unfold Rtt.isr_overflow_path.
  rewrite Ha. apply Z.eqb_neq in Hnz. rewrite Hnz.
  unfold Rtt.isr_alarm_path. rewrite E1, E2, E3, Z.eqb_refl.
  cbn [Rtt.is_set andb]. unfold Rtt.call_alarm_cb.
  rewrite run_calls_invoked. cbn [Rtt.record_invocation Rtt.invoked].
  now rewrite invoked_clear_alarm, E4.
Qed.

End OnTimeFacts.

Section OnTimeSysFacts.

Variable rtc_clk_to_us : Z -> Z -> Z.
Variable cb_body : rtt_cb_t -> Z -> list api_call.

Local Abbreviation drv := (Esp8266.sys_drv rtc_clk_to_us).
Local Abbreviation tick := (Esp8266.sys_tick rtc_clk_to_us cb_body).

(** While the timer waits, its handler stays. *)
Lemma sys_run_waiting_handler (m : nat) (s : Rtt.rtt_t Sys.sys_t) (d : Z) :
  Sys.queued (Sys._sys_timer (Rtt.hw s)) = Some d ->
  Z.of_nat m < d ->
  Sys.callback (Sys._sys_timer (Rtt.hw (Esp8266.run tick m s)))
  = Sys.callback (Sys._sys_timer (Rtt.hw s)).
Proof.
  revert s d. induction m as [|m IH]; intros s d Hq Hd; [reflexivity|].
  cbn [Esp8266.run].
  destruct (sys_tick_waiting rtc_clk_to_us cb_body s d Hq) as (Hq1 & _);
    [lia|].
  rewrite (IH _ (d - 1) Hq1) by lia.
  unfold Esp8266.sys_tick, Sys.tick.
  cbn [Rtt.with_hw Rtt.hw Sys.with_system_time Sys._sys_timer].
  rewrite Hq.
  assert (E : (d <=? 1) = false) by (apply Z.leb_gt; lia).
  now rewrite E.
Qed.

(** The tick at which the timer expires runs the dispatch of the core. *)
Lemma sys_tick_expires (s : Rtt.rtt_t Sys.sys_t) (cb : rtt_cb_t) :
  let c := Rtt.rtt_counter s in
  Sys.queued (Sys._sys_timer (Rtt.hw s)) = Some 1 ->
  Sys.callback (Sys._sys_timer (Rtt.hw s)) = Some RTT_ISR ->
  Rtt.alarm_active c = Rtt.alarm c ->
  Rtt.alarm c <> 0 ->
  Rtt.alarm_cb c = Some cb ->
  Rtt.invoked (tick s) = Rtt.invoked s ++ [AlarmCb cb (Rtt.alarm_arg c)].
Proof.
  cbn zeta. intros Hq Hh Ha Hnz Hcb.
  unfold Esp8266.sys_tick, Sys.tick.
  cbn [Rtt.with_hw Rtt.hw Sys.with_system_time Sys._sys_timer].
  rewrite Hq. change (1 <=? 1) with true. cbv iota.
  unfold Sys.xtimer_shoot.
  cbn [Rtt.with_hw Rtt.hw Sys.with_system_time Sys._sys_timer].
  rewrite Hh. unfold Esp8266.sys_handler.
  now rewrite (isr_due_invoked _ cb_body _ cb).
Qed.

Lemma sys_alarm_on_time (s0 : Rtt.rtt_t Sys.sys_t) (v : Z) (cb : rtt_cb_t)
    (arg : Z) :
  let c := Rtt.rtt_get_counter drv s0 in
  let s1 := Rtt.rtt_set_alarm drv v (Some cb) arg s0 in
  let d := Z.to_nat (v - c) in
  0 <= v < 2 ^ 32 ->
  c < v ->
  (forall m, (m < d)%nat ->
     Rtt.invoked (Esp8266.run tick m s1) = Rtt.invoked s0) /\
  Rtt.invoked (Esp8266.run tick d s1) = Rtt.invoked s0 ++ [AlarmCb cb arg].
Proof.
  cbn zeta. intros Hv Hc.
  set (c := Rtt.rtt_get_counter drv s0) in *.
  set (s1 := Rtt.rtt_set_alarm drv v (Some cb) arg s0).
  destruct (sys_set_alarm_queued rtc_clk_to_us s0 v cb arg Hv Hc)
    as (Hq & _ & Hi).
  fold s1 c in Hq, Hi.
  destruct (set_alarm_ahead drv v cb arg s0 Hc)
    as (Hh & _ & _ & Hal & Hcb & Harg & Hact).
  fold s1 in Hh, Hal, Hcb, Harg, Hact.
  assert (Hcall : Sys.callback (Sys._sys_timer (Rtt.hw s1)) = Some RTT_ISR)
    by (rewrite Hh; reflexivity).
  split.
  - intros m Hm.
    destruct (sys_run_waiting rtc_clk_to_us cb_body m s1 (v - c) Hq)
      as (_ & _ & Hi' & _); [lia|].
    now rewrite Hi'.
  - destruct (Z.to_nat (v - c)) as [|d'] eqn:Ed; [lia|].
    rewrite run_succ.
    destruct (sys_run_waiting rtc_clk_to_us cb_body d' s1 (v - c) Hq)
      as (Hq' & _ & Hi' & Hr'); [lia|].
    pose proof (sys_run_waiting_handler d' s1 (v - c) Hq ltac:(lia)) as Hh'.
    rewrite (sys_tick_expires _ cb).
    + now rewrite Hr', Harg, Hi', Hi.
    + rewrite Hq'. f_equal. lia.
    + now rewrite Hh'.
    + now rewrite Hr', Hact, Hal.
    + rewrite Hr', Hal. pose proof (u32_range (Rtt.rtt_get_counter drv s0)).
      unfold c in Hc. unfold Rtt.rtt_get_counter in Hc at 1.
      pose proof (u32_range (get_counter drv (Rtt.hw s0) + Rtt._rtt_offset s0)).
      lia.
    + now rewrite Hr'.
Qed.

End OnTimeSysFacts.

(** An alarm kept in timer ticks reads at most three microseconds less
    than it was set for. *)
Lemma frc_alarm_reading (u : Z) :
  0 <= u < 2 ^ 32 ->
  exists e, 0 <= e <= 3 /\
    Frc.FRC_COUNTER_TO_US (Frc.FRC_US_TO_COUNTER u mod Frc.FRC_OVERFLOW)
    = u - e.
Proof.
  intros Hu. rewrite FRC_US_TO_COUNTER_eq by exact Hu.
  pose proof (Z.div_mod (u * 5) 16 ltac:(lia)) as E1.
  pose proof (Z.mod_pos_bound (u * 5) 16 ltac:(lia)) as B1.
  rewrite FRC_COUNTER_TO_US_mod by lia.
  rewrite FRC_COUNTER_TO_US_eq by lia.
  pose proof (Z.div_mod (u * 5 / 16 * 16) 5 ltac:(lia)) as E2.
  pose proof (Z.mod_pos_bound (u * 5 / 16 * 16) 5 ltac:(lia)) as B2.
  exists (u - u * 5 / 16 * 16 / 5). split; [lia|].
  rewrite u32_small by lia. lia.
Qed.

Section OnTimeFrcFacts.

Variable rtc_clk_to_us : Z -> Z -> Z.
Variable cb_body : rtt_cb_t -> Z -> list api_call.

Local Abbreviation drv := (Esp8266.frc_drv rtc_clk_to_us).
Local Abbreviation tick := (Esp8266.frc_tick rtc_clk_to_us cb_body).

(** Below the compare register a running timer only counts. *)
Lemma frc_tick_counting (s : Rtt.rtt_t Frc.frc_t) :
  let r := Frc.frc2 (Rtt.hw s) in
  Frc.ctrl_enable r = true ->
  0 <= Frc.count r ->
  Frc.count r + 1 < Frc.alarm r ->
  Frc.alarm r < 2 ^ 32 ->
  tick s = Rtt.with_hw (Frc.with_frc2 (Frc.write_count (Frc.count r + 1))) s.
Proof.
  cbn zeta. intros En H0 Hm Ha.
  unfold Esp8266.frc_tick, Frc.tick. rewrite En.
  rewrite u32_small by lia.
  cbn [Rtt.with_hw Rtt.hw Frc.with_frc2 Frc.frc2 Frc.write_count
       Frc.count Frc.alarm].
  assert (E : (Frc.count (Frc.frc2 (Rtt.hw s)) + 1
               =? Frc.alarm (Frc.frc2 (Rtt.hw s))) = false)
    by (apply Z.eqb_neq; lia).
  now rewrite E.
Qed.

Lemma frc_run_counting (m : nat) (s : Rtt.rtt_t Frc.frc_t) :
  let r := Frc.frc2 (Rtt.hw s) in
  Frc.ctrl_enable r = true ->
  0 <= Frc.count r ->
  Frc.count r + Z.of_nat m < Frc.alarm r ->
  Frc.alarm r < 2 ^ 32 ->
  Esp8266.run tick m s
  = Rtt.with_hw
      (Frc.with_frc2 (Frc.write_count (Frc.count r + Z.of_nat m))) s.
Proof.
  revert s. induction m as [|m IH]; intros s; cbn zeta; intros En H0 Hm Ha.
  - cbn [Esp8266.run Z.of_nat]. rewrite Z.add_0_r.
    destruct s as [c o [[l k ih cd rl en al] a rs fs rc cal ie] tw iv].
    reflexivity.
  - cbn [Esp8266.run].
    rewrite frc_tick_counting by (try assumption; lia).
    rewrite IH;
      cbn [Rtt.with_hw Rtt.hw Frc.with_frc2 Frc.frc2 Frc.write_count
           Frc.count Frc.alarm Frc.ctrl_enable]; try assumption; try lia.
    replace (Frc.count (Frc.frc2 (Rtt.hw s)) + 1 + Z.of_nat m)
      with (Frc.count (Frc.frc2 (Rtt.hw s)) + Z.of_nat (S m)) by lia.
    reflexivity.
Qed.

(** The tick at which the timer reaches the alarm runs the dispatch of
    the core, and leaves the counter at what the compare register reads. *)
Lemma frc_tick_expires (s : Rtt.rtt_t Frc.frc_t) (cb : rtt_cb_t) :
  let r := Frc.frc2 (Rtt.hw s) in
  let a := Frc._frc_alarm (Rtt.hw s) in
  let c := Rtt.rtt_counter s in
  Frc.ctrl_enable r = true ->
  Frc.int_enable (Rtt.hw s) = true ->
  0 <= Frc.count r ->
  Frc.count r + 1 = Frc.alarm r ->
  Frc.alarm r < 2 ^ 32 ->
  Frc.active a = Frc.alarm_set a ->
  Frc.alarm_cb a = Some RTT_ISR ->
  Rtt.alarm_active c = Rtt.alarm c ->
  Rtt.alarm c <> 0 ->
  Rtt.alarm_cb c = Some cb ->
  Rtt.invoked (tick s) = Rtt.invoked s ++ [AlarmCb cb (Rtt.alarm_arg c)] /\
  ((forall f arg, existsb sets_counter (cb_body f arg) = false) ->
   Rtt.rtt_get_counter drv (tick s)
   = u32 (Frc.FRC_COUNTER_TO_US (Frc.alarm r) + Rtt._rtt_offset s)).
Proof.
  cbn zeta. intros En Ie H0 Hm Ha Hact Hh Hfired Hnz Hcb.
  set (s1 := Rtt.with_hw
               (Frc.with_frc2
                  (Frc.write_count (Frc.alarm (Frc.frc2 (Rtt.hw s))))) s).
  assert (E : tick s = Esp8266._frc_isr rtc_clk_to_us cb_body s1).
  { unfold Esp8266.frc_tick, Frc.tick. rewrite En.
    rewrite u32_small by lia.
    cbn [Rtt.with_hw Rtt.hw Frc.with_frc2 Frc.frc2 Frc.write_count
         Frc.count Frc.alarm Frc.int_enable].
    rewrite Hm, Z.eqb_refl, Ie. reflexivity. }
  rewrite E.
  split.
  - rewrite (frc_isr_unfold rtc_clk_to_us cb_body s1 Hact Hh).
    cbn [Rtt.with_hw Rtt.invoked].
    rewrite (isr_due_invoked _ cb_body _ cb).
    + unfold frc_detached. now destruct (_ =? 0).
    + unfold frc_detached. now destruct (_ =? 0).
    + unfold frc_detached. now destruct (_ =? 0).
    + unfold frc_detached. now destruct (_ =? 0).
  - intros Hq. rewrite frc_isr_keeps_counter.
    + rewrite frc_counter_reading. reflexivity.
    + exact Hq.
    + unfold s1.
      cbn [Rtt.with_hw Rtt.hw Frc.with_frc2 Frc.frc2 Frc.write_count
           Frc.count]. lia.
Qed.

(** An alarm that, in timer ticks, is not above the count is not armed:
    the compare register is the overflow value, and nothing is called
    before the timer has counted up to it. *)
Lemma frc_armed_behind (s1 : Rtt.rtt_t Frc.frc_t) (u : Z) (h0 : Frc.frc_t) :
  let count := Frc.count (Frc.frc2 (Rtt.hw s1)) in
  let target := Frc.FRC_US_TO_COUNTER u mod Frc.FRC_OVERFLOW in
  Rtt.hw s1 = set_alarm drv u (Some RTT_ISR) NULL h0 ->
  0 <= count -> target <= count ->
  Frc.alarm (Frc.frc2 (Rtt.hw s1)) = Frc.FRC_OVERFLOW /\
  Frc.active (Frc._frc_alarm (Rtt.hw s1)) = 0 /\
  (forall k, count + Z.of_nat k < Frc.FRC_OVERFLOW ->
     Rtt.invoked (Esp8266.run tick k s1) = Rtt.invoked s1).
Proof.
  cbn zeta. intros Hh H0 Ht.
  pose proof (armed_set_alarm _ _ _ (frc_laws rtc_clk_to_us) u h0) as Harm.
  rewrite <- Hh in Harm. unfold frc_armed_for in Harm. cbn zeta in Harm.
  rewrite (proj2 (Z.ltb_ge _ _) Ht) in Harm.
  destruct Harm as (_ & _ & _ & Hact & Hal).
  split; [exact Hal|]. split; [exact Hact|].
  intros k Hk.
  apply (frc_run_waiting rtc_clk_to_us cb_body k s1).
  - exact H0.
  - rewrite Hal. exact Hk.
  - rewrite Hal, FRC_OVERFLOW_value. lia.
Qed.

Lemma frc_alarm_behind (s0 : Rtt.rtt_t Frc.frc_t) (v : Z) (cb : rtt_cb_t)
    (arg : Z) :
  let count := Frc.count (Frc.frc2 (Rtt.hw s0)) in
  let target :=
    Frc.FRC_US_TO_COUNTER (u32 (v - Rtt._rtt_offset s0)) mod Frc.FRC_OVERFLOW in
  let s1 := Rtt.rtt_set_alarm drv v (Some cb) arg s0 in
  0 <= count ->
  target <= count ->
  Rtt.rtt_get_counter drv s0 < v ->
  Frc.alarm (Frc.frc2 (Rtt.hw s1)) = Frc.FRC_OVERFLOW /\
  (forall k, count + Z.of_nat k < Frc.FRC_OVERFLOW ->
     Rtt.invoked (Esp8266.run tick k s1) = Rtt.invoked s0).
Proof.
  cbn zeta. intros H0 Ht Hc.
  destruct (set_alarm_ahead drv v cb arg s0 Hc) as (Hh & _ & Hi & _).
  assert (Hcnt : Frc.count (Frc.frc2
                   (Rtt.hw (Rtt.rtt_set_alarm drv v (Some cb) arg s0)))
                 = Frc.count (Frc.frc2 (Rtt.hw s0))).
  { rewrite Hh. cbn [Esp8266.frc_drv Frc._rtt_hw_frc_driver set_alarm].
    unfold Frc._frc_set_alarm. now rewrite frc_update_alarm_count. }
  destruct (frc_armed_behind _ _ _ Hh) as (Hal & _ & Hrun);
    rewrite ?Hcnt; try assumption.
  split; [exact Hal|].
  intros k Hk. rewrite <- Hi. apply Hrun. now rewrite Hcnt.
Qed.

Lemma frc_alarm_on_time (s0 : Rtt.rtt_t Frc.frc_t) (v : Z) (cb : rtt_cb_t)
    (arg : Z) :
  let count := Frc.count (Frc.frc2 (Rtt.hw s0)) in
  let target :=
    Frc.FRC_US_TO_COUNTER (u32 (v - Rtt._rtt_offset s0)) mod Frc.FRC_OVERFLOW in
  let s1 := Rtt.rtt_set_alarm drv v (Some cb) arg s0 in
  let d := Z.to_nat (target - count) in
  Frc.ctrl_enable (Frc.frc2 (Rtt.hw s0)) = true ->
  Frc.int_enable (Rtt.hw s0) = true ->
  0 <= count < target ->
  Rtt.rtt_get_counter drv s0 < v ->
  (forall m, (m < d)%nat ->
     Rtt.invoked (Esp8266.run tick m s1) = Rtt.invoked s0) /\
  Rtt.invoked (Esp8266.run tick d s1) = Rtt.invoked s0 ++ [AlarmCb cb arg] /\
  ((forall f a, existsb sets_counter (cb_body f a) = false) ->
   exists e, 0 <= e <= 3 /\
     Rtt.rtt_get_counter drv (Esp8266.run tick d s1) = u32 (v - e)).
Proof.
  cbn zeta. intros En Ie [H0 Ht] Hc.
  set (count := Frc.count (Frc.frc2 (Rtt.hw s0))) in *.
  set (u := u32 (v - Rtt._rtt_offset s0)) in *.
  set (target := Frc.FRC_US_TO_COUNTER u mod Frc.FRC_OVERFLOW) in *.
  set (s1 := Rtt.rtt_set_alarm drv v (Some cb) arg s0).
  pose proof FRC_OVERFLOW_pos as Hov.
  assert (Htr : 0 <= target < Frc.FRC_OVERFLOW)
    by (apply Z.mod_pos_bound; lia).
  destruct (frc_set_alarm_target rtc_clk_to_us s0 v cb arg Hc Ht)
    as (Hal & Hcnt & Hi).
  fold s1 u target count in Hal, Hcnt, Hi.
  destruct (set_alarm_ahead drv v cb arg s0 Hc)
    as (Hh & Ho & _ & Hral & Hrcb & Hrarg & Hract).
  fold s1 in Hh, Ho, Hral, Hrcb, Hrarg, Hract. fold u in Hh.
  pose proof (armed_set_alarm _ _ _ (frc_laws rtc_clk_to_us) u (Rtt.hw s0))
    as Harm.
  rewrite <- Hh in Harm. unfold frc_armed_for in Harm. cbn zeta in Harm.
  fold target in Harm. rewrite Hcnt in Harm.
  rewrite (proj2 (Z.ltb_lt _ _) Ht) in Harm.
  destruct Harm as (Hacb & _ & Haset & Haact & _).
  pose proof (frc_set_alarm_power rtc_clk_to_us u (Some RTT_ISR) NULL
                (Rtt.hw s0)) as Hp.
  rewrite <- Hh in Hp. unfold frc_power in Hp. injection Hp as Hen Hie.
  rewrite En in Hen. rewrite Ie in Hie.
  split; [| assert (Hrun : forall d', Z.of_nat d' < target - count ->
              Esp8266.run tick d' s1
              = Rtt.with_hw
                  (Frc.with_frc2 (Frc.write_count (count + Z.of_nat d'))) s1)].
  - intros m Hm.
    rewrite (frc_run_waiting rtc_clk_to_us cb_body m s1); [exact Hi | | |].
    + rewrite Hcnt. exact H0.
    + rewrite Hcnt, Hal. lia.
    + rewrite Hal. lia.
  - intros d' Hd'. rewrite frc_run_counting; rewrite ?Hcnt, ?Hal;
      try assumption; try lia. reflexivity.
  - destruct (Z.to_nat (target - count)) as [|d'] eqn:Ed; [lia|].
    rewrite run_succ, Hrun by lia.
    set (s' := Rtt.with_hw _ s1).
    destruct (frc_tick_expires s' cb) as [Hinv Hread];
      unfold s';
      cbn [Rtt.with_hw Rtt.hw Rtt.rtt_counter Frc.with_frc2 Frc.frc2
           Frc.write_count Frc.count Frc.alarm Frc.ctrl_enable
           Frc.int_enable Frc._frc_alarm];
      try assumption; try lia.
    + rewrite Hral. unfold Rtt.rtt_get_counter in Hc.
      pose proof (u32_range (get_counter drv (Rtt.hw s0) + Rtt._rtt_offset s0)).
      lia.
    + fold s'. split.
      * rewrite Hinv. unfold s'. cbn [Rtt.with_hw Rtt.invoked Rtt.rtt_counter].
        now rewrite Hi, Hrarg.
      * intros Hq. specialize (Hread Hq).
        destruct (frc_alarm_reading u (u32_range _)) as (e & He & Ee).
        fold target in Ee.
        exists e. split; [exact He|].
        rewrite Hread. unfold s'.
        cbn [Rtt.with_hw Rtt.hw Rtt._rtt_offset Frc.with_frc2 Frc.frc2
             Frc.write_count Frc.alarm].
        rewrite Hal, Ee, Ho. unfold u.
        replace (u32 (v - Rtt._rtt_offset s0) - e + Rtt._rtt_offset s0)
          with (u32 (v - Rtt._rtt_offset s0) + (Rtt._rtt_offset s0 - e))
          by lia.
        rewrite u32_add_l. f_equal. lia.
Qed.

End OnTimeFrcFacts.

Lemma sys_run_advances (rtc_clk_to_us : Z -> Z -> Z)
    (cb_body : rtt_cb_t -> Z -> list api_call) (n : nat)
    (s : Rtt.rtt_t Sys.sys_t) :
  (forall cb arg, existsb sets_counter (cb_body cb arg) = false) ->
  Rtt.rtt_get_counter (Esp8266.sys_drv rtc_clk_to_us)
    (Esp8266.run (Esp8266.sys_tick rtc_clk_to_us cb_body) n s)
  = u32 (Rtt.rtt_get_counter (Esp8266.sys_drv rtc_clk_to_us) s + Z.of_nat n).
Proof.
  intros Hq. revert s. induction n as [|n IH]; intros s.
  - cbn [Esp8266.run Z.of_nat]. rewrite Z.add_0_r.
    unfold Rtt.rtt_get_counter. now rewrite u32_idem.
  - cbn [Esp8266.run]. rewrite IH, sys_tick_advances by exact Hq.
    rewrite u32_add_l. f_equal. lia.
Qed.

(** X12.  When an alarm set ahead of the counter is called.  On the
    system-time backend, an alarm set for the 32-bit value [v] at the
    counter value [c < v] is called at the tick that brings the counter
    to [v]: no callback is called in the [v - c - 1] ticks before, the
    alarm callback, and it alone, is called with its argument in tick
    [v - c], and the counter reads [v] then.  On the FRC2 backend the
    alarm, set for [v] ahead of the counter, is kept in timer ticks,
    rounded down, as the target
    [FRC_US_TO_COUNTER (v - _rtt_offset) mod FRC_OVERFLOW].  If the timer
    runs with its interrupt enabled and its count, not negative, is below
    the target, the callback is called at the tick at which the timer
    reaches the target, not before, and the counter reads [v] less at most
    three then.  If the count is not below the target, as for an alarm less
    than a timer tick ahead, the alarm is not armed: the compare register
    is set to [FRC_OVERFLOW] and no callback is called before the timer
    has counted up to [FRC_OVERFLOW].  The readings hold when no callback
    sets the counter. *)
Theorem alarm_fires_on_time (rtc_clk_to_us : Z -> Z -> Z)
    (cb_body : rtt_cb_t -> Z -> list api_call) :
  (forall (s0 : Rtt.rtt_t Sys.sys_t) (v : Z) (cb : rtt_cb_t) (arg : Z),
      let drv := Esp8266.sys_drv rtc_clk_to_us in
      let tick := Esp8266.sys_tick rtc_clk_to_us cb_body in
      let c := Rtt.rtt_get_counter drv s0 in
      let s1 := Rtt.rtt_set_alarm drv v (Some cb) arg s0 in
      let d := Z.to_nat (v - c) in
      0 <= v < 2 ^ 32 ->
      c < v ->
      (forall m, (m < d)%nat ->
         Rtt.invoked (Esp8266.run tick m s1) = Rtt.invoked s0) /\
      Rtt.invoked (Esp8266.run tick d s1)
      = Rtt.invoked s0 ++ [AlarmCb cb arg] /\
      ((forall f a, existsb sets_counter (cb_body f a) = false) ->
       Rtt.rtt_get_counter drv (Esp8266.run tick d s1) = v)) /\
  (forall (s0 : Rtt.rtt_t Frc.frc_t) (v : Z) (cb : rtt_cb_t) (arg : Z),
      let drv := Esp8266.frc_drv rtc_clk_to_us in
      let tick := Esp8266.frc_tick rtc_clk_to_us cb_body in
      let count := Frc.count (Frc.frc2 (Rtt.hw s0)) in
      let target :=
        Frc.FRC_US_TO_COUNTER (u32 (v - Rtt._rtt_offset s0))
        mod Frc.FRC_OVERFLOW in
      let s1 := Rtt.rtt_set_alarm drv v (Some cb) arg s0 in
      let d := Z.to_nat (target - count) in
      Frc.ctrl_enable (Frc.frc2 (Rtt.hw s0)) = true ->
      Frc.int_enable (Rtt.hw s0) = true ->
      0 <= count < target ->
      Rtt.rtt_get_counter drv s0 < v ->
      (forall m, (m < d)%nat ->
         Rtt.invoked (Esp8266.run tick m s1) = Rtt.invoked s0) /\
      Rtt.invoked (Esp8266.run tick d s1)
      = Rtt.invoked s0 ++ [AlarmCb cb arg] /\
      ((forall f a, existsb sets_counter (cb_body f a) = false) ->
       exists e, 0 <= e <= 3 /\
         Rtt.rtt_get_counter drv (Esp8266.run tick d s1) = u32 (v - e))) /\
  (forall (s0 : Rtt.rtt_t Frc.frc_t) (v : Z) (cb : rtt_cb_t) (arg : Z),
      let drv := Esp8266.frc_drv rtc_clk_to_us in
      let tick := Esp8266.frc_tick rtc_clk_to_us cb_body in
      let count := Frc.count (Frc.frc2 (Rtt.hw s0)) in
      let target :=
        Frc.FRC_US_TO_COUNTER (u32 (v - Rtt._rtt_offset s0))
        mod Frc.FRC_OVERFLOW in
      let s1 := Rtt.rtt_set_alarm drv v (Some cb) arg s0 in
      0 <= count ->
      target <= count ->
      Rtt.rtt_get_counter drv s0 < v ->
      Frc.alarm (Frc.frc2 (Rtt.hw s1)) = Frc.FRC_OVERFLOW /\
      (forall k, count + Z.of_nat k < Frc.FRC_OVERFLOW ->
         Rtt.invoked (Esp8266.run tick k s1) = Rtt.invoked s0)).
Proof.
  split; [| split].
  - intros s0 v cb arg drv tick c s1 d Hv Hc.
    destruct (sys_alarm_on_time rtc_clk_to_us cb_body s0 v cb arg Hv Hc)
      as [Hbefore Hat].
    split; [exact Hbefore|]. split; [exact Hat|].
    intros Hq. unfold tick, drv.
    rewrite sys_run_advances by exact Hq.
    destruct (sys_set_alarm_queued rtc_clk_to_us s0 v cb arg Hv Hc)
      as (_ & Hc1 & _).
    fold drv s1 in Hc1. fold drv. rewrite Hc1. fold c.
    unfold d. rewrite Z2Nat.id by lia.
    replace (c + (v - c)) with v by lia. now apply u32_small.
  - intros s0 v cb arg drv tick count target s1 d En Ie Hcnt Hc.
    exact (frc_alarm_on_time rtc_clk_to_us cb_body s0 v cb arg En Ie Hcnt Hc).
  - intros s0 v cb arg drv tick count target s1 H0 Ht Hc.
    exact (frc_alarm_behind rtc_clk_to_us cb_body s0 v cb arg H0 Ht Hc).
Qed.

Lemma alarm_fires_on_time_witness :
  Rtt.invoked
    (Esp8266.run (Esp8266.sys_tick Sample.rtc_clk_to_us Sample.rearming) 5000
       (Rtt.rtt_set_alarm Sample.sys_drv 1005000 (Some 1%nat) 42
          Sample.sys_at_1000000))
  = [AlarmCb 1%nat 42] /\
  Rtt.invoked
    (Esp8266.run (Esp8266.frc_tick Sample.rtc_clk_to_us Sample.rearming) 1562
       (Rtt.rtt_set_alarm Sample.frc_drv 1005000 (Some 1%nat) 42
          Sample.frc_at_1000000))
  = [AlarmCb 1%nat 42] /\
  Rtt.invoked
    (Esp8266.run (Esp8266.frc_tick Sample.rtc_clk_to_us Sample.rearming) 4000
       (Rtt.rtt_set_alarm Sample.frc_drv 1000002 (Some 1%nat) 42
          Sample.frc_at_1000000))
  = [].
Proof.
  destruct (alarm_fires_on_time Sample.rtc_clk_to_us Sample.rearming)
    as (Hs & Hf & Hb).
  split; [| split].
  - destruct (Hs Sample.sys_at_1000000 1005000 1%nat 42) as (_ & Hat & _).
    + vm_compute. intuition discriminate.
    + vm_compute. reflexivity.
    + exact Hat.
  - destruct (Hf Sample.frc_at_1000000 1005000 1%nat 42) as (_ & Hat & _).
    + vm_compute. reflexivity.
    + vm_compute. reflexivity.
    + vm_compute. intuition discriminate.
    + vm_compute. reflexivity.
    + exact Hat.
  - destruct (Hb Sample.frc_at_1000000 1000002 1%nat 42) as (_ & Hrun).
    + vm_compute. discriminate.
    + vm_compute. discriminate.
    + vm_compute. reflexivity.
    + apply (Hrun 4000%nat). vm_compute. reflexivity.
Defined.

(** ** The pins *)

(** X13.  The two pin tables are inverse to each other: for every index
    below 16, the entry of [_gpio_to_iomux] is an index below 16 at which
    [_iomux_to_gpio] holds the pin again, and the other way round; so each
    of the sixteen pins has an IOMUX register of its own. *)
Theorem iomux_tables_are_inverse (i : nat) :
  (i < 16)%nat ->
  let m := nth i Gpio._gpio_to_iomux 0%nat in
  let g := nth i Gpio._iomux_to_gpio 0%nat in
  (m < 16)%nat /\ nth m Gpio._iomux_to_gpio 0%nat = i /\
  (g < 16)%nat /\ nth g Gpio._gpio_to_iomux 0%nat = i /\
  List.length Gpio._gpio_to_iomux = 16%nat /\
  List.length Gpio._iomux_to_gpio = 16%nat.
Proof.
  intros Hi.
  do 16 (destruct i as [|i]; [cbn; repeat split; lia|]).
  lia.
Qed.

Lemma iomux_tables_are_inverse_witness :
  nth (nth 5 Gpio._gpio_to_iomux 0%nat) Gpio._iomux_to_gpio 0%nat = 5%nat.
Proof.
  apply (iomux_tables_are_inverse 5). lia.
Defined.

Section ArrayFacts.

Context {A : Type}.

Lemma length_set_nth (n : nat) (x : A) (l : list A) :
  List.length (Gpio.set_nth n x l) = List.length l.
Proof.
  revert n. induction l as [|y l IH]; intros [|n]; cbn; auto.
Qed.

Lemma nth_set_nth_same (n : nat) (x d : A) (l : list A) :
  (n < List.length l)%nat -> nth n (Gpio.set_nth n x l) d = x.
Proof.
  revert n. induction l as [|y l IH]; intros [|n] Hn; cbn in *;
    try lia; [reflexivity|].
  apply IH. lia.
Qed.

Lemma nth_set_nth_other (n m : nat) (x d : A) (l : list A) :
  n <> m -> nth m (Gpio.set_nth n x l) d = nth m l d.
Proof.
  revert n m. induction l as [|y l IH]; intros [|n] [|m] Hnm; cbn;
    try reflexivity; try congruence.
  apply IH. congruence.
Qed.

(** A write of the value that is there, or beyond the end, changes
    nothing. *)
Lemma nth_set_nth_any (n m : nat) (x d : A) (l : list A) :
  nth m (Gpio.set_nth n x l) d
  = if (n =? m)%nat && (n <? List.length l)%nat then x else nth m l d.
Proof.
  destruct (Nat.eqb_spec n m) as [->|Hnm]; cbn [andb].
  - destruct (Nat.ltb_spec m (List.length l)) as [Hl|Hl].
    + now apply nth_set_nth_same.
    + rewrite !nth_overflow; rewrite ?length_set_nth; auto.
  - now apply nth_set_nth_other.
Qed.

End ArrayFacts.

(** X14.  The usage of the pins.  For a table of [GPIO_PIN_NUMOF]
    entries: [gpio_set_pin_usage] of a pin below [GPIO_PIN_NUMOF] returns
    0, after it [gpio_get_pin_usage] returns the usage set for that pin
    and what it returned before for every other pin; for a pin that does
    not exist it returns -1 and leaves the table alone, and
    [gpio_get_pin_usage] returns [_NOT_EXIST].  [gpio_get_pin_usage_str]
    however does not give the string of [_NOT_EXIST] for such a pin: it
    takes the value of [_NOT_EXIST] for a pin number, and gives the string
    of the usage of that pin. *)
Theorem pin_usage_set_and_get (usage_value : Gpio.gpio_pin_usage_t -> nat)
    (tbl : list Gpio.gpio_pin_usage_t) (pin : nat)
    (usage : Gpio.gpio_pin_usage_t) :
  List.length tbl = Gpio.GPIO_PIN_NUMOF ->
  (usage_value Gpio._NOT_EXIST < Gpio.GPIO_PIN_NUMOF)%nat ->
  let r := Gpio.gpio_set_pin_usage pin usage tbl in
  ((pin < Gpio.GPIO_PIN_NUMOF)%nat ->
   fst r = 0 /\ List.length (snd r) = Gpio.GPIO_PIN_NUMOF /\
   Gpio.gpio_get_pin_usage pin (snd r) = usage /\
   forall q, q <> pin ->
     Gpio.gpio_get_pin_usage q (snd r) = Gpio.gpio_get_pin_usage q tbl) /\
  ((Gpio.GPIO_PIN_NUMOF <= pin)%nat ->
   r = (-1, tbl) /\
   Gpio.gpio_get_pin_usage pin tbl = Gpio._NOT_EXIST /\
   Gpio.gpio_get_pin_usage_str usage_value pin tbl
   = Gpio.gpio_get_pin_usage_str usage_value
       (usage_value Gpio._NOT_EXIST) tbl).
Proof.
  intros Hl Hv. cbn zeta. split.
  - intros Hp. unfold Gpio.gpio_set_pin_usage.
    rewrite (proj2 (Nat.ltb_lt _ _) Hp). cbn [negb fst snd].
    split; [reflexivity|]. split; [now rewrite length_set_nth|].
    split.
    + unfold Gpio.gpio_get_pin_usage.
      rewrite (proj2 (Nat.ltb_lt _ _) Hp).
      apply nth_set_nth_same. now rewrite Hl.
    + intros q Hq. unfold Gpio.gpio_get_pin_usage.
      destruct (q <? Gpio.GPIO_PIN_NUMOF)%nat; [| reflexivity].
      apply nth_set_nth_other. congruence.
  - intros Hp. apply Nat.ltb_ge in Hp.
    unfold Gpio.gpio_set_pin_usage, Gpio.gpio_get_pin_usage,
      Gpio.gpio_get_pin_usage_str.
    rewrite Hp. cbn [negb].
    now rewrite (proj2 (Nat.ltb_lt _ _) Hv).
Qed.

Lemma pin_usage_set_and_get_witness :
  Gpio.gpio_get_pin_usage 4
    (snd (Gpio.gpio_set_pin_usage 4 Gpio._I2C Gpio._gpio_pin_usage))
  = Gpio._I2C /\
  Gpio.gpio_get_pin_usage 17 Gpio._gpio_pin_usage = Gpio._NOT_EXIST /\
  Gpio.gpio_get_pin_usage_str
    (fun u => match u with
              | Gpio._GPIO => 0 | Gpio._I2C => 1 | Gpio._PWM => 2
              | Gpio._SPI => 3 | Gpio._SPIF => 4 | Gpio._UART => 5
              | Gpio._NOT_EXIST => 6
              end%nat) 17 Gpio._gpio_pin_usage
  = "SPI Flash"%string.
Proof.
  destruct (pin_usage_set_and_get
              (fun u => match u with
                        | Gpio._GPIO => 0 | Gpio._I2C => 1 | Gpio._PWM => 2
                        | Gpio._SPI => 3 | Gpio._SPIF => 4 | Gpio._UART => 5
                        | Gpio._NOT_EXIST => 6
                        end%nat)
              Gpio._gpio_pin_usage 4 Gpio._I2C) as [Hin _].
  - reflexivity.
  - unfold Gpio.GPIO_PIN_NUMOF. lia.
  - destruct (pin_usage_set_and_get
              (fun u => match u with
                        | Gpio._GPIO => 0 | Gpio._I2C => 1 | Gpio._PWM => 2
                        | Gpio._SPI => 3 | Gpio._SPIF => 4 | Gpio._UART => 5
                        | Gpio._NOT_EXIST => 6
                        end%nat)
              Gpio._gpio_pin_usage 17 Gpio._I2C) as [_ Hout].
    + reflexivity.
    + unfold Gpio.GPIO_PIN_NUMOF. lia.
    + destruct Hin as (_ & _ & Hget & _); [unfold Gpio.GPIO_PIN_NUMOF; lia|].
      destruct Hout as (_ & Hne & Hstr); [unfold Gpio.GPIO_PIN_NUMOF; lia|].
      split; [exact Hget|]. split; [exact Hne|].
      rewrite Hstr. reflexivity.
Defined.

(** ** The GPIO interrupt types over a light sleep *)

Section PinLoopFacts.

(** A loop whose body works on the pin of its index alone. *)
Variable body : nat -> Gpio.gpio_irq_t -> Gpio.gpio_irq_t.
Variable local : nat -> Z * bool * Z -> Z * bool * Z.

Hypothesis body_local : forall i g,
  gpio_sized g -> (i < Gpio.GPIO_PIN_NUMOF)%nat ->
  gpio_sized (body i g) /\
  Gpio.gpio_wakeup (body i g) = Gpio.gpio_wakeup g /\
  pin_view i (body i g) = local i (pin_view i g) /\
  forall j, j <> i -> pin_view j (body i g) = pin_view j g.

Lemma pins_upto (n : nat) (g : Gpio.gpio_irq_t) :
  gpio_sized g -> (n <= Gpio.GPIO_PIN_NUMOF)%nat ->
  let g' := fold_left (fun s i => body i s) (seq 0 n) g in
  gpio_sized g' /\
  Gpio.gpio_wakeup g' = Gpio.gpio_wakeup g /\
  forall j, pin_view j g'
            = if (j <? n)%nat then local j (pin_view j g) else pin_view j g.
Proof.
  intros Hs. induction n as [|n IH]; intros Hn; cbn zeta.
  - cbn [seq fold_left]. repeat split; try apply Hs. 
  - rewrite seq_S, fold_left_app. cbn [fold_left Nat.add].
    destruct IH as (Hs' & Hw' & Hv'); [lia|].
    set (g' := fold_left _ (seq 0 n) g) in *.
    destruct (body_local n g' Hs') as (Hs2 & Hw2 & Hv2 & Ho2); [lia|].
    split; [exact Hs2|]. split; [now rewrite Hw2|].
    intros j. destruct (Nat.eq_dec j n) as [->|Hj].
    + rewrite Hv2, Hv'. rewrite Nat.ltb_irrefl.
      now rewrite (proj2 (Nat.ltb_lt n (S n))) by lia.
    + rewrite (Ho2 j Hj), Hv'.
      destruct (Nat.ltb_spec j n), (Nat.ltb_spec j (S n)); try lia;
        reflexivity.
Qed.

Lemma for_pins_view (g : Gpio.gpio_irq_t) :
  gpio_sized g ->
  gpio_sized (Gpio.for_pins body g) /\
  Gpio.gpio_wakeup (Gpio.for_pins body g) = Gpio.gpio_wakeup g /\
  forall j, pin_view j (Gpio.for_pins body g)
            = if (j <? Gpio.GPIO_PIN_NUMOF)%nat
              then local j (pin_view j g) else pin_view j g.
Proof.
  intros Hs. apply (pins_upto Gpio.GPIO_PIN_NUMOF g Hs). lia.
Qed.

End PinLoopFacts.

Section GpioSleepFacts.

Variables GPIO_FALLING GPIO_RISING GPIO_BOTH GPIO_LOW GPIO_HIGH : Z.
Variable ESP_PM_LIGHT_SLEEP : Z.

Lemma sleep_enter_pin_local (i : nat) (g : Gpio.gpio_irq_t) :
  gpio_sized g -> (i < Gpio.GPIO_PIN_NUMOF)%nat ->
  let g' := Gpio.sleep_enter_pin GPIO_FALLING GPIO_RISING GPIO_BOTH GPIO_LOW
              GPIO_HIGH i g in
  gpio_sized g' /\
  Gpio.gpio_wakeup g' = Gpio.gpio_wakeup g /\
  pin_view i g'
  = enter_local GPIO_FALLING GPIO_RISING GPIO_LOW GPIO_HIGH i (pin_view i g) /\
  forall j, j <> i -> pin_view j g' = pin_view j g.
Proof.
  intros (L1 & L2 & L3) Hi. cbn zeta.
  unfold Gpio.sleep_enter_pin, enter_local, pin_view, asleep_type.
  destruct (i =? Gpio.GPIO16)%nat; [repeat split; assumption|].
  set (t := nth i (Gpio.int_type g) 0).
  destruct (nth i (Gpio.gpio_int_enabled_table g) false && negb (t =? 0));
    [| repeat split; assumption].
  unfold Gpio.put_int_type, gpio_sized.
  destruct (t =? GPIO_FALLING); [| destruct (t =? GPIO_RISING);
                                   [| destruct (t =? GPIO_BOTH)]];
    cbn [Gpio.with_int_type Gpio.with_saved_type Gpio.int_type
         Gpio.gpio_int_enabled_table Gpio.gpio_int_saved_type
         Gpio.gpio_wakeup];
    rewrite ?length_set_nth;
    (split; [repeat split; assumption|]);
    (split; [reflexivity|]);
    (split; [rewrite ?nth_set_nth_same by lia; reflexivity|]);
    intros j Hj; rewrite ?nth_set_nth_other by congruence; reflexivity.
Qed.

Lemma sleep_exit_pin_local (i : nat) (g : Gpio.gpio_irq_t) :
  gpio_sized g -> (i < Gpio.GPIO_PIN_NUMOF)%nat ->
  let g' := Gpio.sleep_exit_pin i g in
  gpio_sized g' /\
  Gpio.gpio_wakeup g' = Gpio.gpio_wakeup g /\
  pin_view i g' = exit_local i (pin_view i g) /\
  forall j, j <> i -> pin_view j g' = pin_view j g.
Proof.
  intros (L1 & L2 & L3) Hi. cbn zeta.
  unfold Gpio.sleep_exit_pin, exit_local, pin_view.
  destruct (i =? Gpio.GPIO16)%nat; [repeat split; assumption|].
  destruct (nth i (Gpio.gpio_int_enabled_table g) false) eqn:E;
    [| repeat split; try assumption; now rewrite E].
  unfold Gpio.put_int_type, gpio_sized.
  cbn [Gpio.with_int_type Gpio.int_type Gpio.gpio_int_enabled_table
       Gpio.gpio_int_saved_type Gpio.gpio_wakeup].
  rewrite ?length_set_nth.
  split; [repeat split; assumption|]. split; [reflexivity|].
  split; [rewrite nth_set_nth_same by lia; now rewrite E|].
  intros j Hj. now rewrite nth_set_nth_other by congruence.
Qed.

Lemma land_7_small (t : Z) : 0 <= t < 8 -> Z.land t 7 = t.
Proof.
  intros Ht. change 7 with (Z.ones 3). rewrite Z.land_ones by lia.
  apply Z.mod_small. exact Ht.
Qed.

(** The view of a pin after entering the light sleep and after leaving
    it. *)
Lemma gpio_sleep_views (cause : Z) (g : Gpio.gpio_irq_t) :
  gpio_sized g ->
  let g1 := Gpio.gpio_pm_sleep_enter GPIO_FALLING GPIO_RISING GPIO_BOTH
              GPIO_LOW GPIO_HIGH ESP_PM_LIGHT_SLEEP ESP_PM_LIGHT_SLEEP g in
  let g2 := Gpio.gpio_pm_sleep_exit cause g1 in
  gpio_sized g1 /\ gpio_sized g2 /\ Gpio.gpio_wakeup g1 = true /\
  forall j, (j < Gpio.GPIO_PIN_NUMOF)%nat ->
    pin_view j g1
    = enter_local GPIO_FALLING GPIO_RISING GPIO_LOW GPIO_HIGH j (pin_view j g)
    /\ pin_view j g2 = exit_local j (pin_view j g1).
Proof.
  intros Hs. cbn zeta.
  unfold Gpio.gpio_pm_sleep_enter, Gpio.gpio_pm_sleep_exit.
  rewrite Z.eqb_refl.
  pose proof (for_pins_view
                (Gpio.sleep_enter_pin GPIO_FALLING GPIO_RISING GPIO_BOTH
                   GPIO_LOW GPIO_HIGH)
                (enter_local GPIO_FALLING GPIO_RISING GPIO_LOW GPIO_HIGH)
                sleep_enter_pin_local (Gpio.with_wakeup true g) Hs) as H1.
  destruct H1 as (Hs1 & Hw1 & Hv1).
  pose proof (for_pins_view Gpio.sleep_exit_pin exit_local
                sleep_exit_pin_local _ Hs1) as H2.
  destruct H2 as (Hs2 & _ & Hv2).
  split; [exact Hs1|]. split; [exact Hs2|]. split; [exact Hw1|].
  intros j Hj. rewrite Hv2, Hv1.
  destruct (Nat.ltb_spec j Gpio.GPIO_PIN_NUMOF) as [_|Hge]; [| lia].
  split; reflexivity.
Qed.

End GpioSleepFacts.

(** From the views of the pins to the arrays. *)
Lemma interrupt_types_from_views
    (GPIO_FALLING GPIO_RISING GPIO_LOW GPIO_HIGH : Z)
    (g g1 g2 : Gpio.gpio_irq_t) :
  gpio_sized g -> gpio_sized g2 ->
  (forall j, 0 <= nth j (Gpio.int_type g) 0 < 8) ->
  (forall j, j <> Gpio.GPIO16 ->
     nth j (Gpio.gpio_int_enabled_table g) false = true ->
     nth j (Gpio.int_type g) 0 = 0 ->
     Z.land (nth j (Gpio.gpio_int_saved_type g) 0) 7 = 0) ->
  (forall j, (j < Gpio.GPIO_PIN_NUMOF)%nat ->
     pin_view j g1
     = enter_local GPIO_FALLING GPIO_RISING GPIO_LOW GPIO_HIGH j (pin_view j g)
     /\ pin_view j g2 = exit_local j (pin_view j g1)) ->
  (forall j, (j < Gpio.GPIO_PIN_NUMOF)%nat ->
     let t := nth j (Gpio.int_type g) 0 in
     nth j (Gpio.int_type g1) 0
     = if negb (j =? Gpio.GPIO16)%nat
          && nth j (Gpio.gpio_int_enabled_table g) false && negb (t =? 0)
       then asleep_type GPIO_FALLING GPIO_RISING GPIO_LOW GPIO_HIGH t
       else t) /\
  Gpio.int_type g2 = Gpio.int_type g /\
  Gpio.gpio_int_enabled_table g2 = Gpio.gpio_int_enabled_table g.
Proof.
  intros Hs Hs2 Hr Hst Hv.
  assert (Hview : forall j, (j < Gpio.GPIO_PIN_NUMOF)%nat ->
            pin_view j g1
            = enter_local GPIO_FALLING GPIO_RISING GPIO_LOW GPIO_HIGH j
                (pin_view j g) /\
            fst (fst (pin_view j g2)) = nth j (Gpio.int_type g) 0 /\
            snd (fst (pin_view j g2))
            = nth j (Gpio.gpio_int_enabled_table g) false).
  { intros j Hj. destruct (Hv j Hj) as [E1 E2].
    split; [exact E1|]. rewrite E2, E1.
    unfold pin_view, enter_local, exit_local.
    destruct (Nat.eqb_spec j Gpio.GPIO16) as [E16|N16];
      [split; reflexivity|].
    destruct (nth j (Gpio.gpio_int_enabled_table g) false) eqn:Ee;
      cbn [andb]; [| split; reflexivity].
    destruct (Z.eqb_spec (nth j (Gpio.int_type g) 0) 0) as [E0|N0];
      cbn [negb fst snd]; split; try reflexivity.
    - rewrite E0. now apply Hst.
    - apply land_7_small, Hr. }
  split; [| split].
  - intros j Hj. destruct (Hview j Hj) as (E1 & _).
    apply (f_equal (fun v => fst (fst v))) in E1.
    unfold pin_view at 1 in E1. cbn [fst] in E1. rewrite E1.
    unfold pin_view, enter_local.
    set (t := nth j (Gpio.int_type g) 0).
    destruct (j =? Gpio.GPIO16)%nat; [reflexivity|].
    cbn [negb andb].
    now destruct (nth j (Gpio.gpio_int_enabled_table g) false && negb (t =? 0)).
  - destruct Hs as (L1 & _), Hs2 as (M1 & _).
    apply (nth_ext _ _ 0 0); [congruence|].
    intros j Hj. rewrite M1 in Hj. destruct (Hview j Hj) as (_ & E & _).
    exact E.
  - destruct Hs as (_ & L2 & _), Hs2 as (_ & M2 & _).
    apply (nth_ext _ _ false false); [congruence|].
    intros j Hj. rewrite M2 in Hj. destruct (Hview j Hj) as (_ & _ & E).
    exact E.
Qed.

(** X15.  The interrupt types of the pins over a light sleep.
    [gpio_pm_sleep_enter] for the light sleep enables the wake-up by GPIO
    and, for every pin other than GPIO16 whose interrupt is enabled with a
    type other than 0, turns a falling edge into the low level and a
    rising edge into the high level, leaving every other type and pin as
    it is; in any other mode it changes nothing.  [gpio_pm_sleep_exit]
    then gives every pin the interrupt type it had before, and leaves the
    table of the enabled interrupts as it was, provided the interrupt
    types fit their three bits and the saved type of an enabled pin
    without interrupt type is 0: such a pin is not saved on entry, but is
    restored on exit. *)
Theorem light_sleep_keeps_interrupt_types
    (GPIO_FALLING GPIO_RISING GPIO_BOTH GPIO_LOW GPIO_HIGH : Z)
    (ESP_PM_LIGHT_SLEEP cause : Z) (g : Gpio.gpio_irq_t) :
  gpio_sized g ->
  (forall j, 0 <= nth j (Gpio.int_type g) 0 < 8) ->
  (forall j, j <> Gpio.GPIO16 ->
     nth j (Gpio.gpio_int_enabled_table g) false = true ->
     nth j (Gpio.int_type g) 0 = 0 ->
     Z.land (nth j (Gpio.gpio_int_saved_type g) 0) 7 = 0) ->
  let enter := Gpio.gpio_pm_sleep_enter GPIO_FALLING GPIO_RISING GPIO_BOTH
                 GPIO_LOW GPIO_HIGH ESP_PM_LIGHT_SLEEP in
  let g1 := enter ESP_PM_LIGHT_SLEEP g in
  let g2 := Gpio.gpio_pm_sleep_exit cause g1 in
  Gpio.gpio_wakeup g1 = true /\
  (forall j, (j < Gpio.GPIO_PIN_NUMOF)%nat ->
     let t := nth j (Gpio.int_type g) 0 in
     nth j (Gpio.int_type g1) 0
     = if negb (j =? Gpio.GPIO16)%nat
          && nth j (Gpio.gpio_int_enabled_table g) false && negb (t =? 0)
       then asleep_type GPIO_FALLING GPIO_RISING GPIO_LOW GPIO_HIGH t
       else t) /\
  Gpio.int_type g2 = Gpio.int_type g /\
  Gpio.gpio_int_enabled_table g2 = Gpio.gpio_int_enabled_table g /\
  (forall mode, mode <> ESP_PM_LIGHT_SLEEP -> enter mode g = g).
Proof.
  intros Hs Hr Hst. cbn zeta.
  destruct (gpio_sleep_views GPIO_FALLING GPIO_RISING GPIO_BOTH GPIO_LOW
              GPIO_HIGH ESP_PM_LIGHT_SLEEP cause g Hs)
    as (Hs1 & Hs2 & Hw & Hv).
  split; [exact Hw|].
  destruct (interrupt_types_from_views GPIO_FALLING GPIO_RISING GPIO_LOW
              GPIO_HIGH g _ _ Hs Hs2 Hr Hst Hv) as (Hin & Hrt & Hen).
  split; [exact Hin|]. split; [exact Hrt|]. split; [exact Hen|].
  intros mode Hm. unfold Gpio.gpio_pm_sleep_enter.
  apply Z.eqb_neq in Hm. now rewrite Hm.
Qed.

Lemma light_sleep_keeps_interrupt_types_witness :
  Gpio.int_type
    (Gpio.gpio_pm_sleep_exit 0 (Gpio.gpio_pm_sleep_enter 2 1 3 4 5 1 1 gpio_sample))
  = Gpio.int_type gpio_sample /\
  nth 4 (Gpio.int_type (Gpio.gpio_pm_sleep_enter 2 1 3 4 5 1 1 gpio_sample)) 0
  = 4.
Proof.
  destruct (light_sleep_keeps_interrupt_types 2 1 3 4 5 1 0 gpio_sample)
    as (_ & Hin & Hrt & _).
  - repeat split.
  - intros j. do 17 (destruct j as [|j]; [cbn; lia|]).
    cbn. destruct j; lia.
  - intros j _ He. do 17 (destruct j as [|j]; [reflexivity || discriminate|]).
    cbn in He. destruct j; discriminate.
  - split; [exact Hrt|].
    rewrite (Hin 4%nat); [reflexivity | unfold Gpio.GPIO_PIN_NUMOF; lia].
Defined.

(** ** Toggling a pin *)

Lemma lxor_twice (x b : Z) : Z.lxor (Z.lxor x b) b = x.
Proof. now rewrite Z.lxor_assoc, Z.lxor_nilpotent, Z.lxor_0_r. Qed.

Lemma BIT_testbit (n : nat) (q : Z) :
  0 <= q -> Z.testbit (Gpio.BIT n) q = (q =? Z.of_nat n).
Proof.
  intros Hq. unfold Gpio.BIT. rewrite Z.shiftl_spec by exact Hq.
  destruct (Z.eqb_spec q (Z.of_nat n)) as [->|Hn].
  - now rewrite Z.sub_diag.
  - destruct (Z.lt_ge_cases q (Z.of_nat n)) as [Hlt|Hge].
    + apply Z.testbit_neg_r. lia.
    + replace (q - Z.of_nat n) with (Z.succ (q - Z.of_nat n - 1)) by lia.
      change 1 with (2 * 0 + 1) at 1.
      rewrite Z.testbit_odd_succ by lia. apply Z.testbit_0_l.
Qed.

Lemma land_1_testbit (x : Z) :
  (Z.land x (Gpio.BIT 0) =? 0) = negb (Z.testbit x 0).
Proof.
  change (Gpio.BIT 0) with (Z.ones 1). rewrite Z.land_ones by lia.
  pose proof (Z.bit0_mod x) as Hb. change (2 ^ 1) with 2.
  rewrite <- Hb. now destruct (Z.testbit x 0).
Qed.

(** X16.  [gpio_toggle] of a pin below 16 inverts the bit of the pin in
    [GPIO.OUT] and no other bit, so that toggling twice gives the
    registers back.  For GPIO16 it does not invert the output: it sets
    bit 0 of the RTC output register to the inverse of the input bit and
    leaves the other bits, so that a second toggle with the same input
    changes nothing.  For a pin that does not exist it does nothing. *)
Theorem toggle_inverts_the_pin (pin : nat) (r : Gpio.gpio_out_t) :
  ((pin < Gpio.GPIO16)%nat ->
   Gpio.gpio_toggle pin (Gpio.gpio_toggle pin r) = r /\
   forall q, 0 <= q ->
     Z.testbit (Gpio.GPIO_OUT (Gpio.gpio_toggle pin r)) q
     = xorb (Z.testbit (Gpio.GPIO_OUT r) q) (q =? Z.of_nat pin)) /\
  (let r' := Gpio.gpio_toggle Gpio.GPIO16 r in
   Gpio.gpio_toggle Gpio.GPIO16 r' = r' /\
   Gpio.GPIO_OUT r' = Gpio.GPIO_OUT r /\
   Z.testbit (Gpio.RTC_GPIO_OUT r') 0
   = negb (Z.testbit (Gpio.RTC_GPIO_IN r) 0) /\
   forall q, 0 < q ->
     Z.testbit (Gpio.RTC_GPIO_OUT r') q
     = Z.testbit (Gpio.RTC_GPIO_OUT r) q && (q <? 32)) /\
  ((Gpio.GPIO_PIN_NUMOF <= pin)%nat -> Gpio.gpio_toggle pin r = r).
Proof.
  split; [| split].
  - intros Hp. unfold Gpio.GPIO16 in Hp. unfold Gpio.gpio_toggle.
    assert (E1 : (pin <? Gpio.GPIO_PIN_NUMOF)%nat = true)
      by (apply Nat.ltb_lt; unfold Gpio.GPIO_PIN_NUMOF; lia).
    assert (E2 : (pin =? Gpio.GPIO16)%nat = false)
      by (apply Nat.eqb_neq; unfold Gpio.GPIO16; lia).
    rewrite E1, E2. cbn [negb Gpio.GPIO_OUT Gpio.RTC_GPIO_OUT Gpio.RTC_GPIO_IN].
    split.
    + rewrite lxor_twice. now destruct r.
    + intros q Hq. now rewrite Z.lxor_spec, BIT_testbit.
  - cbn zeta. unfold Gpio.gpio_toggle.
    change (Gpio.GPIO16 <? Gpio.GPIO_PIN_NUMOF)%nat with true.
    change (Gpio.GPIO16 =? Gpio.GPIO16)%nat with true.
    cbn [negb Gpio.GPIO_OUT Gpio.RTC_GPIO_OUT Gpio.RTC_GPIO_IN].
    set (m := u32 (Z.lnot (Gpio.BIT 0))).
    set (v := if negb (Z.land (Gpio.RTC_GPIO_IN r) (Gpio.BIT 0) =? 0)
              then 0 else 1).
    assert (Hv : Z.land v m = 0) by (unfold v; now destruct (negb _)).
    assert (Hm : forall q, 0 <= q -> Z.testbit m q = (0 <? q) && (q <? 32)).
    { intros q Hq. change m with (Z.shiftl (Z.ones 31) 1).
      rewrite Z.shiftl_spec by exact Hq.
      destruct (Z.eqb_spec q 0) as [->|Hq0]; [reflexivity|].
      rewrite Z.testbit_ones by lia.
      destruct (Z.ltb_spec 0 q), (Z.ltb_spec q 32), (Z.leb_spec 0 (q - 1)),
        (Z.ltb_spec (q - 1) 31); cbn; try reflexivity; lia. }
    split; [| split; [reflexivity | split]].
    + f_equal.
      rewrite Z.land_lor_distr_l, <- Z.land_assoc, Z.land_diag, Hv.
      now rewrite Z.lor_0_r.
    + rewrite Z.lor_spec, Z.land_spec, Hm by lia.
      cbn [Z.ltb Z.compare andb orb]. rewrite andb_false_r. cbn [orb].
      unfold v. rewrite land_1_testbit.
      now destruct (Z.testbit (Gpio.RTC_GPIO_IN r) 0).
    + intros q Hq. rewrite Z.lor_spec, Z.land_spec, Hm by lia.
      assert (Ev : Z.testbit v q = false).
      { unfold v. destruct (negb _); [apply Z.testbit_0_l|].
        replace q with (Z.succ (q - 1)) by lia.
        change 1 with (2 * 0 + 1) at 1.
        rewrite Z.testbit_odd_succ by lia. apply Z.testbit_0_l. }
      rewrite Ev, orb_false_r.
      now rewrite (proj2 (Z.ltb_lt 0 q) Hq).
  - intros Hp. unfold Gpio.gpio_toggle.
    apply Nat.ltb_ge in Hp. now rewrite Hp.
Qed.

Lemma toggle_inverts_the_pin_witness :
  Gpio.gpio_toggle 4
    (Gpio.gpio_toggle 4
       {| Gpio.GPIO_OUT := 5; Gpio.RTC_GPIO_OUT := 0; Gpio.RTC_GPIO_IN := 0 |})
  = {| Gpio.GPIO_OUT := 5; Gpio.RTC_GPIO_OUT := 0; Gpio.RTC_GPIO_IN := 0 |} /\
  Gpio.gpio_toggle 17
    {| Gpio.GPIO_OUT := 5; Gpio.RTC_GPIO_OUT := 0; Gpio.RTC_GPIO_IN := 0 |}
  = {| Gpio.GPIO_OUT := 5; Gpio.RTC_GPIO_OUT := 0; Gpio.RTC_GPIO_IN := 0 |}.
Proof.
  split.
  - apply (toggle_inverts_the_pin 4). unfold Gpio.GPIO16. lia.
  - apply (toggle_inverts_the_pin 17). unfold Gpio.GPIO_PIN_NUMOF. lia.
Defined.

(** ** The 64-bit system time *)

Lemma s32_small (x : Z) : - 2 ^ 31 <= x < 2 ^ 31 -> Pm.s32 x = x.
Proof.
  intros Hx. unfold Pm.s32. rewrite Z.mod_small by lia. lia.
Qed.

Lemma paced_last (T : Z) (ts : list Z) : paced T ts -> T <= last_time T ts.
Proof.
  revert T. induction ts as [|t ts IH]; intros T Hp; [cbn; lia|].
  destruct Hp as [Ht Hp]. specialize (IH t Hp). cbn [last_time]. lia.
Qed.

(** One turn of the idle loop less than 2^32 microseconds after the one
    before. *)
Lemma idle_step_tracks (p : Pm.pm_t) (T T' : Z) :
  pm_tracks p T -> T <= T' < T + 2 ^ 32 -> T' < 2 ^ 63 ->
  pm_tracks (Pm.pm_set_lowest_normal (u32 T') p) T'.
Proof.
  intros (Hc & Hl & HT) Ht Hb. unfold pm_tracks, Pm.pm_set_lowest_normal.
  cbn [Pm.system_time_cycles Pm.last_system_time].
  pose proof (u32_range T') as Hr. unfold u32 in *.
  pose proof (Z.div_mod T' (2 ^ 32) ltac:(lia)) as Hd.
  set (q := T' / 2 ^ 32) in *. set (n := T' mod 2 ^ 32) in *.
  set (c := Pm.system_time_cycles p) in *.
  set (l := Pm.last_system_time p) in *.
  change (2 ^ 32) with 4294967296 in *.
  change (2 ^ 63) with 9223372036854775808 in *.
  destruct (Z.ltb_spec n l) as [Hlt|Hge].
  - assert (Hq : q = c + 1) by lia.
    rewrite s32_small by (change (2 ^ 31) with 2147483648; lia).
    repeat split; lia.
  - assert (Hq : q = c) by lia.
    repeat split; lia.
Qed.

Lemma time_64_of_tracked (p : Pm.pm_t) (T : Z) :
  pm_tracks p T -> T < 2 ^ 63 ->
  Pm.system_get_time_64 (Pm.last_system_time p) p = T.
Proof.
  intros (Hc & Hl & HT) Hb. unfold Pm.system_get_time_64.
  set (c := Pm.system_time_cycles p) in *.
  set (l := Pm.last_system_time p) in *.
  change (2 ^ 32) with 4294967296 in *.
  change (2 ^ 63) with 9223372036854775808 in *.
  rewrite (u64_small c) by (change (2 ^ 64) with 18446744073709551616; lia).
  rewrite Z.shiftl_mul_pow2 by lia. change (2 ^ 32) with 4294967296.
  rewrite (u64_small (c * _))
    by (change (2 ^ 64) with 18446744073709551616; lia).
  rewrite u64_small by (change (2 ^ 64) with 18446744073709551616; lia).
  exact HT.
Qed.

(** X17.  The 64-bit system time.  When the idle loop is entered at times
    that do not go back and are less than 2^32 microseconds apart,
    starting from statics that stand for the time before the first, then
    after the last turn the statics stand for the time of that turn: every
    wrap of the 32-bit system time has been counted once, and
    [system_get_time_64], called at that time, returns it.  The time
    stays below 2^63, so that the cycle counter does not overflow. *)
Theorem idle_loop_keeps_the_time (ts : list Z) (p : Pm.pm_t) (T : Z) :
  pm_tracks p T ->
  paced T ts ->
  last_time T ts < 2 ^ 63 ->
  let p' := Pm.idle_at ts p in
  pm_tracks p' (last_time T ts) /\
  Pm.system_get_time_64 (u32 (last_time T ts)) p' = last_time T ts.
Proof.
  intros Hp Hts Hb. cbn zeta.
  assert (Ht : pm_tracks (Pm.idle_at ts p) (last_time T ts)).
  { revert p T Hp Hts Hb. induction ts as [|t ts IH]; intros p T Hp Hts Hb.
    - exact Hp.
    - destruct Hts as [Ht Hts].
      cbn [last_time] in *.
      pose proof (paced_last t ts Hts) as Hle.
      unfold Pm.idle_at. cbn [fold_left].
      apply IH; [| exact Hts | exact Hb].
      apply (idle_step_tracks p T t Hp Ht). lia. }
  split; [exact Ht|].
  pose proof (time_64_of_tracked _ _ Ht Hb) as E.
  destruct Ht as (_ & Hl & HT).
  assert (Eu : u32 (last_time T ts) = Pm.last_system_time (Pm.idle_at ts p)).
  { rewrite <- HT. unfold u32.
    rewrite Z.add_comm, Z.mod_add by lia. now apply Z.mod_small. }
  now rewrite Eu.
Qed.

Lemma idle_loop_keeps_the_time_witness :
  Pm.system_get_time_64 (u32 9000000000)
    (Pm.idle_at [4000000000; 4300000000; 8000000000; 9000000000] Pm.pm_reset)
  = 9000000000.
Proof.
  apply (idle_loop_keeps_the_time
           [4000000000; 4300000000; 8000000000; 9000000000] Pm.pm_reset 0).
  - unfold pm_tracks. cbn. lia.
  - cbn. lia.
  - cbn. lia.
Defined.

(** ** The overflow on time *)

Section OverflowOnTimeFacts.

Context {H : Type}.
Variable drv : rtt_hw_driver_t H.
Variable cb_body : rtt_cb_t -> Z -> list api_call.

(** With no alarm callback, a registered overflow callback makes the
    overflow the event that is armed. *)
Lemma set_overflow_alone (ocb : rtt_cb_t) (arg : Z) (s0 : Rtt.rtt_t H) :
  Rtt.alarm_cb (Rtt.rtt_counter s0) = None ->
  let s1 := Rtt.rtt_set_overflow_cb drv (Some ocb) arg s0 in
  let c := Rtt.rtt_counter s1 in
  Rtt.hw s1
  = set_alarm drv (u32 (0 - Rtt._rtt_offset s0)) (Some RTT_ISR) NULL
      (Rtt.hw s0) /\
  Rtt._rtt_offset s1 = Rtt._rtt_offset s0 /\
  Rtt.invoked s1 = Rtt.invoked s0 /\
  Rtt.alarm_cb c = None /\ Rtt.overflow_cb c = Some ocb /\
  Rtt.overflow_arg c = arg /\ Rtt.alarm_active c = 0.
Proof.
  intros Hn. cbn zeta.
  unfold Rtt.rtt_set_overflow_cb, Rtt._rtt_update_hw_alarm.
  set (m := Rtt.with_rtt_counter _ s0).
  change (Rtt.alarm_cb (Rtt.rtt_counter m))
    with (Rtt.alarm_cb (Rtt.rtt_counter s0)).
  change (Rtt.overflow_cb (Rtt.rtt_counter m)) with (Some ocb).
  rewrite Hn. cbn [Rtt.is_set andb].
  repeat split. exact Hn.
Qed.

(** A dispatch for the overflow with no alarm callback calls the overflow
    callback and nothing else. *)
Lemma isr_overflow_invoked (s : Rtt.rtt_t H) (ocb : rtt_cb_t) :
  let c := Rtt.rtt_counter s in
  Rtt.alarm_active c = 0 ->
  Rtt.alarm_cb c = None ->
  Rtt.overflow_cb c = Some ocb ->
  Rtt.invoked (Rtt._rtt_isr drv cb_body s)
  = Rtt.invoked s ++ [OverflowCb ocb (Rtt.overflow_arg c)].
Proof.
  cbn zeta. intros Ha Hn Ho.
  rewrite (isr_not_due drv cb_body s) by (right; exact Hn).
  rewrite Ha.
  destruct (wakeup_reset_fields s) as (_ & _ & _ & Eo & Ea & _ & Ei & _).
  destruct (overflow_path_dispatch drv cb_body (wakeup_reset s) ocb)
    as (_ & _ & Hi & _); [now rewrite Eo|].
  now rewrite Hi, Ei, Ea.
Qed.

End OverflowOnTimeFacts.

Section OverflowSysFacts.

Variable rtc_clk_to_us : Z -> Z -> Z.
Variable cb_body : rtt_cb_t -> Z -> list api_call.

Local Abbreviation drv := (Esp8266.sys_drv rtc_clk_to_us).
Local Abbreviation tick := (Esp8266.sys_tick rtc_clk_to_us cb_body).

Lemma sys_tick_expires_overflow (s : Rtt.rtt_t Sys.sys_t) (ocb : rtt_cb_t) :
  let c := Rtt.rtt_counter s in
  Sys.queued (Sys._sys_timer (Rtt.hw s)) = Some 1 ->
  Sys.callback (Sys._sys_timer (Rtt.hw s)) = Some RTT_ISR ->
  Rtt.alarm_active c = 0 ->
  Rtt.alarm_cb c = None ->
  Rtt.overflow_cb c = Some ocb ->
  Rtt.invoked (tick s)
  = Rtt.invoked s ++ [OverflowCb ocb (Rtt.overflow_arg c)].
Proof.
  cbn zeta. intros Hq Hh Ha Hn Ho.
  unfold Esp8266.sys_tick, Sys.tick.
  cbn [Rtt.with_hw Rtt.hw Sys.with_system_time Sys._sys_timer].
  rewrite Hq. change (1 <=? 1) with true. cbv iota.
  unfold Sys.xtimer_shoot.
  cbn [Rtt.with_hw Rtt.hw Sys.with_system_time Sys._sys_timer].
  rewrite Hh. unfold Esp8266.sys_handler.
  now rewrite (isr_overflow_invoked _ cb_body _ ocb).
Qed.

Lemma sys_overflow_on_time (s0 : Rtt.rtt_t Sys.sys_t) (ocb : rtt_cb_t)
    (arg : Z) :
  let c := Rtt.rtt_get_counter drv s0 in
  let s1 := Rtt.rtt_set_overflow_cb drv (Some ocb) arg s0 in
  let d := Z.to_nat (2 ^ 32 - c) in
  Rtt.alarm_cb (Rtt.rtt_counter s0) = None ->
  0 < c ->
  (forall m, (m < d)%nat ->
     Rtt.invoked (Esp8266.run tick m s1) = Rtt.invoked s0) /\
  Rtt.invoked (Esp8266.run tick d s1) = Rtt.invoked s0 ++ [OverflowCb ocb arg].
Proof.
  cbn zeta. intros Hn Hc.
  set (c := Rtt.rtt_get_counter drv s0) in *.
  set (s1 := Rtt.rtt_set_overflow_cb drv (Some ocb) arg s0).
  destruct (set_overflow_alone drv ocb arg s0 Hn)
    as (Hh & _ & Hi & Hcb & Hocb & Harg & Hact).
  fold s1 in Hh, Hi, Hcb, Hocb, Harg, Hact.
  assert (Hcr : 0 <= c < 2 ^ 32) by apply u32_range.
  assert (Hq : Sys.queued (Sys._sys_timer (Rtt.hw s1)) = Some (2 ^ 32 - c)).
  { rewrite Hh.
    cbn [Esp8266.sys_drv Sys._rtt_hw_sys_driver set_alarm].
    unfold Sys._sys_set_alarm.
    cbn [Sys.with_timer Sys._sys_timer Sys.xtimer_set Sys.queued].
    f_equal. rewrite SYS_COUNT_TO_US_id by apply u32_range.
    unfold Sys._sys_get_counter.
    rewrite SYS_US_TO_COUNT_id by apply u32_range.
    unfold c in *. rewrite sys_counter_reading in *.
    set (t := Sys.system_time (Rtt.hw s0)) in *.
    set (o := Sys._sys_counter_offset (Rtt.hw s0)) in *.
    set (r := Rtt._rtt_offset s0) in *.
    rewrite u32_sub_l, u32_sub_r.
    replace (0 - r - (t + o)) with (0 - (t + o + r)) by lia.
    rewrite <- u32_sub_r.
    unfold u32 at 1.
    replace (0 - u32 (t + o + r))
      with (2 ^ 32 - u32 (t + o + r) + (-1) * 2 ^ 32) by lia.
    rewrite Z.mod_add by lia. apply Z.mod_small. lia. }
  assert (Hcall : Sys.callback (Sys._sys_timer (Rtt.hw s1)) = Some RTT_ISR)
    by (rewrite Hh; reflexivity).
  split.
  - intros m Hm.
    destruct (sys_run_waiting rtc_clk_to_us cb_body m s1 (2 ^ 32 - c) Hq)
      as (_ & _ & Hi' & _); [lia|].
    now rewrite Hi'.
  - destruct (Z.to_nat (2 ^ 32 - c)) as [|d'] eqn:Ed; [lia|].
    rewrite run_succ.
    destruct (sys_run_waiting rtc_clk_to_us cb_body d' s1 (2 ^ 32 - c) Hq)
      as (Hq' & _ & Hi' & Hr'); [lia|].
    pose proof (sys_run_waiting_handler rtc_clk_to_us cb_body d' s1
                  (2 ^ 32 - c) Hq ltac:(lia)) as Hh'.
    rewrite (sys_tick_expires_overflow _ ocb).
    + now rewrite Hr', Harg, Hi', Hi.
    + rewrite Hq'. f_equal. lia.
    + now rewrite Hh'.
    + now rewrite Hr'.
    + now rewrite Hr'.
    + now rewrite Hr'.
Qed.

End OverflowSysFacts.

Section OverflowFrcFacts.

Variable rtc_clk_to_us : Z -> Z -> Z.
Variable cb_body : rtt_cb_t -> Z -> list api_call.

Local Abbreviation drv := (Esp8266.frc_drv rtc_clk_to_us).
Local Abbreviation tick := (Esp8266.frc_tick rtc_clk_to_us cb_body).

(** The tick at which the timer reaches its overflow value runs the
    dispatch of the core, and leaves the counter at what the offset
    reads. *)
Lemma frc_tick_expires_overflow (s : Rtt.rtt_t Frc.frc_t) (ocb : rtt_cb_t) :
  let r := Frc.frc2 (Rtt.hw s) in
  let a := Frc._frc_alarm (Rtt.hw s) in
  let c := Rtt.rtt_counter s in
  Frc.ctrl_enable r = true ->
  Frc.int_enable (Rtt.hw s) = true ->
  0 <= Frc.count r ->
  Frc.count r + 1 = Frc.FRC_OVERFLOW ->
  Frc.alarm r = Frc.FRC_OVERFLOW ->
  Frc.active a = 0 -> Frc.alarm_set a = 0 ->
  Frc.alarm_cb a = Some RTT_ISR ->
  Rtt.alarm_active c = 0 ->
  Rtt.alarm_cb c = None ->
  Rtt.overflow_cb c = Some ocb ->
  Rtt.invoked (tick s) = Rtt.invoked s ++ [OverflowCb ocb (Rtt.overflow_arg c)] /\
  ((forall f arg, existsb sets_counter (cb_body f arg) = false) ->
   Rtt.rtt_get_counter drv (tick s) = u32 (Rtt._rtt_offset s)).
Proof.
  cbn zeta. intros En Ie H0 Hm Hal Hact Hset Hh Hfired Hn Ho.
  pose proof FRC_OVERFLOW_pos as Hov.
  set (s1 := Rtt.with_hw
               (Frc.with_frc2 (Frc.write_count Frc.FRC_OVERFLOW)) s).
  assert (E : tick s = Esp8266._frc_isr rtc_clk_to_us cb_body s1).
  { unfold Esp8266.frc_tick, Frc.tick. rewrite En.
    rewrite u32_small by lia.
    cbn [Rtt.with_hw Rtt.hw Frc.with_frc2 Frc.frc2 Frc.write_count
         Frc.count Frc.alarm Frc.int_enable].
    rewrite Hm, Hal, Z.eqb_refl, Ie. reflexivity. }
  rewrite E.
  assert (Hact1 : Frc.active (Frc._frc_alarm (Rtt.hw s1))
                  = Frc.alarm_set (Frc._frc_alarm (Rtt.hw s1)))
    by (unfold s1; cbn [Rtt.with_hw Rtt.hw Frc.with_frc2 Frc._frc_alarm];
        now rewrite Hact, Hset).
  assert (Hh1 : Frc.alarm_cb (Frc._frc_alarm (Rtt.hw s1)) = Some RTT_ISR)
    by exact Hh.
  split.
  - rewrite (frc_isr_unfold rtc_clk_to_us cb_body s1 Hact1 Hh1).
    cbn [Rtt.with_hw Rtt.invoked].
    rewrite (isr_overflow_invoked _ cb_body _ ocb).
    + unfold frc_detached. now destruct (_ =? 0).
    + unfold frc_detached. now destruct (_ =? 0).
    + unfold frc_detached. now destruct (_ =? 0).
    + unfold frc_detached. now destruct (_ =? 0).
  - intros Hq. rewrite frc_isr_keeps_counter.
    + rewrite frc_counter_reading. unfold s1.
      cbn [Rtt.with_hw Rtt.hw Rtt._rtt_offset Frc.with_frc2 Frc.frc2
           Frc.write_count Frc.count].
      rewrite FRC_OVERFLOW_value.
      rewrite FRC_COUNTER_TO_US_eq by lia.
      change (u32 (1342177280 * 16 / 5)) with 0. reflexivity.
    + exact Hq.
    + unfold s1.
      cbn [Rtt.with_hw Rtt.hw Frc.with_frc2 Frc.frc2 Frc.write_count
           Frc.count]. lia.
Qed.

Lemma frc_overflow_on_time (s0 : Rtt.rtt_t Frc.frc_t) (ocb : rtt_cb_t)
    (arg : Z) :
  let count := Frc.count (Frc.frc2 (Rtt.hw s0)) in
  let s1 := Rtt.rtt_set_overflow_cb drv (Some ocb) arg s0 in
  let d := Z.to_nat (Frc.FRC_OVERFLOW - count) in
  Rtt.alarm_cb (Rtt.rtt_counter s0) = None ->
  Rtt._rtt_offset s0 = 0 ->
  Frc.ctrl_enable (Frc.frc2 (Rtt.hw s0)) = true ->
  Frc.int_enable (Rtt.hw s0) = true ->
  0 <= count < Frc.FRC_OVERFLOW ->
  (forall m, (m < d)%nat ->
     Rtt.invoked (Esp8266.run tick m s1) = Rtt.invoked s0) /\
  Rtt.invoked (Esp8266.run tick d s1) = Rtt.invoked s0 ++ [OverflowCb ocb arg] /\
  ((forall f a, existsb sets_counter (cb_body f a) = false) ->
   Rtt.rtt_get_counter drv (Esp8266.run tick d s1) = 0).
Proof.
  cbn zeta. intros Hn Hoff En Ie [H0 Ht].
  set (count := Frc.count (Frc.frc2 (Rtt.hw s0))) in *.
  set (s1 := Rtt.rtt_set_overflow_cb drv (Some ocb) arg s0).
  pose proof FRC_OVERFLOW_pos as Hov.
  destruct (set_overflow_alone drv ocb arg s0 Hn)
    as (Hh & Ho & Hi & Hcb & Hocb & Harg & Hact).
  fold s1 in Hh, Ho, Hi, Hcb, Hocb, Harg, Hact.
  rewrite Hoff in Hh. change (u32 (0 - 0)) with 0 in Hh.
  pose proof (armed_set_alarm _ _ _ (frc_laws rtc_clk_to_us) 0 (Rtt.hw s0))
    as Harm.
  rewrite <- Hh in Harm. unfold frc_armed_for in Harm. cbn zeta in Harm.
  change (Frc.FRC_US_TO_COUNTER 0 mod Frc.FRC_OVERFLOW) with 0 in Harm.
  assert (Hcnt : Frc.count (Frc.frc2 (Rtt.hw s1)) = count).
  { rewrite Hh. cbn [Esp8266.frc_drv Frc._rtt_hw_frc_driver set_alarm].
    unfold Frc._frc_set_alarm. now rewrite frc_update_alarm_count. }
  rewrite Hcnt in Harm.
  assert (Hnlt : (count <? 0) = false) by (apply Z.ltb_ge; lia).
  rewrite Hnlt in Harm.
  destruct Harm as (Hacb & _ & Haset & Haact & Hal).
  pose proof (frc_set_alarm_power rtc_clk_to_us 0 (Some RTT_ISR) NULL
                (Rtt.hw s0)) as Hp.
  rewrite <- Hh in Hp. unfold frc_power in Hp. injection Hp as Hen Hie.
  rewrite En in Hen. rewrite Ie in Hie.
  split; [| assert (Hrun : forall d', Z.of_nat d' < Frc.FRC_OVERFLOW - count ->
              Esp8266.run tick d' s1
              = Rtt.with_hw
                  (Frc.with_frc2 (Frc.write_count (count + Z.of_nat d'))) s1)].
  - intros m Hm.
    rewrite (frc_run_waiting rtc_clk_to_us cb_body m s1); [exact Hi | | |].
    + rewrite Hcnt. exact H0.
    + rewrite Hcnt, Hal. lia.
    + rewrite Hal. lia.
  - intros d' Hd'. rewrite frc_run_counting; rewrite ?Hcnt, ?Hal;
      try assumption; try lia. reflexivity.
  - destruct (Z.to_nat (Frc.FRC_OVERFLOW - count)) as [|d'] eqn:Ed; [lia|].
    rewrite run_succ, Hrun by lia.
    set (s' := Rtt.with_hw _ s1).
    destruct (frc_tick_expires_overflow s' ocb) as [Hinv Hread];
      unfold s';
      cbn [Rtt.with_hw Rtt.hw Rtt.rtt_counter Frc.with_frc2 Frc.frc2
           Frc.write_count Frc.count Frc.alarm Frc.ctrl_enable
           Frc.int_enable Frc._frc_alarm];
      try assumption; try lia.
    fold s'. split.
    + rewrite Hinv. unfold s'. cbn [Rtt.with_hw Rtt.invoked Rtt.rtt_counter].
      now rewrite Hi, Harg.
    + intros Hq. rewrite (Hread Hq). unfold s'.
      cbn [Rtt.with_hw Rtt._rtt_offset]. now rewrite Ho, Hoff.
Qed.

End OverflowFrcFacts.

(** X18.  The overflow callback is called when the counter wraps.  With
    no alarm callback registered, after [rtt_set_overflow_cb]: on the
    system-time backend, at a counter value [c] other than 0, no callback
    is called in the next [2^32 - c - 1] ticks, the overflow callback,
    and it alone, is called with its argument in tick [2^32 - c], and the
    counter reads 0 then; on the FRC2 backend with an offset of 0 and the
    timer running at a count below [FRC_OVERFLOW], the same holds for the
    tick at which the timer reaches [FRC_OVERFLOW].  The readings hold
    when no callback sets the counter. *)
Theorem overflow_fires_at_the_wrap (rtc_clk_to_us : Z -> Z -> Z)
    (cb_body : rtt_cb_t -> Z -> list api_call) :
  (forall (s0 : Rtt.rtt_t Sys.sys_t) (ocb : rtt_cb_t) (arg : Z),
      let drv := Esp8266.sys_drv rtc_clk_to_us in
      let tick := Esp8266.sys_tick rtc_clk_to_us cb_body in
      let c := Rtt.rtt_get_counter drv s0 in
      let s1 := Rtt.rtt_set_overflow_cb drv (Some ocb) arg s0 in
      let d := Z.to_nat (2 ^ 32 - c) in
      Rtt.alarm_cb (Rtt.rtt_counter s0) = None ->
      0 < c ->
      (forall m, (m < d)%nat ->
         Rtt.invoked (Esp8266.run tick m s1) = Rtt.invoked s0) /\
      Rtt.invoked (Esp8266.run tick d s1)
      = Rtt.invoked s0 ++ [OverflowCb ocb arg] /\
      ((forall f a, existsb sets_counter (cb_body f a) = false) ->
       Rtt.rtt_get_counter drv (Esp8266.run tick d s1) = 0)) /\
  (forall (s0 : Rtt.rtt_t Frc.frc_t) (ocb : rtt_cb_t) (arg : Z),
      let drv := Esp8266.frc_drv rtc_clk_to_us in
      let tick := Esp8266.frc_tick rtc_clk_to_us cb_body in
      let count := Frc.count (Frc.frc2 (Rtt.hw s0)) in
      let s1 := Rtt.rtt_set_overflow_cb drv (Some ocb) arg s0 in
      let d := Z.to_nat (Frc.FRC_OVERFLOW - count) in
      Rtt.alarm_cb (Rtt.rtt_counter s0) = None ->
      Rtt._rtt_offset s0 = 0 ->
      Frc.ctrl_enable (Frc.frc2 (Rtt.hw s0)) = true ->
      Frc.int_enable (Rtt.hw s0) = true ->
      0 <= count < Frc.FRC_OVERFLOW ->
      (forall m, (m < d)%nat ->
         Rtt.invoked (Esp8266.run tick m s1) = Rtt.invoked s0) /\
      Rtt.invoked (Esp8266.run tick d s1)
      = Rtt.invoked s0 ++ [OverflowCb ocb arg] /\
      ((forall f a, existsb sets_counter (cb_body f a) = false) ->
       Rtt.rtt_get_counter drv (Esp8266.run tick d s1) = 0)).
Proof.
  split.
  - intros s0 ocb arg drv tick c s1 d Hn Hc.
    destruct (sys_overflow_on_time rtc_clk_to_us cb_body s0 ocb arg Hn Hc)
      as [Hbefore Hat].
    split; [exact Hbefore|]. split; [exact Hat|].
    intros Hq. unfold tick, drv.
    rewrite sys_run_advances by exact Hq.
    assert (Hc1 : Rtt.rtt_get_counter drv s1 = c).
    { unfold s1, Rtt.rtt_set_overflow_cb.
      now rewrite (update_keeps_counter _ _ _ (sys_laws rtc_clk_to_us)). }
    fold drv. rewrite Hc1.
    assert (Hcr : 0 <= c < 2 ^ 32) by apply u32_range.
    unfold d. rewrite Z2Nat.id by lia.
    replace (c + (2 ^ 32 - c)) with (2 ^ 32) by lia. reflexivity.
  - intros s0 ocb arg drv tick count s1 d Hn Hoff En Ie Hcnt.
    exact (frc_overflow_on_time rtc_clk_to_us cb_body s0 ocb arg
             Hn Hoff En Ie Hcnt).
Qed.

Lemma overflow_fires_at_the_wrap_witness :
  Rtt.invoked
    (Esp8266.run (Esp8266.sys_tick Sample.rtc_clk_to_us Sample.rearming)
       (Z.to_nat (2 ^ 32 - 1000000))
       (Rtt.rtt_set_overflow_cb Sample.sys_drv (Some 2%nat) 7
          Sample.sys_at_1000000))
  = [OverflowCb 2%nat 7] /\
  Rtt.invoked
    (Esp8266.run (Esp8266.frc_tick Sample.rtc_clk_to_us Sample.rearming)
       (Z.to_nat (Frc.FRC_OVERFLOW - 0))
       (Rtt.rtt_set_overflow_cb Sample.frc_drv (Some 2%nat) 7
          (Rtt.rtt_init Sample.frc_drv Sample.frc_reset)))
  = [OverflowCb 2%nat 7].
Proof.
  destruct (overflow_fires_at_the_wrap Sample.rtc_clk_to_us Sample.rearming)
    as [Hs Hf].
  split.
  - destruct (Hs Sample.sys_at_1000000 2%nat 7) as (_ & Hat & _).
    + vm_compute. reflexivity.
    + vm_compute. reflexivity.
    + exact Hat.
  - destruct (Hf (Rtt.rtt_init Sample.frc_drv Sample.frc_reset) 2%nat 7)
      as (_ & Hat & _).
    + vm_compute. reflexivity.
    + vm_compute. reflexivity.
    + vm_compute. reflexivity.
    + vm_compute. reflexivity.
    + vm_compute. intuition discriminate.
    + exact Hat.
Defined.

(** ** A pending alarm and the other calls *)

Section UpdateOnTimeFacts.

Context {H : Type}.
Variable drv : rtt_hw_driver_t H.
Variable armed_for : Z -> H -> Prop.
Variable disarmed : H -> Prop.
Hypothesis laws : driver_laws drv armed_for disarmed.

(** Every call of the interface ends with the selection of the next
    event. *)
Lemma api_step_is_update (c : api_call) (s : Rtt.rtt_t H) :
  exists m, Rtt.api_step drv c s = Rtt._rtt_update_hw_alarm drv m.
Proof. destruct c; cbn [Rtt.api_step]; eexists; reflexivity. Qed.

(** After the selection, an alarm ahead of the counter is the event that
    is armed. *)
Lemma update_ahead (m : Rtt.rtt_t H) (cb : rtt_cb_t) :
  let s1 := Rtt._rtt_update_hw_alarm drv m in
  let c := Rtt.rtt_counter s1 in
  Rtt.alarm_cb c = Some cb ->
  Rtt.rtt_get_counter drv s1 < Rtt.alarm c ->
  Rtt.hw s1
  = set_alarm drv (u32 (Rtt.alarm c - Rtt._rtt_offset s1)) (Some RTT_ISR) NULL
      (Rtt.hw m) /\
  Rtt.alarm_active c = Rtt.alarm c /\
  Rtt.rtt_get_counter drv m = Rtt.rtt_get_counter drv s1 /\
  Rtt._rtt_offset m = Rtt._rtt_offset s1.
Proof.
  cbn zeta.
  destruct (update_keeps_interface drv m) as (Ea & Ec & _ & _ & _ & _ & Eo & _).
  rewrite Ea, Ec, Eo.
  rewrite (update_keeps_counter drv armed_for disarmed laws).
  intros Hcb Hlt.
  unfold Rtt._rtt_update_hw_alarm.
  rewrite Hcb, (proj2 (Z.ltb_lt _ _) Hlt). cbn [Rtt.is_set andb orb].
  repeat split.
Qed.

End UpdateOnTimeFacts.

Section UpdateOnTimeSysFacts.

Variable rtc_clk_to_us : Z -> Z -> Z.
Variable cb_body : rtt_cb_t -> Z -> list api_call.

Local Abbreviation drv := (Esp8266.sys_drv rtc_clk_to_us).
Local Abbreviation tick := (Esp8266.sys_tick rtc_clk_to_us cb_body).

Lemma sys_update_on_time (m : Rtt.rtt_t Sys.sys_t) (cb : rtt_cb_t) :
  let s1 := Rtt._rtt_update_hw_alarm drv m in
  let c := Rtt.rtt_get_counter drv s1 in
  let v := Rtt.alarm (Rtt.rtt_counter s1) in
  let d := Z.to_nat (v - c) in
  Rtt.alarm_cb (Rtt.rtt_counter s1) = Some cb ->
  0 <= v < 2 ^ 32 ->
  c < v ->
  (forall k, (k < d)%nat ->
     Rtt.invoked (Esp8266.run tick k s1) = Rtt.invoked s1) /\
  Rtt.invoked (Esp8266.run tick d s1)
  = Rtt.invoked s1 ++ [AlarmCb cb (Rtt.alarm_arg (Rtt.rtt_counter s1))].
Proof.
  cbn zeta. intros Hcb Hv Hc.
  destruct (update_ahead drv _ _ (sys_laws rtc_clk_to_us) m cb Hcb Hc)
    as (Hh & Hact & Hcm & Hom).
  set (s1 := Rtt._rtt_update_hw_alarm drv m) in *.
  set (c := Rtt.rtt_get_counter drv s1) in *.
  set (v := Rtt.alarm (Rtt.rtt_counter s1)) in *.
  assert (Hcr : 0 <= c < 2 ^ 32) by apply u32_range.
  assert (Hq : Sys.queued (Sys._sys_timer (Rtt.hw s1)) = Some (v - c)).
  { rewrite Hh.
    cbn [Esp8266.sys_drv Sys._rtt_hw_sys_driver set_alarm].
    unfold Sys._sys_set_alarm.
    cbn [Sys.with_timer Sys._sys_timer Sys.xtimer_set Sys.queued].
    f_equal. rewrite SYS_COUNT_TO_US_id by apply u32_range.
    unfold Sys._sys_get_counter.
    rewrite SYS_US_TO_COUNT_id by apply u32_range.
    rewrite <- Hom. unfold c in *. rewrite <- Hcm in *.
    rewrite sys_counter_reading in *.
    set (t := Sys.system_time (Rtt.hw m)) in *.
    set (o := Sys._sys_counter_offset (Rtt.hw m)) in *.
    set (r := Rtt._rtt_offset m) in *.
    rewrite u32_sub_l, u32_sub_r.
    replace (v - r - (t + o)) with (v - (t + o + r)) by lia.
    rewrite <- u32_sub_r.
    apply u32_small. lia. }
  assert (Hcall : Sys.callback (Sys._sys_timer (Rtt.hw s1)) = Some RTT_ISR)
    by (rewrite Hh; reflexivity).
  split.
  - intros k Hk.
    destruct (sys_run_waiting rtc_clk_to_us cb_body k s1 (v - c) Hq)
      as (_ & _ & Hi' & _); [lia|].
    exact Hi'.
  - destruct (Z.to_nat (v - c)) as [|d'] eqn:Ed; [lia|].
    rewrite run_succ.
    destruct (sys_run_waiting rtc_clk_to_us cb_body d' s1 (v - c) Hq)
      as (Hq' & _ & Hi' & Hr'); [lia|].
    pose proof (sys_run_waiting_handler rtc_clk_to_us cb_body d' s1
                  (v - c) Hq ltac:(lia)) as Hh'.
    rewrite (sys_tick_expires rtc_clk_to_us cb_body _ cb).
    + now rewrite Hr', Hi'.
    + rewrite Hq'. f_equal. lia.
    + now rewrite Hh'.
    + now rewrite Hr'.
    + rewrite Hr'. fold v. lia.
    + now rewrite Hr'.
Qed.

End UpdateOnTimeSysFacts.

Section UpdateOnTimeFrcFacts.

Variable rtc_clk_to_us : Z -> Z -> Z.
Variable cb_body : rtt_cb_t -> Z -> list api_call.

Local Abbreviation drv := (Esp8266.frc_drv rtc_clk_to_us).
Local Abbreviation tick := (Esp8266.frc_tick rtc_clk_to_us cb_body).

Lemma frc_update_on_time (m : Rtt.rtt_t Frc.frc_t) (cb : rtt_cb_t) :
  let s1 := Rtt._rtt_update_hw_alarm drv m in
  let v := Rtt.alarm (Rtt.rtt_counter s1) in
  let count := Frc.count (Frc.frc2 (Rtt.hw s1)) in
  let target :=
    Frc.FRC_US_TO_COUNTER (u32 (v - Rtt._rtt_offset s1)) mod Frc.FRC_OVERFLOW in
  let d := Z.to_nat (target - count) in
  Rtt.alarm_cb (Rtt.rtt_counter s1) = Some cb ->
  Frc.ctrl_enable (Frc.frc2 (Rtt.hw s1)) = true ->
  Frc.int_enable (Rtt.hw s1) = true ->
  0 <= count < target ->
  Rtt.rtt_get_counter drv s1 < v ->
  (forall k, (k < d)%nat ->
     Rtt.invoked (Esp8266.run tick k s1) = Rtt.invoked s1) /\
  Rtt.invoked (Esp8266.run tick d s1)
  = Rtt.invoked s1 ++ [AlarmCb cb (Rtt.alarm_arg (Rtt.rtt_counter s1))] /\
  ((forall f a, existsb sets_counter (cb_body f a) = false) ->
   exists e, 0 <= e <= 3 /\
     Rtt.rtt_get_counter drv (Esp8266.run tick d s1) = u32 (v - e)).
Proof.
  cbn zeta. intros Hcb Hen Hie [H0 Ht] Hc.
  destruct (update_ahead drv _ _ (frc_laws rtc_clk_to_us) m cb Hcb Hc)
    as (Hh & Hact & Hcm & Hom).
  set (s1 := Rtt._rtt_update_hw_alarm drv m) in *.
  set (v := Rtt.alarm (Rtt.rtt_counter s1)) in *.
  set (u := u32 (v - Rtt._rtt_offset s1)) in *.
  set (target := Frc.FRC_US_TO_COUNTER u mod Frc.FRC_OVERFLOW) in *.
  set (count := Frc.count (Frc.frc2 (Rtt.hw s1))) in *.
  pose proof FRC_OVERFLOW_pos as Hov.
  assert (Htr : 0 <= target < Frc.FRC_OVERFLOW)
    by (apply Z.mod_pos_bound; lia).
  pose proof (armed_set_alarm _ _ _ (frc_laws rtc_clk_to_us) u (Rtt.hw m))
    as Harm.
  rewrite <- Hh in Harm. unfold frc_armed_for in Harm. cbn zeta in Harm.
  fold target count in Harm.
  rewrite (proj2 (Z.ltb_lt _ _) Ht) in Harm.
  destruct Harm as (Hacb & _ & Haset & Haact & Hal).
  split; [| assert (Hrun : forall d', Z.of_nat d' < target - count ->
              Esp8266.run tick d' s1
              = Rtt.with_hw
                  (Frc.with_frc2 (Frc.write_count (count + Z.of_nat d'))) s1)].
  - intros k Hk.
    rewrite (frc_run_waiting rtc_clk_to_us cb_body k s1); [reflexivity | | |].
    + exact H0.
    + fold count. rewrite Hal. lia.
    + rewrite Hal. lia.
  - intros d' Hd'. rewrite frc_run_counting; fold count; rewrite ?Hal;
      try assumption; try lia. reflexivity.
  - destruct (Z.to_nat (target - count)) as [|d'] eqn:Ed; [lia|].
    rewrite run_succ, Hrun by lia.
    set (s' := Rtt.with_hw _ s1).
    destruct (frc_tick_expires rtc_clk_to_us cb_body s' cb) as [Hinv Hread];
      unfold s';
      cbn [Rtt.with_hw Rtt.hw Rtt.rtt_counter Frc.with_frc2 Frc.frc2
           Frc.write_count Frc.count Frc.alarm Frc.ctrl_enable
           Frc.int_enable Frc._frc_alarm];
      try assumption; try lia.
    + fold v. unfold Rtt.rtt_get_counter in Hc.
      pose proof (u32_range (get_counter drv (Rtt.hw s1) + Rtt._rtt_offset s1)).
      lia.
    + fold s'. split.
      * rewrite Hinv. reflexivity.
      * intros Hq. specialize (Hread Hq).
        destruct (frc_alarm_reading u (u32_range _)) as (e & He & Ee).
        fold target in Ee.
        exists e. split; [exact He|].
        rewrite Hread. unfold s'.
        cbn [Rtt.with_hw Rtt.hw Rtt._rtt_offset Frc.with_frc2 Frc.frc2
             Frc.write_count Frc.alarm].
        rewrite Hal, Ee. unfold u.
        set (o := Rtt._rtt_offset s1).
        replace (u32 (v - o) - e + o) with (u32 (v - o) + (o - e)) by lia.
        rewrite u32_add_l. f_equal. lia.
Qed.

(** After the selection, an alarm ahead of the counter that, in timer
    ticks, is not above the count is not armed. *)
Lemma frc_update_behind (m : Rtt.rtt_t Frc.frc_t) (cb : rtt_cb_t) :
  let s1 := Rtt._rtt_update_hw_alarm drv m in
  let v := Rtt.alarm (Rtt.rtt_counter s1) in
  let count := Frc.count (Frc.frc2 (Rtt.hw s1)) in
  let target :=
    Frc.FRC_US_TO_COUNTER (u32 (v - Rtt._rtt_offset s1)) mod Frc.FRC_OVERFLOW in
  Rtt.alarm_cb (Rtt.rtt_counter s1) = Some cb ->
  0 <= count ->
  target <= count ->
  Rtt.rtt_get_counter drv s1 < v ->
  Frc.alarm (Frc.frc2 (Rtt.hw s1)) = Frc.FRC_OVERFLOW /\
  (forall k, count + Z.of_nat k < Frc.FRC_OVERFLOW ->
     Rtt.invoked (Esp8266.run tick k s1) = Rtt.invoked s1).
Proof.
  cbn zeta. intros Hcb H0 Ht Hc.
  destruct (update_ahead drv _ _ (frc_laws rtc_clk_to_us) m cb Hcb Hc)
    as (Hh & _).
  destruct (frc_armed_behind rtc_clk_to_us cb_body _ _ _ Hh H0 Ht)
    as (Hal & _ & Hrun).
  split; [exact Hal | exact Hrun].
Qed.

End UpdateOnTimeFrcFacts.

(** X19.  A pending alarm after a call of the interface.  Whatever call
    of [rtt_set_alarm], [rtt_clear_alarm], [rtt_set_overflow_cb],
    [rtt_clear_overflow_cb] or [rtt_set_counter] was made last: if an
    alarm callback is registered then and the alarm is ahead of the
    counter, then on the system-time backend, for a 32-bit alarm, the
    callback is called, it alone and with its argument, in the tick that
    brings the counter to the alarm, and not before.  On the FRC2 backend
    the alarm is kept in timer ticks, rounded down, as the target
    [FRC_US_TO_COUNTER (alarm - _rtt_offset) mod FRC_OVERFLOW].  If the
    timer runs with its interrupt enabled and its count, not negative, is
    below the target, the callback is called in the tick at which the
    timer reaches the target, not before, and the counter reads the alarm
    less at most three then, if no callback sets the counter.  If the count is not
    below the target, as after setting the counter to less than a timer
    tick before the alarm, the call has delayed the alarm: the compare
    register is set to [FRC_OVERFLOW] and no callback is called before
    the timer has counted up to [FRC_OVERFLOW]. *)
Theorem pending_alarm_after_a_call (rtc_clk_to_us : Z -> Z -> Z)
    (cb_body : rtt_cb_t -> Z -> list api_call) (call : api_call)
    (cb : rtt_cb_t) :
  (forall s : Rtt.rtt_t Sys.sys_t,
      let drv := Esp8266.sys_drv rtc_clk_to_us in
      let tick := Esp8266.sys_tick rtc_clk_to_us cb_body in
      let s1 := Rtt.api_step drv call s in
      let c := Rtt.rtt_get_counter drv s1 in
      let v := Rtt.alarm (Rtt.rtt_counter s1) in
      let d := Z.to_nat (v - c) in
      Rtt.alarm_cb (Rtt.rtt_counter s1) = Some cb ->
      0 <= v < 2 ^ 32 ->
      c < v ->
      (forall k, (k < d)%nat ->
         Rtt.invoked (Esp8266.run tick k s1) = Rtt.invoked s) /\
      Rtt.invoked (Esp8266.run tick d s1)
      = Rtt.invoked s ++ [AlarmCb cb (Rtt.alarm_arg (Rtt.rtt_counter s1))]) /\
  (forall s : Rtt.rtt_t Frc.frc_t,
      let drv := Esp8266.frc_drv rtc_clk_to_us in
      let tick := Esp8266.frc_tick rtc_clk_to_us cb_body in
      let s1 := Rtt.api_step drv call s in
      let v := Rtt.alarm (Rtt.rtt_counter s1) in
      let count := Frc.count (Frc.frc2 (Rtt.hw s1)) in
      let target :=
        Frc.FRC_US_TO_COUNTER (u32 (v - Rtt._rtt_offset s1))
        mod Frc.FRC_OVERFLOW in
      let d := Z.to_nat (target - count) in
      Rtt.alarm_cb (Rtt.rtt_counter s1) = Some cb ->
      Frc.ctrl_enable (Frc.frc2 (Rtt.hw s1)) = true ->
      Frc.int_enable (Rtt.hw s1) = true ->
      0 <= count < target ->
      Rtt.rtt_get_counter drv s1 < v ->
      (forall k, (k < d)%nat ->
         Rtt.invoked (Esp8266.run tick k s1) = Rtt.invoked s) /\
      Rtt.invoked (Esp8266.run tick d s1)
      = Rtt.invoked s ++ [AlarmCb cb (Rtt.alarm_arg (Rtt.rtt_counter s1))] /\
      ((forall f a, existsb sets_counter (cb_body f a) = false) ->
       exists e, 0 <= e <= 3 /\
         Rtt.rtt_get_counter drv (Esp8266.run tick d s1) = u32 (v - e))) /\
  (forall s : Rtt.rtt_t Frc.frc_t,
      let drv := Esp8266.frc_drv rtc_clk_to_us in
      let tick := Esp8266.frc_tick rtc_clk_to_us cb_body in
      let s1 := Rtt.api_step drv call s in
      let v := Rtt.alarm (Rtt.rtt_counter s1) in
      let count := Frc.count (Frc.frc2 (Rtt.hw s1)) in
      let target :=
        Frc.FRC_US_TO_COUNTER (u32 (v - Rtt._rtt_offset s1))
        mod Frc.FRC_OVERFLOW in
      Rtt.alarm_cb (Rtt.rtt_counter s1) = Some cb ->
      0 <= count ->
      target <= count ->
      Rtt.rtt_get_counter drv s1 < v ->
      Frc.alarm (Frc.frc2 (Rtt.hw s1)) = Frc.FRC_OVERFLOW /\
      (forall k, count + Z.of_nat k < Frc.FRC_OVERFLOW ->
         Rtt.invoked (Esp8266.run tick k s1) = Rtt.invoked s)).
Proof.
  split; [| split].
  - intros s drv tick s1 c v d Hcb Hv Hc.
    pose proof (api_step_invoked drv call s) as Hi. fold s1 in Hi.
    destruct (api_step_is_update drv call s) as [m Em].
    unfold d, c, v, s1 in *. rewrite Em in *. rewrite <- Hi.
    exact (sys_update_on_time rtc_clk_to_us cb_body m cb Hcb Hv Hc).
  - intros s drv tick s1 v count target d Hcb En Ie Hcnt Hc.
    pose proof (api_step_invoked drv call s) as Hi. fold s1 in Hi.
    destruct (api_step_is_update drv call s) as [m Em].
    unfold d, target, count, v, s1 in *. rewrite Em in *. rewrite <- Hi.
    exact (frc_update_on_time rtc_clk_to_us cb_body m cb Hcb En Ie Hcnt Hc).
  - intros s drv tick s1 v count target Hcb H0 Ht Hc.
    pose proof (api_step_invoked drv call s) as Hi. fold s1 in Hi.
    destruct (api_step_is_update drv call s) as [m Em].
    unfold target, count, v, s1 in *. rewrite Em in *. rewrite <- Hi.
    exact (frc_update_behind rtc_clk_to_us cb_body m cb Hcb H0 Ht Hc).
Qed.

Lemma pending_alarm_after_a_call_witness :
  Rtt.invoked
    (Esp8266.run (Esp8266.sys_tick Sample.rtc_clk_to_us Sample.quiet) 1000
       (Rtt.rtt_set_counter Sample.sys_drv 1004000 Sample.sys_alarm_set))
  = [AlarmCb 1%nat 42] /\
  Rtt.invoked
    (Esp8266.run (Esp8266.frc_tick Sample.rtc_clk_to_us Sample.quiet) 312
       (Rtt.rtt_set_counter Sample.frc_drv 1004000 Sample.frc_alarm_set))
  = [AlarmCb 1%nat 42] /\
  Rtt.invoked
    (Esp8266.run (Esp8266.frc_tick Sample.rtc_clk_to_us Sample.quiet) 4000
       (Rtt.rtt_set_counter Sample.frc_drv 1004998 Sample.frc_alarm_set))
  = [].
Proof.
  destruct (pending_alarm_after_a_call Sample.rtc_clk_to_us Sample.quiet
              (Call_set_counter 1004000) 1%nat) as (Hs & Hf & _).
  destruct (pending_alarm_after_a_call Sample.rtc_clk_to_us Sample.quiet
              (Call_set_counter 1004998) 1%nat) as (_ & _ & Hb).
  split; [| split].
  - destruct (Hs Sample.sys_alarm_set) as (_ & Hat).
    + vm_compute. reflexivity.
    + vm_compute. intuition discriminate.
    + vm_compute. reflexivity.
    + exact Hat.
  - destruct (Hf Sample.frc_alarm_set) as (_ & Hat & _).
    + vm_compute. reflexivity.
    + vm_compute. reflexivity.
    + vm_compute. reflexivity.
    + vm_compute. intuition discriminate.
    + vm_compute. reflexivity.
    + match type of Hat with
      | ?a = ?b =>
          transitivity a; [vm_compute; reflexivity|];
          transitivity b; [exact Hat | vm_compute; reflexivity]
      end.
  - destruct (Hb Sample.frc_alarm_set) as (_ & Hrun).
    + vm_compute. reflexivity.
    + vm_compute. discriminate.
    + vm_compute. discriminate.
    + vm_compute. reflexivity.
    + pose proof (Hrun 4000%nat) as Hat.
      match type of Hat with
      | _ -> ?a = ?b =>
          transitivity a; [vm_compute; reflexivity|];
          transitivity b;
            [apply Hat; vm_compute; reflexivity | vm_compute; reflexivity]
      end.
Defined.

(** ** Configuring a pin *)

Section GpioInitFacts.

Variables RTC_GPIO_CONF_OUT_ENABLE RTC_GPIO_CFG3_PIN_PULLUP : Z.
Variable GPIO_CONF_OPEN_DRAIN : Z.
Variables IOMUX_PIN_OUTPUT_ENABLE IOMUX_PIN_OUTPUT_ENABLE_SLEEP : Z.
Variables IOMUX_PIN_PULLUP IOMUX_PIN_PULLUP_SLEEP : Z.
Variable IOMUX_FUNC : Z -> Z.

Local Abbreviation init_mode :=
  (Gpio.gpio_init_mode GPIO_CONF_OPEN_DRAIN IOMUX_PIN_OUTPUT_ENABLE
     IOMUX_PIN_OUTPUT_ENABLE_SLEEP IOMUX_PIN_PULLUP IOMUX_PIN_PULLUP_SLEEP).

(** The second [switch] fails for [GPIO_IN_PD] alone, and touches the
    configuration of its pin and the two enable registers only. *)
Lemma gpio_init_mode_frame (pin : nat) (mode : Gpio.Mode.gpio_mode_t)
    (conf : Z) (r : Gpio.gpio_regs_t) :
  match init_mode pin mode conf r with
  | None => mode = Gpio.Mode.GPIO_IN_PD
  | Some (_, r') =>
      mode <> Gpio.Mode.GPIO_IN_PD /\
      Gpio.out_regs r' = Gpio.out_regs r /\
      Gpio.RTC_GPIO_CFG3 r' = Gpio.RTC_GPIO_CFG3 r /\
      Gpio.RTC_GPIO_CONF r' = Gpio.RTC_GPIO_CONF r /\
      Gpio.RTC_GPIO_ENABLE r' = Gpio.RTC_GPIO_ENABLE r /\
      Gpio.IOMUX_PIN r' = Gpio.IOMUX_PIN r /\
      forall q, q <> pin ->
        nth q (Gpio.GPIO_CONF r') 0 = nth q (Gpio.GPIO_CONF r) 0
  end.
Proof.
  destruct mode; cbn; try reflexivity;
    (split; [discriminate|]); repeat (split; [reflexivity|]);
    intros q Hq; try reflexivity;
    now rewrite nth_set_nth_other by congruence.
Qed.

End GpioInitFacts.

(** X20.  The outcome of [gpio_init].  It returns 0 or -1, and 0 exactly
    when the pin exists, its usage leaves it free, and the mode is
    accepted for the pin: output and input without pull resistor for
    GPIO16, every mode but the pull-down for the other pins, a mode out of
    the enumeration included.  When it returns -1 for a pin other than
    GPIO16 it has written no register.  For GPIO16 with a mode that is
    not accepted it returns -1 after it has written [RTC.GPIO_CFG[3]] and
    [RTC.GPIO_CONF].  For a pin below 16 it leaves the RTC registers, the
    configuration of every other pin and every IOMUX register but the one
    of the pin as they are. *)
Theorem gpio_init_outcome
    (RTC_GPIO_CONF_OUT_ENABLE RTC_GPIO_CFG3_PIN_PULLUP GPIO_CONF_OPEN_DRAIN
     IOMUX_PIN_OUTPUT_ENABLE IOMUX_PIN_OUTPUT_ENABLE_SLEEP
     IOMUX_PIN_PULLUP IOMUX_PIN_PULLUP_SLEEP : Z) (IOMUX_FUNC : Z -> Z)
    (pin : nat) (mode : Gpio.Mode.gpio_mode_t)
    (usage : list Gpio.gpio_pin_usage_t) (r : Gpio.gpio_regs_t) :
  let res := Gpio.gpio_init RTC_GPIO_CONF_OUT_ENABLE RTC_GPIO_CFG3_PIN_PULLUP
               GPIO_CONF_OPEN_DRAIN IOMUX_PIN_OUTPUT_ENABLE
               IOMUX_PIN_OUTPUT_ENABLE_SLEEP IOMUX_PIN_PULLUP
               IOMUX_PIN_PULLUP_SLEEP IOMUX_FUNC pin mode usage r in
  let free := usable (nth pin usage Gpio._NOT_EXIST) in
  (fst res = 0 \/ fst res = -1) /\
  (fst res = 0 <->
   (pin < Gpio.GPIO_PIN_NUMOF)%nat /\ free = true /\
   mode_accepted pin mode = true) /\
  (fst res = -1 -> pin <> Gpio.GPIO16 -> snd res = r) /\
  (fst res = -1 -> pin = Gpio.GPIO16 -> free = true ->
   snd res
   = Gpio.with_rtc_conf
       (Z.land (Gpio.RTC_GPIO_CONF r) (u32 (Z.lnot RTC_GPIO_CONF_OUT_ENABLE)))
       (Gpio.with_cfg3
          (Z.lor (Z.land (Gpio.RTC_GPIO_CFG3 r) 0xffffffbc) (Gpio.BIT 0)) r)) /\
  ((pin < Gpio.GPIO16)%nat ->
   Gpio.out_regs (snd res) = Gpio.out_regs r /\
   Gpio.RTC_GPIO_CFG3 (snd res) = Gpio.RTC_GPIO_CFG3 r /\
   Gpio.RTC_GPIO_CONF (snd res) = Gpio.RTC_GPIO_CONF r /\
   Gpio.RTC_GPIO_ENABLE (snd res) = Gpio.RTC_GPIO_ENABLE r /\
   (forall q, q <> pin ->
      nth q (Gpio.GPIO_CONF (snd res)) 0 = nth q (Gpio.GPIO_CONF r) 0) /\
   (forall k, k <> nth pin Gpio._gpio_to_iomux 0%nat ->
      nth k (Gpio.IOMUX_PIN (snd res)) 0 = nth k (Gpio.IOMUX_PIN r) 0)).
Proof.
  cbn zeta. unfold Gpio.gpio_init.
  destruct (Nat.ltb_spec pin Gpio.GPIO_PIN_NUMOF) as [Hp|Hp]; cbn [negb].
  2:{ cbn [fst snd]. split; [now right|]. split; [split; [discriminate | lia]|].
      split; [reflexivity|].
      split; [unfold Gpio.GPIO16, Gpio.GPIO_PIN_NUMOF in *; lia|].
      unfold Gpio.GPIO16, Gpio.GPIO_PIN_NUMOF in *. lia. }
  destruct (nth pin usage Gpio._NOT_EXIST) eqn:Eu; cbn [usable fst snd];
    try (split; [now right|];
         split; [split; [discriminate | intros (_ & Hf & _); discriminate]|];
         split; [reflexivity|]; split; [discriminate|];
         intros _; repeat split; reflexivity).
  - (* _GPIO *)
    unfold mode_accepted.
    destruct (Nat.eqb_spec pin Gpio.GPIO16) as [E16|N16].
    + unfold Gpio.gpio_init_16.
      destruct mode; cbn [fst snd];
        (split; [(now left) || (now right)|]);
        (split; [split; [(intros _; repeat split; assumption) || discriminate
                        | (reflexivity || (intros (_ & _ & Hf); discriminate))]|]);
        (split; [intros _ Hn; congruence|]);
        (split; [(discriminate || reflexivity)|]);
        intros Hlt; unfold Gpio.GPIO16 in *; lia.
    + pose proof (gpio_init_mode_frame GPIO_CONF_OPEN_DRAIN
                    IOMUX_PIN_OUTPUT_ENABLE IOMUX_PIN_OUTPUT_ENABLE_SLEEP
                    IOMUX_PIN_PULLUP IOMUX_PIN_PULLUP_SLEEP pin mode
                    (if (11 <? nth pin Gpio._gpio_to_iomux 0)%nat
                     then IOMUX_FUNC 0 else IOMUX_FUNC 3) r) as Hm.
      destruct (Gpio.gpio_init_mode _ _ _ _ _ pin mode _ r) as [[conf r']|].
      * destruct Hm as (Hmode & Ho & H3 & Hc & He & Hi & Hq).
        cbn [fst snd]. split; [now left|].
        split; [split; [intros _; repeat split; try assumption;
                        now destruct mode | reflexivity]|].
        split; [discriminate|]. split; [discriminate|].
        intros _. cbn [Gpio.with_iomux Gpio.out_regs Gpio.RTC_GPIO_CFG3
                       Gpio.RTC_GPIO_CONF Gpio.RTC_GPIO_ENABLE Gpio.GPIO_CONF
                       Gpio.IOMUX_PIN].
        repeat (split; [assumption|]).
        intros k Hk. rewrite nth_set_nth_other by congruence. now rewrite Hi.
      * cbn [fst snd]. subst mode. split; [now right|].
        split; [split; [discriminate | intros (_ & _ & Hf); discriminate]|].
        split; [reflexivity|]. split; [congruence|].
        intros _. repeat split; reflexivity.
  - (* _NOT_EXIST *)
    unfold mode_accepted.
    destruct (Nat.eqb_spec pin Gpio.GPIO16) as [E16|N16].
    + unfold Gpio.gpio_init_16.
      destruct mode; cbn [fst snd];
        (split; [(now left) || (now right)|]);
        (split; [split; [(intros _; repeat split; assumption) || discriminate
                        | (reflexivity || (intros (_ & _ & Hf); discriminate))]|]);
        (split; [intros _ Hn; congruence|]);
        (split; [(discriminate || reflexivity)|]);
        intros Hlt; unfold Gpio.GPIO16 in *; lia.
    + pose proof (gpio_init_mode_frame GPIO_CONF_OPEN_DRAIN
                    IOMUX_PIN_OUTPUT_ENABLE IOMUX_PIN_OUTPUT_ENABLE_SLEEP
                    IOMUX_PIN_PULLUP IOMUX_PIN_PULLUP_SLEEP pin mode
                    (if (11 <? nth pin Gpio._gpio_to_iomux 0)%nat
                     then IOMUX_FUNC 0 else IOMUX_FUNC 3) r) as Hm.
      destruct (Gpio.gpio_init_mode _ _ _ _ _ pin mode _ r) as [[conf r']|].
      * destruct Hm as (Hmode & Ho & H3 & Hc & He & Hi & Hq).
        cbn [fst snd]. split; [now left|].
        split; [split; [intros _; repeat split; try assumption;
                        now destruct mode | reflexivity]|].
        split; [discriminate|]. split; [discriminate|].
        intros _. cbn [Gpio.with_iomux Gpio.out_regs Gpio.RTC_GPIO_CFG3
                       Gpio.RTC_GPIO_CONF Gpio.RTC_GPIO_ENABLE Gpio.GPIO_CONF
                       Gpio.IOMUX_PIN].
        repeat (split; [assumption|]).
        intros k Hk. rewrite nth_set_nth_other by congruence. now rewrite Hi.
      * cbn [fst snd]. subst mode. split; [now right|].
        split; [split; [discriminate | intros (_ & _ & Hf); discriminate]|].
        split; [reflexivity|]. split; [congruence|].
        intros _. repeat split; reflexivity.
Qed.

Lemma gpio_init_outcome_witness :
  Gpio.gpio_init 1 2 4 1 2 128 8 (fun f => f * 16) 1 Gpio.Mode.GPIO_OUT
    Gpio._gpio_pin_usage gpio_regs_reset
  = (-1, gpio_regs_reset) /\
  fst (Gpio.gpio_init 1 2 4 1 2 128 8 (fun f => f * 16) 16 Gpio.Mode.GPIO_OD
         Gpio._gpio_pin_usage gpio_regs_reset) = -1 /\
  Gpio.RTC_GPIO_CFG3
    (snd (Gpio.gpio_init 1 2 4 1 2 128 8 (fun f => f * 16) 16
            Gpio.Mode.GPIO_OD Gpio._gpio_pin_usage gpio_regs_reset))
  = 1.
Proof.
  pose proof (gpio_init_outcome 1 2 4 1 2 128 8 (fun f => f * 16) 1
                Gpio.Mode.GPIO_OUT Gpio._gpio_pin_usage gpio_regs_reset)
    as (Hr & Hz & Hsame & _).
  pose proof (gpio_init_outcome 1 2 4 1 2 128 8 (fun f => f * 16) 16
                Gpio.Mode.GPIO_OD Gpio._gpio_pin_usage gpio_regs_reset)
    as (Hr' & Hz' & _ & Hwritten & _).
  cbv zeta in *.
  assert (E1 : fst (Gpio.gpio_init 1 2 4 1 2 128 8 (fun f => f * 16) 1
                      Gpio.Mode.GPIO_OUT Gpio._gpio_pin_usage gpio_regs_reset)
               = -1).
  { destruct Hr as [H0|H1]; [| exact H1].
    apply Hz in H0. destruct H0 as (_ & Hf & _). discriminate. }
  assert (E2 : fst (Gpio.gpio_init 1 2 4 1 2 128 8 (fun f => f * 16) 16
                      Gpio.Mode.GPIO_OD Gpio._gpio_pin_usage gpio_regs_reset)
               = -1).
  { destruct Hr' as [H0|H1]; [| exact H1].
    apply Hz' in H0. destruct H0 as (_ & _ & Hf). discriminate. }
  split; [| split].
  - rewrite (surjective_pairing (Gpio.gpio_init _ _ _ _ _ _ _ _ _ _ _ _)).
    rewrite E1, (Hsame E1); [reflexivity|].
    unfold Gpio.GPIO16. lia.
  - exact E2.
  - rewrite (Hwritten E2); reflexivity.
Defined.

(** ** Nothing registered, nothing called *)

Section UnregisteredFacts.

Context {H : Type}.
Variable drv : rtt_hw_driver_t H.
Variable cb_body : rtt_cb_t -> Z -> list api_call.

Lemma update_unregistered (s : Rtt.rtt_t H) :
  unregistered s ->
  unregistered (Rtt._rtt_update_hw_alarm drv s) /\
  Rtt.invoked (Rtt._rtt_update_hw_alarm drv s) = Rtt.invoked s.
Proof.
  intros [Ha Ho]. unfold unregistered.
  destruct (update_keeps_interface drv s)
    as (_ & -> & _ & -> & _ & _ & _ & -> & _).
  repeat split; assumption.
Qed.

(** A dispatch that finds no callback calls nothing and registers
    nothing. *)
Lemma isr_unregistered (s : Rtt.rtt_t H) :
  unregistered s ->
  unregistered (Rtt._rtt_isr drv cb_body s) /\
  Rtt.invoked (Rtt._rtt_isr drv cb_body s) = Rtt.invoked s.
Proof.
  intros [Ha Ho].
  rewrite (isr_not_due drv cb_body s) by (right; exact Ha).
  destruct (wakeup_reset_fields s) as (_ & Ea & _ & Eo & _ & _ & Ei & _).
  assert (Hw : unregistered (wakeup_reset s))
    by (split; [now rewrite Ea | now rewrite Eo]).
  unfold Rtt.isr_overflow_path.
  destruct (_ =? 0); [| now split; [exact Hw | exact Ei]].
  destruct (update_unregistered (wakeup_reset s) Hw) as [[Hua Huo] Hui].
  rewrite Huo. split; [now split|]. now rewrite Hui.
Qed.

Lemma run_events_unregistered (es : list event) (s : Rtt.rtt_t H) :
  unregistered s ->
  unregistered (run_events drv cb_body es s) /\
  Rtt.invoked (run_events drv cb_body es s) = Rtt.invoked s.
Proof.
  revert s. induction es as [|e es IH]; intros s Hs; [now split|].
  cbn [run_events fold_left].
  change (fold_left _ es ?x) with (run_events drv cb_body es x).
  destruct e as [|f]; cbn [step_event].
  - destruct (isr_unregistered s Hs) as [Hu Hi].
    destruct (IH _ Hu) as [Hu' Hi']. split; [exact Hu'|]. now rewrite Hi'.
  - apply (IH (Rtt.with_hw f s)). exact Hs.
Qed.

(** [rtt_init] leaves nothing registered, and calls nothing. *)
Lemma rtt_init_unregistered (s : Rtt.rtt_t H) :
  unregistered (Rtt.rtt_init drv s) /\
  Rtt.invoked (Rtt.rtt_init drv s) = Rtt.invoked s.
Proof.
  unfold Rtt.rtt_init.
  set (s2 := Rtt.rtt_restore_counter drv true (Rtt.with_hw (init drv) s)).
  set (s3 := Rtt.rtt_clear_alarm drv s2).
  assert (H3 : Rtt.alarm_cb (Rtt.rtt_counter s3) = None /\
               Rtt.invoked s3 = Rtt.invoked s).
  { unfold s3, Rtt.rtt_clear_alarm.
    destruct (update_keeps_interface drv
                (Rtt.with_rtt_counter (Rtt.put_alarm 0 None NULL) s2))
      as (_ & Ec & _ & _ & _ & _ & _ & Ei & _).
    split; [exact Ec | exact Ei]. }
  destruct H3 as [Ha Hi].
  destruct (update_unregistered
              (Rtt.with_rtt_counter (Rtt.put_overflow None NULL) s3))
    as [Hu Hi']; [split; [exact Ha | reflexivity]|].
  unfold Rtt.rtt_poweron. split; [exact Hu|].
  cbn [Rtt.with_hw Rtt.invoked]. unfold Rtt.rtt_clear_overflow_cb.
  rewrite Hi'. exact Hi.
Qed.

End UnregisteredFacts.

(** X21.  Nothing registered, nothing called.  In a state in which
    neither callback is registered, no dispatch of the interrupt and no
    change of the hardware calls or registers anything, whatever their
    number and order; [rtt_init] leaves such a state, so that after it, on
    either backend and however many ticks pass, no callback is called:
    what was registered before a restart has to be registered again. *)
Theorem nothing_registered_nothing_called (rtc_clk_to_us : Z -> Z -> Z)
    (cb_body : rtt_cb_t -> Z -> list api_call) (n : nat) :
  (forall (H : Type) (drv : rtt_hw_driver_t H) (es : list event)
          (s : Rtt.rtt_t H),
      unregistered s ->
      unregistered (run_events drv cb_body es s) /\
      Rtt.invoked (run_events drv cb_body es s) = Rtt.invoked s) /\
  (forall s : Rtt.rtt_t Sys.sys_t,
      let drv := Esp8266.sys_drv rtc_clk_to_us in
      let s' := Esp8266.run (Esp8266.sys_tick rtc_clk_to_us cb_body) n
                  (Rtt.rtt_init drv s) in
      unregistered s' /\ Rtt.invoked s' = Rtt.invoked s) /\
  (forall s : Rtt.rtt_t Frc.frc_t,
      let drv := Esp8266.frc_drv rtc_clk_to_us in
      let s' := Esp8266.run (Esp8266.frc_tick rtc_clk_to_us cb_body) n
                  (Rtt.rtt_init drv s) in
      unregistered s' /\ Rtt.invoked s' = Rtt.invoked s).
Proof.
  split; [| split].
  - intros H drv es s Hs. now apply run_events_unregistered.
  - intros s drv s'.
    destruct (rtt_init_unregistered drv s) as [Hu Hi].
    destruct (run_tick_events cb_body drv
                (Esp8266.sys_tick rtc_clk_to_us cb_body)
                (sys_tick_events rtc_clk_to_us cb_body) n
                (Rtt.rtt_init drv s)) as [es Ees].
    unfold s'. rewrite Ees.
    destruct (run_events_unregistered drv cb_body es _ Hu) as [Hu' Hi'].
    split; [exact Hu'|]. now rewrite Hi'.
  - intros s drv s'.
    destruct (rtt_init_unregistered drv s) as [Hu Hi].
    destruct (run_tick_events cb_body drv
                (Esp8266.frc_tick rtc_clk_to_us cb_body)
                (frc_tick_events rtc_clk_to_us cb_body) n
                (Rtt.rtt_init drv s)) as [es Ees].
    unfold s'. rewrite Ees.
    destruct (run_events_unregistered drv cb_body es _ Hu) as [Hu' Hi'].
    split; [exact Hu'|]. now rewrite Hi'.
Qed.

Lemma nothing_registered_nothing_called_witness :
  Rtt.invoked
    (run_events Sample.sys_drv Sample.rearming
       [Ev_interrupt; Ev_hw (Sys.with_system_time 77); Ev_interrupt]
       Sample.sys_at_1000000)
  = Rtt.invoked Sample.sys_at_1000000.
Proof.
  destruct (nothing_registered_nothing_called Sample.rtc_clk_to_us
              Sample.rearming 0) as (He & _).
  apply He. split; reflexivity.
Defined.
